(** * Temporal classification engine of the Meraki client detective

    A shallow embedding of the classification core of [src/app.py]:
    the hour classifiers, the loitering and extended-session detectors,
    the out-of-hours pattern analysis and the event deduplication of
    [run_analysis], followed by the properties the specification states
    about them.

    Conventions of the embedding.
    - A Python [str] is a [string], one [ascii] per character.
    - A Python exception is a value [Raise e] of the [result] type; code
      that cannot raise has a plain result type.
    - A [dict] with a fixed set of keys is a record; a [dict] used as a map
      whose iteration order is observable is an association list in
      insertion order; a [set] is a [gset].
    - Python objects that are mutated after being stored in a list live in
      an explicit heap and are stored by reference.
    - [float] values are binary64 values, written [fm * 2 ^ fe], and the
      arithmetic on them is correctly rounded (round to nearest, ties to
      even). *)

From Stdlib Require Import ZArith String Ascii Sorting.Sorted.
From stdpp Require Import base gmap sets list strings pretty.

(** ** Exceptions *)

Inductive exn := ValueError | TypeError | OverflowError | IndexError.

Inductive result (A : Type) : Type :=
  | Ok (a : A)
  | Raise (e : exn).
Arguments Ok {A} a.
Arguments Raise {A} e.

#[global] Instance result_ret : MRet result := fun A a => Ok a.
#[global] Instance result_bind : MBind result := fun A B f m =>
  match m with
  | Ok a => f a
  | Raise e => Raise e
  end.

(** [try: body / except: handler] with a bare [except]: every exception of
    the body is caught. *)
Definition try_except {A} (body handler : result A) : result A :=
  match body with
  | Ok a => Ok a
  | Raise _ => handler
  end.

(** A list comprehension [[x for x in l if p(x)]] whose test may raise. *)
Fixpoint filterM {A} (p : A → result bool) (l : list A) : result (list A) :=
  match l with
  | [] => Ok []
  | x :: l' =>
      b ← p x;
      r ← filterM p l';
      Ok (if b : bool then x :: r else r)
  end.

(** A [for] loop threading a state through a body that may raise. *)
Fixpoint foldM {A S} (f : S → A → result S) (s : S) (l : list A) : result S :=
  match l with
  | [] => Ok s
  | x :: l' => s' ← f s x; foldM f s' l'
  end.

(** ** Strings *)


(** [s.replace('Z', '+00:00')] *)
Fixpoint replace_Z (s : string) : string :=
  match s with
  | EmptyString => EmptyString
  | String c s' =>
      if Ascii.eqb c "Z"%char then "+00:00" +:+ replace_Z s'
      else String c (replace_Z s')
  end.

(** [s[:10]] *)
Definition date_part (s : string) : string := substring 0 10 s.

(** Truth value of a string: [''] (and [None], which the code never tells
    apart from it) is false. *)
Definition truthy (s : string) : bool := negb (String.eqb s "").

(** [f"{n:02d}"] *)
Definition fmt_02d (n : Z) : string :=
  if ((0 <=? n) && (n <? 10))%Z then "0" +:+ pretty n else pretty n.

(** [f"{n:04d}"], for the year of [strftime('%Y')]. *)
Definition fmt_04d (n : Z) : string :=
  if (n <? 0)%Z then pretty n
  else if (n <? 10)%Z then "000" +:+ pretty n
  else if (n <? 100)%Z then "00" +:+ pretty n
  else if (n <? 1000)%Z then "0" +:+ pretty n
  else pretty n.

(** ** [datetime] *)

Local Open Scope Z_scope.

(** A [datetime] value; [tzinfo] is [None] for a naive value and the UTC
    offset in microseconds for an aware one. *)
Record datetime := {
  year : Z;
  month : Z;
  day : Z;
  hour : Z;
  minute : Z;
  second : Z;
  microsecond : Z;
  tzinfo : option Z
}.

Definition is_leap (y : Z) : bool :=
  (y mod 4 =? 0) && (negb (y mod 100 =? 0) || (y mod 400 =? 0)).

Definition days_before_year (y : Z) : Z :=
  let p := y - 1 in p * 365 + p / 4 - p / 100 + p / 400.

Definition days_in_month (y m : Z) : Z :=
  if m =? 2 then (if is_leap y then 29 else 28)
  else if (m =? 4) || (m =? 6) || (m =? 9) || (m =? 11) then 30
  else 31.

Definition days_before_month (y m : Z) : Z :=
  nth (Z.to_nat m) [0; 0; 31; 59; 90; 120; 151; 181; 212; 243; 273; 304; 334] 0
  + (if (2 <? m) && is_leap y then 1 else 0).

(** [date.toordinal()] *)
Definition toordinal (dt : datetime) : Z :=
  days_before_year (year dt) + days_before_month (year dt) (month dt) + day dt.

(** Microseconds since the start of the proleptic calendar, ignoring the
    offset. *)
Definition wall_us (dt : datetime) : Z :=
  (((toordinal dt * 24 + hour dt) * 60 + minute dt) * 60 + second dt) * 1000000
  + microsecond dt.

(** [a - b] on two [datetime] values: the [timedelta], in microseconds.
    Mixing a naive and an aware value raises [TypeError]. *)
Definition datetime_sub (a b : datetime) : result Z :=
  match tzinfo a, tzinfo b with
  | None, None => Ok (wall_us a - wall_us b)
  | Some oa, Some ob => Ok ((wall_us a - oa) - (wall_us b - ob))
  | _, _ => Raise TypeError
  end.

(** [dt + timedelta(days=1)]; past 9999-12-31 it raises [OverflowError]. *)
Definition add_one_day (dt : datetime) : result datetime :=
  let '(y, m, d) :=
    if day dt <? days_in_month (year dt) (month dt)
    then (year dt, month dt, day dt + 1)
    else if month dt <? 12 then (year dt, month dt + 1, 1)
    else (year dt + 1, 1, 1) in
  if 9999 <? y then Raise OverflowError
  else Ok {| year := y; month := m; day := d; hour := hour dt;
             minute := minute dt; second := second dt;
             microsecond := microsecond dt; tzinfo := tzinfo dt |}.

(** [strftime('%Y')] belongs to the C library of the platform, and the
    libraries differ on the years before 1000: glibc prints the year as it
    is, [500] for the year 500, others pad it with zeros to four digits.
    The functions take the directive as a parameter; from the year 1000 on
    every library prints the four digits of the year. *)
Class Strftime := {
  strftime_Y : Z → string;
  strftime_Y_four_digits : ∀ y, 1000 ≤ y ≤ 9999 → strftime_Y y = pretty y
}.

(** [dt.strftime('%Y-%m-%d')] *)
Definition strftime_ymd `{!Strftime} (dt : datetime) : string :=
  strftime_Y (year dt) +:+ "-" +:+ fmt_02d (month dt) +:+ "-" +:+ fmt_02d (day dt).

(** [date.isoformat()]: the year has four digits on every platform. *)
Definition isoformat_date (dt : datetime) : string :=
  fmt_04d (year dt) +:+ "-" +:+ fmt_02d (month dt) +:+ "-" +:+ fmt_02d (day dt).

(** ** Binary64 arithmetic *)

Record float := { fm : Z; fe : Z }.

(** Nearest integer to [num / den], ties to even ([0 <= num], [0 < den]). *)
Definition rne (num den : Z) : Z :=
  let q := num / den in
  let r := num mod den in
  if 2 * r <? den then q
  else if den <? 2 * r then q + 1
  else if Z.even q then q else q + 1.

(** [a / (d * 2^e)] as a fraction of integers. *)
Definition scale_num (a e : Z) : Z := a * 2 ^ Z.max 0 (- e).
Definition scale_den (d e : Z) : Z := d * 2 ^ Z.max 0 e.

(** The binary64 value nearest to [a / d], for [0 < a] and [0 < d]: the
    exponent [e] puts [a / (d * 2^e)] in [[2^52, 2^53)], and the significand
    is that quotient rounded to an integer. *)
Definition round_pos (a d : Z) : float :=
  let e0 := Z.log2 a - Z.log2 d - 53 in
  let e := if 2 ^ 52 * scale_den d (e0 + 1) <=? scale_num a (e0 + 1)
           then e0 + 1 else e0 in
  {| fm := rne (scale_num a e) (scale_den d e); fe := e |}.

(** The binary64 value nearest to [n / d], for [0 < d]. *)
Definition round_div (n d : Z) : float :=
  if n =? 0 then {| fm := 0; fe := 0 |}
  else if 0 <? n then round_pos n d
  else let r := round_pos (- n) d in {| fm := - fm r; fe := fe r |}.

(** [x / k] for a float [x] and a positive integer [k] that a float holds
    exactly. *)
Definition float_div_int (x : float) (k : Z) : float :=
  round_div (scale_num (fm x) (- fe x)) (scale_den k (- fe x)).

(** [n < x] for an integer [n]. *)
Definition float_gt_int (x : float) (n : Z) : bool :=
  scale_num n (fe x) <? scale_den (fm x) (fe x).

(** The decimal [t / 10] read as a float: the literal [10.5] is
    [float_of_tenths 105]. *)
Definition float_of_tenths (t : Z) : float := round_div t 10.

(** The number of tenths nearest to [x], ties to even on the exact binary
    value: the digits that both [round(x, 1)] and [f"{x:.1f}"] produce. *)
Definition tenths (x : float) : Z :=
  let num := scale_den (Z.abs (fm x) * 10) (fe x) in
  let den := scale_num 1 (fe x) in
  if fm x <? 0 then - rne num den else rne num den.

(** [round(x, 1)] *)
Definition round1 (x : float) : float := float_of_tenths (tenths x).

(** [f"{x:.1f}"] *)
Definition fmt_1f (x : float) : string :=
  let t := Z.abs (tenths x) in
  (if fm x <? 0 then "-" else "") +:+ pretty (t / 10) +:+ "." +:+ pretty (t mod 10).

(** [timedelta.total_seconds()] of a [timedelta] of [us] microseconds. *)
Definition total_seconds (us : Z) : float := round_div us 1000000.

(** ** Records of the analysis *)


(** One connection event, as [run_analysis] builds it and as a CSV row
    holds it. A missing [client_mac] is the empty string. *)
Module Conn.
Record t := {
  organization : string;
  network : string;
  timestamp : string;
  event_type : string;
  client_mac : string;
  client_description : string;
  device_serial : string;
  ssid : string;
  description : string
}.
End Conn.

Inductive risk :=
  | TARGET_DATE
  | LOITERING_SUSPICIOUS
  | ANOMALOUS_SUSPICIOUS
  | BASELINE_REGULAR
  | BASELINE_ONLY.

#[global] Instance risk_eq_dec : EqDecision risk.
Proof. solve_decision. Defined.

(** The per-device aggregate of [analyze_out_of_hours_patterns]
    ([device_patterns[mac]]). *)
Module Pattern.
Record t := {
  description : string;
  networks : gset string;
  ssids : gset string;
  target_date_connections : list Conn.t;
  baseline_connections : list Conn.t;
  all_dates : gset string
}.
End Pattern.

(** A device record of the output buckets ([device_info], and the records
    of the loitering detector, which have the same keys). A key that the
    dictionary does not have is [None]. *)
Module Info.
Record t := {
  mac : string;
  description : string;
  target_date_connections : nat;
  baseline_connections : nat;
  days_seen_out_of_hours : nat;
  networks : list string;
  ssids : list string;
  first_target_connection : option string;
  last_target_connection : option string;
  risk_explanation : string;
  risk_level : option risk;
  duration_hours : option float;
  arrived_hour : option Z;
  departed_hour : option Z
}.

(** [d['risk_level'] = lvl] *)
Definition set_risk_level (lvl : risk) (d : t) : t :=
  {| mac := mac d; description := description d;
     target_date_connections := target_date_connections d;
     baseline_connections := baseline_connections d;
     days_seen_out_of_hours := days_seen_out_of_hours d;
     networks := networks d; ssids := ssids d;
     first_target_connection := first_target_connection d;
     last_target_connection := last_target_connection d;
     risk_explanation := risk_explanation d;
     risk_level := Some lvl;
     duration_hours := duration_hours d;
     arrived_hour := arrived_hour d;
     departed_hour := departed_hour d |}.

(** [d['risk_explanation'] = s] *)
Definition set_risk_explanation (s : string) (d : t) : t :=
  {| mac := mac d; description := description d;
     target_date_connections := target_date_connections d;
     baseline_connections := baseline_connections d;
     days_seen_out_of_hours := days_seen_out_of_hours d;
     networks := networks d; ssids := ssids d;
     first_target_connection := first_target_connection d;
     last_target_connection := last_target_connection d;
     risk_explanation := s;
     risk_level := risk_level d;
     duration_hours := duration_hours d;
     arrived_hour := arrived_hour d;
     departed_hour := departed_hour d |}.

(** The three assignments that copy the detector's measurements from the
    loitering record [ld]. *)
Definition set_loitering_fields (ld d : t) : t :=
  {| mac := mac d; description := description d;
     target_date_connections := target_date_connections d;
     baseline_connections := baseline_connections d;
     days_seen_out_of_hours := days_seen_out_of_hours d;
     networks := networks d; ssids := ssids d;
     first_target_connection := first_target_connection d;
     last_target_connection := last_target_connection d;
     risk_explanation := risk_explanation d;
     risk_level := risk_level d;
     duration_hours := duration_hours ld;
     arrived_hour := arrived_hour ld;
     departed_hour := departed_hour ld |}.
End Info.

(** A record of the extended-session report. *)
Module Ext.
Record t := {
  mac : string;
  description : string;
  first_connection : string;
  last_connection : string;
  duration_hours : float;
  total_connections : nat;
  connected_hour : Z;
  last_seen_hour : Z;
  business_hours_start : bool;
  after_hours_activity : bool;
  risk_explanation : string
}.
End Ext.

(** ** Dictionaries and lists *)

(** [if k not in d: d[k] = dflt] followed by an in-place change [f] of
    [d[k]]; a new key goes to the end, as in a Python [dict]. *)
Fixpoint setdefault_alter {V} (k : string) (dflt : V) (f : V → V)
    (d : list (string * V)) : list (string * V) :=
  match d with
  | [] => [(k, f dflt)]
  | (k', v) :: d' =>
      if decide (k' = k) then (k', f v) :: d'
      else (k', v) :: setdefault_alter k dflt f d'
  end.

(** [d[k]] as an option. *)
Fixpoint dict_lookup {V} (k : string) (d : list (string * V)) : option V :=
  match d with
  | [] => None
  | (k', v) :: d' => if decide (k' = k) then Some v else dict_lookup k d'
  end.

(** [d.get(k, dflt)] *)
Definition dict_get {V} (k : string) (dflt : V) (d : list (string * V)) : V :=
  default dflt (dict_lookup k d).

(** [l[0]] and [l[-1]] *)
Definition first_item {A} (l : list A) : result A :=
  match l with
  | [] => Raise IndexError
  | x :: _ => Ok x
  end.

Definition last_item {A} (l : list A) : result A :=
  match last l with
  | None => Raise IndexError
  | Some x => Ok x
  end.

(** [l.sort(key=lambda x: x['timestamp'])]: the stable sort by the
    timestamp strings. *)
Fixpoint insert_by_timestamp (c : Conn.t) (l : list Conn.t) : list Conn.t :=
  match l with
  | [] => [c]
  | x :: l' =>
      if String.leb (Conn.timestamp c) (Conn.timestamp x) then c :: l
      else x :: insert_by_timestamp c l'
  end.

Definition sort_by_timestamp (l : list Conn.t) : list Conn.t :=
  foldr insert_by_timestamp [] l.

(** [max(...)] and [min(...)] over strings, for a non-empty sequence
    [s :: l]. *)
Definition str_max (s : string) (l : list string) : string :=
  foldl (λ m x, if String.ltb m x then x else m) s l.

Definition str_min (s : string) (l : list string) : string :=
  foldl (λ m x, if String.ltb x m then x else m) s l.

(** ** The classification heap

    The four classification buckets hold references to [device_info]
    dictionaries that the loop goes on mutating after it has stored them;
    [heap] holds the dictionaries and a bucket holds indices into it. *)

Record analysis := {
  target_date_devices : list nat;
  baseline_regular_devices : list nat;
  anomalous_devices : list nat;
  baseline_only_devices : list nat;
  loitering_devices : list nat
}.

Record state := {
  heap : list Info.t;
  buckets : analysis
}.

(** A new dictionary; its reference is the length of the heap before. *)
Definition alloc (d : Info.t) (st : state) : state :=
  {| heap := heap st ++ [d]; buckets := buckets st |}.

(** An in-place update of the dictionary behind [r]. *)
Definition update (r : nat) (f : Info.t → Info.t) (st : state) : state :=
  {| heap := alter f r (heap st); buckets := buckets st |}.

(** [analysis['target_date_devices'].append(r)] and its siblings. *)
Definition append_target_date (r : nat) (st : state) : state :=
  let b := buckets st in
  {| heap := heap st;
     buckets := {| target_date_devices := target_date_devices b ++ [r];
                   baseline_regular_devices := baseline_regular_devices b;
                   anomalous_devices := anomalous_devices b;
                   baseline_only_devices := baseline_only_devices b;
                   loitering_devices := loitering_devices b |} |}.

Definition append_baseline_regular (r : nat) (st : state) : state :=
  let b := buckets st in
  {| heap := heap st;
     buckets := {| target_date_devices := target_date_devices b;
                   baseline_regular_devices := baseline_regular_devices b ++ [r];
                   anomalous_devices := anomalous_devices b;
                   baseline_only_devices := baseline_only_devices b;
                   loitering_devices := loitering_devices b |} |}.

Definition append_anomalous (r : nat) (st : state) : state :=
  let b := buckets st in
  {| heap := heap st;
     buckets := {| target_date_devices := target_date_devices b;
                   baseline_regular_devices := baseline_regular_devices b;
                   anomalous_devices := anomalous_devices b ++ [r];
                   baseline_only_devices := baseline_only_devices b;
                   loitering_devices := loitering_devices b |} |}.

Definition append_baseline_only (r : nat) (st : state) : state :=
  let b := buckets st in
  {| heap := heap st;
     buckets := {| target_date_devices := target_date_devices b;
                   baseline_regular_devices := baseline_regular_devices b;
                   anomalous_devices := anomalous_devices b;
                   baseline_only_devices := baseline_only_devices b ++ [r];
                   loitering_devices := loitering_devices b |} |}.

(** The records behind a bucket. *)
Definition deref (st : state) (refs : list nat) : list Info.t :=
  omap (λ r, heap st !! r) refs.

(** The [analysis] dictionary as its items, in the order of the literal
    that creates it. *)
Definition analysis_items (st : state) : list (string * list Info.t) :=
  let b := buckets st in
  [ ("target_date_devices", deref st (target_date_devices b));
    ("baseline_regular_devices", deref st (baseline_regular_devices b));
    ("anomalous_devices", deref st (anomalous_devices b));
    ("baseline_only_devices", deref st (baseline_only_devices b));
    ("loitering_devices", deref st (loitering_devices b)) ].

(** ** The explanation templates *)

Definition pretty_nat (n : nat) : string := pretty (Z.of_nat n).

Definition loitering_explanation (first_hour last_hour : Z) (duration_hours : float) : string :=
  "LOITERING PATTERN: Arrived at " +:+ fmt_02d first_hour
  +:+ ":00 during business hours, stayed until " +:+ fmt_02d last_hour
  +:+ ":00+ (" +:+ fmt_1f duration_hours
  +:+ " hours total). Unusual for employee to stay this late - potential insider threat or theft preparation.".

Definition extended_explanation (first_hour last_hour : Z) (duration_hours : float) : string :=
  "EXTENDED SESSION: Connected at " +:+ fmt_02d first_hour
  +:+ ":00 during business hours, last seen at " +:+ fmt_02d last_hour
  +:+ ":00 after hours. Session duration: " +:+ fmt_1f duration_hours
  +:+ " hours.".

Definition never_seen_explanation (target_count : nat) : string :=
  "NEVER seen out-of-hours in 7-day baseline period. This device appeared for the first time during incident window ("
  +:+ pretty_nat target_count
  +:+ " connections on target date). Could be: intruder device, stolen device, or employee device used during theft.".

Definition regular_days_explanation (baseline_count days_seen : nat) : string :=
  "Regular out-of-hours device: " +:+ pretty_nat baseline_count
  +:+ " baseline connections across " +:+ pretty_nat days_seen
  +:+ " days. Expected to be present during incident window.".

Definition regular_single_day_explanation (baseline_count : nat) : string :=
  "Regular out-of-hours device: " +:+ pretty_nat baseline_count
  +:+ " baseline connections (single day pattern). Likely IoT/always-on device.".

Definition sparse_explanation (baseline_count days_seen target_count : nat) : string :=
  "Suspicious pattern: Only " +:+ pretty_nat baseline_count
  +:+ " baseline connections on " +:+ pretty_nat days_seen
  +:+ " day(s), but " +:+ pretty_nat target_count
  +:+ " connections on target date. Could be: employee working unusual hours, device brought in for theft, or coincidental usage.".

Definition always_on_explanation (baseline_count days_seen : nat) : string :=
  "Always-on device: " +:+ pretty_nat baseline_count
  +:+ " baseline connections across " +:+ pretty_nat days_seen
  +:+ " days, but NO connections on target date. Could be normal (stayed connected) or suspicious (device turned off/removed during incident).".

Definition baseline_device_explanation (baseline_count days_seen : nat) : string :=
  "Baseline device: " +:+ pretty_nat baseline_count
  +:+ " baseline connections on " +:+ pretty_nat days_seen
  +:+ " day(s), but absent on target date. Monitor for unusual absence pattern.".

(** ** The analysis functions

    [datetime.fromisoformat] belongs to the Python library, and the strings
    it accepts depend on the interpreter's version; the functions take it as
    a parameter. *)

Class FromIsoFormat := fromisoformat : string → result datetime.

Section Analysis.

Context `{!FromIsoFormat} `{!Strftime}.

(** [datetime.fromisoformat(timestamp.replace('Z', '+00:00'))] *)
Definition parse_timestamp (timestamp : string) : result datetime :=
  fromisoformat (replace_Z timestamp).

Definition is_out_of_hours (timestamp : string) : result bool :=
  try_except
    (dt ← parse_timestamp timestamp;
     let hour := hour dt in
     Ok ((18 <=? hour) || (hour <? 6))%Z)
    (Ok false).

Definition is_business_hours (timestamp : string) : result bool :=
  try_except
    (dt ← parse_timestamp timestamp;
     let hour := hour dt in
     Ok ((6 <=? hour) && (hour <? 18))%Z)
    (Ok false).

(** The first loop of both detectors: the connections of the target date,
    grouped by MAC. *)
Definition group_target_day (connections : list Conn.t) (target_date : string)
    : list (string * list Conn.t) :=
  foldl (λ target_day_connections conn,
           let conn_date := date_part (Conn.timestamp conn) in
           if bool_decide (conn_date = target_date) && truthy (Conn.client_mac conn)
           then setdefault_alter (Conn.client_mac conn) [] (λ l, l ++ [conn])
                  target_day_connections
           else target_day_connections)
        [] connections.

(** The body of the second loop of [detect_loitering_patterns] for one MAC:
    the record to append, if any. *)
Definition loitering_record (mac : string) (conns : list Conn.t)
    : result (option Info.t) :=
  if (length conns <? 2)%nat then Ok None
  else
    let device_conns := sort_by_timestamp conns in
    c0 ← first_item device_conns;
    cN ← last_item device_conns;
    first_conn ← parse_timestamp (Conn.timestamp c0);
    last_conn ← parse_timestamp (Conn.timestamp cN);
    let arrived_business_hours := ((6 <=? hour first_conn) && (hour first_conn <? 18))%Z in
    let stayed_late := (18 <=? hour last_conn)%Z in
    delta ← datetime_sub last_conn first_conn;
    let duration_hours := float_div_int (total_seconds delta) 3600 in
    if arrived_business_hours && stayed_late && float_gt_int duration_hours 8
    then Ok (Some
      {| Info.mac := mac;
         Info.description := Conn.client_description c0;
         Info.first_target_connection := Some (Conn.timestamp c0);
         Info.last_target_connection := Some (Conn.timestamp cN);
         Info.duration_hours := Some (round1 duration_hours);
         Info.target_date_connections := length device_conns;
         Info.baseline_connections := 0;
         Info.days_seen_out_of_hours := 1;
         Info.networks := [];
         Info.ssids := [];
         Info.arrived_hour := Some (hour first_conn);
         Info.departed_hour :=
           Some (if (18 <=? hour last_conn)%Z then hour last_conn else 24%Z);
         Info.risk_level := Some LOITERING_SUSPICIOUS;
         Info.risk_explanation :=
           loitering_explanation (hour first_conn) (hour last_conn) duration_hours |})
    else Ok None.

Definition detect_loitering_patterns (connections : list Conn.t) (target_date : string)
    : result (list Info.t) :=
  let target_day_connections := group_target_day connections target_date in
  foldM (λ loitering_devices '(mac, device_conns),
           r ← loitering_record mac device_conns;
           Ok (match r with
               | Some d => loitering_devices ++ [d]
               | None => loitering_devices
               end))
        [] target_day_connections.

(** The target date when the caller gives none: the date of the latest
    timestamp, or today's date [now_date] without any connection. *)
Definition default_target_date (now_date : string) (connections : list Conn.t)
    (target_date : string) : string :=
  if truthy target_date then target_date
  else match connections with
       | [] => now_date
       | c :: l => date_part (str_max (Conn.timestamp c) (Conn.timestamp <$> l))
       end.

(** The body of the grouping loop of [analyze_out_of_hours_patterns], for
    one out-of-hours connection. *)
Definition add_pattern (target_date : string)
    (device_patterns : list (string * Pattern.t)) (conn : Conn.t)
    : result (list (string * Pattern.t)) :=
  let mac := Conn.client_mac conn in
  if negb (truthy mac) then Ok device_patterns
  else
    let conn_date := date_part (Conn.timestamp conn) in
    let fresh :=
      {| Pattern.description := Conn.client_description conn;
         Pattern.networks := ∅;
         Pattern.ssids := ∅;
         Pattern.target_date_connections := [];
         Pattern.baseline_connections := [];
         Pattern.all_dates := ∅ |} in
    target_dt ← fromisoformat target_date;
    next_dt ← add_one_day target_dt;
    let next_day := strftime_ymd next_dt in
    conn_dt ← parse_timestamp (Conn.timestamp conn);
    let is_target_evening := bool_decide (conn_date = target_date) && (18 <=? hour conn_dt)%Z in
    let is_target_morning := bool_decide (conn_date = next_day) && (hour conn_dt <? 6)%Z in
    Ok (setdefault_alter mac fresh
          (λ p,
             {| Pattern.description := Pattern.description p;
                Pattern.networks := {[Conn.network conn]} ∪ Pattern.networks p;
                Pattern.ssids := {[Conn.ssid conn]} ∪ Pattern.ssids p;
                Pattern.all_dates := {[conn_date]} ∪ Pattern.all_dates p;
                Pattern.target_date_connections :=
                  if is_target_evening || is_target_morning
                  then Pattern.target_date_connections p ++ [conn]
                  else Pattern.target_date_connections p;
                Pattern.baseline_connections :=
                  if is_target_evening || is_target_morning
                  then Pattern.baseline_connections p
                  else Pattern.baseline_connections p ++ [conn] |})
          device_patterns).

(** [next((ld for ld in loitering_devices if ld['mac'] == mac), None)] *)
Definition find_loitering (loitering_devices : list Info.t) (mac : string)
    : option Info.t :=
  head (filter (λ ld, Info.mac ld = mac) loitering_devices).

(** [min(...) if l else None] and [max(...) if l else None] over the
    timestamps of [l]. *)
Definition min_timestamp (l : list Conn.t) : option string :=
  match l with
  | [] => None
  | c :: l' => Some (str_min (Conn.timestamp c) (Conn.timestamp <$> l'))
  end.

Definition max_timestamp (l : list Conn.t) : option string :=
  match l with
  | [] => None
  | c :: l' => Some (str_max (Conn.timestamp c) (Conn.timestamp <$> l'))
  end.

(** [device_info_copy = device_info.copy()], relabelled [BASELINE_REGULAR]
    and appended to the regular bucket. *)
Definition copy_to_baseline_regular (device_info : nat) (st : state) : state :=
  match heap st !! device_info with
  | Some d =>
      let device_info_copy := length (heap st) in
      let st := alloc d st in
      let st := update device_info_copy (Info.set_risk_level BASELINE_REGULAR) st in
      append_baseline_regular device_info_copy st
  | None => st
  end.

(** The body of the classification loop for one device. *)
Definition classify_device (loitering_devices : list Info.t) (st : state)
    (item : string * Pattern.t) : state :=
  let '(mac, data) := item in
  let target_count := length (Pattern.target_date_connections data) in
  let baseline_count := length (Pattern.baseline_connections data) in
  let days_seen := size (Pattern.all_dates data) in
  let device_info := length (heap st) in
  let st := alloc
    {| Info.mac := mac;
       Info.description := Pattern.description data;
       Info.target_date_connections := target_count;
       Info.baseline_connections := baseline_count;
       Info.days_seen_out_of_hours := days_seen;
       Info.networks := elements (Pattern.networks data);
       Info.ssids := elements (Pattern.ssids data);
       Info.first_target_connection := min_timestamp (Pattern.target_date_connections data);
       Info.last_target_connection := max_timestamp (Pattern.target_date_connections data);
       Info.risk_explanation := "";
       Info.risk_level := None;
       Info.duration_hours := None;
       Info.arrived_hour := None;
       Info.departed_hour := None |} st in
  if (0 <? target_count)%nat then
    let st := update device_info (Info.set_risk_level TARGET_DATE) st in
    let st := append_target_date device_info st in
    match find_loitering loitering_devices mac with
    | Some loitering_device =>
        let st := update device_info (Info.set_risk_level LOITERING_SUSPICIOUS) st in
        let st := update device_info
          (Info.set_risk_explanation (Info.risk_explanation loitering_device)) st in
        let st := update device_info (Info.set_loitering_fields loitering_device) st in
        append_anomalous device_info st
    | None =>
        if (baseline_count =? 0)%nat then
          let st := update device_info (Info.set_risk_level ANOMALOUS_SUSPICIOUS) st in
          let st := update device_info
            (Info.set_risk_explanation (never_seen_explanation target_count)) st in
          append_anomalous device_info st
        else if (1 <=? baseline_count)%nat && (2 <=? days_seen)%nat then
          let st := update device_info (Info.set_risk_level BASELINE_REGULAR) st in
          let st := update device_info
            (Info.set_risk_explanation (regular_days_explanation baseline_count days_seen)) st in
          append_baseline_regular device_info st
        else if (3 <=? baseline_count)%nat then
          let st := update device_info (Info.set_risk_level BASELINE_REGULAR) st in
          let st := update device_info
            (Info.set_risk_explanation (regular_single_day_explanation baseline_count)) st in
          append_baseline_regular device_info st
        else
          let st := update device_info (Info.set_risk_level ANOMALOUS_SUSPICIOUS) st in
          let st := update device_info
            (Info.set_risk_explanation
               (sparse_explanation baseline_count days_seen target_count)) st in
          append_anomalous device_info st
    end
  else if (0 <? baseline_count)%nat then
    let st := update device_info (Info.set_risk_level BASELINE_ONLY) st in
    let st := update device_info
      (Info.set_risk_explanation
         (if (3 <=? days_seen)%nat
          then always_on_explanation baseline_count days_seen
          else baseline_device_explanation baseline_count days_seen)) st in
    let st := append_baseline_only device_info st in
    if (1 <=? baseline_count)%nat && (2 <=? days_seen)%nat then
      copy_to_baseline_regular device_info st
    else if (3 <=? baseline_count)%nat then
      copy_to_baseline_regular device_info st
    else st
  else st.

(** The out-of-hours filter and the grouping loop: [device_patterns]. *)
Definition group_out_of_hours (connections : list Conn.t) (target_date : string)
    : result (list (string * Pattern.t)) :=
  out_of_hours_connections ←
    filterM (λ conn, is_out_of_hours (Conn.timestamp conn)) connections;
  foldM (add_pattern target_date) [] out_of_hours_connections.

Definition analyze_out_of_hours_patterns (now_date : string)
    (connections : list Conn.t) (target_date : string) : result state :=
  let target_date := default_target_date now_date connections target_date in
  device_patterns ← group_out_of_hours connections target_date;
  loitering_devices ← detect_loitering_patterns connections target_date;
  let analysis :=
    {| heap := loitering_devices;
       buckets := {| target_date_devices := [];
                     baseline_regular_devices := [];
                     anomalous_devices := [];
                     baseline_only_devices := [];
                     loitering_devices := seq 0 (length loitering_devices) |} |} in
  Ok (foldl (classify_device loitering_devices) analysis device_patterns).

(** The body of the second loop of [analyze_extended_sessions] for one
    MAC. *)
Definition extended_record (mac : string) (conns : list Conn.t)
    : result (option Ext.t) :=
  if (length conns <? 2)%nat then Ok None
  else
    let device_conns := sort_by_timestamp conns in
    c0 ← first_item device_conns;
    cN ← last_item device_conns;
    first_conn ← parse_timestamp (Conn.timestamp c0);
    last_conn ← parse_timestamp (Conn.timestamp cN);
    connected_business_hours ← is_business_hours (Conn.timestamp c0);
    let stayed_after_hours := (18 <=? hour last_conn)%Z in
    delta ← datetime_sub last_conn first_conn;
    let duration_hours := float_div_int (total_seconds delta) 3600 in
    if connected_business_hours && stayed_after_hours
    then Ok (Some
      {| Ext.mac := mac;
         Ext.description := Conn.client_description c0;
         Ext.first_connection := Conn.timestamp c0;
         Ext.last_connection := Conn.timestamp cN;
         Ext.duration_hours := round1 duration_hours;
         Ext.total_connections := length device_conns;
         Ext.connected_hour := hour first_conn;
         Ext.last_seen_hour := hour last_conn;
         Ext.business_hours_start := true;
         Ext.after_hours_activity := true;
         Ext.risk_explanation :=
           extended_explanation (hour first_conn) (hour last_conn) duration_hours |})
    else Ok None.

Definition analyze_extended_sessions (now_date : string)
    (connections : list Conn.t) (target_date : string) : result (list Ext.t) :=
  let target_date := default_target_date now_date connections target_date in
  let target_day_connections := group_target_day connections target_date in
  foldM (λ extended_session_devices '(mac, device_conns),
           r ← extended_record mac device_conns;
           Ok (match r with
               | Some d => extended_session_devices ++ [d]
               | None => extended_session_devices
               end))
        [] target_day_connections.

(** ** [run_analysis] *)

(** The deduplication loop over the raw provider events; a raw event is a
    dictionary from field names to strings, and [event.get(k)] is the
    lookup [event !! k]. *)
Definition event_key (event : gmap string string)
    : option string * option string * option string :=
  (event !! "occurredAt", event !! "clientMac", event !! "type").

Definition deduplicate_step
    (acc : gset (option string * option string * option string)
           * list (gmap string string))
    (event : gmap string string)
    : gset (option string * option string * option string)
      * list (gmap string string) :=
  let '(seen_events, deduplicated_events) := acc in
  let event_key := event_key event in
  if decide (event_key ∉ seen_events)
  then ({[event_key]} ∪ seen_events, deduplicated_events ++ [event])
  else (seen_events, deduplicated_events).

Definition deduplicate_events (all_events : list (gmap string string))
    : list (gmap string string) :=
  (foldl deduplicate_step (∅, []) all_events).2.

(** The files [export_out_of_hours_analysis_to_csv] writes: the raw
    connections, and one file per non-empty item of the analysis. *)
Definition exported_files (connections : list Conn.t) (st : state) : list string :=
  (match connections with [] => [] | _ => ["all_connections.csv"] end)
  ++ ((λ item, item.1 +:+ ".csv") <$>
        filter (λ item, item.2 ≠ []) (analysis_items st)).

(** What the analysis step of [run_analysis] produces from the collected
    connections: the pattern analysis, the number it prints as "Extended
    session devices", and the exported files. Without any connection there
    is no analysis. *)
Record report := {
  pattern_analysis : state;
  extended_session_count : nat;
  csv_files : list string
}.

Definition run_analysis_report (now_date : string) (all_connections : list Conn.t)
    (investigation_date : string) : result (option report) :=
  match all_connections with
  | [] => Ok None
  | _ =>
      let target_date := investigation_date in
      pattern_analysis ← analyze_out_of_hours_patterns now_date all_connections target_date;
      Ok (Some
        {| pattern_analysis := pattern_analysis;
           extended_session_count :=
             length (dict_get "extended_session_devices" [] (analysis_items pattern_analysis));
           csv_files := exported_files all_connections pattern_analysis |})
  end.

End Analysis.

(** ** A concrete [fromisoformat]

    The grammar of Python 3.7 to 3.10,
    [YYYY-MM-DD[*HH[:MM[:SS[.fff[fff]]]][+HH:MM[:SS[.ffffff]]]]], with the
    range checks of the [datetime] constructor. Every later version reads
    these strings the same way; from 3.11 on the library also accepts
    strings that this parser refuses (the basic format, fractions of other
    lengths, week dates). It instantiates the parameter of the analysis on
    the concrete inputs of the scenarios, which are all of this grammar. *)

Definition digit_val (c : ascii) : option Z :=
  let n := Z.of_N (N_of_ascii c) in
  if (48 <=? n) && (n <=? 57) then Some (n - 48) else None.

Fixpoint parse_digits (n : nat) (acc : Z) (s : string) : option (Z * string) :=
  match n with
  | O => Some (acc, s)
  | S n' =>
      match s with
      | String c s' => d ← digit_val c; parse_digits n' (acc * 10 + d) s'
      | EmptyString => None
      end
  end.

(** The text before and after the first occurrence of [c]. *)
Fixpoint split_at (c : ascii) (s : string) : option (string * string) :=
  match s with
  | EmptyString => None
  | String x s' =>
      if Ascii.eqb x c then Some (EmptyString, s')
      else '(a, b) ← split_at c s'; Some (String x a, b)
  end.

(** [HH[:MM[:SS[.fff[fff]]]]] *)
Definition parse_hh_mm_ss_ff (s : string) : option (Z * Z * Z * Z) :=
  '(hh, r) ← parse_digits 2 0 s;
  match r with
  | EmptyString => Some (hh, 0, 0, 0)
  | String ":" r =>
      '(mm, r) ← parse_digits 2 0 r;
      match r with
      | EmptyString => Some (hh, mm, 0, 0)
      | String ":" r =>
          '(ss, r) ← parse_digits 2 0 r;
          match r with
          | EmptyString => Some (hh, mm, ss, 0)
          | String "." r =>
              if bool_decide (String.length r = 3%nat) then
                '(ff, _) ← parse_digits 3 0 r; Some (hh, mm, ss, ff * 1000)
              else if bool_decide (String.length r = 6%nat) then
                '(ff, _) ← parse_digits 6 0 r; Some (hh, mm, ss, ff)
              else None
          | _ => None
          end
      | _ => None
      end
  | _ => None
  end.

(** The offset after the sign, in microseconds: [HH:MM], [HH:MM:SS] or
    [HH:MM:SS.ffffff]. *)
Definition parse_offset (s : string) : option Z :=
  let n := String.length s in
  if bool_decide (n = 5%nat) || bool_decide (n = 8%nat) || bool_decide (n = 15%nat) then
    '(hh, mm, ss, ff) ← parse_hh_mm_ss_ff s;
    let us := ((hh * 60 + mm) * 60 + ss) * 1000000 + ff in
    if us <? 86400000000 then Some us else None
  else None.

(** The time after the separator: the clock fields and the [tzinfo]. *)
Definition parse_isoformat_time (s : string) : option (Z * Z * Z * Z * option Z) :=
  match split_at "-" s with
  | Some (t, z) =>
      '(hh, mm, ss, ff) ← parse_hh_mm_ss_ff t;
      off ← parse_offset z;
      Some (hh, mm, ss, ff, Some (- off))
  | None =>
      match split_at "+" s with
      | Some (t, z) =>
          '(hh, mm, ss, ff) ← parse_hh_mm_ss_ff t;
          off ← parse_offset z;
          Some (hh, mm, ss, ff, Some off)
      | None =>
          '(hh, mm, ss, ff) ← parse_hh_mm_ss_ff s;
          Some (hh, mm, ss, ff, None)
      end
  end.

Definition parse_isoformat_date (s : string) : option (Z * Z * Z * string) :=
  '(y, r) ← parse_digits 4 0 s;
  match r with
  | String "-" r =>
      '(m, r) ← parse_digits 2 0 r;
      match r with
      | String "-" r => '(d, r) ← parse_digits 2 0 r; Some (y, m, d, r)
      | _ => None
      end
  | _ => None
  end.

Definition iso_parse (s : string) : result datetime :=
  let parsed :=
    '(y, m, d, r) ← parse_isoformat_date s;
    '(hh, mm, ss, ff, tz) ←
      match r with
      | EmptyString => Some (0, 0, 0, 0, None)
      | String _ EmptyString => None
      | String _ t => parse_isoformat_time t
      end;
    if (1 <=? y) && (y <=? 9999) && (1 <=? m) && (m <=? 12)
       && (1 <=? d) && (d <=? days_in_month y m)
       && (hh <? 24) && (mm <? 60) && (ss <? 60)
    then Some {| year := y; month := m; day := d; hour := hh; minute := mm;
                 second := ss; microsecond := ff; tzinfo := tz |}
    else None in
  match parsed with
  | Some dt => Ok dt
  | None => Raise ValueError
  end.

(** ** The terms of the specification

    The predicates and the decision table as the specification words them,
    to be compared with what the code computes. *)

(** Eight hours, in microseconds. *)
Definition eight_hours_us : Z := 8 * 3600 * 1000000.

(** The elapsed hours as the detectors compute them:
    [timedelta.total_seconds() / 3600]. *)
Definition elapsed_hours (us : Z) : float :=
  float_div_int (total_seconds us) 3600.

(** [t] tenths of an hour are a nearest number of tenths to [us]
    microseconds: they differ by 0.05 hours at most. *)
Definition nearest_tenth (us t : Z) : Prop :=
  (360000000 * t - 180000000 ≤ us ≤ 360000000 * t + 180000000)%Z.

(** [x] is a binary64 number nearest to the fraction [n / d], for [0 ≤ n]
    and [0 < d]: zero for zero, and otherwise a significand of 53 bits,
    [2^52 ≤ fm x ≤ 2^53], with a value [fm x * 2^(fe x)] at most half a unit
    of the last place, [2^(fe x) / 2], away from [n / d]. The two sides of
    that distance are multiplied by [2 * d] and by the power of two that
    makes them integers. *)
Definition binary64_nearest (x : float) (n d : Z) : Prop :=
  if (n =? 0)%Z then fm x = 0%Z
  else
    (2 ^ 52 ≤ fm x ≤ 2 ^ 53
     ∧ 2 * Z.abs (fm x * 2 ^ Z.max 0 (fe x) * d - n * 2 ^ Z.max 0 (- fe x))
       ≤ 2 ^ Z.max 0 (fe x) * d)%Z.

(** The value of [x] is the fraction [n / d] exactly. *)
Definition binary64_exact (x : float) (n d : Z) : Prop :=
  (fm x * 2 ^ Z.max 0 (fe x) * d = n * 2 ^ Z.max 0 (- fe x))%Z.

Section Specification.

Context `{!FromIsoFormat} `{!Strftime}.

(** The hour of a timestamp that parses. *)
Definition hour_of (timestamp : string) : option Z :=
  match parse_timestamp timestamp with
  | Ok dt => Some (hour dt)
  | Raise _ => None
  end.

(** "Out-of-hours": [hour ≥ 18 OR hour < 6]; "business hours":
    [6 ≤ hour < 18]. A timestamp without an hour is neither. *)
Definition out_of_hours (timestamp : string) : bool :=
  match hour_of timestamp with
  | Some h => (18 <=? h) || (h <? 6)
  | None => false
  end.

Definition business_hours (timestamp : string) : bool :=
  match hour_of timestamp with
  | Some h => (6 <=? h) && (h <? 18)
  | None => false
  end.

(** The date [D+1], as a string. *)
Definition next_day_of (target_date : string) : result string :=
  target_dt ← fromisoformat target_date;
  next_dt ← add_one_day target_dt;
  Ok (strftime_ymd next_dt).

(** Membership of the target night cycle:
    [(date == D and hour ≥ 18) or (date == D+1 and hour < 6)]. *)
Definition in_target_night (target_date next_day : string) (conn : Conn.t) : bool :=
  match hour_of (Conn.timestamp conn) with
  | Some h =>
      (bool_decide (date_part (Conn.timestamp conn) = target_date) && (18 <=? h))
      || (bool_decide (date_part (Conn.timestamp conn) = next_day) && (h <? 6))
  | None => false
  end.

(** The out-of-hours events of a device. *)
Definition out_of_hours_events (connections : list Conn.t) (mac : string) : list Conn.t :=
  filter (λ conn, Conn.client_mac conn = mac ∧ out_of_hours (Conn.timestamp conn) = true)
         connections.

(** The connections of a device dated [target_date], sorted by timestamp. *)
Definition day_connections (connections : list Conn.t) (target_date mac : string)
    : list Conn.t :=
  sort_by_timestamp
    (filter (λ conn, date_part (Conn.timestamp conn) = target_date
                     ∧ Conn.client_mac conn = mac) connections).

(** The order of the sort: the order of the timestamp strings. *)
Definition timestamp_le (a b : Conn.t) : Prop :=
  String.leb (Conn.timestamp a) (Conn.timestamp b) = true.

(** A connection whose timestamp parses to an aware [datetime], as the
    [Z]-suffixed timestamps of the data model do. *)
Definition aware (conn : Conn.t) : Prop :=
  ∃ dt offset, parse_timestamp (Conn.timestamp conn) = Ok dt ∧ tzinfo dt = Some offset.

(** A calendar date. *)
Definition valid_date (dt : datetime) : Prop :=
  (1 ≤ year dt)%Z ∧ (1 ≤ month dt ≤ 12)%Z
  ∧ (1 ≤ day dt ≤ days_in_month (year dt) (month dt))%Z.

(** The first and the last connection of a device on the target date, when
    it has at least two. *)
Definition first_and_last (connections : list Conn.t) (target_date mac : string)
    : option (Conn.t * Conn.t) :=
  let day := day_connections connections target_date mac in
  if (2 <=? length day)%nat
  then c0 ← head day; cN ← last day; Some (c0, cN)
  else None.

(** The time from [c0] to [cN], in microseconds. *)
Definition elapsed_us (c0 cN : Conn.t) : option Z :=
  match parse_timestamp (Conn.timestamp c0), parse_timestamp (Conn.timestamp cN) with
  | Ok first, Ok last =>
      match datetime_sub last first with
      | Ok us => Some us
      | Raise _ => None
      end
  | _, _ => None
  end.

(** The loitering predicate of Section 4.5: at least two connections on the
    date, the first in business hours, the last at 18:00 or later, more
    than eight hours apart. *)
Definition loiters (connections : list Conn.t) (target_date mac : string) : bool :=
  match first_and_last connections target_date mac with
  | Some (c0, cN) =>
      match hour_of (Conn.timestamp c0), hour_of (Conn.timestamp cN), elapsed_us c0 cN with
      | Some h0, Some hN, Some us =>
          (6 <=? h0) && (h0 <? 18) && (18 <=? hN) && (eight_hours_us <? us)
      | _, _, _ => false
      end
  | None => false
  end.

(** The extended-session predicate of Section 4.6: the same without the
    duration. *)
Definition extends_session (connections : list Conn.t) (target_date mac : string) : bool :=
  match first_and_last connections target_date mac with
  | Some (c0, cN) =>
      match hour_of (Conn.timestamp c0), hour_of (Conn.timestamp cN) with
      | Some h0, Some hN => (6 <=? h0) && (h0 <? 18) && (18 <=? hN)
      | _, _ => false
      end
  | None => false
  end.

(** The aggregate the grouping loop builds from the out-of-hours events of
    one device. *)
Definition aggregate_of (target_date : string) (events : list Conn.t)
    (data : Pattern.t) : Prop :=
  ∃ next_day,
    next_day_of target_date = Ok next_day
    ∧ Pattern.target_date_connections data
      = filter (λ conn, in_target_night target_date next_day conn = true) events
    ∧ Pattern.baseline_connections data
      = filter (λ conn, in_target_night target_date next_day conn = false) events
    ∧ Pattern.all_dates data
      = list_to_set ((λ conn, date_part (Conn.timestamp conn)) <$> events).

(** The counts of Step 4, from the out-of-hours events of a device. *)
Definition target_count (connections : list Conn.t) (target_date next_day mac : string)
    : nat :=
  length (filter (λ conn, in_target_night target_date next_day conn = true)
            (out_of_hours_events connections mac)).

Definition baseline_count (connections : list Conn.t) (target_date next_day mac : string)
    : nat :=
  length (filter (λ conn, in_target_night target_date next_day conn = false)
            (out_of_hours_events connections mac)).

Definition days_seen (connections : list Conn.t) (mac : string) : nat :=
  size (list_to_set ((λ conn, date_part (Conn.timestamp conn)) <$>
                       out_of_hours_events connections mac) : gset string).

End Specification.

(** Two raw events have the same key when they have the same timestamp,
    the same MAC and the same type, a field that one misses being missed
    by the other. *)
Definition same_key (a b : gmap string string) : Prop :=
  a !! "occurredAt" = b !! "occurredAt"
  ∧ a !! "clientMac" = b !! "clientMac"
  ∧ a !! "type" = b !! "type".

(** The deduplication of Section 4.2: an event is emitted on the first
    occurrence of its key and discarded on a repeat. *)
Fixpoint first_occurrences
    (seen : gset (option string * option string * option string))
    (l : list (gmap string string)) : list (gmap string string) :=
  match l with
  | [] => []
  | e :: l' =>
      if decide (event_key e ∉ seen)
      then e :: first_occurrences ({[event_key e]} ∪ seen) l'
      else first_occurrences seen l'
  end.

(** The ordered, first-match-wins policy of Step 4. *)
Definition policy (loitering : bool) (baseline_count days_seen : nat) : risk :=
  if loitering then LOITERING_SUSPICIOUS
  else if (baseline_count =? 0)%nat then ANOMALOUS_SUSPICIOUS
  else if (1 <=? baseline_count)%nat && (2 <=? days_seen)%nat then BASELINE_REGULAR
  else if (3 <=? baseline_count)%nat then BASELINE_REGULAR
  else ANOMALOUS_SUSPICIOUS.

(** The bucket the matched rule names. *)
Definition policy_bucket (lvl : risk) (b : analysis) : list nat :=
  match lvl with
  | BASELINE_REGULAR => baseline_regular_devices b
  | _ => anomalous_devices b
  end.

(** [st'] is [st] after some more steps of the classification loop: the
    heap and every bucket have only grown at the end. *)
Definition extends (st st' : state) : Prop :=
  heap st `prefix_of` heap st'
  ∧ target_date_devices (buckets st) `prefix_of` target_date_devices (buckets st')
  ∧ baseline_regular_devices (buckets st) `prefix_of` baseline_regular_devices (buckets st')
  ∧ anomalous_devices (buckets st) `prefix_of` anomalous_devices (buckets st')
  ∧ baseline_only_devices (buckets st) `prefix_of` baseline_only_devices (buckets st')
  ∧ loitering_devices (buckets st) = loitering_devices (buckets st').

(** [analysis[bucket].append(r)] for the bucket of a level. *)
Definition append_policy (lvl : risk) (r : nat) (st : state) : state :=
  match lvl with
  | BASELINE_REGULAR => append_baseline_regular r st
  | _ => append_anomalous r st
  end.

(** The reference [r] holds the record [d] that the classification loop
    made for the device [mac] with aggregate [data], a device with
    target-night connections: [r] is in the target bucket and in the bucket
    of the level the policy gives, and [d] carries that level. *)
Definition classified (loitering_devices : list Info.t) (st : state)
    (mac : string) (data : Pattern.t) (r : nat) (d : Info.t) : Prop :=
  let lvl := policy (bool_decide (is_Some (find_loitering loitering_devices mac)))
               (length (Pattern.baseline_connections data))
               (size (Pattern.all_dates data)) in
  heap st !! r = Some d
  ∧ r ∈ target_date_devices (buckets st)
  ∧ r ∈ policy_bucket lvl (buckets st)
  ∧ Info.mac d = mac
  ∧ Info.target_date_connections d = length (Pattern.target_date_connections data)
  ∧ Info.baseline_connections d = length (Pattern.baseline_connections data)
  ∧ Info.days_seen_out_of_hours d = size (Pattern.all_dates data)
  ∧ Info.risk_level d = Some lvl
  ∧ ∀ ld, find_loitering loitering_devices mac = Some ld →
      Info.risk_explanation d = Info.risk_explanation ld
      ∧ Info.duration_hours d = Info.duration_hours ld
      ∧ Info.arrived_hour d = Info.arrived_hour ld
      ∧ Info.departed_hour d = Info.departed_hour ld.

(** ** Scenarios

    Concrete inputs, read with [iso_parse] on a platform with glibc. *)

(** [strftime('%Y')] of glibc: the decimal digits of the year, without
    padding. *)
#[global] Instance glibc_strftime : Strftime :=
  {| strftime_Y := pretty; strftime_Y_four_digits := λ y _, eq_refl |}.

(** [strftime('%Y')] of a C library that pads the year to four digits. *)
Definition padded_strftime : Strftime.
Proof.
  refine {| strftime_Y := fmt_04d; strftime_Y_four_digits := _ |}.
  intros y Hy. unfold fmt_04d.
  by rewrite !(proj2 (Z.ltb_ge _ _)) by lia.
Defined.

Definition conn_at (timestamp mac : string) : Conn.t :=
  {| Conn.organization := "Organization 1";
     Conn.network := "Network 1";
     Conn.timestamp := timestamp;
     Conn.event_type := "association";
     Conn.client_mac := mac;
     Conn.client_description := "laptop";
     Conn.device_serial := "Q2XX-0001";
     Conn.ssid := "corp";
     Conn.description := "" |}.

(** The loitering scenario of the specification: a first connection at
    09:00 and a last one at 19:30 on the target date. *)
Definition loitering_scenario : list Conn.t :=
  [ conn_at "2025-06-23T09:00:00.000Z" "CC:CC";
    conn_at "2025-06-23T19:30:00.000Z" "CC:CC" ].

(** A device whose last connection is at the very end of the day. *)
Definition day_end_scenario : list Conn.t :=
  [ conn_at "2025-06-23T09:00:00.000Z" "DD:DD";
    conn_at "2025-06-23T23:59:59.999Z" "DD:DD" ].

(** A device with three baseline connections, all on the target date
    before 06:00, and one connection on the target evening: one day seen. *)
Definition single_day_scenario : list Conn.t :=
  [ conn_at "2025-06-23T01:00:00.000Z" "AA:AA";
    conn_at "2025-06-23T02:00:00.000Z" "AA:AA";
    conn_at "2025-06-23T03:00:00.000Z" "AA:AA";
    conn_at "2025-06-23T19:00:00.000Z" "AA:AA" ].

(** A device seen on the evening before, on the target evening, on the
    next morning and on the evening after, and in business hours. *)
Definition night_cycle_scenario : list Conn.t :=
  [ conn_at "2025-06-22T22:15:00.000Z" "EE:EE";
    conn_at "2025-06-23T12:00:00.000Z" "EE:EE";
    conn_at "2025-06-23T18:00:00.000Z" "EE:EE";
    conn_at "2025-06-24T05:59:59.999Z" "EE:EE";
    conn_at "2025-06-24T06:00:00.000Z" "EE:EE";
    conn_at "2025-06-24T18:30:00.000Z" "EE:EE" ].

(** A device that appears on the target night only. *)
Definition first_appearance_scenario : list Conn.t :=
  [ conn_at "2025-06-23T21:00:00.000Z" "BB:BB";
    conn_at "2025-06-23T22:00:00.000Z" "BB:BB";
    conn_at "2025-06-24T02:00:00.000Z" "BB:BB" ].

(** The value of a computation that returns, [dflt] if it raises. *)
Definition ok_or {A} (dflt : A) (r : result A) : A :=
  match r with
  | Ok a => a
  | Raise _ => dflt
  end.

(** The analysis of a scenario on the first of July 2025. *)
Definition analysis_of (connections : list Conn.t) (target_date : string) : state :=
  ok_or {| heap := [];
           buckets := {| target_date_devices := [];
                         baseline_regular_devices := [];
                         anomalous_devices := [];
                         baseline_only_devices := [];
                         loitering_devices := [] |} |}
    (analyze_out_of_hours_patterns (H := iso_parse) "2025-07-01" connections target_date).

(** The records of the loitering detector on a scenario. *)
Definition loitering_of (connections : list Conn.t) (target_date : string) : list Info.t :=
  ok_or [] (detect_loitering_patterns (H := iso_parse) connections target_date).

(** The aggregates of a scenario. *)
Definition aggregates_of (connections : list Conn.t) (target_date : string)
    : list (string * Pattern.t) :=
  ok_or [] (group_out_of_hours (H := iso_parse) connections target_date).

(** ** The records of the classification loop

    What the loop of [analyze_out_of_hours_patterns] writes for one device,
    in terms of its aggregate. *)

(** The fields of [device_info] that come from the aggregate and that no
    branch of the classification assigns again. *)
Definition aggregate_fields (mac : string) (data : Pattern.t) (d : Info.t) : Prop :=
  Info.mac d = mac
  ∧ Info.description d = Pattern.description data
  ∧ Info.target_date_connections d = length (Pattern.target_date_connections data)
  ∧ Info.baseline_connections d = length (Pattern.baseline_connections data)
  ∧ Info.days_seen_out_of_hours d = size (Pattern.all_dates data)
  ∧ Info.networks d = elements (Pattern.networks data)
  ∧ Info.ssids d = elements (Pattern.ssids data)
  ∧ Info.first_target_connection d = min_timestamp (Pattern.target_date_connections data)
  ∧ Info.last_target_connection d = max_timestamp (Pattern.target_date_connections data).

(** The test of the two branches that copy a baseline-only device to the
    regular bucket: [baseline_count >= 1 and days_seen >= 2], else
    [baseline_count >= 3]. *)
Definition regularly_seen (baseline_count days_seen : nat) : bool :=
  ((1 <=? baseline_count)%nat && (2 <=? days_seen)%nat) || (3 <=? baseline_count)%nat.

(** Every reference of the four classification buckets is allocated. *)
Definition allocated (st : state) : Prop :=
  ∀ r, r ∈ target_date_devices (buckets st) ++ baseline_regular_devices (buckets st)
           ++ anomalous_devices (buckets st) ++ baseline_only_devices (buckets st) →
       (r < length (heap st))%nat.

(** The state the classification loop starts from. *)
Definition initial_state (loitering_devices : list Info.t) : state :=
  {| heap := loitering_devices;
     buckets := {| target_date_devices := [];
                   baseline_regular_devices := [];
                   anomalous_devices := [];
                   baseline_only_devices := [];
                   loitering_devices := seq 0 (length loitering_devices) |} |}.

(** The level the ordered policy gives a device, from its aggregate. *)
Definition device_level (loitering_devices : list Info.t)
    (item : string * Pattern.t) : risk :=
  policy (bool_decide (is_Some (find_loitering loitering_devices item.1)))
    (length (Pattern.baseline_connections item.2))
    (size (Pattern.all_dates item.2)).

(** The devices each bucket receives, from their aggregates. *)
Definition target_device (item : string * Pattern.t) : bool :=
  (0 <? length (Pattern.target_date_connections item.2))%nat.

Definition anomalous_device (loitering_devices : list Info.t)
    (item : string * Pattern.t) : bool :=
  target_device item
  && bool_decide (device_level loitering_devices item ≠ BASELINE_REGULAR).

Definition regular_device (loitering_devices : list Info.t)
    (item : string * Pattern.t) : bool :=
  if target_device item
  then bool_decide (device_level loitering_devices item = BASELINE_REGULAR)
  else regularly_seen (length (Pattern.baseline_connections item.2))
         (size (Pattern.all_dates item.2)).

Definition baseline_only_device (item : string * Pattern.t) : bool :=
  negb (target_device item)
  && (0 <? length (Pattern.baseline_connections item.2))%nat.

(** The reference [r] holds the record [d] of a device with target-night
    connections: it carries the level of the policy and is stored in the
    target bucket and in the bucket of that level. *)
Definition target_record (loitering_devices : list Info.t) (st : state)
    (mac : string) (data : Pattern.t) (r : nat) (d : Info.t) : Prop :=
  heap st !! r = Some d
  ∧ aggregate_fields mac data d
  ∧ (0 < length (Pattern.target_date_connections data))%nat
  ∧ Info.risk_level d = Some (device_level loitering_devices (mac, data))
  ∧ r ∈ target_date_devices (buckets st)
  ∧ r ∈ policy_bucket (device_level loitering_devices (mac, data)) (buckets st).

(** The reference [r] holds the [BASELINE_ONLY] record [d] of a device
    without target-night connections; when the device is regularly seen,
    the next reference holds its copy, relabelled, in the regular bucket. *)
Definition baseline_only_record (st : state)
    (mac : string) (data : Pattern.t) (r : nat) (d : Info.t) : Prop :=
  heap st !! r = Some d
  ∧ aggregate_fields mac data d
  ∧ length (Pattern.target_date_connections data) = 0%nat
  ∧ (0 < length (Pattern.baseline_connections data))%nat
  ∧ Info.risk_level d = Some BASELINE_ONLY
  ∧ Info.risk_explanation d
    = (if (3 <=? size (Pattern.all_dates data))%nat
       then always_on_explanation (length (Pattern.baseline_connections data))
              (size (Pattern.all_dates data))
       else baseline_device_explanation (length (Pattern.baseline_connections data))
              (size (Pattern.all_dates data)))
  ∧ r ∈ baseline_only_devices (buckets st)
  ∧ (regularly_seen (length (Pattern.baseline_connections data))
       (size (Pattern.all_dates data)) = true →
     heap st !! S r = Some (Info.set_risk_level BASELINE_REGULAR d)
     ∧ S r ∈ baseline_regular_devices (buckets st)).

(** The MACs of the records behind a bucket, in the order of the bucket. *)
Definition bucket_macs (st : state) (refs : list nat) : list string :=
  Info.mac <$> deref st refs.

(** ** The events that become connections

    [run_analysis] and [stream_30_days_to_csv] keep the events whose type
    is an association, an authentication or a disassociation. *)

(** [event.get('type') in ['association', 'wpa_auth', 'disassociation']] *)
Definition is_connection_event (event : gmap string string) : bool :=
  bool_decide (event !! "type"
               ∈ [Some "association"; Some "wpa_auth"; Some "disassociation"]).

(** The events [run_analysis] turns into connections: the deduplicated
    events of a connection type, in order. *)
Definition connection_events (all_events : list (gmap string string))
    : list (gmap string string) :=
  filter (λ event, is_connection_event event = true) (deduplicate_events all_events).

(** The record the classification loop writes for a device, from its
    aggregate and from the record of the loitering detector for its MAC,
    if there is one. *)
Definition device_info_of (loitering_device : option Info.t) (mac : string)
    (data : Pattern.t) : Info.t :=
  let target_count := length (Pattern.target_date_connections data) in
  let baseline_count := length (Pattern.baseline_connections data) in
  let days_seen := size (Pattern.all_dates data) in
  let device_info :=
    {| Info.mac := mac;
       Info.description := Pattern.description data;
       Info.target_date_connections := target_count;
       Info.baseline_connections := baseline_count;
       Info.days_seen_out_of_hours := days_seen;
       Info.networks := elements (Pattern.networks data);
       Info.ssids := elements (Pattern.ssids data);
       Info.first_target_connection := min_timestamp (Pattern.target_date_connections data);
       Info.last_target_connection := max_timestamp (Pattern.target_date_connections data);
       Info.risk_explanation := "";
       Info.risk_level := None;
       Info.duration_hours := None;
       Info.arrived_hour := None;
       Info.departed_hour := None |} in
  if (0 <? target_count)%nat then
    match loitering_device with
    | Some loitering_device =>
        Info.set_loitering_fields loitering_device
          (Info.set_risk_explanation (Info.risk_explanation loitering_device)
             (Info.set_risk_level LOITERING_SUSPICIOUS device_info))
    | None =>
        if (baseline_count =? 0)%nat then
          Info.set_risk_explanation (never_seen_explanation target_count)
            (Info.set_risk_level ANOMALOUS_SUSPICIOUS device_info)
        else if (1 <=? baseline_count)%nat && (2 <=? days_seen)%nat then
          Info.set_risk_explanation (regular_days_explanation baseline_count days_seen)
            (Info.set_risk_level BASELINE_REGULAR device_info)
        else if (3 <=? baseline_count)%nat then
          Info.set_risk_explanation (regular_single_day_explanation baseline_count)
            (Info.set_risk_level BASELINE_REGULAR device_info)
        else
          Info.set_risk_explanation
            (sparse_explanation baseline_count days_seen target_count)
            (Info.set_risk_level ANOMALOUS_SUSPICIOUS device_info)
    end
  else if (0 <? baseline_count)%nat then
    Info.set_risk_explanation
      (if (3 <=? days_seen)%nat
       then always_on_explanation baseline_count days_seen
       else baseline_device_explanation baseline_count days_seen)
      (Info.set_risk_level BASELINE_ONLY device_info)
  else device_info.

(** ** The collection of the events

    [get_client_events] pages through the events of the provider. The
    provider is a parameter: a request changes an abstract world and
    returns a response or raises. The product type of every request is
    ['wireless']. *)

Record request := {
  perPage : nat;
  startingAfter : option string;
  endingBefore : option string
}.

(** [dashboard.networks.getNetworkEvents]: the response is a dictionary,
    of which the code reads the ['events'] entry, if any. *)
Class Dashboard (World : Type) :=
  getNetworkEvents :
    string → request → World → result (option (list (gmap string string))) * World.

Definition per_page : nat := 1000.

(** [event.get('occurredAt', '')] *)
Definition occurredAt (event : gmap string string) : string :=
  default "" (event !! "occurredAt").

(** [event_time >= start_time and event_time < end_time] *)
Definition in_window (start_time end_time : string) (event : gmap string string) : bool :=
  String.leb start_time (occurredAt event) && String.ltb (occurredAt event) end_time.

(** The variables of the loop; an [end_time] that is [None] is the empty
    string, which the code does not tell apart from it. *)
Record pages := {
  start_time : string;
  end_time : string;
  all_events : list (gmap string string)
}.

Section Collection.

Context {World : Type} `{!Dashboard World}.

(** One iteration of the [while True] loop: the variables of the next
    iteration, or the events collected at a [break]. *)
Definition fetch_page (network_id : string) (st : pages) (w : World)
    : result (pages + list (gmap string string)) * World :=
  let request :=
    if truthy (end_time st)
    then {| perPage := per_page; startingAfter := None;
            endingBefore := Some (end_time st) |}
    else {| perPage := per_page; startingAfter := Some (start_time st);
            endingBefore := None |} in
  let '(response, w) := getNetworkEvents network_id request w in
  (events ← response;
   let page_events := default [] events in
   let page_events :=
     if truthy (end_time st)
     then filter (λ event, in_window (start_time st) (end_time st) event = true) page_events
     else page_events in
   match page_events with
   | [] => Ok (inr (all_events st))
   | _ :: _ =>
       let all_events := all_events st ++ page_events in
       if (length page_events <? per_page)%nat then Ok (inr all_events)
       else
         let last_event_time := from_option occurredAt "" (last page_events) in
         Ok (inl (if truthy (end_time st)
                  then {| start_time := start_time st; end_time := last_event_time;
                          all_events := all_events |}
                  else {| start_time := last_event_time; end_time := end_time st;
                          all_events := all_events |}))
   end, w).

(** The loop, for [fuel] iterations at most. *)
Fixpoint fetch_pages (fuel : nat) (network_id : string) (st : pages) (w : World)
    : option (result (list (gmap string string)) * World) :=
  match fuel with
  | O => None
  | S fuel =>
      match fetch_page network_id st w with
      | (Raise e, w) => Some (Raise e, w)
      | (Ok (inr events), w) => Some (Ok events, w)
      | (Ok (inl st), w) => fetch_pages fuel network_id st w
      end
  end.

(** [get_client_events]: every exception is caught and gives the empty
    list. *)
Definition get_client_events (fuel : nat) (network_id start_time end_time : string)
    (w : World) : option (list (gmap string string) * World) :=
  match fetch_pages fuel network_id
          {| start_time := start_time; end_time := end_time; all_events := [] |} w with
  | Some (Ok events, w) => Some (events, w)
  | Some (Raise _, w) => Some ([], w)
  | None => None
  end.

End Collection.

(** ** The connections of a CSV file

    [load_csv_data_for_investigation] reads the rows of a CSV file; a row
    is a dictionary from the column names to strings, without the columns
    that a short row misses. Opening or reading the file may raise, which
    the function catches. *)

(** The loop over the rows: the rows it keeps, and among them the rows
    in the investigation period and the others, that it counts and
    prints. *)
Definition load_csv_rows (rows : list (gmap string string))
    (investigation_start target_end : string)
    : list (gmap string string) * list (gmap string string) * list (gmap string string) :=
  foldl (λ '(all_connections, target_connections, baseline_connections) row,
           let timestamp := default "" (row !! "timestamp") in
           if negb (truthy timestamp)
           then (all_connections, target_connections, baseline_connections)
           else
             let all_connections := all_connections ++ [row] in
             if String.leb investigation_start timestamp && String.leb timestamp target_end
             then (all_connections, target_connections ++ [row], baseline_connections)
             else (all_connections, target_connections, baseline_connections ++ [row]))
        ([], [], []) rows.

Definition load_csv_data_for_investigation (reader : result (list (gmap string string)))
    (investigation_date investigation_time target_end : string)
    : list (gmap string string) :=
  let investigation_start :=
    investigation_date +:+ "T" +:+ investigation_time +:+ ":00.000Z" in
  match reader with
  | Ok rows => (load_csv_rows rows investigation_start target_end).1.1
  | Raise _ => []
  end.

(** ** The night-cycle test

    [test_night_cycle_logic] of [src/test_night_cycle.py] counts, on its
    own, the connections of the target evening and of the next morning
    among the out-of-hours connections. *)

Section NightCycleTest.

Context `{!FromIsoFormat} `{!Strftime}.

Definition night_cycle_connections (connections : list Conn.t) (target_date : string)
    : result (list Conn.t * list Conn.t) :=
  target_dt ← fromisoformat target_date;
  next_dt ← add_one_day target_dt;
  let next_day := strftime_ymd next_dt in
  out_of_hours_connections ←
    filterM (λ conn, is_out_of_hours (Conn.timestamp conn)) connections;
  foldM (λ '(target_evening_connections, target_morning_connections) conn,
           let conn_date := date_part (Conn.timestamp conn) in
           conn_dt ← parse_timestamp (Conn.timestamp conn);
           if bool_decide (conn_date = target_date) && (18 <=? hour conn_dt)%Z
           then Ok (target_evening_connections ++ [conn], target_morning_connections)
           else if bool_decide (conn_date = next_day) && (hour conn_dt <? 6)%Z
           then Ok (target_evening_connections, target_morning_connections ++ [conn])
           else Ok (target_evening_connections, target_morning_connections))
        ([], []) out_of_hours_connections.

(** [[conn for conn in l if conn['client_mac'] == mac]] *)
Definition of_device (mac : string) (l : list Conn.t) : list Conn.t :=
  filter (λ conn, Conn.client_mac conn = mac) l.

End NightCycleTest.

(** The two tests of the night cycle, on a connection whose timestamp
    parses: [conn_date == target_date and conn_dt.hour >= 18] and
    [conn_date == next_day and conn_dt.hour < 6]. *)
Section NightCycle.

Context `{!FromIsoFormat} `{!Strftime}.

Definition is_target_evening (target_date : string) (conn : Conn.t) : bool :=
  match hour_of (Conn.timestamp conn) with
  | Some h => bool_decide (date_part (Conn.timestamp conn) = target_date) && (18 <=? h)%Z
  | None => false
  end.

Definition is_target_morning (next_day : string) (conn : Conn.t) : bool :=
  match hour_of (Conn.timestamp conn) with
  | Some h => bool_decide (date_part (Conn.timestamp conn) = next_day) && (h <? 6)%Z
  | None => false
  end.

End NightCycle.

(** ** The baseline of seven nights *)

Local Open Scope Z_scope.

(** [dt - timedelta(days=1)]; before 0001-01-01 it raises
    [OverflowError]. *)
Definition sub_one_day (dt : datetime) : result datetime :=
  let '(y, m, d) :=
    if 1 <? day dt then (year dt, month dt, day dt - 1)
    else if 1 <? month dt
    then (year dt, month dt - 1, days_in_month (year dt) (month dt - 1))
    else (year dt - 1, 12, 31) in
  if y <? 1 then Raise OverflowError
  else Ok {| year := y; month := m; day := d; hour := hour dt;
             minute := minute dt; second := second dt;
             microsecond := microsecond dt; tzinfo := tzinfo dt |}.

(** [dt - timedelta(days=i)] *)
Fixpoint sub_days (i : nat) (dt : datetime) : result datetime :=
  match i with
  | O => Ok dt
  | S i => dt' ← sub_days i dt; sub_one_day dt'
  end.

Section Baseline.

Context {World : Type} `{!Dashboard World} `{!FromIsoFormat} `{!Strftime}.

(** The body of the loop of [get_comprehensive_baseline_events] for the
    day [i] days before the target date: the evening of that day and the
    morning of the next. *)
Definition baseline_night (fuel : nat) (network_id : string) (target_dt : datetime)
    (i : nat) (all_baseline_events : list (gmap string string)) (w : World)
    : option (result (list (gmap string string)) * World) :=
  match (day_dt ← sub_days i target_dt;
         next_day_dt ← add_one_day day_dt;
         Ok (day_dt, next_day_dt)) with
  | Raise e => Some (Raise e, w)
  | Ok (day_dt, next_day_dt) =>
      let evening_start := strftime_ymd day_dt +:+ "T18:00:00.000Z" in
      let evening_end := strftime_ymd day_dt +:+ "T23:59:59.999Z" in
      let morning_start := strftime_ymd next_day_dt +:+ "T00:00:00.000Z" in
      let morning_end := strftime_ymd next_day_dt +:+ "T05:59:59.999Z" in
      '(evening_events, w) ←
        get_client_events fuel network_id evening_start evening_end w;
      let all_baseline_events := all_baseline_events ++ evening_events in
      '(morning_events, w) ←
        get_client_events fuel network_id morning_start morning_end w;
      Some (Ok (all_baseline_events ++ morning_events), w)
  end.

(** The loop over the days. *)
Fixpoint baseline_nights (fuel : nat) (network_id : string) (target_dt : datetime)
    (days : list nat) (all_baseline_events : list (gmap string string)) (w : World)
    : option (result (list (gmap string string)) * World) :=
  match days with
  | [] => Some (Ok all_baseline_events, w)
  | i :: days =>
      match baseline_night fuel network_id target_dt i all_baseline_events w with
      | Some (Ok all_baseline_events, w) =>
          baseline_nights fuel network_id target_dt days all_baseline_events w
      | Some (Raise e, w) => Some (Raise e, w)
      | None => None
      end
  end.

(** [get_comprehensive_baseline_events]: the days are [range(7, 0, -1)];
    [fuel] bounds the pages of every collection. *)
Definition get_comprehensive_baseline_events (fuel : nat)
    (network_id investigation_date : string) (w : World)
    : option (result (list (gmap string string)) * World) :=
  match fromisoformat investigation_date with
  | Raise e => Some (Raise e, w)
  | Ok target_dt =>
      baseline_nights fuel network_id target_dt [7; 6; 5; 4; 3; 2; 1]%nat [] w
  end.

End Baseline.

(** The window of a baseline event: the evening of the day [k] days
    before the target date, from 1 to 7, or the morning of the day after
    that day, which is the day [k - 1] days before the target date. *)
Definition in_baseline_night `{!Strftime} (target_dt : datetime)
    (event : gmap string string) : Prop :=
  ∃ k day_dt next_day_dt,
    (1 ≤ k ≤ 7)%nat
    ∧ sub_days k target_dt = Ok day_dt
    ∧ sub_days (k - 1) target_dt = Ok next_day_dt
    ∧ (in_window (strftime_ymd day_dt +:+ "T18:00:00.000Z")
         (strftime_ymd day_dt +:+ "T23:59:59.999Z") event = true
       ∨ in_window (strftime_ymd next_day_dt +:+ "T00:00:00.000Z")
           (strftime_ymd next_day_dt +:+ "T05:59:59.999Z") event = true).

(** ** Further scenarios *)

(** Five devices around the night of 2025-06-23: AA:AA is seen on two
    evenings of the baseline and not on the target night; EE:EE on two
    evenings of the baseline and on the morning after the target date;
    DD:DD once, on a morning of the baseline; CC:CC from 09:00 to 19:30 on
    the target date; BB:BB on the target evening only. *)
Definition mixed_scenario : list Conn.t :=
  [ conn_at "2025-06-20T22:00:00.000Z" "AA:AA";
    conn_at "2025-06-21T23:00:00.000Z" "AA:AA";
    conn_at "2025-06-21T20:00:00.000Z" "EE:EE";
    conn_at "2025-06-22T02:00:00.000Z" "DD:DD";
    conn_at "2025-06-22T20:00:00.000Z" "EE:EE";
    conn_at "2025-06-23T09:00:00.000Z" "CC:CC";
    conn_at "2025-06-23T19:30:00.000Z" "CC:CC";
    conn_at "2025-06-23T21:00:00.000Z" "BB:BB";
    conn_at "2025-06-24T01:00:00.000Z" "EE:EE" ].

(** The mixed scenario with the connections of the other devices
    removed or moved: those of BB:BB are the same. *)
Definition lone_scenario : list Conn.t :=
  [ conn_at "2025-06-23T21:00:00.000Z" "BB:BB";
    conn_at "2025-06-22T20:00:00.000Z" "EE:EE" ].

(** A raw event of the provider. *)
Definition event_at (occurred mac type : string) : gmap string string :=
  {[ "occurredAt" := occurred; "clientMac" := mac; "type" := type ]}.

(** A provider that answers a request for the events before 2025-06-23
    with a full page, whose last event occurred at 21:00 the day before,
    and any other request with two events, at 20:00 and at 17:00 that
    day; the world counts the requests. *)
Definition full_page : list (gmap string string) :=
  replicate 999 (event_at "2025-06-22T22:00:00.000Z" "AA:AA" "association")
  ++ [event_at "2025-06-22T21:00:00.000Z" "BB:BB" "association"].

Definition short_page : list (gmap string string) :=
  [ event_at "2025-06-22T20:00:00.000Z" "CC:CC" "association";
    event_at "2025-06-22T17:00:00.000Z" "DD:DD" "association" ].

Definition paging_provider : Dashboard nat :=
  λ network_id request requests,
    (Ok (Some (if bool_decide (endingBefore request = Some "2025-06-22T23:59:59.999Z")
               then full_page else short_page)),
     S requests).

(** A provider without any event. *)
Definition silent_provider : Dashboard nat :=
  λ network_id request requests, (Ok (Some []), S requests).

(** A provider with one event, at 19:00 on 2025-06-20, that it sends
    whatever the request. *)
Definition echo_provider : Dashboard nat :=
  λ network_id request requests,
    (Ok (Some [event_at "2025-06-20T19:00:00.000Z" "AA:AA" "association"]), S requests).

(** The analysis of the mixed scenario, for the night of 2025-06-23. *)
Definition mixed_analysis : state := analysis_of mixed_scenario "2025-06-23".

(** The extended-session report of a scenario. *)
Definition extended_sessions_of (connections : list Conn.t) (target_date : string)
    : list Ext.t :=
  ok_or [] (analyze_extended_sessions (H := iso_parse) "2025-07-01" connections target_date).

(** The evening and the morning connections of the night-cycle test on a
    scenario. *)
Definition night_cycle_of (connections : list Conn.t) (target_date : string)
    : list Conn.t * list Conn.t :=
  ok_or ([], []) (night_cycle_connections (H := iso_parse) connections target_date).

(** The events of a collection that returns. *)
Definition collected {World : Type}
    (run : option (list (gmap string string) * World)) : list (gmap string string) :=
  match run with
  | Some (events, _) => events
  | None => []
  end.

Definition collected_baseline {World : Type}
    (run : option (result (list (gmap string string)) * World))
    : list (gmap string string) :=
  match run with
  | Some (Ok events, _) => events
  | _ => []
  end.

(** Midnight of 2025-06-23, as [fromisoformat] reads the date. *)
Definition midnight_2025_06_23 : datetime :=
  {| year := 2025; month := 6; day := 23; hour := 0; minute := 0; second := 0;
     microsecond := 0; tzinfo := None |}.

(** A connection on the morning of 0500-06-24, for the target date
    0500-06-23. *)
Definition early_scenario : list Conn.t :=
  [ conn_at "0500-06-24T01:00:00.000Z" "EE:EE" ].

(** ** Properties *)

Section HourClassifiers.

Context `{!FromIsoFormat} `{!Strftime}.

(** *** The hour classifiers *)

Lemma is_out_of_hours_eq timestamp :
  is_out_of_hours timestamp = Ok (out_of_hours timestamp).
Proof.
  unfold is_out_of_hours, out_of_hours, hour_of.
  by destruct (parse_timestamp timestamp).
Qed.

Lemma is_business_hours_eq timestamp :
  is_business_hours timestamp = Ok (business_hours timestamp).
Proof.
  unfold is_business_hours, business_hours, hour_of.
  by destruct (parse_timestamp timestamp).
Qed.

(** C9. For every input string [is_out_of_hours] and [is_business_hours]
    return a boolean and never raise, and on a timestamp that fails to parse
    both return [False]. *)
Theorem hour_classifiers_fail_soft (timestamp : string) :
  (∃ b, is_out_of_hours timestamp = Ok b)
  ∧ (∃ b, is_business_hours timestamp = Ok b)
  ∧ (∀ e, parse_timestamp timestamp = Raise e →
       is_out_of_hours timestamp = Ok false
       ∧ is_business_hours timestamp = Ok false).
Proof.
  split; [by eexists; apply is_out_of_hours_eq|].
  split; [by eexists; apply is_business_hours_eq|].
  intros e He.
  unfold is_out_of_hours, is_business_hours.
  by rewrite He.
Qed.

End HourClassifiers.

(** *** Event deduplication *)

Lemma foldl_deduplicate_step l : ∀ seen out,
  (foldl deduplicate_step (seen, out) l).2 = out ++ first_occurrences seen l.
Proof.
  induction l as [|e l IH]; intros seen out; simpl.
  - by rewrite app_nil_r.
  - case_decide; rewrite IH; [by rewrite <- app_assoc|done].
Qed.

Lemma deduplicate_events_eq l : deduplicate_events l = first_occurrences ∅ l.
Proof. unfold deduplicate_events. by rewrite foldl_deduplicate_step. Qed.

Lemma first_occurrences_sublist l : ∀ seen, first_occurrences seen l `sublist_of` l.
Proof.
  induction l as [|e l IH]; intros seen; simpl; [done|].
  case_decide; [by apply sublist_skip|by apply sublist_cons].
Qed.

Lemma first_occurrences_fresh l : ∀ seen e,
  e ∈ first_occurrences seen l → event_key e ∉ seen.
Proof.
  induction l as [|x l IH]; intros seen e; simpl; [by intros ?%elem_of_nil|].
  case_decide as Hx.
  - intros [->|He]%elem_of_cons; [done|]. apply IH in He. set_solver.
  - apply IH.
Qed.

Lemma first_occurrences_NoDup l : ∀ seen,
  NoDup (event_key <$> first_occurrences seen l).
Proof.
  induction l as [|x l IH]; intros seen; simpl; [constructor|].
  case_decide as Hx; [|apply IH].
  rewrite fmap_cons. constructor; [|apply IH].
  intros (e & He & Hin)%list_elem_of_fmap.
  pose proof (first_occurrences_fresh _ _ _ Hin) as Hf.
  apply Hf. rewrite <- He. apply elem_of_union_l. by apply elem_of_singleton.
Qed.

Lemma first_occurrences_complete l : ∀ seen e,
  e ∈ l → event_key e ∈ seen ∨ event_key e ∈ event_key <$> first_occurrences seen l.
Proof.
  induction l as [|x l IH]; intros seen e; simpl; [by intros ?%elem_of_nil|].
  intros [->|He]%elem_of_cons.
  - case_decide as Hx.
    + right. rewrite fmap_cons. apply elem_of_cons. by left.
    + left. by destruct (decide (event_key x ∈ seen)).
  - case_decide as Hx.
    + destruct (IH ({[event_key x]} ∪ seen) e He) as [Hs|Hs].
      * apply elem_of_union in Hs as [Hs|Hs]; [|by left].
        right. apply elem_of_singleton in Hs. rewrite Hs, fmap_cons.
        apply elem_of_cons. by left.
      * right. rewrite fmap_cons. apply elem_of_cons. by right.
    + by apply IH.
Qed.

Lemma first_occurrences_first l : ∀ seen e,
  e ∈ first_occurrences seen l →
  ∃ l1 l2, l = l1 ++ e :: l2 ∧ event_key e ∉ event_key <$> l1.
Proof.
  induction l as [|x l IH]; intros seen e; simpl; [by intros ?%elem_of_nil|].
  case_decide as Hx.
  - intros [->|He]%elem_of_cons.
    + exists [], l. split; [done|]. simpl. apply not_elem_of_nil.
    + pose proof (first_occurrences_fresh _ _ _ He) as Hfresh.
      destruct (IH _ _ He) as (l1 & l2 & -> & Hl1).
      exists (x :: l1), l2. split; [done|].
      rewrite fmap_cons. apply not_elem_of_cons. split; [|done].
      intros Heq. apply Hfresh. rewrite Heq.
      apply elem_of_union_l. by apply elem_of_singleton.
  - intros He. pose proof (first_occurrences_fresh _ _ _ He) as Hfresh.
    destruct (IH _ _ He) as (l1 & l2 & -> & Hl1).
    exists (x :: l1), l2. split; [done|].
    rewrite fmap_cons. apply not_elem_of_cons. split; [|done].
    intros Heq. apply Hfresh. by rewrite Heq.
Qed.

Lemma first_occurrences_idemp l : ∀ seen,
  first_occurrences seen (first_occurrences seen l) = first_occurrences seen l.
Proof.
  induction l as [|x l IH]; intros seen; simpl; [done|].
  case_decide as Hx; [|apply IH].
  simpl. rewrite decide_True by done. by rewrite IH.
Qed.

Lemma event_key_same_key a b : event_key a = event_key b ↔ same_key a b.
Proof.
  unfold event_key, same_key. split; [by intros [= -> -> ->]|by intros (-> & -> & ->)].
Qed.

(** C7. Event deduplication keeps, for every [(timestamp, mac, type)] key,
    exactly the first occurrence in arrival order and discards every
    repeat: the result is a subsequence of the input; no two of its events
    have the same timestamp, MAC and type; every event of the input has
    its timestamp, MAC and type on an event of the result, so that events
    that differ in one of the three are kept apart; every event of the
    result comes before every other event of the input with its timestamp,
    MAC and type; and deduplicating the result again changes nothing. *)
Theorem deduplicate_events_first_occurrence (all_events : list (gmap string string)) :
  let deduplicated_events := deduplicate_events all_events in
  deduplicated_events `sublist_of` all_events
  ∧ (∀ i j a b,
       deduplicated_events !! i = Some a → deduplicated_events !! j = Some b →
       same_key a b → i = j)
  ∧ (∀ e, e ∈ all_events → ∃ e', e' ∈ deduplicated_events ∧ same_key e' e)
  ∧ (∀ e, e ∈ deduplicated_events →
       ∃ l1 l2, all_events = l1 ++ e :: l2 ∧ ∀ e', e' ∈ l1 → ¬ same_key e' e)
  ∧ deduplicate_events deduplicated_events = deduplicated_events.
Proof.
  cbv zeta. rewrite !deduplicate_events_eq.
  split; [apply first_occurrences_sublist|].
  split.
  { intros i j a b Ha Hb Hkey%event_key_same_key.
    pose proof (first_occurrences_NoDup all_events ∅) as Hnd.
    apply (proj1 (NoDup_alt _) Hnd i j (event_key a)).
    - by rewrite list_lookup_fmap, Ha.
    - by rewrite list_lookup_fmap, Hb, Hkey. }
  split.
  { intros e He. destruct (first_occurrences_complete _ ∅ _ He) as [Hs|Hs].
    - by apply not_elem_of_empty in Hs.
    - apply list_elem_of_fmap in Hs as (e' & Hkey & He').
      exists e'. split; [done|]. by apply event_key_same_key. }
  split.
  { intros e He. destruct (first_occurrences_first _ _ _ He) as (l1 & l2 & -> & Hl1).
    exists l1, l2. split; [done|]. intros e' He' Hkey%event_key_same_key.
    apply Hl1. rewrite <- Hkey. apply list_elem_of_fmap. by exists e'. }
  apply first_occurrences_idemp.
Qed.

(** *** Dictionaries, loops and sorting *)

Section Containers.

Context {V : Type}.
Implicit Types (d : list (string * V)) (k : string) (f : V → V).

Lemma dict_lookup_setdefault_alter k k' dflt f d :
  dict_lookup k' (setdefault_alter k dflt f d)
  = if decide (k = k') then Some (f (default dflt (dict_lookup k d)))
    else dict_lookup k' d.
Proof.
  induction d as [|[k0 v] d IH]; simpl.
  - repeat case_decide; congruence.
  - destruct (decide (k0 = k)) as [->|Hne]; simpl.
    + repeat case_decide; congruence.
    + rewrite IH. repeat case_decide; congruence.
Qed.

Lemma setdefault_alter_keys k dflt f d :
  (setdefault_alter k dflt f d).*1
  = if decide (k ∈ d.*1) then d.*1 else d.*1 ++ [k].
Proof.
  induction d as [|[k0 v] d IH].
  - destruct (decide (k ∈ ([] : list (string * V)).*1)) as [Hin|_]; [|done].
    by apply elem_of_nil in Hin.
  - cbn [setdefault_alter]. rewrite !fmap_cons. cbn [fst].
    destruct (decide (k0 = k)) as [->|Hne].
    + rewrite fmap_cons, decide_True; [done|]. apply elem_of_cons. by left.
    + rewrite fmap_cons, IH. cbn [fst]. destruct (decide (k ∈ d.*1)) as [Hin|Hin].
      * rewrite decide_True; [done|]. apply elem_of_cons. by right.
      * rewrite decide_False; [done|].
        intros [?|?]%elem_of_cons; congruence.
Qed.

Lemma setdefault_alter_NoDup k dflt f d :
  NoDup d.*1 → NoDup (setdefault_alter k dflt f d).*1.
Proof.
  intros Hd. rewrite setdefault_alter_keys. case_decide; [done|].
  apply NoDup_app. split; [done|]. split; [|apply NoDup_singleton].
  intros x Hx ->%list_elem_of_singleton. done.
Qed.

Lemma dict_lookup_None k d : dict_lookup k d = None ↔ k ∉ d.*1.
Proof.
  induction d as [|[k0 v] d IH]; simpl.
  - split; [intros _; apply not_elem_of_nil|done].
  - case_decide as Hk.
    + split; [done|]. intros Hn. exfalso. apply Hn, elem_of_cons. by left.
    + rewrite IH, not_elem_of_cons. split; [by intros ?|by intros [_ ?]].
Qed.

Lemma dict_lookup_Some k v d :
  NoDup d.*1 → dict_lookup k d = Some v ↔ (k, v) ∈ d.
Proof.
  induction d as [|[k0 v0] d IH]; simpl; intros Hd.
  - split; [done|by intros ?%elem_of_nil].
  - apply NoDup_cons in Hd as [Hk0 Hd]. case_decide as Hk.
    + subst k0. split.
      * intros [= ->]. apply elem_of_cons. by left.
      * intros [[= ->]|Hin]%elem_of_cons; [done|].
        exfalso. apply Hk0. apply list_elem_of_fmap. by exists (k, v).
    + rewrite IH by done. rewrite elem_of_cons. split; [by right|].
      intros [[= ? ?]|?]; [congruence|done].
Qed.

End Containers.

(** The loop [for x in l: r = body(x); if r: out.append(r)] returns when
    every body does, with the records of the bodies in order. *)
Lemma foldM_collect {A B} (body : A → result (option B)) (l : list A) :
  ∀ (acc out : list B),
  foldM (λ acc x, r ← body x;
                  Ok (match r with Some d => acc ++ [d] | None => acc end)) acc l
  = Ok out →
  ∃ rs, Forall2 (λ x r, body x = Ok r) l rs ∧ out = acc ++ omap id rs.
Proof.
  induction l as [|x l IH]; intros acc out; simpl.
  - intros [= <-]. exists []. split; [constructor|]. by rewrite app_nil_r.
  - destruct (body x) as [r|e] eqn:Hx; simpl; [|done].
    intros (rs & Hrs & ->)%IH.
    exists (r :: rs). split; [by constructor|].
    destruct r; simpl; [by rewrite <- app_assoc|done].
Qed.

Lemma foldM_ext {A S} (f g : S → A → result S) (l : list A) :
  (∀ s x, f s x = g s x) → ∀ s, foldM f s l = foldM g s l.
Proof.
  intros Hfg. induction l as [|x l IH]; intros s; simpl; [done|].
  rewrite Hfg. destruct (g s x); simpl; [apply IH|done].
Qed.

Lemma foldM_collect_elem {A B} (body : A → result (option B)) (l : list A) out :
  foldM (λ acc x, r ← body x;
                  Ok (match r with Some d => acc ++ [d] | None => acc end)) [] l
  = Ok out →
  (∀ x, x ∈ l → ∃ r, body x = Ok r)
  ∧ (∀ d, d ∈ out ↔ ∃ x, x ∈ l ∧ body x = Ok (Some d)).
Proof.
  intros (rs & Hrs & ->)%foldM_collect. simpl. split.
  - intros x Hx. induction Hrs as [|y r l rs Hy Hrs IH]; [by apply elem_of_nil in Hx|].
    apply elem_of_cons in Hx as [->|Hx]; eauto.
  - intros d. induction Hrs as [|y r l rs Hy Hrs IH]; simpl.
    + split; [by intros ?%elem_of_nil|by intros (? & ?%elem_of_nil & _)].
    + destruct r as [b|]; simpl.
      * rewrite elem_of_cons, IH. split.
        -- intros [->|(x & Hx & Hb)].
           ++ exists y. split; [apply elem_of_cons; by left|done].
           ++ exists x. split; [apply elem_of_cons; by right|done].
        -- intros (x & [->|Hx]%elem_of_cons & Hb).
           ++ left. congruence.
           ++ right. eauto.
      * rewrite IH. split.
        -- intros (x & Hx & Hb). exists x. split; [apply elem_of_cons; by right|done].
        -- intros (x & [->|Hx]%elem_of_cons & Hb); [congruence|eauto].
Qed.

Lemma filterM_Ok {A} (p : A → result bool) (q : A → bool) (l : list A) :
  (∀ x, p x = Ok (q x)) → filterM p l = Ok (filter (λ x, q x = true) l).
Proof.
  intros Hp. induction l as [|x l IH]; simpl; [done|].
  rewrite Hp, IH. cbn [mbind result_bind]. rewrite filter_cons.
  destruct (q x); [by rewrite decide_True|by rewrite decide_False].
Qed.

Lemma insert_by_timestamp_Permutation c l : insert_by_timestamp c l ≡ₚ c :: l.
Proof.
  induction l as [|x l IH]; simpl; [done|].
  destruct (String.leb _ _); [done|]. rewrite IH. apply Permutation_swap.
Qed.

Lemma sort_by_timestamp_Permutation l : sort_by_timestamp l ≡ₚ l.
Proof.
  induction l as [|x l IH]; simpl; [done|].
  rewrite insert_by_timestamp_Permutation. by constructor.
Qed.

Lemma sort_by_timestamp_length l : length (sort_by_timestamp l) = length l.
Proof. by rewrite sort_by_timestamp_Permutation. Qed.

Lemma sort_by_timestamp_elem c l : c ∈ sort_by_timestamp l ↔ c ∈ l.
Proof. by rewrite sort_by_timestamp_Permutation. Qed.

Lemma string_leb_trans s1 : ∀ s2 s3,
  String.leb s1 s2 = true → String.leb s2 s3 = true → String.leb s1 s3 = true.
Proof.
  unfold String.leb.
  induction s1 as [|c1 s1 IH]; intros [|c2 s2] [|c3 s3]; cbn [String.compare]; try done.
  unfold Ascii.compare.
  destruct (N.compare_spec (N_of_ascii c1) (N_of_ascii c2)) as [H12|H12|H12];
    destruct (N.compare_spec (N_of_ascii c2) (N_of_ascii c3)) as [H23|H23|H23];
    try done.
  - rewrite H12, H23, N.compare_refl. apply IH.
  - rewrite H12. by rewrite (proj2 (N.compare_lt_iff _ _) H23).
  - rewrite <- H23. by rewrite (proj2 (N.compare_lt_iff _ _) H12).
  - by rewrite (proj2 (N.compare_lt_iff _ _) (N.lt_trans _ _ _ H12 H23)).
Qed.

Lemma string_leb_refl s : String.leb s s = true.
Proof. by destruct (String.leb_total s s). Qed.

Lemma string_leb_eq s1 s2 :
  String.leb s1 s2 = true → String.leb s2 s1 = true → s1 = s2.
Proof. apply String.leb_antisym. Qed.

Lemma insert_by_timestamp_sorted c l :
  StronglySorted timestamp_le l → StronglySorted timestamp_le (insert_by_timestamp c l).
Proof.
  induction 1 as [|x l Hl IH Hx]; cbn [insert_by_timestamp].
  - repeat constructor.
  - destruct (String.leb (Conn.timestamp c) (Conn.timestamp x)) eqn:Hc.
    + constructor; [by constructor|]. constructor; [done|].
      eapply Forall_impl; [done|]. intros y Hy. by eapply string_leb_trans.
    + constructor; [done|].
      assert (timestamp_le x c) as Hxc.
      { unfold timestamp_le.
        destruct (String.leb_total (Conn.timestamp c) (Conn.timestamp x)); congruence. }
      rewrite (insert_by_timestamp_Permutation c l). by constructor.
Qed.

(** The sort of the model is the sort of the code: its result is in the
    order of the timestamps, and connections with the same timestamp keep
    their order. *)
Lemma sort_by_timestamp_sorted l : StronglySorted timestamp_le (sort_by_timestamp l).
Proof.
  induction l as [|c l IH]; cbn; [constructor|]. by apply insert_by_timestamp_sorted.
Qed.

Lemma insert_by_timestamp_stable k c l :
  filter (λ x, Conn.timestamp x = k) (insert_by_timestamp c l)
  = filter (λ x, Conn.timestamp x = k) (c :: l).
Proof.
  induction l as [|x l IH]; cbn [insert_by_timestamp]; [done|].
  destruct (String.leb (Conn.timestamp c) (Conn.timestamp x)) eqn:Hc; [done|].
  rewrite filter_cons, IH, !filter_cons.
  destruct (decide (Conn.timestamp x = k)) as [Hx|Hx]; [|done].
  destruct (decide (Conn.timestamp c = k)) as [Hck|Hck]; [|done].
  exfalso. rewrite Hx, Hck in Hc.
  destruct (String.leb_total k k); congruence.
Qed.

Lemma sort_by_timestamp_stable k l :
  filter (λ x, Conn.timestamp x = k) (sort_by_timestamp l)
  = filter (λ x, Conn.timestamp x = k) l.
Proof.
  induction l as [|c l IH]; cbn [sort_by_timestamp foldr]; [done|].
  rewrite insert_by_timestamp_stable, !filter_cons.
  fold (sort_by_timestamp l). rewrite IH. done.
Qed.

(** In a sorted list the first connection has the least timestamp and the
    last one the greatest. *)
Lemma sorted_head_min (l : list Conn.t) c0 :
  StronglySorted timestamp_le l → head l = Some c0 →
  ∀ c, c ∈ l → timestamp_le c0 c.
Proof.
  intros Hl Hhead c Hc. destruct Hl as [|x l Hl Hx]; [done|].
  cbn in Hhead. injection Hhead as ->.
  apply elem_of_cons in Hc as [->|Hc]; [apply string_leb_refl|].
  rewrite Forall_forall in Hx. by apply Hx.
Qed.

Lemma sorted_last_max (l : list Conn.t) cN :
  StronglySorted timestamp_le l → last l = Some cN →
  ∀ c, c ∈ l → timestamp_le c cN.
Proof.
  induction 1 as [|x l Hl IH Hx]; intros Hlast c Hc; [by apply elem_of_nil in Hc|].
  destruct l as [|y l].
  - cbn in Hlast. injection Hlast as <-.
    apply list_elem_of_singleton in Hc as ->. apply string_leb_refl.
  - change (last (x :: y :: l)) with (last (y :: l)) in Hlast.
    apply elem_of_cons in Hc as [->|Hc]; [|by apply IH].
    rewrite Forall_forall in Hx. apply Hx. by apply last_Some_elem_of.
Qed.

(** *** The grouping by MAC of the detectors *)

Section Grouping.

Context `{!FromIsoFormat} `{!Strftime}.

Lemma group_target_day_snoc connections conn target_date :
  group_target_day (connections ++ [conn]) target_date
  = let g := group_target_day connections target_date in
    if bool_decide (date_part (Conn.timestamp conn) = target_date)
       && truthy (Conn.client_mac conn)
    then setdefault_alter (Conn.client_mac conn) [] (λ l, l ++ [conn]) g
    else g.
Proof. unfold group_target_day. by rewrite foldl_app. Qed.

Lemma group_target_day_NoDup connections target_date :
  NoDup (group_target_day connections target_date).*1.
Proof.
  induction connections as [|conn connections IH] using rev_ind; [constructor|].
  rewrite group_target_day_snoc. cbv zeta.
  destruct (_ && _); [by apply setdefault_alter_NoDup|done].
Qed.

Lemma group_target_day_lookup connections target_date mac :
  dict_lookup mac (group_target_day connections target_date)
  = let l := filter (λ conn, date_part (Conn.timestamp conn) = target_date
                             ∧ Conn.client_mac conn = mac) connections in
    if truthy mac && bool_decide (l ≠ []) then Some l else None.
Proof.
  induction connections as [|conn connections IH] using rev_ind.
  - cbn. by rewrite andb_false_r.
  - rewrite group_target_day_snoc. cbv zeta in *.
    rewrite filter_app, filter_cons, filter_nil.
    destruct (decide (date_part (Conn.timestamp conn) = target_date
                      ∧ Conn.client_mac conn = mac)) as [[Hd Hm]|Hn].
    + rewrite bool_decide_eq_true_2 by done. subst mac.
      destruct (truthy (Conn.client_mac conn)) eqn:Ht; cbn [andb].
      * rewrite dict_lookup_setdefault_alter, decide_True by done.
        rewrite bool_decide_eq_true_2 by (by intros []%app_eq_nil).
        rewrite IH. case_bool_decide as Hl; [done|].
        destruct (filter _ connections); [done|]. by destruct Hl.
      * done.
    + rewrite app_nil_r. destruct (bool_decide _ && truthy _) eqn:Hb; [|done].
      apply andb_true_iff in Hb as [Hd%bool_decide_eq_true Ht].
      rewrite dict_lookup_setdefault_alter, decide_False; [done|].
      intros Hm. by apply Hn.
Qed.

Lemma group_target_day_elem connections target_date mac conns :
  (mac, conns) ∈ group_target_day connections target_date →
  truthy mac = true
  ∧ conns = filter (λ conn, date_part (Conn.timestamp conn) = target_date
                            ∧ Conn.client_mac conn = mac) connections.
Proof.
  intros Hin. apply dict_lookup_Some in Hin; [|apply group_target_day_NoDup].
  rewrite group_target_day_lookup in Hin. cbv zeta in Hin.
  destruct (truthy mac); [|done]. simpl in Hin.
  case_bool_decide; by simplify_eq.
Qed.

End Grouping.

(** *** Binary64 arithmetic *)

Section Rounding.

Local Open Scope Z_scope.

Lemma pow2_pos n : 0 ≤ n → 0 < 2 ^ n.
Proof. intros. by apply Z.pow_pos_nonneg. Qed.

Lemma rne_ge num den K : 0 < den → K * den ≤ num → K ≤ rne num den.
Proof.
  intros Hden Hle. unfold rne.
  pose proof (Z.div_mod num den ltac:(lia)) as Hdm.
  pose proof (Z.mod_pos_bound num den Hden) as Hr.
  assert (K ≤ num / den) by nia.
  repeat case_match; lia.
Qed.

Lemma rne_le num den K : 0 < den → num ≤ K * den → rne num den ≤ K.
Proof.
  intros Hden Hle. unfold rne.
  pose proof (Z.div_mod num den ltac:(lia)) as Hdm.
  pose proof (Z.mod_pos_bound num den Hden) as Hr.
  destruct (Z.ltb_spec (2 * (num mod den)) den) as [H1|H1]; [nia|].
  assert (num / den + 1 ≤ K) by nia.
  repeat case_match; lia.
Qed.

(** A comparison of [X] with [a / (d * 2^e)], on a common scale. *)
Lemma scaled_le_iff X a d e M :
  0 ≤ M → - e ≤ M →
  X * scale_den d e ≤ scale_num a e ↔ X * d * 2 ^ (M + e) ≤ a * 2 ^ M.
Proof.
  intros HM HeM. unfold scale_den, scale_num.
  destruct (Z.le_gt_cases 0 e) as [He|He].
  - rewrite (Z.max_r 0 e), (Z.max_l 0 (- e)), Z.pow_add_r, Z.pow_0_r by lia.
    pose proof (pow2_pos M HM). pose proof (pow2_pos e He). nia.
  - rewrite (Z.max_l 0 e), (Z.max_r 0 (- e)), Z.pow_0_r by lia.
    replace M with ((M + e) + - e) at 2 by lia.
    rewrite (Z.pow_add_r 2 (M + e) (- e)) by lia.
    pose proof (pow2_pos (M + e) ltac:(lia)). pose proof (pow2_pos (- e) ltac:(lia)). nia.
Qed.

Lemma scaled_lt_iff X a d e M :
  0 ≤ M → - e ≤ M →
  scale_num a e < X * scale_den d e ↔ a * 2 ^ M < X * d * 2 ^ (M + e).
Proof.
  intros HM HeM. pose proof (scaled_le_iff X a d e M HM HeM). lia.
Qed.

(** The exponent of [round_pos] puts the quotient in [[2^52, 2^53)]. *)
Lemma round_pos_binade a d :
  0 < a → 0 < d →
  2 ^ 52 * scale_den d (fe (round_pos a d)) ≤ scale_num a (fe (round_pos a d))
  ∧ scale_num a (fe (round_pos a d)) < 2 ^ 53 * scale_den d (fe (round_pos a d)).
Proof.
  intros Ha Hd. unfold round_pos. cbv zeta. cbn [fe].
  pose proof (Z.log2_spec a Ha) as [Ha1 Ha2].
  pose proof (Z.log2_spec d Hd) as [Hd1 Hd2].
  pose proof (Z.log2_nonneg a) as Hla. pose proof (Z.log2_nonneg d) as Hld.
  set (la := Z.log2 a) in *. set (ld := Z.log2 d) in *.
  set (e0 := la - ld - 53).
  assert (0 ≤ ld + 53) as HM by lia.
  rewrite !Z.pow_succ_r in * by lia.
  pose proof (pow2_pos la Hla) as Hpla. pose proof (pow2_pos ld Hld) as Hpld.
  assert (2 ^ (ld + 53) = 2 ^ ld * 2 ^ 53) as HpM by (by rewrite Z.pow_add_r by lia).
  (* the bounds at [e0] and at [e0 + 1], on the scale [M = ld + 53] *)
  assert (2 ^ 52 * scale_den d e0 ≤ scale_num a e0) as HA.
  { apply (scaled_le_iff _ _ _ _ (ld + 53)); [lia|unfold e0; lia|].
    replace (ld + 53 + e0) with la by (unfold e0; lia). rewrite HpM. nia. }
  assert (scale_num a (e0 + 1) < 2 ^ 53 * scale_den d (e0 + 1)) as HB.
  { apply (scaled_lt_iff _ _ _ _ (ld + 53)); [lia|unfold e0; lia|].
    replace (ld + 53 + (e0 + 1)) with (la + 1) by (unfold e0; lia).
    rewrite HpM, Z.pow_add_r, Z.pow_1_r by lia. nia. }
  destruct (Z.leb_spec (2 ^ 52 * scale_den d (e0 + 1)) (scale_num a (e0 + 1))) as [Ht|Ht].
  - done.
  - split; [done|].
    apply (scaled_lt_iff _ _ _ _ (ld + 53)); [lia|unfold e0; lia|].
    apply (scaled_lt_iff _ _ _ _ (ld + 53)) in Ht; [|lia|unfold e0; lia].
    replace (ld + 53 + (e0 + 1)) with ((ld + 53 + e0) + 1) in Ht by lia.
    rewrite (Z.pow_add_r 2 (ld + 53 + e0) 1) in Ht by (unfold e0; lia).
    change (2 ^ 1) with 2 in Ht. nia.
Qed.

Lemma scale_den_pos d e : 0 < d → 0 < scale_den d e.
Proof. intros. unfold scale_den. pose proof (pow2_pos (Z.max 0 e) ltac:(lia)). nia. Qed.

Lemma round_pos_fm_ge a d : 0 < a → 0 < d → 2 ^ 52 ≤ fm (round_pos a d).
Proof.
  intros Ha Hd. destruct (round_pos_binade a d Ha Hd) as [Hlo _].
  unfold round_pos in *. cbv zeta in *. cbn [fm fe] in *.
  apply rne_ge; [by apply scale_den_pos|done].
Qed.

(** Rounding does not cross an integer below [2^53]. *)
Lemma round_pos_le_int a d N :
  0 < a → 0 < d → N < 2 ^ 53 → a ≤ N * d →
  scale_den (fm (round_pos a d)) (fe (round_pos a d))
  ≤ scale_num N (fe (round_pos a d)).
Proof.
  intros Ha Hd HN HaN. destruct (round_pos_binade a d Ha Hd) as [Hlo _].
  unfold round_pos in *. cbv zeta in *. cbn [fm fe] in *.
  match goal with |- context [rne (scale_num a ?e0) _] => set (e := e0) in * end.
  assert (e ≤ 0) as He.
  { destruct (Z.le_gt_cases e 0) as [|He]; [done|]. exfalso.
    unfold scale_den, scale_num in Hlo.
    rewrite (Z.max_r 0 e), (Z.max_l 0 (- e)), Z.pow_0_r in Hlo by lia.
    assert (2 ^ 1 ≤ 2 ^ e) as Hpe by (apply Z.pow_le_mono_r; lia).
    change (2 ^ 1) with 2 in Hpe. rewrite Z.mul_1_r in Hlo.
    assert (2 * d ≤ d * 2 ^ e) as H2 by nia.
    apply (Z.mul_le_mono_nonneg_l _ _ (2 ^ 52)) in H2; [|lia].
    assert (N * d < 2 ^ 53 * d) by (apply Z.mul_lt_mono_pos_r; lia).
    change (2 ^ 53) with (2 ^ 52 * 2) in *. lia. }
  assert (rne (scale_num a e) (scale_den d e) ≤ N * 2 ^ Z.max 0 (- e)) as Hm.
  2: { revert Hm. generalize (rne (scale_num a e) (scale_den d e)). intros m Hm.
       unfold scale_den, scale_num. rewrite (Z.max_l 0 e), Z.pow_0_r by lia. lia. }
  apply rne_le; [by apply scale_den_pos|].
  unfold scale_den, scale_num. rewrite (Z.max_l 0 e), Z.pow_0_r by lia.
  pose proof (pow2_pos (Z.max 0 (- e)) ltac:(lia)). nia.
Qed.

(** Rounding does not cross [K / 2^j] for [K] below [2^52]. *)
Lemma round_pos_ge_dyadic a d K j :
  0 < a → 0 < d → 0 ≤ j → 0 < K < 2 ^ 52 → K * d ≤ a * 2 ^ j →
  K * scale_num 1 (fe (round_pos a d))
  ≤ scale_den (fm (round_pos a d)) (fe (round_pos a d)) * 2 ^ j.
Proof.
  intros Ha Hd Hj HK HKa.
  pose proof (round_pos_fm_ge a d Ha Hd) as Hm.
  unfold round_pos in *. cbv zeta in *. cbn [fm fe] in *.
  match goal with |- context [rne (scale_num a ?e0) _] => set (e := e0) in * end.
  set (m := rne (scale_num a e) (scale_den d e)) in *.
  pose proof (pow2_pos j Hj) as Hpj.
  unfold scale_num at 1. unfold scale_den at 1. rewrite Z.mul_1_l.
  destruct (Z.le_gt_cases 0 e) as [He|He].
  - rewrite (Z.max_r 0 e), (Z.max_l 0 (- e)), Z.pow_0_r by lia.
    pose proof (pow2_pos e He).
    assert (m ≤ m * 2 ^ e) by nia.
    assert (m * 2 ^ e ≤ m * 2 ^ e * 2 ^ j) by nia. lia.
  - rewrite (Z.max_l 0 e), (Z.max_r 0 (- e)), Z.pow_0_r by lia.
    pose proof (pow2_pos (- e) ltac:(lia)) as Hpe.
    destruct (Z.le_gt_cases (- e) j) as [Hej|Hej].
    + replace j with ((j + e) + - e) by lia. rewrite Z.pow_add_r by lia.
      pose proof (pow2_pos (j + e) ltac:(lia)).
      assert (K ≤ m * 1 * 2 ^ (j + e)) by nia.
      rewrite Z.mul_assoc. apply Z.mul_le_mono_nonneg_r; lia.
    + assert (K * 2 ^ (- e - j) ≤ m) as Hge.
      { apply rne_ge; [by apply scale_den_pos|].
        unfold scale_num, scale_den.
        rewrite (Z.max_l 0 e), (Z.max_r 0 (- e)), Z.pow_0_r by lia.
        replace (- e) with ((- e - j) + j) at 2 by lia. rewrite Z.pow_add_r by lia.
        pose proof (pow2_pos (- e - j) ltac:(lia)). nia. }
      replace (- e) with ((- e - j) + j) by lia. rewrite Z.pow_add_r by lia.
      pose proof (pow2_pos (- e - j) ltac:(lia)). nia.
Qed.

Lemma scale_num_opp a e : scale_num a (- e) = scale_den a e.
Proof. unfold scale_num, scale_den. by rewrite Z.opp_involutive. Qed.

Lemma scale_num_pos a e : 0 < a → 0 < scale_num a e.
Proof. intros. unfold scale_num. pose proof (pow2_pos (Z.max 0 (- e)) ltac:(lia)). nia. Qed.

Lemma round_div_pos n d : 0 < n → round_div n d = round_pos n d.
Proof.
  intros Hn. unfold round_div.
  by rewrite (proj2 (Z.eqb_neq n 0)), (proj2 (Z.ltb_lt 0 n)) by lia.
Qed.

Lemma round_div_neg n d :
  n < 0 →
  round_div n d = {| fm := - fm (round_pos (- n) d); fe := fe (round_pos (- n) d) |}.
Proof.
  intros Hn. unfold round_div.
  by rewrite (proj2 (Z.eqb_neq n 0)), (proj2 (Z.ltb_ge 0 n)) by lia.
Qed.

(** The comparison [duration_hours > 8] of the detector is exact: the two
    roundings of [total_seconds() / 3600] do not cross eight hours. *)
Lemma elapsed_hours_gt_8 us :
  float_gt_int (elapsed_hours us) 8 = (eight_hours_us <? us).
Proof.
  unfold elapsed_hours, total_seconds, float_div_int, float_gt_int, eight_hours_us.
  destruct (Z.lt_trichotomy us 0) as [Hneg|[->|Hpos]]; [| done |].
  - (* a negative duration *)
    rewrite (proj2 (Z.ltb_ge (8 * 3600 * 1000000) us)) by lia.
    rewrite (round_div_neg us) by done.
    set (t := round_pos (- us) 1000000).
    pose proof (round_pos_fm_ge (- us) 1000000 ltac:(lia) ltac:(lia)) as Ht. fold t in Ht.
    cbn [fm fe]. rewrite scale_num_opp.
    set (n := scale_den (- fm t) (fe t)).
    set (d := scale_den 3600 (- fe t)).
    assert (n < 0) as Hn.
    { unfold n, scale_den. pose proof (pow2_pos (Z.max 0 (fe t)) ltac:(lia)).
      change (2 ^ 52) with 4503599627370496 in Ht. nia. }
    assert (0 < d) as Hd by (apply scale_den_pos; lia).
    rewrite (round_div_neg n) by done.
    cbn [fm fe]. apply Z.ltb_ge.
    pose proof (round_pos_fm_ge (- n) d ltac:(lia) Hd) as Hx.
    change (2 ^ 52) with 4503599627370496 in Hx.
    pose proof (scale_num_pos 8 (fe (round_pos (- n) d)) ltac:(lia)).
    assert (scale_den (- fm (round_pos (- n) d)) (fe (round_pos (- n) d)) < 0); [|lia].
    unfold scale_den. pose proof (pow2_pos (Z.max 0 (fe (round_pos (- n) d))) ltac:(lia)). nia.
  - (* a positive duration *)
    rewrite (round_div_pos us) by done.
    set (t := round_pos us 1000000).
    pose proof (round_pos_fm_ge us 1000000 Hpos ltac:(lia)) as Ht. fold t in Ht.
    change (2 ^ 52) with 4503599627370496 in Ht.
    rewrite scale_num_opp.
    set (n := scale_den (fm t) (fe t)).
    set (d := scale_den 3600 (- fe t)).
    assert (0 < n) as Hn by (apply scale_den_pos; lia).
    assert (0 < d) as Hd by (apply scale_den_pos; lia).
    assert (d = 3600 * scale_num 1 (fe t)) as Hdq
      by (unfold d, scale_den, scale_num; lia).
    rewrite (round_div_pos n) by done.
    destruct (Z.ltb_spec (8 * 3600 * 1000000) us) as [Hgt|Hle].
    + apply Z.ltb_lt.
      pose proof (round_pos_ge_dyadic us 1000000 30198988801 20 Hpos) as Hlo.
      fold t n in Hlo. change (2 ^ 20) with 1048576 in Hlo.
      change (2 ^ 52) with 4503599627370496 in Hlo.
      specialize (Hlo ltac:(lia) ltac:(lia) ltac:(lia) ltac:(lia)).
      pose proof (round_pos_ge_dyadic n d 34359738369 32 Hn Hd) as Hx.
      change (2 ^ 32) with 4294967296 in Hx. change (2 ^ 52) with 4503599627370496 in Hx.
      specialize (Hx ltac:(lia) ltac:(lia) ltac:(lia)).
      pose proof (scale_num_pos 1 (fe (round_pos n d)) ltac:(lia)).
      unfold scale_num in *. lia.
    + apply Z.ltb_ge.
      pose proof (round_pos_le_int us 1000000 28800 Hpos) as Hup.
      fold t n in Hup. change (2 ^ 53) with 9007199254740992 in Hup.
      specialize (Hup ltac:(lia) ltac:(lia) ltac:(lia)).
      pose proof (round_pos_le_int n d 8 Hn Hd) as Hx.
      change (2 ^ 53) with 9007199254740992 in Hx.
      apply Hx; [lia|]. unfold scale_num in *. lia.
Qed.

(** Rounding to the nearest integer, on the two sides of a half. *)
Lemma rne_gt_half num den T :
  0 < den → (2 * T + 1) * den < 2 * num → T + 1 ≤ rne num den.
Proof.
  intros Hden Hlt. unfold rne.
  pose proof (Z.div_mod num den ltac:(lia)) as Hdm.
  pose proof (Z.mod_pos_bound num den Hden) as Hr.
  destruct (Z.ltb_spec (2 * (num mod den)) den) as [H1|H1].
  - assert (T < num / den) by nia. lia.
  - assert (T ≤ num / den) by nia.
    destruct (Z.ltb_spec den (2 * (num mod den))) as [H2|H2]; [lia|].
    assert (T < num / den) by nia. case_match; lia.
Qed.

Lemma rne_lt_half num den T :
  0 < den → 2 * num < (2 * T - 1) * den → rne num den ≤ T - 1.
Proof.
  intros Hden Hlt. unfold rne.
  pose proof (Z.div_mod num den ltac:(lia)) as Hdm.
  pose proof (Z.mod_pos_bound num den Hden) as Hr.
  assert (num / den ≤ T - 1) by nia.
  destruct (Z.ltb_spec (2 * (num mod den)) den) as [H1|H1]; [done|].
  assert (num / den + 1 ≤ T - 1) by nia.
  repeat case_match; lia.
Qed.

Lemma rne_half num den :
  0 < den →
  2 * rne num den * den - den ≤ 2 * num ≤ 2 * rne num den * den + den.
Proof.
  intros Hden. unfold rne.
  pose proof (Z.div_mod num den ltac:(lia)) as Hdm.
  pose proof (Z.mod_pos_bound num den Hden) as Hr.
  repeat match goal with
         | |- context [?a <? ?b] => destruct (Z.ltb_spec a b)
         end; try case_match; nia.
Qed.

(** Rounding does not cross [K / 2^j] from below either. *)
Lemma round_pos_le_dyadic a d K j :
  0 < a → 0 < d → 0 ≤ j → K < 2 ^ 53 → a * 2 ^ j ≤ K * d →
  scale_den (fm (round_pos a d)) (fe (round_pos a d)) * 2 ^ j
  ≤ K * scale_num 1 (fe (round_pos a d)).
Proof.
  intros Ha Hd Hj HK HaK. destruct (round_pos_binade a d Ha Hd) as [Hlo _].
  unfold round_pos in *. cbv zeta in *. cbn [fm fe] in *.
  match goal with |- context [rne (scale_num a ?e0) _] => set (e := e0) in * end.
  set (m := rne (scale_num a e) (scale_den d e)) in *.
  assert (m = rne (scale_num a e) (scale_den d e)) as Hm by done. clearbody m.
  pose proof (pow2_pos j Hj) as Hpj.
  unfold scale_num, scale_den in *. rewrite Z.mul_1_l.
  destruct (Z.le_gt_cases 0 e) as [He|He].
  - rewrite (Z.max_r 0 e), (Z.max_l 0 (- e)), Z.pow_0_r, ?Z.mul_1_r in * by lia.
    pose proof (pow2_pos e He) as Hpe.
    (* the quotient is at least [2^52 * 2^e], so [e = 0] and [j = 0] *)
    assert (2 ^ 52 * 2 ^ e * 2 ^ j * d ≤ K * d) as Hb by nia.
    assert (2 ^ 52 * 2 ^ e * 2 ^ j ≤ K) as Hb' by nia.
    assert (2 ^ e * 2 ^ j < 2) as Hej.
    { change (2 ^ 53) with (2 ^ 52 * 2) in HK. nia. }
    assert (2 ^ e = 1 ∧ 2 ^ j = 1) as [He1 Hj1] by nia.
    rewrite He1, Hj1, !Z.mul_1_r in *.
    subst m. apply rne_le; lia.
  - rewrite (Z.max_l 0 e), (Z.max_r 0 (- e)), Z.pow_0_r, ?Z.mul_1_r in * by lia.
    pose proof (pow2_pos (- e) ltac:(lia)) as Hpe.
    destruct (Z.le_gt_cases j (- e)) as [Hje|Hje].
    + assert (m ≤ K * 2 ^ (- e - j)) as Hle.
      { subst m. apply rne_le; [lia|].
        replace (2 ^ (- e)) with (2 ^ j * 2 ^ (- e - j))
          by (rewrite <- Z.pow_add_r by lia; f_equal; lia).
        pose proof (pow2_pos (- e - j) ltac:(lia)).
        apply (Z.mul_le_mono_nonneg_r _ _ (2 ^ (- e - j))) in HaK; lia. }
      replace (2 ^ (- e)) with (2 ^ (- e - j) * 2 ^ j)
        by (rewrite <- Z.pow_add_r by lia; f_equal; lia).
      apply (Z.mul_le_mono_nonneg_r _ _ (2 ^ j)) in Hle; lia.
    + exfalso.
      assert (2 ^ j = 2 ^ (- e) * 2 ^ (j + e)) as Hsplit
        by (rewrite <- Z.pow_add_r by lia; f_equal; lia).
      assert (2 ^ 1 ≤ 2 ^ (j + e)) as Hp1 by (apply Z.pow_le_mono_r; lia).
      change (2 ^ 1) with 2 in Hp1.
      assert (2 ^ 52 * 2 * d ≤ K * d) as Hb.
      { rewrite Hsplit in HaK. nia. }
      change (2 ^ 53) with (2 ^ 52 * 2) in HK. nia.
Qed.

Lemma tenths_nonneg x : 0 ≤ fm x → 0 ≤ tenths x.
Proof.
  intros Hx. unfold tenths. cbv zeta.
  rewrite (proj2 (Z.ltb_ge (fm x) 0)) by done.
  apply rne_ge; [by apply scale_num_pos|]. rewrite Z.mul_0_l.
  unfold scale_den. pose proof (pow2_pos (Z.max 0 (fe x)) ltac:(lia)). nia.
Qed.

(** The tenths of the elapsed hours against the exact elapsed time: the two
    roundings of [total_seconds() / 3600] do not cross a half tenth, so the
    digits of [round(duration_hours, 1)] are those of the exact quotient
    unless the quotient is exactly half way. *)
Lemma tenths_elapsed_hours_cross us T :
  0 < us → 0 ≤ T → T < 4000000 →
  ((2 * T + 1) * 360000000 < 2 * us → T + 1 ≤ tenths (elapsed_hours us))
  ∧ (2 * us < (2 * T - 1) * 360000000 → tenths (elapsed_hours us) ≤ T - 1).
Proof.
  intros Hpos HT0 HT.
  unfold elapsed_hours, total_seconds, float_div_int.
  rewrite (round_div_pos us) by done.
  set (t := round_pos us 1000000).
  pose proof (round_pos_fm_ge us 1000000 Hpos ltac:(lia)) as Ht. fold t in Ht.
  change (2 ^ 52) with 4503599627370496 in Ht.
  rewrite scale_num_opp.
  set (n := scale_den (fm t) (fe t)).
  set (d := scale_den 3600 (- fe t)).
  assert (0 < n) as Hn by (apply scale_den_pos; lia).
  assert (0 < d) as Hd by (apply scale_den_pos; lia).
  set (q := scale_num 1 (fe t)).
  assert (0 < q) as Hq by (apply scale_num_pos; lia).
  assert (d = 3600 * q) as Hdq by (unfold d, q, scale_den, scale_num; lia).
  rewrite (round_div_pos n) by done.
  set (x := round_pos n d).
  pose proof (round_pos_fm_ge n d Hn Hd) as Hx. fold x in Hx.
  change (2 ^ 52) with 4503599627370496 in Hx.
  set (qx := scale_num 1 (fe x)).
  assert (0 < qx) as Hqx by (apply scale_num_pos; lia).
  set (px := scale_den (fm x) (fe x)).
  assert (tenths x = rne (10 * px) qx) as Htenths.
  { unfold tenths. cbv zeta. rewrite (proj2 (Z.ltb_ge (fm x) 0)), Z.abs_eq by lia.
    f_equal. unfold px, scale_den. lia. }
  rewrite Htenths. split.
  - intros Hlt.
    set (K0 := 180 * (2 * T + 1) * 1048576 + 1).
    pose proof (round_pos_ge_dyadic us 1000000 K0 20 Hpos) as Hsec.
    fold t n q in Hsec. change (2 ^ 20) with 1048576 in Hsec.
    change (2 ^ 52) with 4503599627370496 in Hsec.
    specialize (Hsec ltac:(lia) ltac:(lia) ltac:(unfold K0; lia) ltac:(unfold K0; lia)).
    set (K1 := (2 * T + 1) * 4294967296 / 20 + 1).
    assert ((2 * T + 1) * 4294967296 < 20 * K1 ≤ (2 * T + 1) * 4294967296 + 20) as HK1.
    { unfold K1. pose proof (Z.div_mod ((2 * T + 1) * 4294967296) 20 ltac:(lia)).
      pose proof (Z.mod_pos_bound ((2 * T + 1) * 4294967296) 20 ltac:(lia)). lia. }
    clearbody K1.
    pose proof (round_pos_ge_dyadic n d K1 32 Hn Hd) as Hh.
    fold x px qx in Hh. change (2 ^ 32) with 4294967296 in Hh.
    change (2 ^ 52) with 4503599627370496 in Hh.
    assert (K1 * d ≤ n * 4294967296) as Hpre.
    { assert (K1 * 3600 ≤ K0 * 4096) as Hk by (unfold K0; lia).
      apply (Z.mul_le_mono_nonneg_r _ _ q) in Hk; [|lia].
      rewrite Hdq. lia. }
    specialize (Hh ltac:(lia) ltac:(lia) Hpre).
    apply rne_gt_half; [done|].
    assert ((2 * T + 1) * 4294967296 * qx < 20 * K1 * qx) as Hk
      by (apply Z.mul_lt_mono_pos_r; lia).
    lia.
  - intros Hlt.
    assert (1 ≤ T) as HT1 by lia.
    set (K0 := 180 * (2 * T - 1) * 1048576 - 1).
    pose proof (round_pos_le_dyadic us 1000000 K0 20 Hpos) as Hsec.
    fold t n q in Hsec. change (2 ^ 20) with 1048576 in Hsec.
    change (2 ^ 53) with 9007199254740992 in Hsec.
    specialize (Hsec ltac:(lia) ltac:(lia) ltac:(unfold K0; lia) ltac:(unfold K0; lia)).
    set (K1 := ((2 * T - 1) * 4294967296 - 1) / 20).
    assert ((2 * T - 1) * 4294967296 - 20 ≤ 20 * K1 < (2 * T - 1) * 4294967296) as HK1.
    { unfold K1. pose proof (Z.div_mod ((2 * T - 1) * 4294967296 - 1) 20 ltac:(lia)).
      pose proof (Z.mod_pos_bound ((2 * T - 1) * 4294967296 - 1) 20 ltac:(lia)). lia. }
    clearbody K1.
    pose proof (round_pos_le_dyadic n d K1 32 Hn Hd) as Hh.
    fold x px qx in Hh. change (2 ^ 32) with 4294967296 in Hh.
    change (2 ^ 53) with 9007199254740992 in Hh.
    assert (n * 4294967296 ≤ K1 * d) as Hpre.
    { assert (K0 * 4096 ≤ K1 * 3600) as Hk by (unfold K0; lia).
      apply (Z.mul_le_mono_nonneg_r _ _ q) in Hk; [|lia].
      rewrite Hdq. lia. }
    specialize (Hh ltac:(lia) ltac:(lia) Hpre).
    apply rne_lt_half; [done|].
    assert (20 * K1 * qx < (2 * T - 1) * 4294967296 * qx) as Hk
      by (apply Z.mul_lt_mono_pos_r; lia).
    lia.
Qed.

(** The number of tenths that [round(duration_hours, 1)] keeps is a nearest
    number of tenths of an hour to the exact elapsed time: it is at most
    0.05 hours away from it. *)
Lemma tenths_elapsed_hours_nearest us :
  0 ≤ us ≤ 1000000000000000 →
  0 ≤ tenths (elapsed_hours us)
  ∧ 360000000 * tenths (elapsed_hours us) - 180000000 ≤ us
    ≤ 360000000 * tenths (elapsed_hours us) + 180000000.
Proof.
  intros [H0 Hmax].
  destruct (Z.eq_dec us 0) as [->|Hne]; [by vm_compute|].
  assert (0 < us) as Hpos by lia.
  assert (0 ≤ tenths (elapsed_hours us)) as Hnn.
  { apply tenths_nonneg. unfold elapsed_hours, total_seconds, float_div_int.
    rewrite (round_div_pos us) by done. rewrite scale_num_opp.
    pose proof (round_pos_fm_ge us 1000000 Hpos ltac:(lia)) as Ht.
    change (2 ^ 52) with 4503599627370496 in Ht.
    rewrite round_div_pos by (apply scale_den_pos; lia).
    pose proof (round_pos_fm_ge
                  (scale_den (fm (round_pos us 1000000)) (fe (round_pos us 1000000)))
                  (scale_den 3600 (- fe (round_pos us 1000000)))
                  ltac:(apply scale_den_pos; lia) ltac:(apply scale_den_pos; lia)) as Hx.
    change (2 ^ 52) with 4503599627370496 in Hx. lia. }
  set (t := tenths (elapsed_hours us)) in *.
  assert (t ≤ 2777778) as Hub.
  { destruct (tenths_elapsed_hours_cross us 2777779 Hpos ltac:(lia) ltac:(lia)) as [_ Hl].
    fold t in Hl. lia. }
  destruct (tenths_elapsed_hours_cross us t Hpos Hnn ltac:(lia)) as [Hu Hl].
  fold t in Hu, Hl. split; [done|]. lia.
Qed.

(** The value of [round_pos] is a nearest binary64 number. *)
Lemma round_pos_nearest a d : 0 < a → 0 < d → binary64_nearest (round_pos a d) a d.
Proof.
  intros Ha Hd. unfold binary64_nearest.
  rewrite (proj2 (Z.eqb_neq a 0)) by lia.
  pose proof (round_pos_fm_ge a d Ha Hd) as Hlo.
  destruct (round_pos_binade a d Ha Hd) as [_ Hhi].
  unfold round_pos in *. cbv zeta in *. cbn [fm fe] in *.
  match goal with |- context [rne (scale_num a ?e0) _] => set (e := e0) in * end.
  pose proof (scale_den_pos d e Hd) as Hden.
  pose proof (rne_half (scale_num a e) (scale_den d e) Hden) as Hhalf.
  pose proof (rne_le (scale_num a e) (scale_den d e) (2 ^ 53) Hden ltac:(lia)) as Hup.
  split; [lia|].
  unfold scale_num, scale_den in *.
  set (m := rne (a * 2 ^ Z.max 0 (- e)) (d * 2 ^ Z.max 0 e)) in *.
  lia.
Qed.

Lemma round_div_nearest n d : 0 ≤ n → 0 < d → binary64_nearest (round_div n d) n d.
Proof.
  intros Hn Hd. destruct (Z.eq_dec n 0) as [->|Hne]; [done|].
  rewrite round_div_pos by lia. apply round_pos_nearest; lia.
Qed.

Lemma elapsed_hours_nonneg us : 0 ≤ us → 0 ≤ fm (elapsed_hours us).
Proof.
  intros H0. destruct (Z.eq_dec us 0) as [->|Hne]; [by vm_compute|].
  assert (0 < us) as Hpos by lia.
  unfold elapsed_hours, total_seconds, float_div_int.
  rewrite (round_div_pos us) by done. rewrite scale_num_opp.
  pose proof (round_pos_fm_ge us 1000000 Hpos ltac:(lia)) as Ht.
  change (2 ^ 52) with 4503599627370496 in Ht.
  rewrite round_div_pos by (apply scale_den_pos; lia).
  pose proof (round_pos_fm_ge
                (scale_den (fm (round_pos us 1000000)) (fe (round_pos us 1000000)))
                (scale_den 3600 (- fe (round_pos us 1000000)))
                ltac:(apply scale_den_pos; lia) ltac:(apply scale_den_pos; lia)) as Hx.
  change (2 ^ 52) with 4503599627370496 in Hx. lia.
Qed.

(** [round(duration_hours, 1)] on the elapsed hours: the binary64 number
    nearest to a number of tenths that is itself nearest to the exact
    elapsed time. *)
Lemma round1_elapsed_hours us :
  0 ≤ us →
  ∃ t, 0 ≤ t
       ∧ (us ≤ 1000000000000000 → nearest_tenth us t)
       ∧ binary64_nearest (round1 (elapsed_hours us)) t 10.
Proof.
  intros H0. exists (tenths (elapsed_hours us)).
  pose proof (tenths_nonneg _ (elapsed_hours_nonneg us H0)) as Hnn.
  split; [done|]. split.
  - intros Hmax. by apply tenths_elapsed_hours_nearest.
  - unfold round1, float_of_tenths. by apply round_div_nearest.
Qed.

End Rounding.

(** *** The loitering detector *)

Section Loitering.

Context `{!FromIsoFormat} `{!Strftime}.

Local Open Scope Z_scope.

Lemma first_and_last_Some connections target_date mac c0 cN :
  first_and_last connections target_date mac = Some (c0, cN) ↔
  (2 ≤ length (day_connections connections target_date mac))%nat
  ∧ head (day_connections connections target_date mac) = Some c0
  ∧ last (day_connections connections target_date mac) = Some cN.
Proof.
  unfold first_and_last. cbv zeta.
  destruct (Nat.leb_spec 2 (length (day_connections connections target_date mac))).
  - destruct (head _) as [x|], (last _) as [y|]; simpl; split;
      first [intros [= -> ->]; done | intros (_ & ? & ?); congruence | done].
  - split; [done|]. intros (? & _). lia.
Qed.

(** What a record of the detector says about the group it was built from. *)
Lemma loitering_record_Some mac conns d :
  loitering_record mac conns = Ok (Some d) →
  ∃ c0 cN first_conn last_conn us,
    (2 ≤ length conns)%nat
    ∧ head (sort_by_timestamp conns) = Some c0
    ∧ last (sort_by_timestamp conns) = Some cN
    ∧ parse_timestamp (Conn.timestamp c0) = Ok first_conn
    ∧ parse_timestamp (Conn.timestamp cN) = Ok last_conn
    ∧ datetime_sub last_conn first_conn = Ok us
    ∧ 6 ≤ hour first_conn < 18 ∧ 18 ≤ hour last_conn ∧ eight_hours_us < us
    ∧ d = {| Info.mac := mac;
             Info.description := Conn.client_description c0;
             Info.first_target_connection := Some (Conn.timestamp c0);
             Info.last_target_connection := Some (Conn.timestamp cN);
             Info.duration_hours := Some (round1 (elapsed_hours us));
             Info.target_date_connections := length (sort_by_timestamp conns);
             Info.baseline_connections := 0;
             Info.days_seen_out_of_hours := 1;
             Info.networks := [];
             Info.ssids := [];
             Info.arrived_hour := Some (hour first_conn);
             Info.departed_hour := Some (hour last_conn);
             Info.risk_level := Some LOITERING_SUSPICIOUS;
             Info.risk_explanation :=
               loitering_explanation (hour first_conn) (hour last_conn) (elapsed_hours us) |}.
Proof.
  unfold loitering_record.
  destruct (Nat.ltb_spec (length conns) 2) as [|Hlen]; [done|].
  unfold first_item, last_item.
  destruct (sort_by_timestamp conns) as [|c0 day] eqn:Hday; [done|].
  destruct (last (c0 :: day)) as [cN|] eqn:HcN; [|done].
  cbn [mbind result_bind].
  destruct (parse_timestamp (Conn.timestamp c0)) as [first_conn|] eqn:Hfirst; [|done].
  destruct (parse_timestamp (Conn.timestamp cN)) as [last_conn|] eqn:Hlast; [|done].
  cbn [mbind result_bind].
  destruct (datetime_sub last_conn first_conn) as [us|] eqn:Hus; [|done].
  cbn [mbind result_bind].
  fold (elapsed_hours us). rewrite elapsed_hours_gt_8.
  destruct (Z.leb_spec 6 (hour first_conn)); [|done].
  destruct (Z.ltb_spec (hour first_conn) 18); [|done].
  destruct (Z.leb_spec 18 (hour last_conn)); [|done].
  destruct (Z.ltb_spec eight_hours_us us); [|done].
  cbn [andb]. intros [= <-].
  exists c0, cN, first_conn, last_conn, us. repeat (split; [done|]). done.
Qed.

Lemma loitering_record_loiters connections target_date mac r :
  loitering_record mac
    (filter (λ conn, date_part (Conn.timestamp conn) = target_date
                     ∧ Conn.client_mac conn = mac) connections) = Ok r →
  is_Some r ↔ loiters connections target_date mac = true.
Proof.
  unfold loitering_record, loiters, first_and_last, day_connections, elapsed_us, hour_of.
  cbv zeta. set (conns := filter _ connections).
  rewrite sort_by_timestamp_length.
  destruct (Nat.ltb_spec (length conns) 2) as [Hlen|Hlen].
  { intros [= <-]. rewrite (proj2 (Nat.leb_gt _ _)) by done.
    split; [by intros []|done]. }
  rewrite (proj2 (Nat.leb_le _ _)) by done.
  unfold first_item, last_item.
  destruct (sort_by_timestamp conns) as [|c0 day] eqn:Hday.
  { apply (f_equal length) in Hday. rewrite sort_by_timestamp_length in Hday.
    simpl in Hday. lia. }
  cbn [head]. destruct (last (c0 :: day)) as [cN|] eqn:HcN; [|done].
  cbn [mbind result_bind option_bind].
  destruct (parse_timestamp (Conn.timestamp c0)) as [first_conn|] eqn:Hfirst; [|done].
  destruct (parse_timestamp (Conn.timestamp cN)) as [last_conn|] eqn:Hlast; [|done].
  cbn [mbind result_bind].
  destruct (datetime_sub last_conn first_conn) as [us|] eqn:Hus; [|done].
  cbn [mbind result_bind].
  fold (elapsed_hours us). rewrite elapsed_hours_gt_8.
  destruct (_ && _ && _ && _); intros [= <-]; split; first [done | by eexists | by intros []].
Qed.

(** The records of the detector, one by one. *)
Lemma detect_loitering_patterns_inv connections target_date loitering_devices :
  detect_loitering_patterns connections target_date = Ok loitering_devices →
  (∀ mac conns, (mac, conns) ∈ group_target_day connections target_date →
     ∃ r, loitering_record mac conns = Ok r)
  ∧ (∀ d, d ∈ loitering_devices ↔
       ∃ mac conns, (mac, conns) ∈ group_target_day connections target_date
                    ∧ loitering_record mac conns = Ok (Some d)).
Proof.
  unfold detect_loitering_patterns. cbv zeta.
  rewrite (foldM_ext _
    (λ acc x, r ← loitering_record x.1 x.2;
              Ok (match r with Some d => acc ++ [d] | None => acc end)))
    by (by intros ? []).
  intros [Hall Hin]%foldM_collect_elem. split.
  - intros mac conns Hg. apply (Hall _ Hg).
  - intros d. rewrite Hin. split.
    + intros ([mac conns] & ? & ?). by exists mac, conns.
    + intros (mac & conns & ? & ?). by exists (mac, conns).
Qed.

Lemma detect_loitering_patterns_elem connections target_date loitering_devices d :
  detect_loitering_patterns connections target_date = Ok loitering_devices →
  d ∈ loitering_devices →
  truthy (Info.mac d) = true
  ∧ loiters connections target_date (Info.mac d) = true
  ∧ ∃ c0 cN first_conn last_conn us,
      first_and_last connections target_date (Info.mac d) = Some (c0, cN)
      ∧ parse_timestamp (Conn.timestamp c0) = Ok first_conn
      ∧ parse_timestamp (Conn.timestamp cN) = Ok last_conn
      ∧ datetime_sub last_conn first_conn = Ok us
      ∧ eight_hours_us < us
      ∧ 18 ≤ hour last_conn
      ∧ Info.duration_hours d = Some (round1 (elapsed_hours us))
      ∧ Info.arrived_hour d = Some (hour first_conn)
      ∧ Info.departed_hour d = Some (hour last_conn)
      ∧ Info.risk_level d = Some LOITERING_SUSPICIOUS
      ∧ Info.risk_explanation d
        = loitering_explanation (hour first_conn) (hour last_conn) (elapsed_hours us).
Proof.
  intros [_ Hin]%detect_loitering_patterns_inv Hd.
  apply Hin in Hd as (mac & conns & Hg & Hrec).
  apply group_target_day_elem in Hg as [Hmac ->].
  pose proof Hrec as Hl. apply loitering_record_loiters in Hl.
  apply loitering_record_Some in Hrec
    as (c0 & cN & first_conn & last_conn & us & Hlen & Hc0 & HcN & Hf & Hl' & Hus & _ & Hlate & Hlong & ->).
  cbn [Info.mac Info.duration_hours Info.arrived_hour Info.departed_hour
       Info.risk_level Info.risk_explanation].
  split; [done|]. split; [by apply Hl|].
  exists c0, cN, first_conn, last_conn, us.
  split; [|done].
  apply first_and_last_Some. unfold day_connections.
  by rewrite sort_by_timestamp_length.
Qed.

(** The MACs the detector flags are those of the loitering predicate. *)
Lemma detect_loitering_patterns_flags connections target_date loitering_devices mac :
  detect_loitering_patterns connections target_date = Ok loitering_devices →
  truthy mac = true →
  (∃ d, d ∈ loitering_devices ∧ Info.mac d = mac)
  ↔ loiters connections target_date mac = true.
Proof.
  intros Hdetect Hmac. split.
  - intros (d & Hd & <-).
    by destruct (detect_loitering_patterns_elem _ _ _ _ Hdetect Hd) as (_ & ? & _).
  - intros Hl.
    destruct (detect_loitering_patterns_inv _ _ _ Hdetect) as [Hall Hin].
    set (conns := filter (λ conn, date_part (Conn.timestamp conn) = target_date
                                  ∧ Conn.client_mac conn = mac) connections).
    assert ((mac, conns) ∈ group_target_day connections target_date) as Hg.
    { apply dict_lookup_Some; [apply group_target_day_NoDup|].
      rewrite group_target_day_lookup. cbv zeta. fold conns. rewrite Hmac.
      rewrite bool_decide_eq_true_2; [done|]. intros Hnil.
      unfold loiters, first_and_last, day_connections in Hl. fold conns in Hl.
      by rewrite Hnil in Hl. }
    destruct (Hall _ _ Hg) as [r Hr].
    pose proof Hr as Hr'. apply loitering_record_loiters in Hr'.
    apply Hr' in Hl as [d ->].
    exists d. split; [apply Hin; eauto|].
    by apply loitering_record_Some in Hr as (? & ? & ? & ? & ? & _ & _ & _ & _ & _ & _ & _ & _ & _ & ->).
Qed.

(** The first and the last connection of a device on a date are two of
    its connections of that date, the first with the least timestamp and
    the last with the greatest, in the order of the strings; and there are
    such two exactly when the device has two connections or more on that
    date. *)
Lemma first_and_last_bounds connections target_date mac c0 cN :
  first_and_last connections target_date mac = Some (c0, cN) →
  let day := filter (λ conn, date_part (Conn.timestamp conn) = target_date
                             ∧ Conn.client_mac conn = mac) connections in
  c0 ∈ day ∧ cN ∈ day
  ∧ ∀ c, c ∈ day →
      String.leb (Conn.timestamp c0) (Conn.timestamp c) = true
      ∧ String.leb (Conn.timestamp c) (Conn.timestamp cN) = true.
Proof.
  intros (_ & Hhead & Hlast)%first_and_last_Some. cbv zeta.
  unfold day_connections in *.
  set (day := filter _ connections) in *.
  pose proof (sort_by_timestamp_sorted day) as Hsorted.
  split; [|split].
  - apply sort_by_timestamp_elem. by apply head_Some_elem_of.
  - apply sort_by_timestamp_elem. by apply last_Some_elem_of.
  - intros c Hc%sort_by_timestamp_elem. split.
    + by apply (sorted_head_min _ _ Hsorted Hhead).
    + by apply (sorted_last_max _ _ Hsorted Hlast).
Qed.

Lemma first_and_last_is_Some connections target_date mac :
  is_Some (first_and_last connections target_date mac)
  ↔ (2 ≤ length (filter (λ conn, date_part (Conn.timestamp conn) = target_date
                                 ∧ Conn.client_mac conn = mac) connections))%nat.
Proof.
  unfold first_and_last, day_connections. cbv zeta.
  rewrite sort_by_timestamp_length.
  set (day := filter _ connections).
  destruct (Nat.leb_spec 2 (length day)) as [Hlen|Hlen].
  - split; [done|]. intros _.
    pose proof (sort_by_timestamp_length day) as Hsort.
    destruct (sort_by_timestamp day) as [|c0 l] eqn:Hday; [cbn in Hsort; lia|].
    cbn [head mbind option_bind].
    destruct (last (c0 :: l)) as [cN|] eqn:HcN; [by eexists|].
    by apply last_None in HcN.
  - split; [by intros [? ?]|lia].
Qed.

(** C4. The loitering detector flags a MAC for the target date if and only
    if that MAC has at least two connections dated that day and, once they
    are sorted by timestamp, the first is in [[6,18)], the last is at hour 18
    or later, and more than eight hours separate them. The first and the
    last are the connections of the least and of the greatest timestamp of
    that day. The emitted [duration_hours] is the elapsed hours rounded to
    one decimal: the binary64 number nearest to [t / 10], for a number [t]
    of tenths of an hour that is nearest to the exact elapsed time. *)
Theorem loitering_flag_iff connections target_date loitering_devices mac :
  detect_loitering_patterns connections target_date = Ok loitering_devices →
  truthy mac = true →
  let day := filter (λ conn, date_part (Conn.timestamp conn) = target_date
                             ∧ Conn.client_mac conn = mac) connections in
  ((∃ d, d ∈ loitering_devices ∧ Info.mac d = mac)
   ↔ loiters connections target_date mac = true)
  ∧ (is_Some (first_and_last connections target_date mac) ↔ (2 ≤ length day)%nat)
  ∧ (∀ c0 cN, first_and_last connections target_date mac = Some (c0, cN) →
       c0 ∈ day ∧ cN ∈ day
       ∧ ∀ c, c ∈ day →
           String.leb (Conn.timestamp c0) (Conn.timestamp c) = true
           ∧ String.leb (Conn.timestamp c) (Conn.timestamp cN) = true)
  ∧ (∀ d, d ∈ loitering_devices → Info.mac d = mac →
       ∃ c0 cN us x t,
         first_and_last connections target_date mac = Some (c0, cN)
         ∧ elapsed_us c0 cN = Some us
         ∧ eight_hours_us < us
         ∧ Info.duration_hours d = Some x
         ∧ (us ≤ 1000000000000000 → nearest_tenth us t)
         ∧ binary64_nearest x t 10).
Proof.
  intros Hdetect Hmac. cbv zeta.
  split; [by apply detect_loitering_patterns_flags|].
  split; [apply first_and_last_is_Some|].
  split; [intros c0 cN Hfl; by apply first_and_last_bounds|].
  intros d Hd <-.
  destruct (detect_loitering_patterns_elem _ _ _ _ Hdetect Hd)
    as (_ & _ & c0 & cN & first_conn & last_conn & us & Hfl & Hf & Hl & Hus & Hlong & _ & Hdur & _).
  destruct (round1_elapsed_hours us) as (t & _ & Hnear & Hx);
    [unfold eight_hours_us in Hlong; lia|].
  exists c0, cN, us, (round1 (elapsed_hours us)), t.
  split; [done|]. split; [|done].
  unfold elapsed_us. by rewrite Hf, Hl, Hus.
Qed.

(** C5, amended. For every device the loitering detector flags, the record
    holds the hour of the first connection as arrival hour and the hour of
    the last connection, which is 18 or later, as departure hour. *)
Theorem loitering_arrival_and_departure connections target_date loitering_devices d :
  detect_loitering_patterns connections target_date = Ok loitering_devices →
  d ∈ loitering_devices →
  ∃ c0 cN h0 hN,
    first_and_last connections target_date (Info.mac d) = Some (c0, cN)
    ∧ hour_of (Conn.timestamp c0) = Some h0
    ∧ hour_of (Conn.timestamp cN) = Some hN
    ∧ Info.arrived_hour d = Some h0
    ∧ Info.departed_hour d = Some hN
    ∧ 18 ≤ hN.
Proof.
  intros Hdetect Hd.
  destruct (detect_loitering_patterns_elem _ _ _ _ Hdetect Hd)
    as (_ & _ & c0 & cN & first_conn & last_conn & us & Hfl & Hf & Hl & _ & _ & Hlate & _ & Ha & Hdep & _).
  exists c0, cN, (hour first_conn), (hour last_conn).
  unfold hour_of. by rewrite Hf, Hl.
Qed.

End Loitering.

(** *** The per-device aggregates *)

Section Aggregates.

Context `{!FromIsoFormat} `{!Strftime}.

Local Open Scope Z_scope.

Lemma foldM_snoc {A S} (f : S → A → result S) (s : S) (l : list A) (x : A) :
  foldM f s (l ++ [x]) = s' ← foldM f s l; f s' x.
Proof.
  revert s. induction l as [|y l IH]; intros s; simpl.
  - by destruct (f s x).
  - destruct (f s y); simpl; [apply IH|done].
Qed.

Lemma dates_snoc (d : string) (dates : gset string) :
  {[d]} ∪ dates = dates ∪ list_to_set [d].
Proof.
  cbn [list_to_set]. rewrite (right_id_L ∅ (∪)). apply (comm_L (∪)).
Qed.

(** One step of the grouping loop, when it returns. *)
Lemma add_pattern_Ok target_date device_patterns conn device_patterns' :
  add_pattern target_date device_patterns conn = Ok device_patterns' →
  (truthy (Conn.client_mac conn) = false ∧ device_patterns' = device_patterns)
  ∨ (truthy (Conn.client_mac conn) = true
     ∧ ∃ next_day h,
         next_day_of target_date = Ok next_day
         ∧ hour_of (Conn.timestamp conn) = Some h
         ∧ device_patterns'
           = setdefault_alter (Conn.client_mac conn)
               {| Pattern.description := Conn.client_description conn;
                  Pattern.networks := ∅;
                  Pattern.ssids := ∅;
                  Pattern.target_date_connections := [];
                  Pattern.baseline_connections := [];
                  Pattern.all_dates := ∅ |}
               (λ p,
                  {| Pattern.description := Pattern.description p;
                     Pattern.networks := {[Conn.network conn]} ∪ Pattern.networks p;
                     Pattern.ssids := {[Conn.ssid conn]} ∪ Pattern.ssids p;
                     Pattern.all_dates :=
                       {[date_part (Conn.timestamp conn)]} ∪ Pattern.all_dates p;
                     Pattern.target_date_connections :=
                       if in_target_night target_date next_day conn
                       then Pattern.target_date_connections p ++ [conn]
                       else Pattern.target_date_connections p;
                     Pattern.baseline_connections :=
                       if in_target_night target_date next_day conn
                       then Pattern.baseline_connections p
                       else Pattern.baseline_connections p ++ [conn] |})
               device_patterns).
Proof.
  unfold add_pattern, next_day_of, in_target_night, hour_of.
  destruct (truthy (Conn.client_mac conn)); cbn [negb]; [|intros [= <-]; by left].
  destruct (fromisoformat target_date) as [target_dt|]; [|done]. cbn [mbind result_bind].
  destruct (add_one_day target_dt) as [next_dt|]; [|done]. cbn [mbind result_bind].
  destruct (parse_timestamp (Conn.timestamp conn)) as [conn_dt|]; [|done].
  cbn [mbind result_bind]. intros [= <-]. right. split; [done|].
  by exists (strftime_ymd next_dt), (hour conn_dt).
Qed.

Lemma add_pattern_fold target_date l : ∀ device_patterns,
  foldM (add_pattern target_date) [] l = Ok device_patterns →
  NoDup device_patterns.*1
  ∧ ∀ mac,
      match dict_lookup mac device_patterns with
      | None => truthy mac = false ∨ filter (λ conn, Conn.client_mac conn = mac) l = []
      | Some data =>
          truthy mac = true
          ∧ filter (λ conn, Conn.client_mac conn = mac) l ≠ []
          ∧ aggregate_of target_date (filter (λ conn, Conn.client_mac conn = mac) l) data
      end.
Proof.
  induction l as [|conn l IH] using rev_ind; intros dp'.
  { intros [= <-]. split; [constructor|]. intros mac. by right. }
  rewrite foldM_snoc.
  destruct (foldM (add_pattern target_date) [] l) as [dp|]; [|done].
  cbn [mbind result_bind]. destruct (IH dp eq_refl) as [Hnd Hdp].
  assert (∀ mac, filter (λ c, Conn.client_mac c = mac) (l ++ [conn])
                 = if decide (Conn.client_mac conn = mac)
                   then filter (λ c, Conn.client_mac c = mac) l ++ [conn]
                   else filter (λ c, Conn.client_mac c = mac) l) as Hsnoc.
  { intros mac. rewrite filter_app, filter_cons, filter_nil.
    case_decide; [done|by rewrite app_nil_r]. }
  unfold aggregate_of in *.
  intros [[Hmac ->]|(Hmac & next_day & h & Hnext & Hh & ->)]%add_pattern_Ok.
  - split; [done|]. intros mac. specialize (Hdp mac). rewrite Hsnoc.
    destruct (decide (Conn.client_mac conn = mac)) as [<-|Hne]; [|done].
    destruct (dict_lookup _ dp) as [data|]; [|by left].
    destruct Hdp as [Ht _]. congruence.
  - split; [by apply setdefault_alter_NoDup|]. intros mac. specialize (Hdp mac).
    rewrite dict_lookup_setdefault_alter, Hsnoc.
    destruct (decide (Conn.client_mac conn = mac)) as [<-|Hne]; [|done].
    split; [done|]. split; [by intros []%app_eq_nil|].
    exists next_day. split; [done|].
    rewrite !filter_app, !fmap_app, list_to_set_app_L.
    rewrite !(filter_cons _ conn), !filter_nil.
    cbn [Pattern.target_date_connections Pattern.baseline_connections Pattern.all_dates].
    destruct (dict_lookup (Conn.client_mac conn) dp) as [data|]; cbn [default from_option]; unfold id.
    + destruct Hdp as (_ & _ & next_day' & Hnext' & Ht & Hb & Hd).
      assert (next_day' = next_day) as -> by congruence.
      rewrite Ht, Hb, Hd.
      destruct (in_target_night target_date next_day conn);
        [rewrite decide_True, decide_False by done|rewrite decide_False, decide_True by done];
        rewrite ?app_nil_r; (split; [done|]); (split; [done|]); apply dates_snoc.
    + destruct Hdp as [Hdp|Hdp]; [congruence|]. rewrite Hdp.
      cbn [Pattern.target_date_connections Pattern.baseline_connections Pattern.all_dates].
      destruct (in_target_night target_date next_day conn);
        [rewrite decide_True, decide_False by done|rewrite decide_False, decide_True by done];
        (split; [done|]); (split; [done|]); apply (dates_snoc _ ∅).
Qed.

Lemma group_out_of_hours_inv connections target_date device_patterns :
  group_out_of_hours connections target_date = Ok device_patterns →
  NoDup device_patterns.*1
  ∧ ∀ mac,
      match dict_lookup mac device_patterns with
      | None => truthy mac = false ∨ out_of_hours_events connections mac = []
      | Some data =>
          truthy mac = true
          ∧ out_of_hours_events connections mac ≠ []
          ∧ aggregate_of target_date (out_of_hours_events connections mac) data
      end.
Proof.
  unfold group_out_of_hours.
  rewrite (filterM_Ok _ (λ conn, out_of_hours (Conn.timestamp conn)))
    by (intros; apply is_out_of_hours_eq).
  cbn [mbind result_bind]. intros [Hnd Hdp]%add_pattern_fold. split; [done|].
  intros mac. specialize (Hdp mac). unfold out_of_hours_events.
  by rewrite list_filter_filter in Hdp.
Qed.

End Aggregates.

(** *** The classification loop *)

Lemma update_alloc f d st :
  update (length (heap st)) f (alloc d st) = alloc (f d) st.
Proof.
  unfold update, alloc. cbn [heap buckets]. f_equal.
  rewrite alter_app_r_alt by done. by rewrite Nat.sub_diag.
Qed.

Lemma update_append_target_date r r' f st :
  update r f (append_target_date r' st) = append_target_date r' (update r f st).
Proof. done. Qed.

Lemma update_append_baseline_only r r' f st :
  update r f (append_baseline_only r' st) = append_baseline_only r' (update r f st).
Proof. done. Qed.

Lemma extends_refl st : extends st st.
Proof. by repeat split. Qed.

Lemma extends_trans st1 st2 st3 : extends st1 st2 → extends st2 st3 → extends st1 st3.
Proof.
  intros (? & ? & ? & ? & ? & ?) (? & ? & ? & ? & ? & ?).
  repeat split; try (by etrans).
Qed.

Lemma extends_alloc d st : extends st (alloc d st).
Proof. repeat split; try done. by apply prefix_app_r. Qed.

Lemma extends_append_target_date r st : extends st (append_target_date r st).
Proof. repeat split; try done. by apply prefix_app_r. Qed.

Lemma extends_append_baseline_regular r st : extends st (append_baseline_regular r st).
Proof. repeat split; try done. by apply prefix_app_r. Qed.

Lemma extends_append_anomalous r st : extends st (append_anomalous r st).
Proof. repeat split; try done. by apply prefix_app_r. Qed.

Lemma extends_append_baseline_only r st : extends st (append_baseline_only r st).
Proof. repeat split; try done. by apply prefix_app_r. Qed.

Lemma extends_append_policy lvl r st : extends st (append_policy lvl r st).
Proof.
  destruct lvl; first [apply extends_append_anomalous|apply extends_append_baseline_regular].
Qed.

Lemma extends_lookup st st' r d :
  extends st st' → heap st !! r = Some d → heap st' !! r = Some d.
Proof. intros [Hh _] Hr. by eapply prefix_lookup_Some. Qed.

Lemma extends_policy_bucket st st' lvl r :
  extends st st' → r ∈ policy_bucket lvl (buckets st) → r ∈ policy_bucket lvl (buckets st').
Proof.
  intros (_ & _ & Hb & Ha & _) Hr.
  destruct lvl; cbn [policy_bucket] in *;
    first [by eapply elem_of_prefix, Ha|by eapply elem_of_prefix, Hb].
Qed.

Lemma extends_copy_to_baseline_regular r st :
  extends st (copy_to_baseline_regular r st).
Proof.
  unfold copy_to_baseline_regular. destruct (heap st !! r) as [d|]; [|apply extends_refl].
  cbv zeta. rewrite update_alloc.
  eapply extends_trans; [apply extends_alloc|apply extends_append_baseline_regular].
Qed.

Section Step.

Context (loitering_devices : list Info.t) (st : state) (mac : string) (data : Pattern.t).

Let tc := length (Pattern.target_date_connections data).
Let bc := length (Pattern.baseline_connections data).
Let ds := size (Pattern.all_dates data).

(** A device with target-night connections: one new record, stored in the
    target bucket and in the bucket of its level. *)
Lemma classify_device_target :
  (0 < tc)%nat →
  ∃ d,
    classify_device loitering_devices st (mac, data)
    = append_policy (policy (bool_decide (is_Some (find_loitering loitering_devices mac))) bc ds)
        (length (heap st)) (append_target_date (length (heap st)) (alloc d st))
    ∧ Info.mac d = mac
    ∧ Info.target_date_connections d = tc
    ∧ Info.baseline_connections d = bc
    ∧ Info.days_seen_out_of_hours d = ds
    ∧ Info.risk_level d
      = Some (policy (bool_decide (is_Some (find_loitering loitering_devices mac))) bc ds)
    ∧ ∀ ld, find_loitering loitering_devices mac = Some ld →
        Info.risk_explanation d = Info.risk_explanation ld
        ∧ Info.duration_hours d = Info.duration_hours ld
        ∧ Info.arrived_hour d = Info.arrived_hour ld
        ∧ Info.departed_hour d = Info.departed_hour ld.
Proof.
  intros Htc. unfold classify_device. cbv zeta. fold tc bc ds.
  rewrite (proj2 (Nat.ltb_lt 0 tc)) by done.
  destruct (find_loitering loitering_devices mac) as [ld|] eqn:Hld.
  - repeat first [rewrite update_append_target_date | rewrite update_alloc].
    eexists. split; [reflexivity|]. repeat (split; [done|]).
    by intros ? [= <-].
  - unfold policy. rewrite bool_decide_eq_false_2 by (by intros []).
    destruct (bc =? 0)%nat; [|destruct (_ && _); [|destruct (3 <=? bc)%nat]];
      repeat first [rewrite update_append_target_date | rewrite update_alloc];
      (eexists; split; [reflexivity|]; by repeat (split; [done|])).
Qed.

Lemma classify_device_target_classified :
  (0 < tc)%nat →
  ∃ d, classified loitering_devices (classify_device loitering_devices st (mac, data))
         mac data (length (heap st)) d
       ∧ target_date_devices (buckets (classify_device loitering_devices st (mac, data)))
         = target_date_devices (buckets st) ++ [length (heap st)].
Proof.
  intros (d & -> & ? & ? & ? & ? & ? & ?)%classify_device_target.
  exists d. split.
  - unfold classified. cbv zeta. fold bc ds.
    split; [|split; [|split; [|done]]].
    + eapply extends_lookup; [apply extends_append_policy|].
      cbn [append_target_date alloc heap]. by apply list_lookup_middle.
    + destruct (policy _ bc ds); cbn; apply elem_of_app; right; by apply list_elem_of_singleton.
    + destruct (policy _ bc ds); cbn; apply elem_of_app; right; by apply list_elem_of_singleton.
  - by destruct (policy _ bc ds).
Qed.

Lemma classify_device_extends :
  extends st (classify_device loitering_devices st (mac, data)).
Proof.
  destruct (Nat.ltb_spec 0 tc) as [Htc|Htc].
  - destruct (classify_device_target Htc) as (d & -> & _).
    eapply extends_trans; [apply extends_alloc|].
    eapply extends_trans; [apply extends_append_target_date|].
    apply extends_append_policy.
  - unfold classify_device. cbv zeta. fold tc bc ds.
    rewrite (proj2 (Nat.ltb_ge 0 tc)) by done.
    destruct (0 <? bc)%nat; [|apply extends_alloc].
    repeat first [rewrite update_append_baseline_only | rewrite update_alloc].
    match goal with |- extends _ (if _ then ?c else if _ then ?c else ?s) =>
      assert (extends st s) as Hs
        by (eapply extends_trans; [apply extends_alloc|apply extends_append_baseline_only]);
      assert (extends st c) as Hc
        by (eapply extends_trans; [apply Hs|apply extends_copy_to_baseline_regular])
    end.
    destruct (_ && _); [done|]. by destruct (3 <=? bc)%nat.
Qed.

Lemma classify_device_no_target :
  tc = 0%nat →
  target_date_devices (buckets (classify_device loitering_devices st (mac, data)))
  = target_date_devices (buckets st).
Proof.
  intros Htc. unfold classify_device. cbv zeta. fold tc bc ds.
  rewrite (proj2 (Nat.ltb_ge 0 tc)) by lia.
  destruct (0 <? bc)%nat; [|reflexivity].
  destruct (_ && _); [|destruct (3 <=? bc)%nat; [|reflexivity]];
    unfold copy_to_baseline_regular; destruct (heap _ !! _); reflexivity.
Qed.

End Step.

Lemma classified_extends loitering_devices st st' mac data r d :
  extends st st' →
  classified loitering_devices st mac data r d →
  classified loitering_devices st' mac data r d.
Proof.
  intros Hext (? & ? & ? & ?). split; [by eapply extends_lookup|].
  split; [by eapply elem_of_prefix, Hext|].
  split; [by eapply extends_policy_bucket|done].
Qed.

(** The classification loop: every device with target-night connections
    gets a classified record, and the target bucket holds nothing else. *)
Lemma classify_loop loitering_devices device_patterns : ∀ st,
  extends st (foldl (classify_device loitering_devices) st device_patterns)
  ∧ (∀ mac data,
       (mac, data) ∈ device_patterns →
       (0 < length (Pattern.target_date_connections data))%nat →
       ∃ r d, classified loitering_devices
                (foldl (classify_device loitering_devices) st device_patterns)
                mac data r d)
  ∧ (∀ r,
       r ∈ target_date_devices
             (buckets (foldl (classify_device loitering_devices) st device_patterns)) →
       r ∈ target_date_devices (buckets st)
       ∨ ∃ mac data d,
           (mac, data) ∈ device_patterns
           ∧ classified loitering_devices
               (foldl (classify_device loitering_devices) st device_patterns)
               mac data r d).
Proof.
  induction device_patterns as [|[mac0 data0] l IH]; intros st; cbn [foldl].
  { split; [apply extends_refl|]. split; [by intros ? ? ?%elem_of_nil|by left]. }
  destruct (IH (classify_device loitering_devices st (mac0, data0))) as (Hext & Hfwd & Hbwd).
  split; [|split].
  - eapply extends_trans; [apply classify_device_extends|done].
  - intros mac data [[= -> ->]|Hin]%elem_of_cons Htc; [|by apply Hfwd].
    destruct (classify_device_target_classified loitering_devices st mac0 data0 Htc)
      as (d & Hd & _).
    exists (length (heap st)), d. by eapply classified_extends.
  - intros r [Hr|(mac & data & d & Hin & Hd)]%Hbwd.
    + destruct (Nat.ltb_spec 0 (length (Pattern.target_date_connections data0))) as [Htc|Htc].
      * destruct (classify_device_target_classified loitering_devices st mac0 data0 Htc)
          as (d & Hd & Heq).
        rewrite Heq in Hr. apply elem_of_app in Hr as [Hr|Hr%list_elem_of_singleton]; [by left|].
        subst r. right. exists mac0, data0, d. split; [apply elem_of_cons; by left|].
        by eapply classified_extends.
      * left. rewrite classify_device_no_target in Hr; [done|lia].
    + right. exists mac, data, d. split; [apply elem_of_cons; by right|done].
Qed.

(** *** The out-of-hours analysis *)

Lemma find_loitering_Some loitering_devices mac ld :
  find_loitering loitering_devices mac = Some ld →
  ld ∈ loitering_devices ∧ Info.mac ld = mac.
Proof.
  unfold find_loitering. intros Hh.
  assert (ld ∈ filter (λ ld, Info.mac ld = mac) loitering_devices) as Hin.
  { destruct (filter _ loitering_devices); simplify_eq/=. apply elem_of_cons. by left. }
  by apply list_elem_of_filter in Hin as [? ?].
Qed.

Lemma find_loitering_is_Some loitering_devices mac :
  is_Some (find_loitering loitering_devices mac)
  ↔ ∃ ld, ld ∈ loitering_devices ∧ Info.mac ld = mac.
Proof.
  split.
  - intros [ld Hld]. exists ld. by apply find_loitering_Some.
  - intros (ld & Hin & Hmac). unfold find_loitering.
    assert (ld ∈ filter (λ ld, Info.mac ld = mac) loitering_devices) as Hf
      by by apply list_elem_of_filter.
    destruct (filter _ loitering_devices); [by apply elem_of_nil in Hf|by eexists].
Qed.

Lemma find_loitering_unique loitering_devices ld :
  NoDup (Info.mac <$> loitering_devices) →
  ld ∈ loitering_devices →
  find_loitering loitering_devices (Info.mac ld) = Some ld.
Proof.
  intros Hnd Hin.
  destruct (find_loitering loitering_devices (Info.mac ld)) as [ld'|] eqn:Hf.
  - apply find_loitering_Some in Hf as [Hin' Hmac]. f_equal.
    apply list_elem_of_lookup in Hin as [i Hi], Hin' as [j Hj].
    assert (i = j) as ->; [|congruence].
    eapply NoDup_lookup; [done| |]; rewrite list_lookup_fmap; [by rewrite Hi|].
    by rewrite Hj, <- Hmac.
  - assert (is_Some (find_loitering loitering_devices (Info.mac ld))) as [? ?];
      [|congruence].
    apply find_loitering_is_Some. eauto.
Qed.

Section AnalysisProperties.

Context `{!FromIsoFormat} `{!Strftime}.

Local Open Scope Z_scope.

(** The macs of the loitering records are pairwise distinct. *)
Lemma detect_loitering_patterns_NoDup connections target_date loitering_devices :
  detect_loitering_patterns connections target_date = Ok loitering_devices →
  NoDup (Info.mac <$> loitering_devices).
Proof.
  unfold detect_loitering_patterns. cbv zeta.
  rewrite (foldM_ext _
    (λ acc x, r ← loitering_record x.1 x.2;
              Ok (match r with Some d => acc ++ [d] | None => acc end)))
    by (by intros ? []).
  intros (rs & Hrs & ->)%foldM_collect. cbn [app].
  pose proof (group_target_day_NoDup connections target_date) as Hnd.
  induction Hrs as [|[mac conns] r l rs Hr Hrs IH]; [constructor|].
  cbn [fmap list_fmap fst] in Hnd. apply NoDup_cons in Hnd as [Hmac Hnd].
  destruct r as [d|]; cbn [omap list_omap id]; [|by apply IH].
  change (omap id rs) with (omap id rs). rewrite fmap_cons.
  apply NoDup_cons. split; [|by apply IH].
  apply loitering_record_Some in Hr as (? & ? & ? & ? & ? & _ & _ & _ & _ & _ & _ & _ & _ & _ & ->).
  cbn [Info.mac fst snd]. intros (d' & Hd' & Hin)%list_elem_of_fmap. apply Hmac.
  clear IH Hmac Hnd. induction Hrs as [|[mac' conns'] r' l rs Hr' Hrs IH];
    [by apply elem_of_nil in Hin|].
  destruct r' as [d''|]; cbn [omap list_omap id] in Hin.
  - apply elem_of_cons in Hin as [->|Hin].
    + apply loitering_record_Some in Hr'
        as (? & ? & ? & ? & ? & _ & _ & _ & _ & _ & _ & _ & _ & _ & ->).
      cbn [Info.mac fst snd] in Hd'. rewrite Hd', fmap_cons. apply elem_of_cons. by left.
    + rewrite fmap_cons. apply elem_of_cons. right. by apply IH.
  - rewrite fmap_cons. apply elem_of_cons. right. by apply IH.
Qed.

(** The analysis, when it returns: the aggregates, the loitering records
    and the classification loop over them. *)
Lemma analyze_out_of_hours_patterns_inv now_date connections target_date st :
  analyze_out_of_hours_patterns now_date connections target_date = Ok st →
  ∃ device_patterns loitering_devices,
    group_out_of_hours connections
      (default_target_date now_date connections target_date) = Ok device_patterns
    ∧ detect_loitering_patterns connections
        (default_target_date now_date connections target_date) = Ok loitering_devices
    ∧ st = foldl (classify_device loitering_devices)
             {| heap := loitering_devices;
                buckets := {| target_date_devices := [];
                              baseline_regular_devices := [];
                              anomalous_devices := [];
                              baseline_only_devices := [];
                              loitering_devices := seq 0 (length loitering_devices) |} |}
             device_patterns.
Proof.
  unfold analyze_out_of_hours_patterns. cbv zeta.
  destruct (group_out_of_hours _ _) as [dp|]; [|done]. cbn [mbind result_bind].
  destruct (detect_loitering_patterns _ _) as [ld|]; [|done]. cbn [mbind result_bind].
  intros [= <-]. by exists dp, ld.
Qed.

Lemma deref_seq_middle (l k : list Info.t) : ∀ pre,
  omap (λ r, (pre ++ l ++ k) !! r) (seq (length pre) (length l)) = l.
Proof.
  induction l as [|x l IH]; intros pre; [done|].
  cbn [length seq omap list_omap app].
  rewrite list_lookup_middle by done. f_equal.
  specialize (IH (pre ++ [x])).
  rewrite length_app, Nat.add_1_r, <- (assoc_L (++)) in IH. apply IH.
Qed.

Lemma deref_seq_prefix (l k : list Info.t) :
  omap (λ r, (l ++ k) !! r) (seq 0 (length l)) = l.
Proof. apply (deref_seq_middle l k []). Qed.

Lemma analyze_loitering_bucket now_date connections target_date st :
  analyze_out_of_hours_patterns now_date connections target_date = Ok st →
  detect_loitering_patterns connections
    (default_target_date now_date connections target_date)
  = Ok (deref st (loitering_devices (buckets st))).
Proof.
  intros (dp & ld & _ & Hld & ->)%analyze_out_of_hours_patterns_inv.
  rewrite Hld. f_equal. unfold deref.
  match goal with |- context [foldl ?f ?s dp] =>
    destruct (classify_loop ld dp s) as ((Hh & _ & _ & _ & _ & Hl) & _) end.
  cbn [heap buckets loitering_devices] in Hh, Hl. rewrite <- Hl.
  destruct Hh as [k ->]. by rewrite deref_seq_prefix.
Qed.

Lemma policy_loitering_flag connections target_date loitering_devices mac bc ds :
  detect_loitering_patterns connections target_date = Ok loitering_devices →
  truthy mac = true →
  policy (bool_decide (is_Some (find_loitering loitering_devices mac))) bc ds
  = policy (loiters connections target_date mac) bc ds.
Proof.
  intros Hld Hmac. f_equal.
  pose proof (detect_loitering_patterns_flags _ _ _ _ Hld Hmac) as Hiff.
  rewrite <- find_loitering_is_Some in Hiff.
  destruct (loiters connections target_date mac).
  - apply bool_decide_eq_true. by apply Hiff.
  - apply bool_decide_eq_false. intros ?%Hiff. done.
Qed.

(** The record of a device with target-night connections. *)
Lemma analyze_classified now_date connections target_date st mac next_day :
  analyze_out_of_hours_patterns now_date connections target_date = Ok st →
  truthy mac = true →
  next_day_of (default_target_date now_date connections target_date) = Ok next_day →
  (0 < target_count connections
         (default_target_date now_date connections target_date) next_day mac)%nat →
  ∃ loitering_devices data r d,
    detect_loitering_patterns connections
      (default_target_date now_date connections target_date) = Ok loitering_devices
    ∧ classified loitering_devices st mac data r d
    ∧ length (Pattern.target_date_connections data)
      = target_count connections
          (default_target_date now_date connections target_date) next_day mac
    ∧ length (Pattern.baseline_connections data)
      = baseline_count connections
          (default_target_date now_date connections target_date) next_day mac
    ∧ size (Pattern.all_dates data) = days_seen connections mac.
Proof.
  intros (dp & ld & Hdp & Hld & ->)%analyze_out_of_hours_patterns_inv Hmac Hnext Htc.
  set (D := default_target_date now_date connections target_date) in *.
  apply group_out_of_hours_inv in Hdp as [Hnd Hdp]. specialize (Hdp mac).
  destruct (dict_lookup mac dp) as [data|] eqn:Hlook.
  - destruct Hdp as (_ & _ & next_day' & Hnext' & Ht & Hb & Hd).
    assert (next_day' = next_day) as -> by congruence.
    apply dict_lookup_Some in Hlook; [|done].
    match goal with |- context [foldl ?f ?s dp] =>
      destruct (classify_loop ld dp s) as (_ & Hfwd & _) end.
    destruct (Hfwd mac data Hlook) as (r & d & Hc).
    { rewrite Ht. apply Htc. }
    exists ld, data, r, d. split; [done|]. split; [done|].
    unfold target_count, baseline_count, days_seen. by rewrite Ht, Hb, Hd.
  - unfold target_count in Htc. destruct Hdp as [Hdp|Hdp]; [congruence|].
    rewrite Hdp in Htc. cbn in Htc. lia.
Qed.

(** C1. For every MAC with at least one target-night out-of-hours
    connection the classification applies the ordered, first-match-wins
    policy: loitering, else no baseline, else a baseline over two days or
    more, else three baseline connections or more, else anomalous; the
    record is in the target bucket and in the bucket the matched rule
    names. Rule 4 wins over rule 5 on a single day. *)
Theorem classification_policy now_date connections target_date st mac next_day :
  analyze_out_of_hours_patterns now_date connections target_date = Ok st →
  truthy mac = true →
  next_day_of (default_target_date now_date connections target_date) = Ok next_day →
  (0 < target_count connections
         (default_target_date now_date connections target_date) next_day mac)%nat →
  (∃ r d,
     r ∈ target_date_devices (buckets st)
     ∧ heap st !! r = Some d
     ∧ Info.mac d = mac
     ∧ Info.risk_level d
       = Some (policy
                 (loiters connections
                    (default_target_date now_date connections target_date) mac)
                 (baseline_count connections
                    (default_target_date now_date connections target_date) next_day mac)
                 (days_seen connections mac))
     ∧ r ∈ policy_bucket
             (policy
                (loiters connections
                   (default_target_date now_date connections target_date) mac)
                (baseline_count connections
                   (default_target_date now_date connections target_date) next_day mac)
                (days_seen connections mac))
             (buckets st))
  ∧ (∀ bc, (3 ≤ bc)%nat → policy false bc 1 = BASELINE_REGULAR).
Proof.
  intros Hst Hmac Hnext Htc. split.
  - destruct (analyze_classified _ _ _ _ _ _ Hst Hmac Hnext Htc)
      as (ld & data & r & d & Hld & Hc & _ & Hb & Hd).
    destruct Hc as (Hr & Ht & Hp & Hm & _ & _ & _ & Hlvl & _).
    rewrite (policy_loitering_flag _ _ _ _ _ _ Hld Hmac), Hb, Hd in Hlvl, Hp.
    by exists r, d.
  - intros bc Hbc. unfold policy.
    destruct bc as [|[|[|bc]]]; [lia..|done].
Qed.

(** C2, amended. A MAC whose out-of-hours events are all in the target
    night cycle is classified [ANOMALOUS_SUSPICIOUS], unless the loitering
    detector flags it, in which case it is [LOITERING_SUSPICIOUS]; either
    way its record is in the anomalous bucket. *)
Theorem zero_baseline_anomaly now_date connections target_date st mac next_day :
  analyze_out_of_hours_patterns now_date connections target_date = Ok st →
  truthy mac = true →
  next_day_of (default_target_date now_date connections target_date) = Ok next_day →
  (0 < target_count connections
         (default_target_date now_date connections target_date) next_day mac)%nat →
  baseline_count connections
    (default_target_date now_date connections target_date) next_day mac = 0%nat →
  ∃ r d,
    r ∈ target_date_devices (buckets st)
    ∧ r ∈ anomalous_devices (buckets st)
    ∧ heap st !! r = Some d
    ∧ Info.mac d = mac
    ∧ Info.baseline_connections d = 0%nat
    ∧ Info.risk_level d
      = Some (if loiters connections
                   (default_target_date now_date connections target_date) mac
              then LOITERING_SUSPICIOUS else ANOMALOUS_SUSPICIOUS).
Proof.
  intros Hst Hmac Hnext Htc Hbc.
  destruct (analyze_classified _ _ _ _ _ _ Hst Hmac Hnext Htc)
    as (ld & data & r & d & Hld & Hc & _ & Hb & Hd).
  destruct Hc as (Hr & Ht & Hp & Hm & _ & Hdb & _ & Hlvl & _).
  rewrite (policy_loitering_flag _ _ _ _ _ _ Hld Hmac), Hb, Hbc in Hlvl, Hp.
  rewrite Hb, Hbc in Hdb.
  exists r, d. repeat (split; [done|]).
  unfold policy in Hlvl, Hp. cbn [Nat.eqb] in Hlvl, Hp.
  by destruct (loiters _ _ _).
Qed.

(** A device the detector flags has a target-night connection: its last
    connection of the day. *)
Lemma loitering_device_in_target_night connections target_date loitering_devices ld
    device_patterns :
  detect_loitering_patterns connections target_date = Ok loitering_devices →
  group_out_of_hours connections target_date = Ok device_patterns →
  ld ∈ loitering_devices →
  ∃ data,
    (Info.mac ld, data) ∈ device_patterns
    ∧ (0 < length (Pattern.target_date_connections data))%nat.
Proof.
  intros Hld Hdp Hin.
  destruct (detect_loitering_patterns_elem _ _ _ _ Hld Hin)
    as (Hmac & _ & c0 & cN & first_conn & last_conn & us & Hfl & _ & Hlast & _ & _ & Hlate & _).
  apply first_and_last_Some in Hfl as (_ & _ & HcN).
  apply last_Some_elem_of, sort_by_timestamp_elem, list_elem_of_filter in HcN
    as [[Hdate HcNmac] HcN].
  assert (hour_of (Conn.timestamp cN) = Some (hour last_conn)) as Hh
    by (unfold hour_of; by rewrite Hlast).
  assert (cN ∈ out_of_hours_events connections (Info.mac ld)) as Hev.
  { apply list_elem_of_filter. split; [|done]. split; [done|].
    unfold out_of_hours. rewrite Hh. apply orb_true_iff. left. by apply Z.leb_le. }
  apply group_out_of_hours_inv in Hdp as [Hnd Hdp]. specialize (Hdp (Info.mac ld)).
  destruct (dict_lookup (Info.mac ld) device_patterns) as [data|] eqn:Hlook.
  - destruct Hdp as (_ & _ & next_day & _ & Ht & _).
    exists data. split; [by apply dict_lookup_Some|].
    rewrite Ht.
    assert (cN ∈ filter (λ conn, in_target_night target_date next_day conn = true)
                   (out_of_hours_events connections (Info.mac ld))) as Hin'.
    { apply list_elem_of_filter. split; [|done].
      unfold in_target_night. rewrite Hh. apply orb_true_iff. left.
      apply andb_true_iff. split; [by apply bool_decide_eq_true|by apply Z.leb_le]. }
    destruct (filter _ _); [by apply elem_of_nil in Hin'|cbn; lia].
  - destruct Hdp as [Hdp|Hdp]; [congruence|]. rewrite Hdp in Hev.
    by apply elem_of_nil in Hev.
Qed.

(** C3. Every device the loitering detector flags is classified
    [LOITERING_SUSPICIOUS], with the detector's explanation and
    measurements, whatever its baseline count and days seen. *)
Theorem loitering_precedence now_date connections target_date st ld :
  analyze_out_of_hours_patterns now_date connections target_date = Ok st →
  ld ∈ deref st (loitering_devices (buckets st)) →
  ∃ r d,
    r ∈ target_date_devices (buckets st)
    ∧ r ∈ anomalous_devices (buckets st)
    ∧ heap st !! r = Some d
    ∧ Info.mac d = Info.mac ld
    ∧ Info.risk_level d = Some LOITERING_SUSPICIOUS
    ∧ Info.risk_explanation d = Info.risk_explanation ld
    ∧ Info.duration_hours d = Info.duration_hours ld
    ∧ Info.arrived_hour d = Info.arrived_hour ld
    ∧ Info.departed_hour d = Info.departed_hour ld.
Proof.
  intros Hst Hin. pose proof (analyze_loitering_bucket _ _ _ _ Hst) as Hld.
  apply analyze_out_of_hours_patterns_inv in Hst as (dp & ld' & Hdp & Hld' & Hst).
  assert (ld' = deref st (loitering_devices (buckets st))) as Heq by congruence.
  rewrite <- Heq in Hin, Hld. clear Heq Hld'.
  destruct (loitering_device_in_target_night _ _ _ _ _ Hld Hdp Hin) as (data & Hlook & Htc).
  pose proof (find_loitering_unique _ _ (detect_loitering_patterns_NoDup _ _ _ Hld) Hin)
    as Hfind.
  match type of Hst with _ = foldl ?f ?s dp =>
    destruct (classify_loop ld' dp s) as (_ & Hfwd & _) end.
  rewrite <- Hst in Hfwd.
  destruct (Hfwd _ _ Hlook Htc) as (r & d & Hr & Ht & Hp & Hm & _ & _ & _ & Hlvl & Hcopy).
  rewrite Hfind in Hlvl, Hp.
  rewrite bool_decide_eq_true_2 in Hlvl, Hp by by eexists.
  destruct (Hcopy ld Hfind) as (? & ? & ? & ?).
  by exists r, d.
Qed.

Lemma policy_cases loitering bc ds :
  policy loitering bc ds = LOITERING_SUSPICIOUS
  ∨ policy loitering bc ds = ANOMALOUS_SUSPICIOUS
  ∨ policy loitering bc ds = BASELINE_REGULAR.
Proof.
  unfold policy. destruct loitering; [by left|].
  destruct (bc =? 0)%nat; [by right; left|].
  destruct (_ && _); [by right; right|].
  destruct (3 <=? bc)%nat; [by right; right|by right; left].
Qed.


End AnalysisProperties.

(** *** The extended-session detector *)

Section Extended.

Context `{!FromIsoFormat} `{!Strftime}.

Local Open Scope Z_scope.

Lemma extended_record_extends connections target_date mac r :
  extended_record mac
    (filter (λ conn, date_part (Conn.timestamp conn) = target_date
                     ∧ Conn.client_mac conn = mac) connections) = Ok r →
  (is_Some r ↔ extends_session connections target_date mac = true)
  ∧ ∀ d, r = Some d → Ext.mac d = mac.
Proof.
  unfold extended_record, extends_session, first_and_last, day_connections, hour_of.
  cbv zeta. set (conns := filter _ connections).
  rewrite sort_by_timestamp_length.
  destruct (Nat.ltb_spec (length conns) 2) as [Hlen|Hlen].
  { intros [= <-]. rewrite (proj2 (Nat.leb_gt _ _)) by done.
    split; [|done]. split; [by intros []|done]. }
  rewrite (proj2 (Nat.leb_le _ _)) by done.
  unfold first_item, last_item.
  destruct (sort_by_timestamp conns) as [|c0 day] eqn:Hday.
  { apply (f_equal length) in Hday. rewrite sort_by_timestamp_length in Hday.
    simpl in Hday. lia. }
  cbn [head]. destruct (last (c0 :: day)) as [cN|] eqn:HcN; [|done].
  cbn [mbind result_bind option_bind].
  rewrite is_business_hours_eq. unfold business_hours, hour_of.
  destruct (parse_timestamp (Conn.timestamp c0)) as [first_conn|] eqn:Hfirst; [|done].
  destruct (parse_timestamp (Conn.timestamp cN)) as [last_conn|] eqn:Hlast; [|done].
  cbn [mbind result_bind].
  destruct (datetime_sub last_conn first_conn) as [us|] eqn:Hus; [|done].
  cbn [mbind result_bind].
  destruct (_ && _ && _); intros [= <-]; (split; [split|]);
    first [done | by eexists | by intros [] | by intros ? [= <-]].
Qed.

(** The extended-session detector flags a MAC if and only if the MAC has at
    least two connections on the target date, the first in business hours
    and the last at hour 18 or later; no duration is required. *)
Lemma extended_session_flag_iff now_date connections target_date sessions mac :
  analyze_extended_sessions now_date connections target_date = Ok sessions →
  truthy mac = true →
  (∃ d, d ∈ sessions ∧ Ext.mac d = mac)
  ↔ extends_session connections
      (default_target_date now_date connections target_date) mac = true.
Proof.
  unfold analyze_extended_sessions. cbv zeta.
  set (D := default_target_date now_date connections target_date).
  rewrite (foldM_ext _
    (λ acc x, r ← extended_record x.1 x.2;
              Ok (match r with Some d => acc ++ [d] | None => acc end)))
    by (by intros ? []).
  intros [Hall Hin]%foldM_collect_elem Hmac. split.
  - intros (d & Hd & <-). apply Hin in Hd as ([mac conns] & Hg & Hr).
    apply group_target_day_elem in Hg as [_ ->]. cbn [fst snd] in Hr.
    destruct (extended_record_extends _ _ _ _ Hr) as [Hiff Hm].
    rewrite (Hm d eq_refl). apply Hiff. by eexists.
  - intros He.
    set (conns := filter (λ conn, date_part (Conn.timestamp conn) = D
                                  ∧ Conn.client_mac conn = mac) connections).
    assert ((mac, conns) ∈ group_target_day connections D) as Hg.
    { apply dict_lookup_Some; [apply group_target_day_NoDup|].
      rewrite group_target_day_lookup. cbv zeta. fold conns. rewrite Hmac.
      rewrite bool_decide_eq_true_2; [done|]. intros Hnil.
      unfold extends_session, first_and_last, day_connections in He. fold conns in He.
      by rewrite Hnil in He. }
    destruct (Hall _ Hg) as [r Hr]. cbn [fst snd] in Hr.
    destruct (extended_record_extends _ _ _ _ Hr) as [Hiff Hm].
    apply Hiff in He as [d ->]. exists d. split; [|by apply Hm].
    apply Hin. by exists (mac, conns).
Qed.

(** The analysis step of [run_analysis] never holds an extended-session
    report: the analysis has no such item, so the count it prints is zero
    and no file of that name is exported. *)
Lemma extended_sessions_never_reported now_date all_connections investigation_date rep :
  run_analysis_report now_date all_connections investigation_date = Ok (Some rep) →
  extended_session_count rep = 0%nat
  ∧ "extended_session_devices.csv" ∉ csv_files rep.
Proof.
  unfold run_analysis_report. destruct all_connections as [|c l]; [done|].
  destruct (analyze_out_of_hours_patterns _ _ _) as [st|]; [|done].
  cbn [mbind result_bind]. intros [= <-]. cbn [extended_session_count csv_files].
  split; [done|].
  unfold exported_files. cbn [app]. rewrite not_elem_of_cons. split; [done|].
  intros (item & Heq & Hitem)%list_elem_of_fmap.
  apply list_elem_of_filter in Hitem as [_ Hitem].
  unfold analysis_items in Hitem.
  repeat (apply elem_of_cons in Hitem as [->|Hitem]; [done|]).
  by apply elem_of_nil in Hitem.
Qed.

End Extended.

(** *** When the analysis returns *)

Lemma foldM_returns {A S} (f : S → A → result S) (l : list A) :
  (∀ s x, x ∈ l → ∃ s', f s x = Ok s') → ∀ s, ∃ s', foldM f s l = Ok s'.
Proof.
  induction l as [|x l IH]; intros Hf s; cbn [foldM]; [by eexists|].
  destruct (Hf s x) as [s' ->]; [apply elem_of_cons; by left|].
  cbn [mbind result_bind]. apply IH. intros s0 y Hy. apply Hf, elem_of_cons. by right.
Qed.

Section Returns.

Context `{!FromIsoFormat} `{!Strftime}.

Local Open Scope Z_scope.

Lemma loitering_record_returns mac conns :
  (∀ conn, conn ∈ conns → aware conn) →
  ∃ r, loitering_record mac conns = Ok r.
Proof.
  intros Haware. unfold loitering_record.
  destruct (Nat.ltb_spec (length conns) 2) as [|Hlen]; [by eexists|]. cbv zeta.
  unfold first_item, last_item.
  destruct (sort_by_timestamp conns) as [|c0 day] eqn:Hday.
  { apply (f_equal length) in Hday. rewrite sort_by_timestamp_length in Hday.
    cbn in Hday. lia. }
  destruct (last (c0 :: day)) as [cN|] eqn:HcN; [|by apply last_None in HcN].
  cbn [mbind result_bind].
  destruct (Haware c0) as (first_conn & o0 & -> & Ho0).
  { apply sort_by_timestamp_elem. rewrite Hday. apply elem_of_cons. by left. }
  destruct (Haware cN) as (last_conn & oN & -> & HoN).
  { apply sort_by_timestamp_elem. rewrite Hday. by apply last_Some_elem_of. }
  cbn [mbind result_bind]. unfold datetime_sub. rewrite Ho0, HoN.
  cbn [mbind result_bind]. destruct (_ && _ && _); by eexists.
Qed.

(** The detector returns when every connection of the target date has a
    timestamp that parses to an aware value. *)
Lemma detect_loitering_patterns_returns connections target_date :
  (∀ conn, conn ∈ connections →
     date_part (Conn.timestamp conn) = target_date → aware conn) →
  ∃ loitering_devices,
    detect_loitering_patterns connections target_date = Ok loitering_devices.
Proof.
  intros Haware. unfold detect_loitering_patterns. cbv zeta.
  apply foldM_returns. intros acc [mac conns] Hg.
  apply group_target_day_elem in Hg as [_ ->].
  destruct (loitering_record_returns mac
              (filter (λ conn, date_part (Conn.timestamp conn) = target_date
                               ∧ Conn.client_mac conn = mac) connections)) as [r ->].
  { intros conn [[Hd _] Hin]%list_elem_of_filter. by apply Haware. }
  cbn [mbind result_bind]. by eexists.
Qed.

Lemma add_pattern_returns target_date next_day device_patterns conn :
  next_day_of target_date = Ok next_day →
  out_of_hours (Conn.timestamp conn) = true →
  ∃ device_patterns', add_pattern target_date device_patterns conn = Ok device_patterns'.
Proof.
  unfold next_day_of, out_of_hours, hour_of, add_pattern. intros Hnext Hooh.
  destruct (truthy (Conn.client_mac conn)); cbn [negb]; [|by eexists].
  destruct (fromisoformat target_date) as [target_dt|]; [|done].
  cbn [mbind result_bind] in *.
  destruct (add_one_day target_dt) as [next_dt|]; [|done].
  cbn [mbind result_bind] in *.
  destruct (parse_timestamp (Conn.timestamp conn)) as [conn_dt|]; [|done].
  cbn [mbind result_bind]. by eexists.
Qed.

Lemma group_out_of_hours_returns connections target_date next_day :
  next_day_of target_date = Ok next_day →
  ∃ device_patterns, group_out_of_hours connections target_date = Ok device_patterns.
Proof.
  intros Hnext. unfold group_out_of_hours.
  rewrite (filterM_Ok _ (λ conn, out_of_hours (Conn.timestamp conn)))
    by (intros; apply is_out_of_hours_eq).
  cbn [mbind result_bind]. apply foldM_returns.
  intros dp conn [Hooh _]%list_elem_of_filter. by eapply add_pattern_returns.
Qed.

(** The analysis returns when the target date has a next day and every
    connection of the target date has a timestamp that parses to an aware
    value. *)
Lemma analyze_out_of_hours_patterns_returns now_date connections target_date next_day :
  next_day_of (default_target_date now_date connections target_date) = Ok next_day →
  (∀ conn, conn ∈ connections →
     date_part (Conn.timestamp conn)
     = default_target_date now_date connections target_date → aware conn) →
  ∃ st, analyze_out_of_hours_patterns now_date connections target_date = Ok st.
Proof.
  intros Hnext Haware. unfold analyze_out_of_hours_patterns. cbv zeta.
  destruct (group_out_of_hours_returns connections _ _ Hnext) as [dp ->].
  destruct (detect_loitering_patterns_returns connections _ Haware) as [ld ->].
  cbn [mbind result_bind]. by eexists.
Qed.

End Returns.

(** *** The calendar *)

Section Calendar.

Local Open Scope Z_scope.

Lemma days_before_year_succ y :
  days_before_year (y + 1) = days_before_year y + (if is_leap y then 366 else 365).
Proof.
  unfold days_before_year, is_leap. cbv zeta.
  replace (y + 1 - 1) with y by lia.
  destruct (Z.eqb_spec (y mod 4) 0), (Z.eqb_spec (y mod 100) 0), (Z.eqb_spec (y mod 400) 0);
    cbn [negb andb orb]; Z.div_mod_to_equations; lia.
Qed.

Lemma days_before_month_succ y m :
  1 ≤ m < 12 →
  days_before_month y (m + 1) = days_before_month y m + days_in_month y m.
Proof.
  intros Hm.
  assert (m = 1 ∨ m = 2 ∨ m = 3 ∨ m = 4 ∨ m = 5 ∨ m = 6 ∨ m = 7 ∨ m = 8 ∨ m = 9
          ∨ m = 10 ∨ m = 11) as Hcases by lia.
  unfold days_before_month, days_in_month.
  destruct (is_leap y);
    repeat (destruct Hcases as [->|Hcases]); try subst m; reflexivity.
Qed.

Lemma days_before_month_december y :
  days_before_month y 12 + days_in_month y 12 = if is_leap y then 366 else 365.
Proof. unfold days_before_month, days_in_month. by destruct (is_leap y). Qed.

Lemma days_in_month_pos y m : 28 ≤ days_in_month y m.
Proof. unfold days_in_month. repeat case_match; lia. Qed.

(** [add_one_day] is the successor of the calendar: the ordinal of the day
    grows by one and the clock does not change. *)
Lemma add_one_day_toordinal dt dt' :
  valid_date dt →
  add_one_day dt = Ok dt' →
  toordinal dt' = toordinal dt + 1
  ∧ valid_date dt'
  ∧ hour dt' = hour dt ∧ minute dt' = minute dt ∧ second dt' = second dt
  ∧ microsecond dt' = microsecond dt ∧ tzinfo dt' = tzinfo dt.
Proof.
  intros (Hy & Hm & Hd). unfold add_one_day.
  destruct (Z.ltb_spec (day dt) (days_in_month (year dt) (month dt))) as [Hlt|Hge].
  - destruct (Z.ltb_spec 9999 (year dt)); [done|]. intros [= <-].
    unfold toordinal, valid_date. cbn [year month day hour minute second microsecond tzinfo].
    repeat split; lia.
  - destruct (Z.ltb_spec (month dt) 12) as [Hm12|Hm12].
    + destruct (Z.ltb_spec 9999 (year dt)); [done|]. intros [= <-].
      unfold toordinal, valid_date. cbn [year month day hour minute second microsecond tzinfo].
      rewrite days_before_month_succ by lia.
      pose proof (days_in_month_pos (year dt) (month dt + 1)).
      repeat split; lia.
    + destruct (Z.ltb_spec 9999 (year dt + 1)); [done|]. intros [= <-].
      unfold toordinal, valid_date. cbn [year month day hour minute second microsecond tzinfo].
      assert (month dt = 12) as Hm' by lia. rewrite Hm' in *.
      pose proof (days_before_month_december (year dt)).
      rewrite days_before_year_succ.
      pose proof (days_in_month_pos (year dt + 1) 1).
      change (days_before_month (year dt + 1) 1) with 0.
      repeat split; lia.
Qed.

End Calendar.

(** *** The night cycle *)

Section NightCycleDates.

Context `{!FromIsoFormat} `{!Strftime}.

Local Open Scope Z_scope.

Lemma add_one_day_year dt dt' :
  add_one_day dt = Ok dt' → year dt ≤ year dt' ≤ 9999.
Proof.
  unfold add_one_day.
  destruct (day dt <? days_in_month (year dt) (month dt));
    [|destruct (month dt <? 12)];
    match goal with |- context [9999 <? ?y] => destruct (Z.ltb_spec 9999 y) end;
    try done; intros [= <-]; cbn [year]; lia.
Qed.

(** From the year 1000 on, [strftime('%Y-%m-%d')] prints the ISO date. *)
Lemma strftime_ymd_isoformat dt :
  1000 ≤ year dt ≤ 9999 → strftime_ymd dt = isoformat_date dt.
Proof.
  intros Hy. unfold strftime_ymd, isoformat_date, fmt_04d.
  rewrite (strftime_Y_four_digits _ Hy).
  by rewrite !(proj2 (Z.ltb_ge _ _)) by lia.
Qed.

(** The claim C6 for the target dates from the year 1000 on, whose next
    day [strftime] prints as an ISO date on every platform. For every
    out-of-hours event of a device with a non-empty MAC, the event is
    counted in the device's target-night connections if and only if its
    date is the target date and its hour is 18 or later, or its date is
    the date of the next day of the calendar and its hour is before 6;
    every other out-of-hours event of the device is counted as baseline. *)
Lemma night_cycle_membership connections target_date target_dt device_patterns mac :
  group_out_of_hours connections target_date = Ok device_patterns →
  fromisoformat target_date = Ok target_dt →
  valid_date target_dt →
  1000 ≤ year target_dt →
  truthy mac = true →
  out_of_hours_events connections mac ≠ [] →
  ∃ next_dt data,
    toordinal next_dt = toordinal target_dt + 1
    ∧ valid_date next_dt
    ∧ dict_lookup mac device_patterns = Some data
    ∧ Pattern.target_date_connections data
      = filter (λ conn, in_target_night target_date (isoformat_date next_dt) conn = true)
          (out_of_hours_events connections mac)
    ∧ Pattern.baseline_connections data
      = filter (λ conn, in_target_night target_date (isoformat_date next_dt) conn = false)
          (out_of_hours_events connections mac).
Proof.
  intros [_ Hdp]%group_out_of_hours_inv Hparse Hvalid Hyear Hmac Hev.
  specialize (Hdp mac).
  destruct (dict_lookup mac device_patterns) as [data|]; [|destruct Hdp; congruence].
  destruct Hdp as (_ & _ & next_day & Hnext & Htarget & Hbaseline & _).
  unfold next_day_of in Hnext. rewrite Hparse in Hnext. cbn [mbind result_bind] in Hnext.
  destruct (add_one_day target_dt) as [next_dt|] eqn:Hadd; [|done].
  cbn [mbind result_bind] in Hnext. injection Hnext as <-.
  destruct (add_one_day_toordinal _ _ Hvalid Hadd) as (Hord & Hvalid' & _).
  pose proof (add_one_day_year _ _ Hadd) as Hy.
  rewrite strftime_ymd_isoformat in Htarget, Hbaseline by lia.
  by exists next_dt, data.
Qed.

End NightCycleDates.

(** *** The scenarios *)

Local Open Scope Z_scope.

Ltac by_computation := vm_compute; reflexivity.

(** C1, on the single-day scenario: three baseline connections on one day
    make the device regular by rule 4. *)
Lemma classification_policy_witness :
  ((∃ r d,
      r ∈ target_date_devices (buckets (analysis_of single_day_scenario "2025-06-23"))
      ∧ heap (analysis_of single_day_scenario "2025-06-23") !! r = Some d
      ∧ Info.mac d = "AA:AA"
      ∧ Info.risk_level d = Some BASELINE_REGULAR
      ∧ r ∈ baseline_regular_devices
              (buckets (analysis_of single_day_scenario "2025-06-23")))
   ∧ (∀ bc, (3 ≤ bc)%nat → policy false bc 1 = BASELINE_REGULAR))
  ∧ baseline_count (H := iso_parse) single_day_scenario "2025-06-23" "2025-06-24" "AA:AA"
    = 3%nat
  ∧ days_seen (H := iso_parse) single_day_scenario "AA:AA" = 1%nat.
Proof.
  split; [|split; by_computation].
  assert (policy (loiters (H := iso_parse) single_day_scenario
                    (default_target_date "2025-07-01" single_day_scenario "2025-06-23")
                    "AA:AA")
            (baseline_count (H := iso_parse) single_day_scenario
               (default_target_date "2025-07-01" single_day_scenario "2025-06-23")
               "2025-06-24" "AA:AA")
            (days_seen (H := iso_parse) single_day_scenario "AA:AA")
          = BASELINE_REGULAR) as Hp by by_computation.
  pose proof (@classification_policy iso_parse glibc_strftime "2025-07-01" single_day_scenario "2025-06-23"
                (analysis_of single_day_scenario "2025-06-23") "AA:AA" "2025-06-24"
                ltac:(by_computation) eq_refl ltac:(by_computation)
                ltac:(vm_compute; lia)) as [Hex Hrule].
  rewrite Hp in Hex.
  assert (∀ b, policy_bucket BASELINE_REGULAR b = baseline_regular_devices b) as Hb
    by reflexivity.
  rewrite Hb in Hex. split; [exact Hex|exact Hrule].
Defined.

(** C2 as stated fails on the loitering scenario: all the out-of-hours
    events of CC:CC are in the target night cycle, and its risk level is
    [LOITERING_SUSPICIOUS]. *)
Lemma zero_baseline_loitering_counterexample :
  analyze_out_of_hours_patterns (H := iso_parse) "2025-07-01" loitering_scenario "2025-06-23"
  = Ok (analysis_of loitering_scenario "2025-06-23")
  ∧ baseline_count (H := iso_parse) loitering_scenario "2025-06-23" "2025-06-24" "CC:CC"
    = 0%nat
  ∧ target_count (H := iso_parse) loitering_scenario "2025-06-23" "2025-06-24" "CC:CC"
    = 1%nat
  ∧ ∃ d,
      deref (analysis_of loitering_scenario "2025-06-23")
        (target_date_devices (buckets (analysis_of loitering_scenario "2025-06-23")))
      = [d]
      ∧ Info.mac d = "CC:CC"
      ∧ Info.baseline_connections d = 0%nat
      ∧ Info.target_date_connections d = 1%nat
      ∧ Info.risk_level d = Some LOITERING_SUSPICIOUS
      ∧ Info.risk_level d ≠ Some ANOMALOUS_SUSPICIOUS.
Proof.
  split; [by_computation|]. split; [by_computation|]. split; [by_computation|].
  eexists. split; [by_computation|]. by repeat split.
Qed.

(** C2, amended, on the first-appearance scenario: BB:BB is seen on the
    target night only, is not loitering, and is anomalous. *)
Lemma zero_baseline_anomaly_witness :
  (∃ r d,
     r ∈ target_date_devices (buckets (analysis_of first_appearance_scenario "2025-06-23"))
     ∧ r ∈ anomalous_devices (buckets (analysis_of first_appearance_scenario "2025-06-23"))
     ∧ heap (analysis_of first_appearance_scenario "2025-06-23") !! r = Some d
     ∧ Info.mac d = "BB:BB"
     ∧ Info.baseline_connections d = 0%nat
     ∧ Info.risk_level d = Some ANOMALOUS_SUSPICIOUS)
  ∧ target_count (H := iso_parse) first_appearance_scenario "2025-06-23" "2025-06-24" "BB:BB"
    = 3%nat.
Proof.
  split; [|by_computation].
  assert (loiters (H := iso_parse) first_appearance_scenario
            (default_target_date "2025-07-01" first_appearance_scenario "2025-06-23")
            "BB:BB" = false) as Hl by by_computation.
  pose proof (@zero_baseline_anomaly iso_parse glibc_strftime "2025-07-01" first_appearance_scenario
                "2025-06-23" (analysis_of first_appearance_scenario "2025-06-23")
                "BB:BB" "2025-06-24"
                ltac:(by_computation) eq_refl ltac:(by_computation)
                ltac:(vm_compute; lia) ltac:(by_computation)) as Hex.
  by rewrite Hl in Hex.
Defined.

(** C3, on the loitering scenario: the one device the detector flags is
    classified [LOITERING_SUSPICIOUS]. *)
Lemma loitering_precedence_witness :
  Forall
    (λ ld,
       ∃ r d,
         r ∈ target_date_devices (buckets (analysis_of loitering_scenario "2025-06-23"))
         ∧ r ∈ anomalous_devices (buckets (analysis_of loitering_scenario "2025-06-23"))
         ∧ heap (analysis_of loitering_scenario "2025-06-23") !! r = Some d
         ∧ Info.mac d = Info.mac ld
         ∧ Info.risk_level d = Some LOITERING_SUSPICIOUS
         ∧ Info.risk_explanation d = Info.risk_explanation ld
         ∧ Info.duration_hours d = Info.duration_hours ld
         ∧ Info.arrived_hour d = Info.arrived_hour ld
         ∧ Info.departed_hour d = Info.departed_hour ld)
    (deref (analysis_of loitering_scenario "2025-06-23")
       (loitering_devices (buckets (analysis_of loitering_scenario "2025-06-23"))))
  ∧ Info.mac <$>
      deref (analysis_of loitering_scenario "2025-06-23")
        (loitering_devices (buckets (analysis_of loitering_scenario "2025-06-23")))
    = ["CC:CC"].
Proof.
  split; [|by_computation].
  apply Forall_forall. intros ld Hld.
  apply (@loitering_precedence iso_parse glibc_strftime "2025-07-01" loitering_scenario "2025-06-23"
           (analysis_of loitering_scenario "2025-06-23") ld ltac:(by_computation) Hld).
Defined.

(** C4, on the loitering scenario of the specification with the later
    connection first: the connection of 09:00 is taken as the first and
    that of 19:30 as the last, 37800 seconds later; the device is flagged,
    and the duration is the binary64 number 10.5. *)
Lemma loitering_flag_iff_witness :
  (∃ d, d ∈ loitering_of (reverse loitering_scenario) "2025-06-23" ∧ Info.mac d = "CC:CC")
  ∧ first_and_last (reverse loitering_scenario) "2025-06-23" "CC:CC"
    = Some (conn_at "2025-06-23T09:00:00.000Z" "CC:CC",
            conn_at "2025-06-23T19:30:00.000Z" "CC:CC")
  ∧ (∀ c, c ∈ filter (λ conn, date_part (Conn.timestamp conn) = "2025-06-23"
                              ∧ Conn.client_mac conn = "CC:CC")
                (reverse loitering_scenario) →
       String.leb "2025-06-23T09:00:00.000Z" (Conn.timestamp c) = true
       ∧ String.leb (Conn.timestamp c) "2025-06-23T19:30:00.000Z" = true)
  ∧ elapsed_us (H := iso_parse) (conn_at "2025-06-23T09:00:00.000Z" "CC:CC")
      (conn_at "2025-06-23T19:30:00.000Z" "CC:CC") = Some 37800000000
  ∧ (∀ d, d ∈ loitering_of (reverse loitering_scenario) "2025-06-23" →
       Info.mac d = "CC:CC" →
       ∃ x t, Info.duration_hours d = Some x
              ∧ nearest_tenth 37800000000 t
              ∧ binary64_nearest x t 10)
  ∧ Info.duration_hours <$> loitering_of (reverse loitering_scenario) "2025-06-23"
    = [Some {| fm := 5910974510923776; fe := -49 |}]
  ∧ binary64_exact {| fm := 5910974510923776; fe := -49 |} 105 10.
Proof.
  pose proof (@loitering_flag_iff iso_parse (reverse loitering_scenario) "2025-06-23"
                (loitering_of (reverse loitering_scenario) "2025-06-23") "CC:CC"
                ltac:(by_computation) eq_refl) as Hflag.
  cbv zeta in Hflag. destruct Hflag as (Hiff & _ & Hbounds & Hduration).
  assert (first_and_last (reverse loitering_scenario) "2025-06-23" "CC:CC"
          = Some (conn_at "2025-06-23T09:00:00.000Z" "CC:CC",
                  conn_at "2025-06-23T19:30:00.000Z" "CC:CC")) as Hfl
    by by_computation.
  split; [apply Hiff; by_computation|]. split; [done|].
  split; [apply (Hbounds _ _ Hfl)|]. split; [by_computation|].
  split; [|split; by_computation].
  intros d Hd Hmac.
  destruct (Hduration d Hd Hmac) as (c0 & cN & us & x & t & Hfl' & Hus & _ & Hx & Hnear & Hbin).
  rewrite Hfl in Hfl'. injection Hfl' as <- <-.
  assert (us = 37800000000) as -> by (vm_compute in Hus; by injection Hus).
  exists x, t. split; [done|]. split; [|done]. apply Hnear. by vm_compute.
Defined.

(** C5 as stated fails on the day-end scenario: the last connection of
    DD:DD is at 23:59:59.999, at hour 18 or later and as close to the end
    of the day as a timestamp gets, and the departure hour is 23, not the
    sentinel 24. *)
Lemma loitering_departure_counterexample :
  detect_loitering_patterns (H := iso_parse) day_end_scenario "2025-06-23"
  = Ok (loitering_of day_end_scenario "2025-06-23")
  ∧ ∃ d,
      loitering_of day_end_scenario "2025-06-23" = [d]
      ∧ Info.mac d = "DD:DD"
      ∧ Info.last_target_connection d = Some "2025-06-23T23:59:59.999Z"
      ∧ Info.arrived_hour d = Some 9
      ∧ Info.departed_hour d = Some 23
      ∧ Info.departed_hour d ≠ Some 24.
Proof.
  split; [by_computation|].
  eexists. split; [by_computation|]. by repeat split.
Qed.

(** C5, amended, on the day-end scenario. *)
Lemma loitering_arrival_and_departure_witness :
  Forall
    (λ d,
       ∃ c0 cN h0 hN,
         first_and_last day_end_scenario "2025-06-23" (Info.mac d) = Some (c0, cN)
         ∧ hour_of (H := iso_parse) (Conn.timestamp c0) = Some h0
         ∧ hour_of (H := iso_parse) (Conn.timestamp cN) = Some hN
         ∧ Info.arrived_hour d = Some h0
         ∧ Info.departed_hour d = Some hN
         ∧ 18 ≤ hN)
    (loitering_of day_end_scenario "2025-06-23")
  ∧ Info.departed_hour <$> loitering_of day_end_scenario "2025-06-23" = [Some 23].
Proof.
  split; [|by_computation].
  apply Forall_forall. intros d Hd.
  apply (@loitering_arrival_and_departure iso_parse day_end_scenario "2025-06-23"
           (loitering_of day_end_scenario "2025-06-23") d ltac:(by_computation) Hd).
Defined.

(** The night cycle of 2025-06-23, on the night-cycle scenario: the next
    day is 2025-06-24, and of the four out-of-hours events of EE:EE, the
    one of the target evening and the one of the next morning are
    target-night connections, the two others are baseline. *)
Lemma night_cycle_membership_witness :
  (∃ next_dt data,
     toordinal next_dt = toordinal midnight_2025_06_23 + 1
     ∧ valid_date next_dt
     ∧ dict_lookup "EE:EE" (aggregates_of night_cycle_scenario "2025-06-23") = Some data
     ∧ Pattern.target_date_connections data
       = filter (λ conn, in_target_night (H := iso_parse) "2025-06-23"
                           (isoformat_date next_dt) conn = true)
           (out_of_hours_events (H := iso_parse) night_cycle_scenario "EE:EE")
     ∧ Pattern.baseline_connections data
       = filter (λ conn, in_target_night (H := iso_parse) "2025-06-23"
                           (isoformat_date next_dt) conn = false)
           (out_of_hours_events (H := iso_parse) night_cycle_scenario "EE:EE"))
  ∧ (next_dt ← add_one_day midnight_2025_06_23; Ok (isoformat_date next_dt))
    = Ok "2025-06-24"
  ∧ (λ data, Conn.timestamp <$> Pattern.target_date_connections data)
    <$> dict_lookup "EE:EE" (aggregates_of night_cycle_scenario "2025-06-23")
    = Some ["2025-06-23T18:00:00.000Z"; "2025-06-24T05:59:59.999Z"]
  ∧ (λ data, Conn.timestamp <$> Pattern.baseline_connections data)
    <$> dict_lookup "EE:EE" (aggregates_of night_cycle_scenario "2025-06-23")
    = Some ["2025-06-22T22:15:00.000Z"; "2025-06-24T18:30:00.000Z"].
Proof.
  split; [|split; [|split]; by_computation].
  apply (@night_cycle_membership iso_parse glibc_strftime night_cycle_scenario "2025-06-23"
           midnight_2025_06_23 (aggregates_of night_cycle_scenario "2025-06-23") "EE:EE"
           ltac:(by_computation) ltac:(by_computation)).
  - unfold valid_date. vm_compute. repeat split; discriminate.
  - vm_compute. discriminate.
  - reflexivity.
  - vm_compute. discriminate.
Defined.

(** C6 does not hold on a platform with glibc for a target date before
    the year 1000. For the target date 0500-06-23 the next day of the
    calendar is 0500-06-24, and a connection at 01:00 on 0500-06-24 is out
    of hours and in the night cycle of the target date; but [strftime]
    prints the next day as [500-06-24], which is not the date of the
    connection, and the grouping loop counts the connection as baseline.
    With a library that pads the year the same connection is a target-night
    connection. *)
Lemma night_cycle_morning_missed :
  fromisoformat (FromIsoFormat := iso_parse) "0500-06-23"
  = Ok {| year := 500; month := 6; day := 23; hour := 0; minute := 0; second := 0;
          microsecond := 0; tzinfo := None |}
  ∧ (next_dt ← add_one_day {| year := 500; month := 6; day := 23; hour := 0; minute := 0;
                               second := 0; microsecond := 0; tzinfo := None |};
     Ok (isoformat_date next_dt))
    = Ok "0500-06-24"
  ∧ out_of_hours_events (H := iso_parse) early_scenario "EE:EE" = early_scenario
  ∧ Forall (λ conn, in_target_night (H := iso_parse) "0500-06-23" "0500-06-24" conn = true)
      early_scenario
  ∧ next_day_of (H := iso_parse) (H0 := glibc_strftime) "0500-06-23" = Ok "500-06-24"
  ∧ (λ data, (Pattern.target_date_connections data, Pattern.baseline_connections data))
    <$> dict_lookup "EE:EE"
          (ok_or [] (group_out_of_hours (H := iso_parse) (H0 := glibc_strftime)
                       early_scenario "0500-06-23"))
    = Some ([], early_scenario)
  ∧ next_day_of (H := iso_parse) (H0 := padded_strftime) "0500-06-23" = Ok "0500-06-24"
  ∧ (λ data, (Pattern.target_date_connections data, Pattern.baseline_connections data))
    <$> dict_lookup "EE:EE"
          (ok_or [] (group_out_of_hours (H := iso_parse) (H0 := padded_strftime)
                       early_scenario "0500-06-23"))
    = Some (early_scenario, []).
Proof.
  split; [by_computation|]. split; [by_computation|]. split; [by_computation|].
  split; [by repeat constructor|].
  split; [by_computation|]. split; [by_computation|]. split; by_computation.
Defined.

(** C7, on seven events: the event of 22:00 comes three times, once with
    another SSID, and the event of 23:00 twice; the events that differ from
    the first in the timestamp, in the MAC or in the type are kept, the
    repeats are discarded, and the first occurrence is the one kept. *)
Lemma deduplicate_events_first_occurrence_witness :
  deduplicate_events
    [ event_at "2025-06-22T22:00:00.000Z" "AA:AA" "association";
      event_at "2025-06-22T23:00:00.000Z" "AA:AA" "association";
      event_at "2025-06-22T22:00:00.000Z" "AA:AA" "association";
      event_at "2025-06-22T22:00:00.000Z" "BB:BB" "association";
      <["ssid" := "guest"]> (event_at "2025-06-22T22:00:00.000Z" "AA:AA" "association");
      event_at "2025-06-22T22:00:00.000Z" "AA:AA" "disassociation";
      event_at "2025-06-22T23:00:00.000Z" "AA:AA" "association" ]
  = [ event_at "2025-06-22T22:00:00.000Z" "AA:AA" "association";
      event_at "2025-06-22T23:00:00.000Z" "AA:AA" "association";
      event_at "2025-06-22T22:00:00.000Z" "BB:BB" "association";
      event_at "2025-06-22T22:00:00.000Z" "AA:AA" "disassociation" ]
  ∧ ∀ e,
      e ∈ [ event_at "2025-06-22T22:00:00.000Z" "AA:AA" "association";
            event_at "2025-06-22T23:00:00.000Z" "AA:AA" "association";
            event_at "2025-06-22T22:00:00.000Z" "AA:AA" "association";
            event_at "2025-06-22T22:00:00.000Z" "BB:BB" "association";
            <["ssid" := "guest"]>
              (event_at "2025-06-22T22:00:00.000Z" "AA:AA" "association");
            event_at "2025-06-22T22:00:00.000Z" "AA:AA" "disassociation";
            event_at "2025-06-22T23:00:00.000Z" "AA:AA" "association" ] →
      ∃ e',
        e' ∈ deduplicate_events
               [ event_at "2025-06-22T22:00:00.000Z" "AA:AA" "association";
                 event_at "2025-06-22T23:00:00.000Z" "AA:AA" "association";
                 event_at "2025-06-22T22:00:00.000Z" "AA:AA" "association";
                 event_at "2025-06-22T22:00:00.000Z" "BB:BB" "association";
                 <["ssid" := "guest"]>
                   (event_at "2025-06-22T22:00:00.000Z" "AA:AA" "association");
                 event_at "2025-06-22T22:00:00.000Z" "AA:AA" "disassociation";
                 event_at "2025-06-22T23:00:00.000Z" "AA:AA" "association" ]
        ∧ same_key e' e.
Proof.
  split; [by_computation|].
  apply (deduplicate_events_first_occurrence
           [ event_at "2025-06-22T22:00:00.000Z" "AA:AA" "association";
             event_at "2025-06-22T23:00:00.000Z" "AA:AA" "association";
             event_at "2025-06-22T22:00:00.000Z" "AA:AA" "association";
             event_at "2025-06-22T22:00:00.000Z" "BB:BB" "association";
             <["ssid" := "guest"]>
               (event_at "2025-06-22T22:00:00.000Z" "AA:AA" "association");
             event_at "2025-06-22T22:00:00.000Z" "AA:AA" "disassociation";
             event_at "2025-06-22T23:00:00.000Z" "AA:AA" "association" ]).
Defined.


(** C8, on the loitering scenario: the detector reports an extended
    session for CC:CC, and the analysis step of [run_analysis] reports none
    and exports no file for it. *)
Lemma extended_sessions_not_reported :
  ∃ sessions rep,
    analyze_extended_sessions (H := iso_parse) "2025-07-01" loitering_scenario "2025-06-23"
    = Ok sessions
    ∧ Ext.mac <$> sessions = ["CC:CC"]
    ∧ run_analysis_report (H := iso_parse) "2025-07-01" loitering_scenario "2025-06-23"
      = Ok (Some rep)
    ∧ extended_session_count rep = 0%nat
    ∧ csv_files rep
      = ["all_connections.csv"; "target_date_devices.csv"; "anomalous_devices.csv";
         "loitering_devices.csv"].
Proof.
  eexists _, _. split; [by_computation|]. split; [by_computation|].
  split; [by_computation|]. split; by_computation.
Qed.

(** *** The records of one step of the classification loop *)

Lemma set_risk_level_aggregate_fields mac data lvl d :
  aggregate_fields mac data d → aggregate_fields mac data (Info.set_risk_level lvl d).
Proof. done. Qed.

Lemma set_risk_explanation_aggregate_fields mac data s d :
  aggregate_fields mac data d → aggregate_fields mac data (Info.set_risk_explanation s d).
Proof. done. Qed.

Lemma set_loitering_fields_aggregate_fields mac data ld d :
  aggregate_fields mac data d → aggregate_fields mac data (Info.set_loitering_fields ld d).
Proof. done. Qed.

Section Records.

Context (loitering_devices : list Info.t) (st : state) (mac : string) (data : Pattern.t).

Let tc := length (Pattern.target_date_connections data).
Let bc := length (Pattern.baseline_connections data).
Let ds := size (Pattern.all_dates data).

(** A device with target-night connections: the record keeps the fields
    of the aggregate. *)
Lemma classify_device_target_fields :
  (0 < tc)%nat →
  ∃ d,
    classify_device loitering_devices st (mac, data)
    = append_policy (policy (bool_decide (is_Some (find_loitering loitering_devices mac))) bc ds)
        (length (heap st)) (append_target_date (length (heap st)) (alloc d st))
    ∧ aggregate_fields mac data d
    ∧ Info.risk_level d
      = Some (policy (bool_decide (is_Some (find_loitering loitering_devices mac))) bc ds).
Proof.
  intros Htc. unfold classify_device. cbv zeta. fold tc bc ds.
  rewrite (proj2 (Nat.ltb_lt 0 tc)) by done.
  destruct (find_loitering loitering_devices mac) as [ld|] eqn:Hld.
  - repeat first [rewrite update_append_target_date | rewrite update_alloc].
    eexists. split; [reflexivity|]. by split.
  - unfold policy. rewrite bool_decide_eq_false_2 by (by intros []).
    destruct (bc =? 0)%nat; [|destruct (_ && _); [|destruct (3 <=? bc)%nat]];
      repeat first [rewrite update_append_target_date | rewrite update_alloc];
      (eexists; split; [reflexivity|]; by split).
Qed.

(** A device without target-night connections: one [BASELINE_ONLY]
    record, and a relabelled copy of it in the regular bucket when the
    device is regularly seen. *)
Lemma classify_device_baseline_only :
  tc = 0%nat → (0 < bc)%nat →
  ∃ d,
    classify_device loitering_devices st (mac, data)
    = (if regularly_seen bc ds
       then append_baseline_regular (S (length (heap st)))
              (alloc (Info.set_risk_level BASELINE_REGULAR d)
                 (append_baseline_only (length (heap st)) (alloc d st)))
       else append_baseline_only (length (heap st)) (alloc d st))
    ∧ aggregate_fields mac data d
    ∧ Info.risk_level d = Some BASELINE_ONLY
    ∧ Info.risk_explanation d
      = (if (3 <=? ds)%nat then always_on_explanation bc ds
         else baseline_device_explanation bc ds)
    ∧ Info.duration_hours d = None
    ∧ Info.arrived_hour d = None
    ∧ Info.departed_hour d = None.
Proof.
  intros Htc Hbc. unfold classify_device. cbv zeta. fold tc bc ds.
  rewrite (proj2 (Nat.ltb_ge 0 tc)) by lia.
  rewrite (proj2 (Nat.ltb_lt 0 bc)) by done.
  repeat first [rewrite update_append_baseline_only | rewrite update_alloc].
  match goal with |- context [append_baseline_only _ (alloc ?d0 st)] => exists d0 end.
  split; [|by repeat split].
  assert (∀ d0, copy_to_baseline_regular (length (heap st))
                  (append_baseline_only (length (heap st)) (alloc d0 st))
                = append_baseline_regular (S (length (heap st)))
                    (alloc (Info.set_risk_level BASELINE_REGULAR d0)
                       (append_baseline_only (length (heap st)) (alloc d0 st)))) as Hcopy.
  { intros d0. unfold copy_to_baseline_regular.
    cbn [append_baseline_only alloc heap]. rewrite list_lookup_middle by done.
    cbv zeta.
    replace (length (heap st ++ [d0])) with (S (length (heap st)))
      by (rewrite length_app; cbn; lia).
    f_equal. unfold update, alloc. cbn [heap buckets append_baseline_only]. f_equal.
    rewrite alter_app_r_alt by (rewrite length_app; cbn; lia).
    rewrite length_app. cbn [length].
    by replace (S (length (heap st)) - (length (heap st) + 1))%nat with 0%nat by lia. }
  unfold regularly_seen.
  destruct (_ && _); cbn [orb]; [apply Hcopy|].
  destruct (3 <=? bc)%nat; [apply Hcopy|done].
Qed.

(** A device without any connection gets a record that no bucket holds. *)
Lemma classify_device_nothing :
  tc = 0%nat → bc = 0%nat →
  buckets (classify_device loitering_devices st (mac, data)) = buckets st.
Proof.
  intros Htc Hbc. unfold classify_device. cbv zeta. fold tc bc ds.
  by rewrite Htc, Hbc.
Qed.

End Records.

(** *** The buckets after the classification loop *)

Lemma allocated_Forall st :
  allocated st
  ↔ Forall (λ r, r < length (heap st))%nat (target_date_devices (buckets st))
    ∧ Forall (λ r, r < length (heap st))%nat (baseline_regular_devices (buckets st))
    ∧ Forall (λ r, r < length (heap st))%nat (anomalous_devices (buckets st))
    ∧ Forall (λ r, r < length (heap st))%nat (baseline_only_devices (buckets st)).
Proof.
  unfold allocated. rewrite !Forall_forall. split.
  - intros H. repeat split; intros r Hr; apply H; rewrite !elem_of_app; tauto.
  - intros (Ht & Hr & Ha & Hb) r. rewrite !elem_of_app.
    intros [?|[?|[?|?]]]; eauto.
Qed.

Lemma deref_old (h k : list Info.t) (refs : list nat) :
  Forall (λ r, r < length h)%nat refs →
  omap (λ r, (h ++ k) !! r) refs = omap (λ r, h !! r) refs.
Proof.
  induction 1 as [|r refs Hr _ IH]; [done|].
  cbn [omap list_omap]. by rewrite IH, lookup_app_l.
Qed.

Lemma deref_snoc (h k : list Info.t) (refs : list nat) (n : nat) (d : Info.t) :
  Forall (λ r, r < length h)%nat refs →
  (h ++ k) !! n = Some d →
  omap (λ r, (h ++ k) !! r) (refs ++ [n]) = omap (λ r, h !! r) refs ++ [d].
Proof.
  intros Hrefs Hn. rewrite omap_app, deref_old by done.
  cbn [omap list_omap]. by rewrite Hn.
Qed.

Lemma Forall_lt_weaken (refs : list nat) (n m : nat) :
  (n ≤ m)%nat → Forall (λ r, r < n)%nat refs → Forall (λ r, r < m)%nat refs.
Proof. intros Hnm Hrefs. eapply Forall_impl; [done|]. intros r Hr. cbn in *. lia. Qed.

Lemma Forall_lt_snoc (refs : list nat) (n m : nat) :
  (n < m)%nat → Forall (λ r, r < n)%nat refs → Forall (λ r, r < m)%nat (refs ++ [n]).
Proof.
  intros Hnm Hrefs. apply Forall_app. split.
  - eapply Forall_lt_weaken; [|done]. lia.
  - by apply Forall_singleton.
Qed.

(** One step of the loop: which buckets receive the device. *)
Lemma classify_device_buckets loitering_devices st item :
  allocated st →
  allocated (classify_device loitering_devices st item)
  ∧ Info.mac <$> deref (classify_device loitering_devices st item)
                   (target_date_devices (buckets (classify_device loitering_devices st item)))
    = (Info.mac <$> deref st (target_date_devices (buckets st)))
      ++ (if target_device item then [item.1] else [])
  ∧ Info.mac <$> deref (classify_device loitering_devices st item)
                   (anomalous_devices (buckets (classify_device loitering_devices st item)))
    = (Info.mac <$> deref st (anomalous_devices (buckets st)))
      ++ (if anomalous_device loitering_devices item then [item.1] else [])
  ∧ Info.mac <$> deref (classify_device loitering_devices st item)
                   (baseline_regular_devices (buckets (classify_device loitering_devices st item)))
    = (Info.mac <$> deref st (baseline_regular_devices (buckets st)))
      ++ (if regular_device loitering_devices item then [item.1] else [])
  ∧ Info.mac <$> deref (classify_device loitering_devices st item)
                   (baseline_only_devices (buckets (classify_device loitering_devices st item)))
    = (Info.mac <$> deref st (baseline_only_devices (buckets st)))
      ++ (if baseline_only_device item then [item.1] else []).
Proof.
  destruct item as [mac data]. rewrite !allocated_Forall.
  intros (Ht & Hr & Ha & Hb).
  unfold anomalous_device, regular_device, baseline_only_device, target_device, device_level.
  cbn [fst snd].
  destruct (Nat.ltb_spec 0 (length (Pattern.target_date_connections data))) as [Htc|Htc].
  - destruct (classify_device_target_fields loitering_devices st mac data Htc)
      as (d & -> & (Hmac & _) & _).
    cbn [negb andb]. unfold deref.
    destruct (policy _ _ _) eqn:Hlvl;
      cbn [append_policy append_anomalous append_baseline_regular append_target_date
           alloc heap buckets target_date_devices baseline_regular_devices
           anomalous_devices baseline_only_devices];
      rewrite ?length_app; cbn [length];
      (split; [repeat split;
                 first [apply Forall_lt_snoc; [lia|done]
                       |eapply Forall_lt_weaken; [|done]; lia]|]);
      rewrite ?(deref_snoc _ _ _ _ d) by (first [done|by apply list_lookup_middle]);
      rewrite ?deref_old by done;
      rewrite ?fmap_app; cbn [fmap list_fmap]; rewrite ?Hmac;
      rewrite ?bool_decide_eq_true_2 by done;
      rewrite ?bool_decide_eq_false_2 by (by intros ?);
      rewrite ?bool_decide_eq_false_2 by (by intros []);
      by rewrite ?app_nil_r.
  - assert (length (Pattern.target_date_connections data) = 0%nat) as Htc0 by lia.
    cbn [negb andb].
    destruct (Nat.ltb_spec 0 (length (Pattern.baseline_connections data))) as [Hbc|Hbc].
    + destruct (classify_device_baseline_only loitering_devices st mac data Htc0 Hbc)
        as (d & -> & (Hmac & _) & _).
      unfold deref.
      destruct (regularly_seen _ _);
        cbn [append_baseline_regular append_baseline_only
             alloc heap buckets target_date_devices baseline_regular_devices
             anomalous_devices baseline_only_devices];
        rewrite ?length_app; cbn [length];
        (split; [repeat split;
                   first [apply Forall_lt_snoc; [lia|done]
                         |eapply Forall_lt_weaken; [|done]; lia
                         |apply Forall_app; split;
                            [eapply Forall_lt_weaken; [|done]; lia
                            |apply Forall_singleton; lia]]|]);
        rewrite <- ?(assoc_L (++));
        rewrite ?(deref_snoc _ _ _ (length (heap st)) d)
          by (first [done|by apply list_lookup_middle]);
        rewrite ?(deref_snoc _ _ _ (S (length (heap st)))
                    (Info.set_risk_level BASELINE_REGULAR d))
          by (first [done
                    |rewrite (assoc_L (++)); apply list_lookup_middle;
                     rewrite length_app; cbn; lia]);
        rewrite ?deref_old by done;
        rewrite ?fmap_app; cbn [fmap list_fmap Info.set_risk_level Info.mac];
        rewrite ?Hmac; by rewrite ?app_nil_r.
    + assert (length (Pattern.baseline_connections data) = 0%nat) as Hbc0 by lia.
      unfold regularly_seen. rewrite Hbc0. cbn [Nat.leb andb orb].
      pose proof (classify_device_nothing loitering_devices st mac data Htc0 Hbc0) as Hb'.
      pose proof (classify_device_extends loitering_devices st mac data) as [[k Hh] _].
      rewrite Hb'. unfold deref. rewrite Hh, !deref_old by done.
      rewrite !app_nil_r, length_app.
      split; [|done].
      repeat split; (eapply Forall_lt_weaken; [|done]; lia).
Qed.

(** The loop: the MACs of each bucket, in the order of the aggregates. *)
Lemma classify_loop_buckets loitering_devices device_patterns : ∀ st,
  allocated st →
  allocated (foldl (classify_device loitering_devices) st device_patterns)
  ∧ Info.mac <$> deref (foldl (classify_device loitering_devices) st device_patterns)
        (target_date_devices
           (buckets (foldl (classify_device loitering_devices) st device_patterns)))
    = (Info.mac <$> deref st (target_date_devices (buckets st)))
      ++ (filter (λ item, target_device item = true) device_patterns).*1
  ∧ Info.mac <$> deref (foldl (classify_device loitering_devices) st device_patterns)
        (anomalous_devices
           (buckets (foldl (classify_device loitering_devices) st device_patterns)))
    = (Info.mac <$> deref st (anomalous_devices (buckets st)))
      ++ (filter (λ item, anomalous_device loitering_devices item = true) device_patterns).*1
  ∧ Info.mac <$> deref (foldl (classify_device loitering_devices) st device_patterns)
        (baseline_regular_devices
           (buckets (foldl (classify_device loitering_devices) st device_patterns)))
    = (Info.mac <$> deref st (baseline_regular_devices (buckets st)))
      ++ (filter (λ item, regular_device loitering_devices item = true) device_patterns).*1
  ∧ Info.mac <$> deref (foldl (classify_device loitering_devices) st device_patterns)
        (baseline_only_devices
           (buckets (foldl (classify_device loitering_devices) st device_patterns)))
    = (Info.mac <$> deref st (baseline_only_devices (buckets st)))
      ++ (filter (λ item, baseline_only_device item = true) device_patterns).*1.
Proof.
  induction device_patterns as [|item l IH]; intros st Hst; cbn [foldl].
  { rewrite !filter_nil. cbn [fmap list_fmap]. by rewrite !app_nil_r. }
  destruct (classify_device_buckets loitering_devices st item Hst)
    as (Hst1 & Ht & Ha & Hr & Hb).
  destruct (IH _ Hst1) as (Hst' & -> & -> & -> & ->).
  split; [done|]. rewrite Ht, Ha, Hr, Hb, !filter_cons, <- !(assoc_L (++)).
  repeat split; f_equal.
  - by destruct (target_device item); [rewrite decide_True by done|rewrite decide_False by done].
  - by destruct (anomalous_device _ item);
      [rewrite decide_True by done|rewrite decide_False by done].
  - by destruct (regular_device _ item);
      [rewrite decide_True by done|rewrite decide_False by done].
  - by destruct (baseline_only_device item);
      [rewrite decide_True by done|rewrite decide_False by done].
Qed.

(** *** The records behind the buckets *)

Lemma target_record_extends loitering_devices st st' mac data r d :
  extends st st' →
  target_record loitering_devices st mac data r d →
  target_record loitering_devices st' mac data r d.
Proof.
  intros Hext (Hr & ? & ? & ? & Ht & Hp).
  split; [by eapply extends_lookup|]. repeat (split; [done|]).
  split; [by eapply elem_of_prefix, Hext|by eapply extends_policy_bucket].
Qed.

Lemma baseline_only_record_extends st st' mac data r d :
  extends st st' →
  baseline_only_record st mac data r d →
  baseline_only_record st' mac data r d.
Proof.
  intros Hext (Hr & ? & ? & ? & ? & ? & Hb & Hcopy).
  split; [by eapply extends_lookup|]. repeat (split; [done|]).
  split; [by eapply elem_of_prefix, Hext|].
  intros [Hs Hin]%Hcopy. split; [by eapply extends_lookup|].
  by eapply elem_of_prefix, Hext.
Qed.

Section RecordStep.

Context (loitering_devices : list Info.t) (st : state) (mac : string) (data : Pattern.t).

Let tc := length (Pattern.target_date_connections data).
Let bc := length (Pattern.baseline_connections data).
Let ds := size (Pattern.all_dates data).
Let st1 := classify_device loitering_devices st (mac, data).

Lemma classify_device_target_record :
  (0 < tc)%nat →
  ∃ d,
    target_record loitering_devices st1 mac data (length (heap st)) d
    ∧ target_date_devices (buckets st1)
      = target_date_devices (buckets st) ++ [length (heap st)]
    ∧ anomalous_devices (buckets st1)
      = anomalous_devices (buckets st)
        ++ (if decide (device_level loitering_devices (mac, data) = BASELINE_REGULAR)
            then [] else [length (heap st)])
    ∧ baseline_regular_devices (buckets st1)
      = baseline_regular_devices (buckets st)
        ++ (if decide (device_level loitering_devices (mac, data) = BASELINE_REGULAR)
            then [length (heap st)] else [])
    ∧ baseline_only_devices (buckets st1) = baseline_only_devices (buckets st).
Proof.
  intros Htc. unfold st1, target_record, device_level. cbn [fst snd]. fold tc bc ds.
  destruct (classify_device_target_fields loitering_devices st mac data Htc)
    as (d & -> & Hagg & Hrisk).
  fold tc bc ds in Hrisk |- *. exists d.
  destruct (policy _ bc ds) eqn:Hlvl;
    cbn [append_policy append_anomalous append_baseline_regular append_target_date
         alloc heap buckets target_date_devices baseline_regular_devices
         anomalous_devices baseline_only_devices policy_bucket];
    (split; [split; [by apply list_lookup_middle|];
             repeat (split; [done|]);
             split; apply elem_of_app; right; by apply list_elem_of_singleton|]);
    rewrite ?app_nil_r; repeat split;
    first [by rewrite decide_True by done
          |by rewrite decide_False by done
          |by rewrite decide_True, app_nil_r by done
          |by rewrite decide_False, app_nil_r by done].
Qed.

Lemma classify_device_baseline_only_record :
  tc = 0%nat → (0 < bc)%nat →
  ∃ d,
    baseline_only_record st1 mac data (length (heap st)) d
    ∧ target_date_devices (buckets st1) = target_date_devices (buckets st)
    ∧ anomalous_devices (buckets st1) = anomalous_devices (buckets st)
    ∧ baseline_regular_devices (buckets st1)
      = baseline_regular_devices (buckets st)
        ++ (if regularly_seen bc ds then [S (length (heap st))] else [])
    ∧ baseline_only_devices (buckets st1)
      = baseline_only_devices (buckets st) ++ [length (heap st)].
Proof.
  intros Htc Hbc. unfold st1, baseline_only_record. fold tc bc ds.
  destruct (classify_device_baseline_only loitering_devices st mac data Htc Hbc)
    as (d & -> & Hagg & Hrisk & Hexpl & _).
  fold tc bc ds in Hexpl |- *. exists d.
  destruct (regularly_seen bc ds) eqn:Hrs;
    cbn [append_baseline_regular append_baseline_only
         alloc heap buckets target_date_devices baseline_regular_devices
         anomalous_devices baseline_only_devices].
  - split; [|by rewrite ?app_nil_r].
    split; [rewrite <- (assoc_L (++)); by apply list_lookup_middle|].
    repeat (split; [done|]).
    split; [apply elem_of_app; right; by apply list_elem_of_singleton|].
    intros _. split; [|apply elem_of_app; right; by apply list_elem_of_singleton].
    apply list_lookup_middle. rewrite length_app. cbn. lia.
  - split; [|by rewrite ?app_nil_r].
    split; [by apply list_lookup_middle|].
    repeat (split; [done|]).
    split; [apply elem_of_app; right; by apply list_elem_of_singleton|done].
Qed.

End RecordStep.

(** The loop: every device gets its record, and every reference of a
    bucket holds the record of a device that belongs to the bucket. *)
Lemma classify_loop_records loitering_devices device_patterns : ∀ st,
  let st' := foldl (classify_device loitering_devices) st device_patterns in
  (∀ mac data,
     (mac, data) ∈ device_patterns →
     (0 < length (Pattern.target_date_connections data))%nat →
     ∃ r d, target_record loitering_devices st' mac data r d)
  ∧ (∀ mac data,
       (mac, data) ∈ device_patterns →
       length (Pattern.target_date_connections data) = 0%nat →
       (0 < length (Pattern.baseline_connections data))%nat →
       ∃ r d, baseline_only_record st' mac data r d)
  ∧ (∀ r, r ∈ target_date_devices (buckets st') →
       r ∈ target_date_devices (buckets st)
       ∨ ∃ mac data d, (mac, data) ∈ device_patterns
           ∧ target_record loitering_devices st' mac data r d)
  ∧ (∀ r, r ∈ anomalous_devices (buckets st') →
       r ∈ anomalous_devices (buckets st)
       ∨ ∃ mac data d, (mac, data) ∈ device_patterns
           ∧ target_record loitering_devices st' mac data r d
           ∧ device_level loitering_devices (mac, data) ≠ BASELINE_REGULAR)
  ∧ (∀ r, r ∈ baseline_regular_devices (buckets st') →
       r ∈ baseline_regular_devices (buckets st)
       ∨ (∃ mac data d, (mac, data) ∈ device_patterns
            ∧ target_record loitering_devices st' mac data r d
            ∧ device_level loitering_devices (mac, data) = BASELINE_REGULAR)
       ∨ (∃ mac data r0 d0, (mac, data) ∈ device_patterns
            ∧ baseline_only_record st' mac data r0 d0
            ∧ regularly_seen (length (Pattern.baseline_connections data))
                (size (Pattern.all_dates data)) = true
            ∧ r = S r0))
  ∧ (∀ r, r ∈ baseline_only_devices (buckets st') →
       r ∈ baseline_only_devices (buckets st)
       ∨ ∃ mac data d, (mac, data) ∈ device_patterns
           ∧ baseline_only_record st' mac data r d).
Proof.
  induction device_patterns as [|[mac0 data0] l IH]; intros st; cbn [foldl]; cbv zeta.
  { repeat split; first [by intros ? ? ?%elem_of_nil|by left]. }
  set (st1 := classify_device loitering_devices st (mac0, data0)).
  destruct (IH st1) as (Hft & Hfb & Hbt & Hba & Hbr & Hbb). cbv zeta in *.
  destruct (classify_loop loitering_devices l st1) as (Hext & _).
  set (st' := foldl (classify_device loitering_devices) st1 l) in *.
  assert (∀ mac data, (mac, data) ∈ l → (mac, data) ∈ (mac0, data0) :: l) as Htl
    by (intros; apply elem_of_cons; by right).
  assert ((mac0, data0) ∈ (mac0, data0) :: l) as Hhd by (apply elem_of_cons; by left).
  destruct (Nat.ltb_spec 0 (length (Pattern.target_date_connections data0))) as [Htc|Htc].
  - destruct (classify_device_target_record loitering_devices st mac0 data0 Htc)
      as (d & Hrec & Ht & Ha & Hr & Hb). fold st1 in Hrec, Ht, Ha, Hr, Hb.
    apply (target_record_extends _ _ _ _ _ _ _ Hext) in Hrec.
    repeat split.
    + intros mac data [[= -> ->]|Hin]%elem_of_cons ?; [by eexists _, _|by apply Hft].
    + intros mac data [[= -> ->]|Hin]%elem_of_cons ? ?; [lia|by apply Hfb].
    + intros r [Hr0|(mac & data & d' & ? & ?)]%Hbt; [|right; eauto 10].
      rewrite Ht in Hr0. apply elem_of_app in Hr0 as [?|Hr0]; [by left|].
      apply list_elem_of_singleton in Hr0 as ->. right; eauto 10.
    + intros r [Hr0|(mac & data & d' & ? & ? & ?)]%Hba; [|right; eauto 10].
      rewrite Ha in Hr0. apply elem_of_app in Hr0 as [?|Hr0]; [by left|].
      case_decide; [by apply elem_of_nil in Hr0|].
      apply list_elem_of_singleton in Hr0 as ->. right; eauto 10.
    + intros r [Hr0|[(mac & data & d' & ? & ? & ?)|(mac & data & r0 & d0 & ? & ? & ? & ?)]]%Hbr;
        [|right; left; eauto 10|right; right; eauto 10].
      rewrite Hr in Hr0. apply elem_of_app in Hr0 as [?|Hr0]; [by left|].
      case_decide; [|by apply elem_of_nil in Hr0].
      apply list_elem_of_singleton in Hr0 as ->. right; left; eauto 10.
    + intros r [Hr0|(mac & data & d' & ? & ?)]%Hbb; [|right; eauto 10].
      rewrite Hb in Hr0. by left.
  - assert (length (Pattern.target_date_connections data0) = 0%nat) as Htc0 by lia.
    destruct (Nat.ltb_spec 0 (length (Pattern.baseline_connections data0))) as [Hbc|Hbc].
    + destruct (classify_device_baseline_only_record loitering_devices st mac0 data0 Htc0 Hbc)
        as (d & Hrec & Ht & Ha & Hr & Hb). fold st1 in Hrec, Ht, Ha, Hr, Hb.
      apply (baseline_only_record_extends _ _ _ _ _ _ Hext) in Hrec.
      repeat split.
      * intros mac data [[= -> ->]|Hin]%elem_of_cons ?; [lia|by apply Hft].
      * intros mac data [[= -> ->]|Hin]%elem_of_cons ? ?; [by eexists _, _|by apply Hfb].
      * intros r [Hr0|(mac & data & d' & ? & ?)]%Hbt; [|right; eauto 10].
        rewrite Ht in Hr0. by left.
      * intros r [Hr0|(mac & data & d' & ? & ? & ?)]%Hba; [|right; eauto 10].
        rewrite Ha in Hr0. by left.
      * intros r [Hr0|[(mac & data & d' & ? & ? & ?)|(mac & data & r0 & d0 & ? & ? & ? & ?)]]%Hbr;
          [|right; left; eauto 10|right; right; eauto 10].
        rewrite Hr in Hr0. apply elem_of_app in Hr0 as [?|Hr0]; [by left|].
        destruct (regularly_seen _ _) eqn:Hrs; [|by apply elem_of_nil in Hr0].
        apply list_elem_of_singleton in Hr0 as ->. right; right. eauto 10.
      * intros r [Hr0|(mac & data & d' & ? & ?)]%Hbb; [|right; eauto 10].
        rewrite Hb in Hr0. apply elem_of_app in Hr0 as [?|Hr0]; [by left|].
        apply list_elem_of_singleton in Hr0 as ->. right; eauto 10.
    + assert (length (Pattern.baseline_connections data0) = 0%nat) as Hbc0 by lia.
      pose proof (classify_device_nothing loitering_devices st mac0 data0 Htc0 Hbc0) as Hb'.
      fold st1 in Hb'.
      repeat split.
      * intros mac data [[= -> ->]|Hin]%elem_of_cons ?; [lia|by apply Hft].
      * intros mac data [[= -> ->]|Hin]%elem_of_cons ? ?; [lia|by apply Hfb].
      * intros r [Hr0|(mac & data & d' & ? & ?)]%Hbt; [|right; eauto 10].
        rewrite Hb' in Hr0. by left.
      * intros r [Hr0|(mac & data & d' & ? & ? & ?)]%Hba; [|right; eauto 10].
        rewrite Hb' in Hr0. by left.
      * intros r [Hr0|[(mac & data & d' & ? & ? & ?)|(mac & data & r0 & d0 & ? & ? & ? & ?)]]%Hbr;
          [|right; left; eauto 10|right; right; eauto 10].
        rewrite Hb' in Hr0. by left.
      * intros r [Hr0|(mac & data & d' & ? & ?)]%Hbb; [|right; eauto 10].
        rewrite Hb' in Hr0. by left.
Qed.

(** *** The buckets of the analysis *)

Lemma elem_of_filter_keys {V} (P : string * V → bool) (l : list (string * V)) (k : string) :
  k ∈ (filter (λ item, P item = true) l).*1 ↔ ∃ v, (k, v) ∈ l ∧ P (k, v) = true.
Proof.
  rewrite list_elem_of_fmap. split.
  - intros ([k' v] & -> & [? ?]%list_elem_of_filter). by exists v.
  - intros (v & ? & ?). exists (k, v). split; [done|]. by apply list_elem_of_filter.
Qed.

Lemma NoDup_filter_keys {V} (P : string * V → bool) (l : list (string * V)) :
  NoDup l.*1 → NoDup (filter (λ item, P item = true) l).*1.
Proof.
  intros Hnd. eapply sublist_NoDup; [done|]. apply fmap_sublist, sublist_filter.
Qed.

Lemma NoDup_filter_keys_app {V} (P Q : string * V → bool) (l : list (string * V)) :
  NoDup l.*1 →
  (∀ item, P item = true → Q item = true → False) →
  NoDup ((filter (λ item, P item = true) l).*1 ++ (filter (λ item, Q item = true) l).*1).
Proof.
  intros Hnd Hex. apply NoDup_app. split; [by apply NoDup_filter_keys|].
  split; [|by apply NoDup_filter_keys].
  intros k (v & Hv & HP)%elem_of_filter_keys (w & Hw & HQ)%elem_of_filter_keys.
  apply dict_lookup_Some in Hv, Hw; [|done..].
  assert (v = w) as -> by congruence. by eapply Hex.
Qed.

Lemma length_filter_split {A} (P : A → bool) (l : list A) :
  (length (filter (λ x, P x = true) l) + length (filter (λ x, P x = false) l)
   = length l)%nat.
Proof.
  induction l as [|x l IH]; [done|]. rewrite !filter_cons.
  destruct (P x); [rewrite decide_True, decide_False by done
                  |rewrite decide_False, decide_True by done]; cbn [length]; lia.
Qed.

Section Buckets.

Context `{!FromIsoFormat} `{!Strftime}.

Lemma allocated_initial_state loitering_devices :
  allocated (initial_state loitering_devices).
Proof. intros r Hr. cbn in Hr. by apply elem_of_nil in Hr. Qed.

(** The analysis, when it returns: the MACs of the buckets, from the
    aggregates. *)
Lemma analyze_bucket_macs now_date connections target_date st :
  analyze_out_of_hours_patterns now_date connections target_date = Ok st →
  ∃ device_patterns loitering_devices,
    group_out_of_hours connections
      (default_target_date now_date connections target_date) = Ok device_patterns
    ∧ detect_loitering_patterns connections
        (default_target_date now_date connections target_date) = Ok loitering_devices
    ∧ st = foldl (classify_device loitering_devices) (initial_state loitering_devices)
             device_patterns
    ∧ bucket_macs st (target_date_devices (buckets st))
      = (filter (λ item, target_device item = true) device_patterns).*1
    ∧ bucket_macs st (anomalous_devices (buckets st))
      = (filter (λ item, anomalous_device loitering_devices item = true) device_patterns).*1
    ∧ bucket_macs st (baseline_regular_devices (buckets st))
      = (filter (λ item, regular_device loitering_devices item = true) device_patterns).*1
    ∧ bucket_macs st (baseline_only_devices (buckets st))
      = (filter (λ item, baseline_only_device item = true) device_patterns).*1.
Proof.
  intros (dp & ld & Hdp & Hld & ->)%analyze_out_of_hours_patterns_inv.
  exists dp, ld. split; [done|]. split; [done|]. split; [done|].
  destruct (classify_loop_buckets ld dp (initial_state ld) (allocated_initial_state ld))
    as (_ & Ht & Ha & Hr & Hb).
  unfold bucket_macs. fold (initial_state ld). by rewrite Ht, Ha, Hr, Hb.
Qed.

(** The aggregate of a device, in the terms of the connections. *)
Lemma device_aggregate connections target_date device_patterns mac data :
  group_out_of_hours connections target_date = Ok device_patterns →
  (mac, data) ∈ device_patterns →
  truthy mac = true
  ∧ out_of_hours_events connections mac ≠ []
  ∧ ∃ next_day,
      next_day_of target_date = Ok next_day
      ∧ Pattern.target_date_connections data
        = filter (λ conn, in_target_night target_date next_day conn = true)
            (out_of_hours_events connections mac)
      ∧ Pattern.baseline_connections data
        = filter (λ conn, in_target_night target_date next_day conn = false)
            (out_of_hours_events connections mac)
      ∧ length (Pattern.target_date_connections data)
        = target_count connections target_date next_day mac
      ∧ length (Pattern.baseline_connections data)
        = baseline_count connections target_date next_day mac
      ∧ size (Pattern.all_dates data) = days_seen connections mac.
Proof.
  intros [Hnd Hdp]%group_out_of_hours_inv Hin. specialize (Hdp mac).
  apply dict_lookup_Some in Hin; [|done]. rewrite Hin in Hdp.
  destruct Hdp as (? & ? & next_day & ? & Ht & Hb & Hd).
  split; [done|]. split; [done|]. exists next_day.
  unfold target_count, baseline_count, days_seen. by rewrite Ht, Hb, Hd.
Qed.

Lemma device_aggregate_exists connections target_date device_patterns mac :
  group_out_of_hours connections target_date = Ok device_patterns →
  truthy mac = true →
  out_of_hours_events connections mac ≠ [] →
  ∃ data, (mac, data) ∈ device_patterns.
Proof.
  intros [Hnd Hdp]%group_out_of_hours_inv Hmac Hev. specialize (Hdp mac).
  destruct (dict_lookup mac device_patterns) as [data|] eqn:Hlook.
  - exists data. by apply dict_lookup_Some.
  - destruct Hdp; congruence.
Qed.

(** A device of the aggregates has a connection on one side or the
    other. *)
Lemma device_aggregate_nonempty connections target_date device_patterns item :
  group_out_of_hours connections target_date = Ok device_patterns →
  item ∈ device_patterns →
  target_device item = true ∨ baseline_only_device item = true.
Proof.
  destruct item as [mac data]. intros Hdp Hin.
  destruct (device_aggregate _ _ _ _ _ Hdp Hin)
    as (_ & Hev & next_day & _ & Ht & Hb & _).
  unfold baseline_only_device, target_device. cbn [fst snd].
  pose proof (length_filter_split (in_target_night target_date next_day)
                (out_of_hours_events connections mac)) as Hlen.
  rewrite <- Ht, <- Hb in Hlen.
  destruct (out_of_hours_events connections mac); [done|]. cbn [length] in Hlen.
  destruct (Nat.ltb_spec 0 (length (Pattern.target_date_connections data)));
    [by left|right]. cbn [negb andb]. apply Nat.ltb_lt. lia.
Qed.

End Buckets.

Section BucketProperties.

Context `{!FromIsoFormat} `{!Strftime}.

(** X1. Every device with a non-empty MAC and an out-of-hours event is
    reported exactly once among the target-date and the baseline-only
    devices, and nothing else is: the MACs of the two buckets are pairwise
    distinct and are those devices. No MAC is listed twice among the
    anomalous and the regular devices either. *)
Theorem devices_reported_once now_date connections target_date st :
  analyze_out_of_hours_patterns now_date connections target_date = Ok st →
  NoDup (bucket_macs st (target_date_devices (buckets st))
         ++ bucket_macs st (baseline_only_devices (buckets st)))
  ∧ NoDup (bucket_macs st (anomalous_devices (buckets st))
           ++ bucket_macs st (baseline_regular_devices (buckets st)))
  ∧ ∀ mac,
      mac ∈ bucket_macs st (target_date_devices (buckets st))
            ++ bucket_macs st (baseline_only_devices (buckets st))
      ↔ truthy mac = true ∧ out_of_hours_events connections mac ≠ [].
Proof.
  intros (dp & ld & Hdp & Hld & _ & -> & -> & -> & ->)%analyze_bucket_macs.
  pose proof Hdp as [Hnd _]%group_out_of_hours_inv.
  split; [|split].
  - apply NoDup_filter_keys_app; [done|].
    intros item Ht. unfold baseline_only_device. by rewrite Ht.
  - apply NoDup_filter_keys_app; [done|].
    intros item. unfold anomalous_device, regular_device.
    destruct (target_device item); [|done]. cbn [andb].
    intros Hne%bool_decide_eq_true Heq%bool_decide_eq_true. done.
  - intros mac. rewrite elem_of_app, !elem_of_filter_keys. split.
    + intros [(data & Hin & _)|(data & Hin & _)];
        destruct (device_aggregate _ _ _ _ _ Hdp Hin) as (? & ? & _); done.
    + intros [Hmac Hev].
      destruct (device_aggregate_exists _ _ _ _ Hdp Hmac Hev) as [data Hin].
      destruct (device_aggregate_nonempty _ _ _ _ Hdp Hin); [left|right]; by exists data.
Qed.

(** X2. The bucket of a device, from its counts: the target bucket lists
    the MACs with a target-night connection; the anomalous bucket those
    among them that the policy does not find regular; the regular bucket
    those the policy finds regular, and the devices without target-night
    connection that are regularly seen; the baseline-only bucket the
    devices with baseline connections only. *)
Theorem bucket_membership now_date connections target_date st next_day mac :
  analyze_out_of_hours_patterns now_date connections target_date = Ok st →
  next_day_of (default_target_date now_date connections target_date) = Ok next_day →
  truthy mac = true →
  let D := default_target_date now_date connections target_date in
  let tc := target_count connections D next_day mac in
  let bc := baseline_count connections D next_day mac in
  let ds := days_seen connections mac in
  let lvl := policy (loiters connections D mac) bc ds in
  (mac ∈ bucket_macs st (target_date_devices (buckets st)) ↔ (0 < tc)%nat)
  ∧ (mac ∈ bucket_macs st (anomalous_devices (buckets st))
     ↔ (0 < tc)%nat ∧ lvl ≠ BASELINE_REGULAR)
  ∧ (mac ∈ bucket_macs st (baseline_regular_devices (buckets st))
     ↔ ((0 < tc)%nat ∧ lvl = BASELINE_REGULAR)
       ∨ (tc = 0%nat ∧ regularly_seen bc ds = true))
  ∧ (mac ∈ bucket_macs st (baseline_only_devices (buckets st))
     ↔ tc = 0%nat ∧ (0 < bc)%nat).
Proof.
  intros (dp & ld & Hdp & Hld & _ & -> & -> & -> & ->)%analyze_bucket_macs Hnext Hmac.
  cbv zeta. set (D := default_target_date now_date connections target_date) in *.
  rewrite !elem_of_filter_keys.
  assert (∀ data, (mac, data) ∈ dp →
            length (Pattern.target_date_connections data)
            = target_count connections D next_day mac
            ∧ length (Pattern.baseline_connections data)
              = baseline_count connections D next_day mac
            ∧ size (Pattern.all_dates data) = days_seen connections mac
            ∧ device_level ld (mac, data)
              = policy (loiters connections D mac)
                  (baseline_count connections D next_day mac)
                  (days_seen connections mac)) as Hagg.
  { intros data Hin.
    destruct (device_aggregate _ _ _ _ _ Hdp Hin)
      as (_ & _ & next_day' & Hnext' & _ & _ & Ht & Hb & Hd).
    assert (next_day' = next_day) as -> by congruence.
    repeat (split; [done|]). unfold device_level. cbn [fst snd].
    rewrite Hb, Hd. by apply policy_loitering_flag. }
  assert ((0 < target_count connections D next_day mac
           ∨ 0 < baseline_count connections D next_day mac)%nat →
          ∃ data, (mac, data) ∈ dp) as Hex.
  { intros Hpos. apply (device_aggregate_exists _ _ _ _ Hdp Hmac).
    unfold target_count, baseline_count in Hpos.
    destruct (out_of_hours_events connections mac); [|done].
    rewrite !filter_nil in Hpos. cbn in Hpos. lia. }
  assert (∀ bc ds, regularly_seen bc ds = true → (0 < bc)%nat) as Hrs.
  { intros bc ds. unfold regularly_seen.
    intros [[?%Nat.leb_le _]%andb_true_iff|?%Nat.leb_le]%orb_true_iff; lia. }
  unfold anomalous_device, regular_device, baseline_only_device, target_device.
  cbn [fst snd]. split; [|split; [|split]]; split.
  - intros (data & Hin & Ht%Nat.ltb_lt). destruct (Hagg _ Hin) as (<- & _). done.
  - intros Htc. destruct Hex as [data Hin]; [by left|]. exists data. split; [done|].
    destruct (Hagg _ Hin) as (-> & _). by apply Nat.ltb_lt.
  - intros (data & Hin & [Ht%Nat.ltb_lt Hl%bool_decide_eq_true]%andb_true_iff).
    destruct (Hagg _ Hin) as (<- & _ & _ & <-). done.
  - intros [Htc Hl]. destruct Hex as [data Hin]; [by left|]. exists data. split; [done|].
    destruct (Hagg _ Hin) as (-> & _ & _ & ->).
    apply andb_true_iff. split; [by apply Nat.ltb_lt|by apply bool_decide_eq_true].
  - intros (data & Hin & Hr). destruct (Hagg _ Hin) as (<- & <- & <- & <-).
    destruct (Nat.ltb_spec 0 (length (Pattern.target_date_connections data))).
    + left. split; [done|]. by apply bool_decide_eq_true in Hr.
    + right. split; [lia|done].
  - intros [[Htc Hl]|[Htc Hr]].
    + destruct Hex as [data Hin]; [by left|]. exists data. split; [done|].
      destruct (Hagg _ Hin) as (-> & _ & _ & ->).
      rewrite (proj2 (Nat.ltb_lt _ _)) by done. by apply bool_decide_eq_true.
    + destruct Hex as [data Hin]; [right; by eapply Hrs|]. exists data. split; [done|].
      destruct (Hagg _ Hin) as (-> & -> & -> & _).
      by rewrite (proj2 (Nat.ltb_ge _ _)) by lia.
  - intros (data & Hin & [Ht%negb_true_iff%Nat.ltb_ge Hb%Nat.ltb_lt]%andb_true_iff).
    destruct (Hagg _ Hin) as (<- & <- & _). split; [lia|done].
  - intros [Htc Hbc]. destruct Hex as [data Hin]; [by right|]. exists data. split; [done|].
    destruct (Hagg _ Hin) as (-> & -> & _).
    apply andb_true_iff. split; [|by apply Nat.ltb_lt].
    apply negb_true_iff, Nat.ltb_ge. lia.
Qed.

End BucketProperties.

(** *** Strings in order, and the size of a set of dates *)

Lemma string_ltb_leb s1 s2 : String.ltb s1 s2 = true → String.leb s1 s2 = true.
Proof. unfold String.ltb, String.leb. by destruct (String.compare s1 s2). Qed.

Lemma string_ltb_false_leb s1 s2 : String.ltb s1 s2 = false → String.leb s2 s1 = true.
Proof.
  unfold String.ltb, String.leb. rewrite (String.compare_antisym s1 s2).
  by destruct (String.compare s2 s1).
Qed.

Lemma string_ltb_irrefl s : String.ltb s s = false.
Proof.
  unfold String.ltb. pose proof (String.compare_antisym s s) as Hc.
  by destruct (String.compare s s).
Qed.

Lemma string_ltb_leb_trans s1 s2 s3 :
  String.ltb s1 s2 = true → String.leb s2 s3 = true → String.ltb s1 s3 = true.
Proof.
  intros H12 H23.
  destruct (String.ltb s1 s3) eqn:H13; [done|].
  apply string_ltb_false_leb in H13.
  pose proof (string_leb_trans _ _ _ H23 H13) as H21.
  pose proof (String.leb_antisym _ _ (string_ltb_leb _ _ H12) H21) as Heq.
  rewrite Heq, string_ltb_irrefl in H12. done.
Qed.

Lemma string_leb_ltb_trans s1 s2 s3 :
  String.leb s1 s2 = true → String.ltb s2 s3 = true → String.ltb s1 s3 = true.
Proof.
  intros H12 H23.
  destruct (String.ltb s1 s3) eqn:H13; [done|].
  apply string_ltb_false_leb in H13.
  pose proof (string_leb_trans _ _ _ H13 H12) as H32.
  pose proof (String.leb_antisym _ _ (string_ltb_leb _ _ H23) H32) as Heq.
  rewrite Heq, string_ltb_irrefl in H23. done.
Qed.

(** [max] over strings: an element, and an upper bound. *)
Lemma str_max_spec l : ∀ s,
  str_max s l ∈ s :: l ∧ ∀ x, x ∈ s :: l → String.leb x (str_max s l) = true.
Proof.
  unfold str_max. induction l as [|y l IH]; intros s; cbn [foldl].
  { split; [apply elem_of_cons; by left|].
    intros x [->|[]%elem_of_nil]%elem_of_cons. apply string_leb_refl. }
  destruct (String.ltb s y) eqn:Hlt.
  - destruct (IH y) as [Hin Hub]. split.
    + apply elem_of_cons. by right.
    + intros x [->|Hx]%elem_of_cons; [|by apply Hub].
      eapply string_leb_trans; [by apply string_ltb_leb|].
      apply Hub, elem_of_cons. by left.
  - destruct (IH s) as [Hin Hub]. split.
    + apply elem_of_cons in Hin as [->|Hin]; [apply elem_of_cons; by left|].
      apply elem_of_cons. right. apply elem_of_cons. by right.
    + intros x [->|[->|Hx]%elem_of_cons]%elem_of_cons.
      * apply Hub, elem_of_cons. by left.
      * eapply string_leb_trans; [by apply string_ltb_false_leb|].
        apply Hub, elem_of_cons. by left.
      * apply Hub, elem_of_cons. by right.
Qed.

(** [min] over strings: an element, and a lower bound. *)
Lemma str_min_spec l : ∀ s,
  str_min s l ∈ s :: l ∧ ∀ x, x ∈ s :: l → String.leb (str_min s l) x = true.
Proof.
  unfold str_min. induction l as [|y l IH]; intros s; cbn [foldl].
  { split; [apply elem_of_cons; by left|].
    intros x [->|[]%elem_of_nil]%elem_of_cons. apply string_leb_refl. }
  destruct (String.ltb y s) eqn:Hlt.
  - destruct (IH y) as [Hin Hlb]. split.
    + apply elem_of_cons. by right.
    + intros x [->|Hx]%elem_of_cons; [|by apply Hlb].
      eapply string_leb_trans; [|by apply string_ltb_leb].
      apply Hlb, elem_of_cons. by left.
  - destruct (IH s) as [Hin Hlb]. split.
    + apply elem_of_cons in Hin as [->|Hin]; [apply elem_of_cons; by left|].
      apply elem_of_cons. right. apply elem_of_cons. by right.
    + intros x [->|[->|Hx]%elem_of_cons]%elem_of_cons.
      * apply Hlb, elem_of_cons. by left.
      * eapply string_leb_trans; [|by apply string_ltb_false_leb].
        apply Hlb, elem_of_cons. by left.
      * apply Hlb, elem_of_cons. by right.
Qed.

(** A set built from a list has at most as many elements as the list,
    and one at least when the list is not empty. *)
Lemma size_list_to_set_le (l : list string) :
  (size (list_to_set l : gset string) ≤ length l)%nat.
Proof.
  induction l as [|x l IH]; [done|]. cbn [list_to_set length].
  rewrite size_union_alt, size_singleton.
  assert ((list_to_set l : gset string) ∖ {[x]} ⊆ list_to_set l) as Hsub
    by (by intros y [? _]%elem_of_difference).
  apply subseteq_size in Hsub. lia.
Qed.

Lemma size_list_to_set_pos (l : list string) :
  l ≠ [] → (1 ≤ size (list_to_set l : gset string))%nat.
Proof.
  destruct l as [|x l]; [done|]. intros _.
  assert (size (list_to_set (x :: l) : gset string) ≠ 0%nat); [|lia].
  apply size_non_empty_iff. intros Hempty.
  assert (x ∈ (list_to_set (x :: l) : gset string)) as Hx
    by (apply elem_of_list_to_set, elem_of_cons; by left).
  rewrite Hempty in Hx. by apply elem_of_empty in Hx.
Qed.

Section RecordProperties.

Context `{!FromIsoFormat} `{!Strftime}.

(** The analysis, when it returns: the records behind its buckets. *)
Lemma analyze_records now_date connections target_date st :
  analyze_out_of_hours_patterns now_date connections target_date = Ok st →
  ∃ device_patterns loitering_devices,
    group_out_of_hours connections
      (default_target_date now_date connections target_date) = Ok device_patterns
    ∧ detect_loitering_patterns connections
        (default_target_date now_date connections target_date) = Ok loitering_devices
    ∧ (∀ mac data,
         (mac, data) ∈ device_patterns →
         (0 < length (Pattern.target_date_connections data))%nat →
         ∃ r d, target_record loitering_devices st mac data r d)
    ∧ (∀ mac data,
         (mac, data) ∈ device_patterns →
         length (Pattern.target_date_connections data) = 0%nat →
         (0 < length (Pattern.baseline_connections data))%nat →
         ∃ r d, baseline_only_record st mac data r d)
    ∧ (∀ r, r ∈ target_date_devices (buckets st) →
         ∃ mac data d, (mac, data) ∈ device_patterns
           ∧ target_record loitering_devices st mac data r d)
    ∧ (∀ r, r ∈ anomalous_devices (buckets st) →
         ∃ mac data d, (mac, data) ∈ device_patterns
           ∧ target_record loitering_devices st mac data r d
           ∧ device_level loitering_devices (mac, data) ≠ BASELINE_REGULAR)
    ∧ (∀ r, r ∈ baseline_regular_devices (buckets st) →
         (∃ mac data d, (mac, data) ∈ device_patterns
            ∧ target_record loitering_devices st mac data r d
            ∧ device_level loitering_devices (mac, data) = BASELINE_REGULAR)
         ∨ (∃ mac data r0 d0, (mac, data) ∈ device_patterns
              ∧ baseline_only_record st mac data r0 d0
              ∧ regularly_seen (length (Pattern.baseline_connections data))
                  (size (Pattern.all_dates data)) = true
              ∧ r = S r0))
    ∧ (∀ r, r ∈ baseline_only_devices (buckets st) →
         ∃ mac data d, (mac, data) ∈ device_patterns
           ∧ baseline_only_record st mac data r d).
Proof.
  intros (dp & ld & Hdp & Hld & ->)%analyze_out_of_hours_patterns_inv.
  exists dp, ld. split; [done|]. split; [done|].
  destruct (classify_loop_records ld dp (initial_state ld))
    as (Hft & Hfb & Hbt & Hba & Hbr & Hbb).
  cbv zeta in *. fold (initial_state ld).
  split; [done|]. split; [done|].
  split; [|split; [|split]].
  - intros r [[]%elem_of_nil|?]%Hbt. done.
  - intros r [[]%elem_of_nil|?]%Hba. done.
  - intros r [[]%elem_of_nil|?]%Hbr. done.
  - intros r [[]%elem_of_nil|?]%Hbb. done.
Qed.

Lemma device_level_cases loitering_devices item :
  device_level loitering_devices item = LOITERING_SUSPICIOUS
  ∨ device_level loitering_devices item = ANOMALOUS_SUSPICIOUS
  ∨ device_level loitering_devices item = BASELINE_REGULAR.
Proof. apply policy_cases. Qed.

(** X3. The label of a record agrees with the bucket that lists it: the
    anomalous bucket holds [LOITERING_SUSPICIOUS] and
    [ANOMALOUS_SUSPICIOUS] records, all of them target-date records; the
    regular bucket holds [BASELINE_REGULAR] records; the baseline-only
    bucket holds [BASELINE_ONLY] records, without target connection or
    target timestamps and outside the target bucket; the loitering bucket
    holds [LOITERING_SUSPICIOUS] records. A target-date record is in the
    anomalous bucket or in the regular bucket, never in both. *)
Theorem bucket_labels now_date connections target_date st :
  analyze_out_of_hours_patterns now_date connections target_date = Ok st →
  (∀ r, r ∈ anomalous_devices (buckets st) →
     r ∈ target_date_devices (buckets st)
     ∧ ∃ d, heap st !! r = Some d
         ∧ (Info.risk_level d = Some LOITERING_SUSPICIOUS
            ∨ Info.risk_level d = Some ANOMALOUS_SUSPICIOUS))
  ∧ (∀ r, r ∈ baseline_regular_devices (buckets st) →
       ∃ d, heap st !! r = Some d ∧ Info.risk_level d = Some BASELINE_REGULAR)
  ∧ (∀ r, r ∈ baseline_only_devices (buckets st) →
       (r ∉ target_date_devices (buckets st))
       ∧ ∃ d, heap st !! r = Some d
           ∧ Info.risk_level d = Some BASELINE_ONLY
           ∧ Info.target_date_connections d = 0%nat
           ∧ Info.first_target_connection d = None
           ∧ Info.last_target_connection d = None)
  ∧ (∀ r, r ∈ loitering_devices (buckets st) →
       ∃ d, heap st !! r = Some d ∧ Info.risk_level d = Some LOITERING_SUSPICIOUS)
  ∧ (∀ r, r ∈ target_date_devices (buckets st) →
       (r ∈ anomalous_devices (buckets st) ∧ r ∉ baseline_regular_devices (buckets st))
       ∨ (r ∈ baseline_regular_devices (buckets st) ∧ r ∉ anomalous_devices (buckets st))).
Proof.
  intros Hst.
  destruct (analyze_records _ _ _ _ Hst)
    as (dp & ld & Hdp & Hld & _ & _ & Hbt & Hba & Hbr & Hbb).
  assert (∀ r, r ∈ anomalous_devices (buckets st) →
            r ∈ target_date_devices (buckets st)
            ∧ ∃ d, heap st !! r = Some d
                ∧ (Info.risk_level d = Some LOITERING_SUSPICIOUS
                   ∨ Info.risk_level d = Some ANOMALOUS_SUSPICIOUS)) as Ha.
  { intros r (mac & data & d & _ & (Hr & _ & _ & Hrisk & Ht & _) & Hne)%Hba.
    split; [done|]. exists d. split; [done|]. rewrite Hrisk.
    destruct (device_level_cases ld (mac, data)) as [->|[->|?]]; [by left|by right|done]. }
  assert (∀ r, r ∈ baseline_regular_devices (buckets st) →
            ∃ d, heap st !! r = Some d ∧ Info.risk_level d = Some BASELINE_REGULAR) as Hr.
  { intros r [(mac & data & d & _ & (Hr & _ & _ & Hrisk & _) & Heq)
             |(mac & data & r0 & d0 & _ & (_ & _ & _ & _ & _ & _ & _ & Hcopy) & Hrs & ->)]%Hbr.
    - exists d. by rewrite Hrisk, Heq.
    - destruct (Hcopy Hrs) as [Hs _]. by eexists. }
  split; [done|]. split; [done|]. split; [|split].
  - intros r Hb. pose proof Hb as (mac & data & d & _ & (Hr0 & Hagg & Htc & _ & Hrisk & _))%Hbb.
    split.
    + intros (mac' & data' & d' & _ & (Hr' & _ & _ & Hrisk' & _))%Hbt.
      assert (d' = d) as -> by congruence. rewrite Hrisk in Hrisk'.
      by destruct (device_level_cases ld (mac', data')) as [Hl|[Hl|Hl]]; rewrite Hl in Hrisk'.
    + exists d. split; [done|]. split; [done|].
      destruct Hagg as (_ & _ & -> & _ & _ & _ & _ & -> & ->).
      split; [done|].
      by destruct (Pattern.target_date_connections data).
  - intros r Hl.
    pose proof (analyze_loitering_bucket _ _ _ _ Hst) as Hbucket.
    rewrite Hld in Hbucket. injection Hbucket as Hbucket.
    pose proof Hst as (dp' & ld' & _ & Hld' & ->)%analyze_out_of_hours_patterns_inv.
    assert (ld' = ld) as -> by congruence.
    match type of Hl with context [foldl ?f ?s dp'] =>
      destruct (classify_loop ld dp' s) as ((Hh & _ & _ & _ & _ & Hlb) & _) end.
    cbn [heap buckets loitering_devices] in Hh, Hlb. rewrite <- Hlb in Hl.
    apply elem_of_seq in Hl as [_ Hl]. cbn in Hl.
    destruct (lookup_lt_is_Some_2 ld r Hl) as [d Hd].
    exists d. split; [by eapply prefix_lookup_Some|].
    apply list_elem_of_lookup_2 in Hd.
    by destruct (detect_loitering_patterns_elem _ _ _ _ Hld Hd)
      as (_ & _ & ? & ? & ? & ? & ? & _ & _ & _ & _ & _ & _ & _ & _ & _ & ? & _).
  - intros r (mac & data & d & _ & (Hr0 & _ & _ & Hrisk & _ & Hp))%Hbt.
    destruct (device_level_cases ld (mac, data)) as [Hl|[Hl|Hl]];
      rewrite Hl in Hp, Hrisk; cbn [policy_bucket] in Hp.
    + left. split; [done|]. intros (d' & ? & ?)%Hr. congruence.
    + left. split; [done|]. intros (d' & ? & ?)%Hr. congruence.
    + right. split; [done|]. intros (_ & d' & ? & [?|?])%Ha; congruence.
Qed.

End RecordProperties.

Section CountProperties.

Context `{!FromIsoFormat} `{!Strftime}.

(** X4. The counts of a reported device add up: for every record of the
    target-date and the baseline-only buckets, the target and the baseline
    connections together are the out-of-hours events of its MAC, the days
    seen are one at least and no more than those events, and the record
    is a target-date record exactly when its target count is positive. *)
Theorem device_counts now_date connections target_date st r d :
  analyze_out_of_hours_patterns now_date connections target_date = Ok st →
  r ∈ target_date_devices (buckets st) ++ baseline_only_devices (buckets st) →
  heap st !! r = Some d →
  truthy (Info.mac d) = true
  ∧ (Info.target_date_connections d + Info.baseline_connections d
     = length (out_of_hours_events connections (Info.mac d)))%nat
  ∧ (1 ≤ Info.days_seen_out_of_hours d
     ≤ length (out_of_hours_events connections (Info.mac d)))%nat
  ∧ (r ∈ target_date_devices (buckets st) ↔ (0 < Info.target_date_connections d)%nat).
Proof.
  intros Hst Hr Hd.
  destruct (analyze_records _ _ _ _ Hst)
    as (dp & ld & Hdp & Hld & _ & _ & Hbt & _ & _ & Hbb).
  assert (∃ mac data, (mac, data) ∈ dp ∧ aggregate_fields mac data d
            ∧ (r ∈ target_date_devices (buckets st)
               ↔ (0 < length (Pattern.target_date_connections data))%nat))
    as (mac & data & Hin & (Hmac & _ & Htc & Hbc & Hds & _) & Hiff).
  { apply elem_of_app in Hr as [Hr|Hr].
    - pose proof Hr as (mac & data & d' & Hin & (Hd' & Hagg & Htc & _))%Hbt.
      assert (d' = d) as -> by congruence. by exists mac, data.
    - pose proof Hr as (mac & data & d' & Hin & (Hd' & Hagg & Htc & _ & Hrisk & _))%Hbb.
      assert (d' = d) as -> by congruence. exists mac, data.
      split; [done|]. split; [done|]. split; [|lia].
      intros (mac' & data' & d' & _ & (Hd'' & _ & _ & Hrisk' & _))%Hbt.
      assert (d' = d) as -> by congruence. rewrite Hrisk in Hrisk'.
      by destruct (device_level_cases ld (mac', data')) as [Hl|[Hl|Hl]]; rewrite Hl in Hrisk'. }
  destruct (device_aggregate _ _ _ _ _ Hdp Hin)
    as (Htruthy & Hev & next_day & _ & Ht & Hb & _ & _ & Hdays).
  rewrite Hmac, Htc, Hbc, Hds. split; [done|].
  split; [rewrite Ht, Hb; apply length_filter_split|].
  split; [|done].
  rewrite Hdays. unfold days_seen. split.
  - apply size_list_to_set_pos. by destruct (out_of_hours_events connections mac).
  - etrans; [apply size_list_to_set_le|]. by rewrite length_fmap.
Qed.

(** X5. The first and the last target connection of a target-date record
    are the least and the greatest timestamp, in the order of strings,
    among the target-night events of its MAC: both are timestamps of such
    events and every such event lies between them. *)
Theorem target_connection_bounds now_date connections target_date st next_day r d :
  analyze_out_of_hours_patterns now_date connections target_date = Ok st →
  next_day_of (default_target_date now_date connections target_date) = Ok next_day →
  r ∈ target_date_devices (buckets st) →
  heap st !! r = Some d →
  let night :=
    filter (λ conn, in_target_night
                      (default_target_date now_date connections target_date)
                      next_day conn = true)
      (out_of_hours_events connections (Info.mac d)) in
  ∃ first_timestamp last_timestamp,
    Info.first_target_connection d = Some first_timestamp
    ∧ Info.last_target_connection d = Some last_timestamp
    ∧ first_timestamp ∈ Conn.timestamp <$> night
    ∧ last_timestamp ∈ Conn.timestamp <$> night
    ∧ ∀ conn, conn ∈ night →
        String.leb first_timestamp (Conn.timestamp conn) = true
        ∧ String.leb (Conn.timestamp conn) last_timestamp = true.
Proof.
  intros Hst Hnext Hr Hd. cbv zeta.
  destruct (analyze_records _ _ _ _ Hst)
    as (dp & ld & Hdp & Hld & _ & _ & Hbt & _).
  pose proof Hr as (mac & data & d' & Hin & (Hd' & Hagg & Htc & _))%Hbt.
  assert (d' = d) as -> by congruence.
  destruct Hagg as (Hmac & _ & _ & _ & _ & _ & _ & Hfirst & Hlast).
  destruct (device_aggregate _ _ _ _ _ Hdp Hin)
    as (_ & _ & next_day' & Hnext' & Ht & _).
  assert (next_day' = next_day) as -> by congruence.
  rewrite Hmac, <- Ht, Hfirst, Hlast.
  destruct (Pattern.target_date_connections data) as [|c l]; [cbn in Htc; lia|].
  cbn [min_timestamp max_timestamp].
  destruct (str_min_spec (Conn.timestamp <$> l) (Conn.timestamp c)) as [Hmin Hlb].
  destruct (str_max_spec (Conn.timestamp <$> l) (Conn.timestamp c)) as [Hmax Hub].
  eexists _, _. split; [done|]. split; [done|].
  rewrite fmap_cons. split; [done|]. split; [done|].
  intros conn Hconn.
  assert (Conn.timestamp conn ∈ Conn.timestamp c :: (Conn.timestamp <$> l)) as Hts
    by (rewrite <- fmap_cons; by apply list_elem_of_fmap_2).
  split; [by apply Hlb|by apply Hub].
Qed.

(** X6. A device with baseline connections only gets one [BASELINE_ONLY]
    record, with its counts and the explanation of its days seen. When it
    is regularly seen (a baseline on two days or more, or three baseline
    connections or more) the regular bucket holds a copy of the record
    under another reference, relabelled [BASELINE_REGULAR] and otherwise
    equal, and the original keeps its label; when it is not, the regular
    bucket does not list the MAC. *)
Theorem baseline_only_device_copied now_date connections target_date st next_day mac :
  analyze_out_of_hours_patterns now_date connections target_date = Ok st →
  next_day_of (default_target_date now_date connections target_date) = Ok next_day →
  truthy mac = true →
  let D := default_target_date now_date connections target_date in
  let bc := baseline_count connections D next_day mac in
  let ds := days_seen connections mac in
  target_count connections D next_day mac = 0%nat →
  (0 < bc)%nat →
  ∃ r d,
    r ∈ baseline_only_devices (buckets st)
    ∧ heap st !! r = Some d
    ∧ Info.mac d = mac
    ∧ Info.risk_level d = Some BASELINE_ONLY
    ∧ Info.target_date_connections d = 0%nat
    ∧ Info.baseline_connections d = bc
    ∧ Info.days_seen_out_of_hours d = ds
    ∧ Info.risk_explanation d
      = (if (3 <=? ds)%nat then always_on_explanation bc ds
         else baseline_device_explanation bc ds)
    ∧ if regularly_seen bc ds
      then ∃ r', r' ≠ r
             ∧ r' ∈ baseline_regular_devices (buckets st)
             ∧ heap st !! r' = Some (Info.set_risk_level BASELINE_REGULAR d)
      else mac ∉ bucket_macs st (baseline_regular_devices (buckets st)).
Proof.
  intros Hst Hnext Hmac. cbv zeta. intros Htc Hbc.
  destruct (analyze_records _ _ _ _ Hst)
    as (dp & ld & Hdp & Hld & _ & Hfb & _).
  destruct (device_aggregate_exists _ _ _ mac Hdp Hmac) as [data Hin].
  { unfold baseline_count in Hbc. destruct (out_of_hours_events connections mac); [|done].
    rewrite filter_nil in Hbc. cbn in Hbc. lia. }
  destruct (device_aggregate _ _ _ _ _ Hdp Hin)
    as (_ & _ & next_day' & Hnext' & _ & _ & Ht & Hb & Hdays).
  assert (next_day' = next_day) as -> by congruence.
  destruct (Hfb mac data Hin) as (r & d & Hr & Hagg & _ & _ & Hrisk & Hexpl & Hbo & Hcopy);
    [lia..|].
  destruct Hagg as (Hm & _ & Hdt & Hdb & Hdd & _).
  exists r, d. rewrite Hdt, Hdb, Hdd, Hexpl, Ht, Hb, Hdays, Htc.
  repeat (split; [done|]).
  rewrite Hb, Hdays in Hcopy.
  destruct (regularly_seen _ _) eqn:Hrs.
  - destruct (Hcopy eq_refl) as [Hs Hsin]. exists (S r). split; [lia|done].
  - pose proof Hst as (dp' & ld' & Hdp' & _ & _ & _ & _ & Hmacs & _)%analyze_bucket_macs.
    assert (dp' = dp) as -> by congruence. rewrite Hmacs.
    intros (data' & Hin' & Hreg)%elem_of_filter_keys.
    pose proof Hdp as [Hnd _]%group_out_of_hours_inv.
    apply dict_lookup_Some in Hin, Hin'; [|done..].
    assert (data' = data) as -> by congruence.
    unfold regular_device, target_device in Hreg. cbn [fst snd] in Hreg.
    rewrite Ht, Htc, Hb, Hdays in Hreg.
    change (0 <? 0)%nat with false in Hreg. cbv iota in Hreg.
    congruence.
Qed.

(** X7. The loitering bucket is the output of the loitering detector,
    record for record, and the classification loop leaves it as it is:
    every record keeps the detector's defaults, no network, no SSID, no
    baseline connection and one day seen, and counts every connection of
    its MAC on the target date, two at least. *)
Theorem loitering_bucket_untouched now_date connections target_date st :
  analyze_out_of_hours_patterns now_date connections target_date = Ok st →
  detect_loitering_patterns connections
    (default_target_date now_date connections target_date)
  = Ok (deref st (loitering_devices (buckets st)))
  ∧ ∀ d, d ∈ deref st (loitering_devices (buckets st)) →
      Info.networks d = []
      ∧ Info.ssids d = []
      ∧ Info.baseline_connections d = 0%nat
      ∧ Info.days_seen_out_of_hours d = 1%nat
      ∧ Info.risk_level d = Some LOITERING_SUSPICIOUS
      ∧ Info.target_date_connections d
        = length (day_connections connections
                    (default_target_date now_date connections target_date) (Info.mac d))
      ∧ (2 ≤ Info.target_date_connections d)%nat.
Proof.
  intros Hst. pose proof (analyze_loitering_bucket _ _ _ _ Hst) as Hld.
  split; [done|]. intros d Hd.
  apply detect_loitering_patterns_inv in Hld as [_ Hin].
  apply Hin in Hd as (mac & conns & Hg & Hrec).
  apply group_target_day_elem in Hg as [_ ->].
  apply loitering_record_Some in Hrec
    as (c0 & cN & first_conn & last_conn & us & Hlen & _ & _ & _ & _ & _ & _ & _ & _ & ->).
  cbn [Info.networks Info.ssids Info.baseline_connections Info.days_seen_out_of_hours
       Info.risk_level Info.target_date_connections Info.mac].
  repeat (split; [done|]). by rewrite sort_by_timestamp_length.
Qed.

End CountProperties.

(** *** When the analysis raises *)

Section Raises.

Context `{!FromIsoFormat} `{!Strftime}.

Local Open Scope Z_scope.

(** The detector's body returns exactly when a group of two connections
    or more has a first and a last timestamp that parse and that can be
    subtracted. *)
Lemma loitering_record_returns_iff mac conns :
  (∃ r, loitering_record mac conns = Ok r)
  ↔ ((length conns < 2)%nat
     ∨ ∃ c0 cN, head (sort_by_timestamp conns) = Some c0
                ∧ last (sort_by_timestamp conns) = Some cN
                ∧ is_Some (elapsed_us c0 cN)).
Proof.
  unfold loitering_record.
  destruct (Nat.ltb_spec (length conns) 2) as [Hlen|Hlen].
  { split; [by left|by eexists]. }
  cbv zeta. unfold first_item, last_item.
  destruct (sort_by_timestamp conns) as [|c0 day] eqn:Hday.
  { apply (f_equal length) in Hday. rewrite sort_by_timestamp_length in Hday.
    cbn in Hday. lia. }
  destruct (last (c0 :: day)) as [cN|] eqn:HcN; [|by apply last_None in HcN].
  cbn [mbind result_bind head].
  assert (∀ P : Prop,
            (elapsed_us c0 cN = None) →
            ((length conns < 2)%nat
             ∨ ∃ c0' cN', Some c0 = Some c0' ∧ Some cN = Some cN'
                          ∧ is_Some (elapsed_us c0' cN')) → P) as Hno.
  { intros P Hnone [?|(? & ? & [= <-] & [= <-] & Hs)]; [lia|].
    rewrite Hnone in Hs. by destruct Hs. }
  unfold elapsed_us in Hno.
  destruct (parse_timestamp (Conn.timestamp c0)) as [first_conn|] eqn:Hfirst;
    cbn [mbind result_bind]; [|split; [by intros []|by apply Hno]].
  destruct (parse_timestamp (Conn.timestamp cN)) as [last_conn|] eqn:Hlast;
    cbn [mbind result_bind]; [|split; [by intros []|by apply Hno]].
  destruct (datetime_sub last_conn first_conn) as [us|] eqn:Hus;
    cbn [mbind result_bind]; [|split; [by intros []|by apply Hno]].
  split.
  - intros _. right. exists c0, cN. split; [done|]. split; [done|].
    unfold elapsed_us. rewrite Hfirst, Hlast, Hus. by eexists.
  - intros _. destruct (_ && _ && _); by eexists.
Qed.

Lemma foldM_returns_inv {A S} (f : S → A → result S) (l : list A) :
  ∀ s s', foldM f s l = Ok s' → ∀ x, x ∈ l → ∃ s0 s1, f s0 x = Ok s1.
Proof.
  induction l as [|y l IH]; intros s s' Hf x Hx; [by apply elem_of_nil in Hx|].
  cbn [foldM] in Hf. destruct (f s y) as [s1|] eqn:Hy; [|done].
  cbn [mbind result_bind] in Hf.
  apply elem_of_cons in Hx as [->|Hx]; [by eexists _, _|by eapply IH].
Qed.

(** The detector returns exactly when every MAC with two connections or
    more on the target date has a first and a last timestamp that parse
    and that can be subtracted. *)
Lemma detect_loitering_patterns_returns_iff connections target_date :
  (∃ loitering_devices,
     detect_loitering_patterns connections target_date = Ok loitering_devices)
  ↔ ∀ mac c0 cN,
      truthy mac = true →
      first_and_last connections target_date mac = Some (c0, cN) →
      is_Some (elapsed_us c0 cN).
Proof.
  split.
  - intros [ld [Hall _]%detect_loitering_patterns_inv] mac c0 cN Hmac Hfl.
    apply first_and_last_Some in Hfl as (Hlen & Hc0 & HcN).
    unfold day_connections in *. rewrite sort_by_timestamp_length in Hlen.
    set (conns := filter _ connections) in *.
    assert ((mac, conns) ∈ group_target_day connections target_date) as Hg.
    { apply dict_lookup_Some; [apply group_target_day_NoDup|].
      rewrite group_target_day_lookup. cbv zeta. fold conns. rewrite Hmac.
      rewrite bool_decide_eq_true_2; [done|]. intros Hnil.
      rewrite Hnil in Hlen. cbn in Hlen. lia. }
    destruct (proj1 (loitering_record_returns_iff mac conns) (Hall _ _ Hg))
      as [?|(c0' & cN' & ? & ? & ?)]; [lia|congruence].
  - intros Hall. unfold detect_loitering_patterns. cbv zeta.
    apply foldM_returns. intros acc [mac conns] Hg.
    apply group_target_day_elem in Hg as [Hmac ->].
    set (conns := filter _ connections).
    destruct (proj2 (loitering_record_returns_iff mac conns)) as [r ->];
      [|cbn [mbind result_bind]; by eexists].
    destruct (Nat.ltb_spec (length conns) 2) as [Hlen|Hlen]; [by left|right].
    destruct (sort_by_timestamp conns) as [|c0 day] eqn:Hday.
    { apply (f_equal length) in Hday. rewrite sort_by_timestamp_length in Hday.
      cbn in Hday. lia. }
    destruct (last (c0 :: day)) as [cN|] eqn:HcN; [|by apply last_None in HcN].
    exists c0, cN. split; [done|]. split; [done|].
    apply (Hall mac); [done|]. apply first_and_last_Some.
    unfold day_connections. fold conns.
    rewrite sort_by_timestamp_length, Hday. by repeat split.
Qed.

(** The grouping of the out-of-hours events returns exactly when the
    target date has a next day, or no out-of-hours event has a MAC. *)
Lemma group_out_of_hours_returns_iff connections target_date :
  (∃ device_patterns, group_out_of_hours connections target_date = Ok device_patterns)
  ↔ ((∃ next_day, next_day_of target_date = Ok next_day)
     ∨ ∀ conn, conn ∈ connections →
         truthy (Conn.client_mac conn) = true →
         out_of_hours (Conn.timestamp conn) = false).
Proof.
  split.
  - intros [dp Hdp]. destruct dp as [|[mac data] rest].
    + right. intros conn Hin Hmac.
      destruct (out_of_hours (Conn.timestamp conn)) eqn:Hooh; [|done].
      destruct (device_aggregate_exists _ _ _ (Conn.client_mac conn) Hdp Hmac)
        as [data Hdata]; [|by apply elem_of_nil in Hdata].
      intros Hnil.
      assert (conn ∈ out_of_hours_events connections (Conn.client_mac conn)) as Hev
        by (by apply list_elem_of_filter).
      rewrite Hnil in Hev. by apply elem_of_nil in Hev.
    + left. destruct (device_aggregate _ _ _ mac data Hdp)
        as (_ & _ & next_day & ? & _); [apply elem_of_cons; by left|by eexists].
  - intros [[next_day Hnext]|Hnone]; [by eapply group_out_of_hours_returns|].
    unfold group_out_of_hours.
    rewrite (filterM_Ok _ (λ conn, out_of_hours (Conn.timestamp conn)))
      by (intros; apply is_out_of_hours_eq).
    cbn [mbind result_bind]. apply foldM_returns.
    intros dp conn [Hooh Hin]%list_elem_of_filter. unfold add_pattern.
    destruct (truthy (Conn.client_mac conn)) eqn:Hmac; [|by eexists].
    rewrite (Hnone conn Hin Hmac) in Hooh. done.
Qed.

(** X8. The analysis returns exactly when (1) the target date has a next
    day, or no out-of-hours event has a MAC, and (2) every MAC with two
    connections or more on the target date has a first and a last
    timestamp that parse and that can be subtracted, both naive or both
    aware. In every other case it raises: the hour classifiers fail
    softly, the analysis does not. *)
Theorem analysis_returns_iff now_date connections target_date :
  (∃ st, analyze_out_of_hours_patterns now_date connections target_date = Ok st)
  ↔ ((∃ next_day,
        next_day_of (default_target_date now_date connections target_date) = Ok next_day)
     ∨ ∀ conn, conn ∈ connections →
         truthy (Conn.client_mac conn) = true →
         out_of_hours (Conn.timestamp conn) = false)
    ∧ ∀ mac c0 cN,
        truthy mac = true →
        first_and_last connections
          (default_target_date now_date connections target_date) mac = Some (c0, cN) →
        is_Some (elapsed_us c0 cN).
Proof.
  rewrite <- group_out_of_hours_returns_iff, <- detect_loitering_patterns_returns_iff.
  unfold analyze_out_of_hours_patterns. cbv zeta. split.
  - intros [st Hst].
    destruct (group_out_of_hours _ _) as [dp|]; [|done]. cbn [mbind result_bind] in Hst.
    destruct (detect_loitering_patterns _ _) as [ld|]; [|done].
    split; by eexists.
  - intros [[dp ->] [ld ->]]. cbn [mbind result_bind]. by eexists.
Qed.

(** X9. A target date without a next day makes the analysis raise as soon
    as one out-of-hours event has a MAC: the exception of
    [datetime.fromisoformat] on a malformed date, or the [OverflowError]
    of the last day of the calendar, reaches the caller. *)
Theorem analysis_raises_without_next_day now_date connections target_date e conn :
  next_day_of (default_target_date now_date connections target_date) = Raise e →
  conn ∈ connections →
  truthy (Conn.client_mac conn) = true →
  out_of_hours (Conn.timestamp conn) = true →
  analyze_out_of_hours_patterns now_date connections target_date = Raise e.
Proof.
  intros Hnext Hin Hmac Hooh. unfold analyze_out_of_hours_patterns. cbv zeta.
  set (D := default_target_date now_date connections target_date) in *.
  assert (group_out_of_hours connections D = Raise e) as ->; [|done].
  unfold group_out_of_hours.
  rewrite (filterM_Ok _ (λ conn, out_of_hours (Conn.timestamp conn)))
    by (intros; apply is_out_of_hours_eq).
  cbn [mbind result_bind].
  assert (conn ∈ filter (λ conn, out_of_hours (Conn.timestamp conn) = true) connections)
    as Hev by (by apply list_elem_of_filter).
  generalize ([] : list (string * Pattern.t)).
  induction (filter _ connections) as [|c l IH]; intros dp; [by apply elem_of_nil in Hev|].
  cbn [foldM].
  assert (∀ c, truthy (Conn.client_mac c) = true → add_pattern D dp c = Raise e) as Hraise.
  { intros c' Hc'. unfold add_pattern. cbv zeta. rewrite Hc'. cbn [negb].
    unfold next_day_of in Hnext.
    destruct (fromisoformat D) as [target_dt|]; cbn [mbind result_bind] in *; [|by injection Hnext as ->].
    destruct (add_one_day target_dt) as [next_dt|]; cbn [mbind result_bind] in *;
      [done|by injection Hnext as ->]. }
  destruct (truthy (Conn.client_mac c)) eqn:Hc.
  - by rewrite Hraise.
  - assert (add_pattern D dp c = Ok dp) as ->
      by (unfold add_pattern; cbv zeta; by rewrite Hc).
    cbn [mbind result_bind].
    apply elem_of_cons in Hev as [->|Hev]; [congruence|by apply IH].
Qed.

End Raises.

(** *** The two classes of hours, and the default target date *)

Section Hours.

Context `{!FromIsoFormat} `{!Strftime}.

Local Open Scope Z_scope.

(** X10. The two hour classifiers split the timestamps that parse: no
    timestamp is both out of hours and in business hours, and a timestamp
    is in one of the two classes exactly when it parses. *)
Theorem hour_classes_split (timestamp : string) :
  ∃ out business,
    is_out_of_hours timestamp = Ok out
    ∧ is_business_hours timestamp = Ok business
    ∧ out && business = false
    ∧ (out || business = true ↔ ∃ dt, parse_timestamp timestamp = Ok dt).
Proof.
  unfold is_out_of_hours, is_business_hours.
  destruct (parse_timestamp timestamp) as [dt|e]; cbn [mbind result_bind try_except].
  - eexists _, _. split; [done|]. split; [done|].
    destruct (Z.leb_spec 18 (hour dt)), (Z.ltb_spec (hour dt) 6),
      (Z.leb_spec 6 (hour dt)), (Z.ltb_spec (hour dt) 18); cbn;
      first [lia | split; [done|]; split; [by eexists|done]].
  - exists false, false. repeat split; [done|]. by intros [? ?].
Qed.

End Hours.

Lemma substring_prefix_compare (n : nat) : ∀ s1 s2,
  String.compare (substring 0 n s1) (substring 0 n s2) = Eq
  ∨ String.compare (substring 0 n s1) (substring 0 n s2) = String.compare s1 s2.
Proof.
  induction n as [|n IH]; intros s1 s2.
  { left. by destruct s1, s2. }
  destruct s1 as [|c1 s1], s2 as [|c2 s2]; cbn [substring String.compare];
    [by left|by right|by right|].
  destruct (Ascii.compare c1 c2); [apply IH|by right|by right].
Qed.

Lemma date_part_leb s1 s2 :
  String.leb s1 s2 = true → String.leb (date_part s1) (date_part s2) = true.
Proof.
  unfold date_part, String.leb.
  by destruct (substring_prefix_compare 10 s1 s2) as [->| ->].
Qed.

(** X11. Without a target date, the analysis takes the date of the
    greatest timestamp, in the order of strings: some connection has that
    date and no timestamp is greater than its own, and no connection has a
    later date. A target date that is given is kept, and without any
    connection the target date is today. *)
Theorem default_target_date_latest now_date connections target_date :
  (truthy target_date = true →
   default_target_date now_date connections target_date = target_date)
  ∧ (truthy target_date = false →
     match connections with
     | [] => default_target_date now_date connections target_date = now_date
     | _ :: _ =>
         (∃ latest,
            latest ∈ connections
            ∧ default_target_date now_date connections target_date
              = date_part (Conn.timestamp latest)
            ∧ ∀ conn, conn ∈ connections →
                String.leb (Conn.timestamp conn) (Conn.timestamp latest) = true)
         ∧ ∀ conn, conn ∈ connections →
             String.leb (date_part (Conn.timestamp conn))
               (default_target_date now_date connections target_date) = true
     end).
Proof.
  unfold default_target_date. split; intros ->; [done|].
  destruct connections as [|c l]; [done|].
  destruct (str_max_spec (Conn.timestamp <$> l) (Conn.timestamp c)) as [Hin Hub].
  rewrite <- fmap_cons in Hin, Hub.
  apply list_elem_of_fmap in Hin as (latest & Heq & Hlatest).
  split.
  - exists latest. split; [done|]. split; [by rewrite Heq|].
    intros conn Hconn. rewrite <- Heq. by apply Hub, list_elem_of_fmap_2.
  - intros conn Hconn. by apply date_part_leb, Hub, list_elem_of_fmap_2.
Qed.

(** *** The records of the extended-session detector *)

Section ExtendedRecords.

Context `{!FromIsoFormat} `{!Strftime}.

Local Open Scope Z_scope.

Lemma extended_record_Some mac conns e :
  extended_record mac conns = Ok (Some e) →
  ∃ c0 cN first_conn last_conn us,
    (2 ≤ length conns)%nat
    ∧ head (sort_by_timestamp conns) = Some c0
    ∧ last (sort_by_timestamp conns) = Some cN
    ∧ parse_timestamp (Conn.timestamp c0) = Ok first_conn
    ∧ parse_timestamp (Conn.timestamp cN) = Ok last_conn
    ∧ datetime_sub last_conn first_conn = Ok us
    ∧ 6 ≤ hour first_conn < 18 ∧ 18 ≤ hour last_conn
    ∧ e = {| Ext.mac := mac;
             Ext.description := Conn.client_description c0;
             Ext.first_connection := Conn.timestamp c0;
             Ext.last_connection := Conn.timestamp cN;
             Ext.duration_hours := round1 (elapsed_hours us);
             Ext.total_connections := length (sort_by_timestamp conns);
             Ext.connected_hour := hour first_conn;
             Ext.last_seen_hour := hour last_conn;
             Ext.business_hours_start := true;
             Ext.after_hours_activity := true;
             Ext.risk_explanation :=
               extended_explanation (hour first_conn) (hour last_conn) (elapsed_hours us) |}.
Proof.
  unfold extended_record.
  destruct (Nat.ltb_spec (length conns) 2) as [|Hlen]; [done|].
  unfold first_item, last_item.
  destruct (sort_by_timestamp conns) as [|c0 day] eqn:Hday; [done|].
  destruct (last (c0 :: day)) as [cN|] eqn:HcN; [|done].
  cbn [mbind result_bind].
  rewrite is_business_hours_eq. unfold business_hours, hour_of.
  destruct (parse_timestamp (Conn.timestamp c0)) as [first_conn|] eqn:Hfirst; [|done].
  destruct (parse_timestamp (Conn.timestamp cN)) as [last_conn|] eqn:Hlast; [|done].
  cbn [mbind result_bind].
  destruct (datetime_sub last_conn first_conn) as [us|] eqn:Hus; [|done].
  cbn [mbind result_bind].
  fold (elapsed_hours us).
  destruct (Z.leb_spec 6 (hour first_conn)); [|done].
  destruct (Z.ltb_spec (hour first_conn) 18); [|done].
  destruct (Z.leb_spec 18 (hour last_conn)); [|done].
  cbn [andb]. intros [= <-].
  exists c0, cN, first_conn, last_conn, us. repeat (split; [done|]). done.
Qed.

(** A group the loitering detector flags is one the extended-session
    detector flags, with the same measurements. *)
Lemma loitering_record_extended mac conns d :
  loitering_record mac conns = Ok (Some d) →
  ∃ e, extended_record mac conns = Ok (Some e)
       ∧ Ext.mac e = Info.mac d
       ∧ Some (Ext.first_connection e) = Info.first_target_connection d
       ∧ Some (Ext.last_connection e) = Info.last_target_connection d
       ∧ Some (Ext.duration_hours e) = Info.duration_hours d
       ∧ Some (Ext.connected_hour e) = Info.arrived_hour d
       ∧ Some (Ext.last_seen_hour e) = Info.departed_hour d
       ∧ Ext.total_connections e = Info.target_date_connections d.
Proof.
  intros (c0 & cN & first_conn & last_conn & us & Hlen & Hc0 & HcN & Hfirst & Hlast
          & Hus & [H6 H18] & Hlate & _ & ->)%loitering_record_Some.
  unfold extended_record.
  rewrite (proj2 (Nat.ltb_ge _ _)) by done. cbv zeta.
  unfold first_item, last_item.
  destruct (sort_by_timestamp conns) as [|c0' day] eqn:Hday; [done|].
  cbn [head] in Hc0. injection Hc0 as ->. rewrite HcN.
  cbn [mbind result_bind]. rewrite Hfirst, Hlast. cbn [mbind result_bind].
  rewrite is_business_hours_eq. unfold business_hours, hour_of. rewrite Hfirst.
  cbn [mbind result_bind]. rewrite Hus. cbn [mbind result_bind].
  rewrite (proj2 (Z.leb_le _ _) H6), (proj2 (Z.ltb_lt _ _) H18),
    (proj2 (Z.leb_le _ _) Hlate).
  cbn [andb]. eexists. split; [done|]. by repeat split.
Qed.

(** The extended-session detector returns whenever the loitering detector
    does: the two read the same timestamps. *)
Lemma extended_record_returns mac conns r :
  loitering_record mac conns = Ok r → ∃ r', extended_record mac conns = Ok r'.
Proof.
  unfold loitering_record, extended_record.
  destruct (length conns <? 2)%nat; [by eexists|]. cbv zeta.
  destruct (first_item _) as [c0|]; [|done].
  destruct (last_item _) as [cN|]; [|done]. cbn [mbind result_bind].
  destruct (parse_timestamp (Conn.timestamp c0)) as [first_conn|] eqn:Hfirst; [|done].
  destruct (parse_timestamp (Conn.timestamp cN)) as [last_conn|]; [|done].
  cbn [mbind result_bind].
  rewrite is_business_hours_eq. cbn [mbind result_bind].
  destruct (datetime_sub last_conn first_conn) as [us|]; [|done].
  cbn [mbind result_bind]. intros _. destruct (_ && _); by eexists.
Qed.

(** X12. Every record of the extended-session report is about a MAC with
    two connections or more on the target date: it holds the first and
    the last of them, which are the connections of the least and of the
    greatest timestamp of that day, their number, the hour of the first,
    in business hours, the hour of the last, 18 or later, and the elapsed
    hours rounded to a tenth: when the last is not before the first, the
    binary64 number nearest to [t / 10], for a number [t] of tenths of an
    hour that is nearest to the exact elapsed time. The report lists a MAC
    once. *)
Theorem extended_session_records now_date connections target_date sessions :
  analyze_extended_sessions now_date connections target_date = Ok sessions →
  NoDup (Ext.mac <$> sessions)
  ∧ ∀ e, e ∈ sessions →
      truthy (Ext.mac e) = true
      ∧ ∃ c0 cN first_conn last_conn us,
          first_and_last connections
            (default_target_date now_date connections target_date) (Ext.mac e)
          = Some (c0, cN)
          ∧ (∀ c, c ∈ connections →
               date_part (Conn.timestamp c)
               = default_target_date now_date connections target_date →
               Conn.client_mac c = Ext.mac e →
               String.leb (Conn.timestamp c0) (Conn.timestamp c) = true
               ∧ String.leb (Conn.timestamp c) (Conn.timestamp cN) = true)
          ∧ parse_timestamp (Conn.timestamp c0) = Ok first_conn
          ∧ parse_timestamp (Conn.timestamp cN) = Ok last_conn
          ∧ datetime_sub last_conn first_conn = Ok us
          ∧ Ext.first_connection e = Conn.timestamp c0
          ∧ Ext.last_connection e = Conn.timestamp cN
          ∧ String.leb (Ext.first_connection e) (Ext.last_connection e) = true
          ∧ Ext.total_connections e
            = length (filter (λ conn, date_part (Conn.timestamp conn)
                                      = default_target_date now_date connections target_date
                                      ∧ Conn.client_mac conn = Ext.mac e) connections)
          ∧ Ext.connected_hour e = hour first_conn
          ∧ 6 ≤ Ext.connected_hour e < 18
          ∧ Ext.last_seen_hour e = hour last_conn
          ∧ 18 ≤ Ext.last_seen_hour e
          ∧ (0 ≤ us →
             ∃ t, 0 ≤ t
                  ∧ (us ≤ 1000000000000000 → nearest_tenth us t)
                  ∧ binary64_nearest (Ext.duration_hours e) t 10).
Proof.
  unfold analyze_extended_sessions. cbv zeta.
  set (D := default_target_date now_date connections target_date).
  rewrite (foldM_ext _
    (λ acc x, r ← extended_record x.1 x.2;
              Ok (match r with Some d => acc ++ [d] | None => acc end)))
    by (by intros ? []).
  intros Hfold. split.
  - apply foldM_collect in Hfold as (rs & Hrs & ->). cbn [app].
    pose proof (group_target_day_NoDup connections D) as Hnd.
    assert (∀ l rs, Forall2 (λ x r, extended_record x.1 x.2 = Ok r) l rs →
              ∀ m, m ∈ Ext.mac <$> omap id rs → m ∈ l.*1) as Hsub.
    { clear. intros l rs Hrs. induction Hrs as [|[mac conns] r l rs Hr Hrs IH];
        intros m Hm; [by apply elem_of_nil in Hm|].
      rewrite fmap_cons. apply elem_of_cons.
      destruct r as [e|]; cbn [omap list_omap id] in Hm; [|right; by apply IH].
      rewrite fmap_cons in Hm. apply elem_of_cons in Hm as [->|Hm]; [|right; by apply IH].
      left. by apply extended_record_Some in Hr
        as (? & ? & ? & ? & ? & _ & _ & _ & _ & _ & _ & _ & _ & ->). }
    induction Hrs as [|[mac conns] r l rs Hr Hrs IH]; [constructor|].
    rewrite fmap_cons in Hnd. apply NoDup_cons in Hnd as [Hmac Hnd].
    destruct r as [e|]; cbn [omap list_omap id]; [|by apply IH].
    rewrite fmap_cons. apply NoDup_cons. split; [|by apply IH].
    intros Hin. apply Hmac. eapply Hsub in Hin; [|done].
    by apply extended_record_Some in Hr
      as (? & ? & ? & ? & ? & _ & _ & _ & _ & _ & _ & _ & _ & ->).
  - apply foldM_collect_elem in Hfold as [_ Hin].
    intros e ([mac conns] & Hg & Hrec)%Hin. cbn [fst snd] in Hrec.
    apply group_target_day_elem in Hg as [Hmac ->].
    apply extended_record_Some in Hrec
      as (c0 & cN & first_conn & last_conn & us & Hlen & Hc0 & HcN & Hfirst & Hlast
          & Hus & H618 & Hlate & ->).
    cbn [Ext.mac Ext.first_connection Ext.last_connection Ext.total_connections
         Ext.connected_hour Ext.last_seen_hour Ext.duration_hours].
    split; [done|]. exists c0, cN, first_conn, last_conn, us.
    assert (first_and_last connections D mac = Some (c0, cN)) as Hfl.
    { apply first_and_last_Some. unfold day_connections.
      by rewrite sort_by_timestamp_length. }
    split; [done|].
    split.
    { intros c Hc Hdate Hcmac.
      destruct (first_and_last_bounds _ _ _ _ _ Hfl) as (_ & _ & Hbounds).
      apply Hbounds, list_elem_of_filter. by split. }
    do 5 (split; [done|]).
    split; [|split; [by rewrite sort_by_timestamp_length|];
             do 4 (split; [done|]); intros Hus0; by apply round1_elapsed_hours].
    pose proof (sort_by_timestamp_sorted
                  (filter (λ conn, date_part (Conn.timestamp conn) = D
                                   ∧ Conn.client_mac conn = mac) connections)) as Hsorted.
    destruct (sort_by_timestamp _) as [|x day]; [done|].
    cbn [head] in Hc0. injection Hc0 as ->.
    apply StronglySorted_inv in Hsorted as [_ Hall].
    destruct day as [|y day]; [cbn in HcN; injection HcN as <-; apply string_leb_refl|].
    change (last (c0 :: y :: day)) with (last (y :: day)) in HcN.
    apply last_Some_elem_of in HcN.
    rewrite Forall_forall in Hall. by apply Hall.
Qed.

(** X13. Every device the loitering detector flags is one the
    extended-session detector flags too, on the same first and last
    connection, with the same hours, duration and number of connections;
    and the extended-session detector returns whenever the loitering
    detector does. *)
Theorem loitering_devices_have_extended_sessions now_date connections target_date
    loitering_devices :
  detect_loitering_patterns connections
    (default_target_date now_date connections target_date) = Ok loitering_devices →
  ∃ sessions,
    analyze_extended_sessions now_date connections target_date = Ok sessions
    ∧ ∀ d, d ∈ loitering_devices →
        ∃ e, e ∈ sessions
             ∧ Ext.mac e = Info.mac d
             ∧ Some (Ext.first_connection e) = Info.first_target_connection d
             ∧ Some (Ext.last_connection e) = Info.last_target_connection d
             ∧ Some (Ext.duration_hours e) = Info.duration_hours d
             ∧ Some (Ext.connected_hour e) = Info.arrived_hour d
             ∧ Some (Ext.last_seen_hour e) = Info.departed_hour d
             ∧ Ext.total_connections e = Info.target_date_connections d.
Proof.
  intros [Hall Hin]%detect_loitering_patterns_inv.
  unfold analyze_extended_sessions. cbv zeta.
  set (D := default_target_date now_date connections target_date) in *.
  rewrite (foldM_ext _
    (λ acc x, r ← extended_record x.1 x.2;
              Ok (match r with Some d => acc ++ [d] | None => acc end)))
    by (by intros ? []).
  destruct (foldM_returns
              (λ acc (x : string * list Conn.t),
                 r ← extended_record x.1 x.2;
                 Ok (match r with Some d => acc ++ [d] | None => acc end))
              (group_target_day connections D)) with (s := ([] : list Ext.t))
    as [sessions Hs].
  { intros acc [mac conns] Hg. destruct (Hall _ _ Hg) as [r Hr]. cbn [fst snd].
    destruct (extended_record_returns _ _ _ Hr) as [r' ->].
    cbn [mbind result_bind]. by eexists. }
  exists sessions. split; [done|].
  apply foldM_collect_elem in Hs as [_ Hs].
  intros d (mac & conns & Hg & Hrec)%Hin.
  destruct (loitering_record_extended _ _ _ Hrec) as (e & He & Hfields).
  exists e. split; [|done]. apply Hs. by exists (mac, conns).
Qed.

End ExtendedRecords.

(** *** The events that become connections *)

Lemma is_connection_event_key e1 e2 :
  event_key e1 = event_key e2 → is_connection_event e1 = is_connection_event e2.
Proof. unfold event_key, is_connection_event. by intros [= _ _ ->]. Qed.

Lemma first_occurrences_filter l : ∀ seen seen',
  (∀ e, is_connection_event e = true →
        event_key e ∈ seen ↔ event_key e ∈ seen') →
  filter (λ e, is_connection_event e = true) (first_occurrences seen l)
  = first_occurrences seen' (filter (λ e, is_connection_event e = true) l).
Proof.
  induction l as [|x l IH]; intros seen seen' Hrel; [done|].
  cbn [first_occurrences]. rewrite (filter_cons _ x l).
  destruct (decide (is_connection_event x = true)) as [Hx|Hx].
  - cbn [first_occurrences].
    destruct (decide (event_key x ∉ seen)) as [Hs|Hs].
    + rewrite (decide_True (P := event_key x ∉ seen')) by (by rewrite <- Hrel).
      rewrite filter_cons, (decide_True (P := is_connection_event x = true)) by done.
      f_equal. apply IH.
      intros e He. rewrite !elem_of_union, (Hrel e He). done.
    + rewrite (decide_False (P := event_key x ∉ seen')) by (by rewrite <- Hrel).
      by apply IH.
  - destruct (decide (event_key x ∉ seen)) as [Hs|Hs]; [|by apply IH].
    rewrite filter_cons, (decide_False (P := is_connection_event x = true)) by done.
    apply IH.
    intros e He. rewrite elem_of_union, elem_of_singleton, <- (Hrel e He).
    split; [intros [Hk|?]; [|done]|by right].
    apply is_connection_event_key in Hk. congruence.
Qed.

(** X14. Keeping the connection types after the deduplication, as
    [run_analysis] does, gives the same events as deduplicating the events
    of a connection type: the connections are the first occurrences of
    the (timestamp, MAC, type) keys of those events, no two of them share
    a key, and every event of a connection type has its key among them. *)
Theorem connection_events_deduplicated (all_events : list (gmap string string)) :
  connection_events all_events
  = deduplicate_events (filter (λ event, is_connection_event event = true) all_events)
  ∧ NoDup (event_key <$> connection_events all_events)
  ∧ connection_events all_events `sublist_of` all_events
  ∧ ∀ event, event ∈ all_events → is_connection_event event = true →
      event_key event ∈ event_key <$> connection_events all_events.
Proof.
  assert (connection_events all_events
          = deduplicate_events
              (filter (λ event, is_connection_event event = true) all_events)) as Heq.
  { unfold connection_events. rewrite !deduplicate_events_eq.
    by apply first_occurrences_filter. }
  split; [done|]. rewrite Heq, deduplicate_events_eq.
  split; [apply first_occurrences_NoDup|]. split.
  - etrans; [apply first_occurrences_sublist|apply sublist_filter].
  - intros event Hin Hc.
    destruct (first_occurrences_complete
                (filter (λ event, is_connection_event event = true) all_events) ∅ event)
      as [Hs|Hs]; [by apply list_elem_of_filter|by apply elem_of_empty in Hs|done].
Qed.

(** *** The collection of the events *)

Lemma truthy_leb s t : truthy s = true → String.leb s t = true → truthy t = true.
Proof. by destruct s, t. Qed.

Section CollectionProperties.

Context {World : Type} `{!Dashboard World}.

(** One iteration with an end time: the events stay in the window, and
    the next end time is earlier. *)
Lemma fetch_page_window network_id st w r w' start_time0 end_time0 :
  fetch_page network_id st w = (Ok r, w') →
  truthy (start_time st) = true →
  truthy (end_time st) = true →
  start_time st = start_time0 →
  String.leb (end_time st) end_time0 = true →
  Forall (λ event, in_window start_time0 end_time0 event = true) (all_events st) →
  match r with
  | inl st' =>
      truthy (end_time st') = true
      ∧ start_time st' = start_time0
      ∧ String.ltb (end_time st') (end_time st) = true
      ∧ Forall (λ event, in_window start_time0 end_time0 event = true) (all_events st')
  | inr events =>
      Forall (λ event, in_window start_time0 end_time0 event = true) events
  end.
Proof.
  unfold fetch_page. intros Hpage Hstart Hend <- Hle Hall. rewrite Hend in Hpage.
  destruct (getNetworkEvents _ _ w) as [[events|e] w0]; [|done].
  cbn [mbind result_bind] in Hpage.
  set (page := filter _ (default [] events)) in Hpage.
  assert (Forall (λ event, in_window (start_time st) (end_time st) event = true) page)
    as Hpagein by (apply Forall_forall; by intros event [? _]%list_elem_of_filter).
  assert (Forall (λ event, in_window (start_time st) end_time0 event = true) page)
    as Hpagein0.
  { eapply Forall_impl; [done|]. intros event [Hs He]%andb_true_iff.
    apply andb_true_iff. split; [done|]. by eapply string_ltb_leb_trans. }
  destruct page as [|event rest]; [by injection Hpage as <- <-|].
  destruct (_ <? _)%nat; injection Hpage as <- <-; [by apply Forall_app|].
  cbn [start_time end_time all_events].
  assert (∃ lastev, last (event :: rest) = Some lastev ∧ lastev ∈ event :: rest)
    as (lastev & -> & Hlast).
  { destruct (last (event :: rest)) as [lastev|] eqn:Hl; [|by apply last_None in Hl].
    exists lastev. split; [done|]. by apply last_Some_elem_of. }
  cbn [from_option].
  rewrite Forall_forall in Hpagein. apply Hpagein in Hlast as [Hs He]%andb_true_iff.
  split; [by apply (truthy_leb (start_time st))|].
  split; [done|]. split; [done|]. by apply Forall_app.
Qed.

Lemma fetch_pages_window fuel network_id : ∀ st w events w' start_time0 end_time0,
  fetch_pages fuel network_id st w = Some (Ok events, w') →
  truthy (start_time st) = true →
  truthy (end_time st) = true →
  start_time st = start_time0 →
  String.leb (end_time st) end_time0 = true →
  Forall (λ event, in_window start_time0 end_time0 event = true) (all_events st) →
  Forall (λ event, in_window start_time0 end_time0 event = true) events.
Proof.
  induction fuel as [|fuel IH]; intros st w events w' s0 e0 Hrun Hs He Hs0 Hle Hall; [done|].
  cbn [fetch_pages] in Hrun.
  destruct (fetch_page network_id st w) as [[[st'|evs]|e] w0] eqn:Hpage; [| |done].
  - pose proof (fetch_page_window _ _ _ _ _ _ _ Hpage Hs He Hs0 Hle Hall)
      as (He' & Hs' & Hlt & Hall').
    eapply IH; [done| | | | |done]; [congruence|done|done|].
    eapply string_leb_trans; [by apply string_ltb_leb|done].
  - injection Hrun as <- <-.
    apply (fetch_page_window _ _ _ _ _ _ _ Hpage Hs He Hs0 Hle Hall).
Qed.

Lemma get_client_events_in_window fuel network_id start_time end_time w events w' :
  get_client_events fuel network_id start_time end_time w = Some (events, w') →
  truthy start_time = true →
  truthy end_time = true →
  Forall (λ event, in_window start_time end_time event = true) events.
Proof.
  unfold get_client_events. intros Hget Hs He.
  destruct (fetch_pages _ _ _ _) as [[[evs|e] w0]|] eqn:Hrun; [| |done].
  - injection Hget as <- <-.
    eapply fetch_pages_window in Hrun;
      [done|done|done|done|apply string_leb_refl|by apply Forall_nil].
  - injection Hget as <- <-. by apply Forall_nil.
Qed.

(** X15. With a start and an end time, every event [get_client_events]
    returns occurred in the window, from the start time on and before the
    end time in the order of strings, on whatever page it came and
    whatever the provider sent. *)
Theorem get_client_events_window fuel network_id start_time end_time w events w' :
  get_client_events fuel network_id start_time end_time w = Some (events, w') →
  truthy start_time = true →
  truthy end_time = true →
  ∀ event, event ∈ events →
    String.leb start_time (occurredAt event) = true
    ∧ String.ltb (occurredAt event) end_time = true.
Proof.
  intros Hget Hs He event Hin.
  pose proof (get_client_events_in_window _ _ _ _ _ _ _ Hget Hs He) as Hall.
  rewrite Forall_forall in Hall. by apply andb_true_iff, Hall.
Qed.

Lemma fetch_pages_first_page fuel network_id st w response w' :
  getNetworkEvents network_id
    (if truthy (end_time st)
     then {| perPage := per_page; startingAfter := None;
             endingBefore := Some (end_time st) |}
     else {| perPage := per_page; startingAfter := Some (start_time st);
             endingBefore := None |})
    w = (response, w') →
  match response with
  | Raise e => fetch_pages (S fuel) network_id st w = Some (Raise e, w')
  | Ok events =>
      let page_events :=
        if truthy (end_time st)
        then filter (λ event, in_window (start_time st) (end_time st) event = true)
               (default [] events)
        else default [] events in
      (length page_events < per_page)%nat →
      fetch_pages (S fuel) network_id st w = Some (Ok (all_events st ++ page_events), w')
  end.
Proof.
  intros Hreq. cbn [fetch_pages]. unfold fetch_page. rewrite Hreq.
  destruct response as [events|e]; [|done]. cbv zeta.
  cbn [mbind result_bind]. intros Hlen.
  destruct (if truthy (end_time st) then filter _ _ else _) as [|event page];
    [by rewrite app_nil_r|].
  by rewrite (proj2 (Nat.ltb_lt _ _) Hlen).
Qed.

(** X16. A first page with fewer events than a page holds ends the
    collection after one request, whatever the fuel: with an end time the
    result is the events of the page that are in the window, without one
    it is the page as the provider sent it. A provider that raises on the
    first page gives the empty list. *)
Theorem get_client_events_first_page fuel network_id start_time end_time w response w' :
  getNetworkEvents network_id
    (if truthy end_time
     then {| perPage := per_page; startingAfter := None; endingBefore := Some end_time |}
     else {| perPage := per_page; startingAfter := Some start_time; endingBefore := None |})
    w = (response, w') →
  match response with
  | Raise _ => get_client_events (S fuel) network_id start_time end_time w = Some ([], w')
  | Ok events =>
      let page_events :=
        if truthy end_time
        then filter (λ event, in_window start_time end_time event = true) (default [] events)
        else default [] events in
      (length page_events < per_page)%nat →
      get_client_events (S fuel) network_id start_time end_time w = Some (page_events, w')
  end.
Proof.
  intros Hreq. unfold get_client_events.
  pose proof (fetch_pages_first_page fuel network_id
                (Build_pages start_time end_time []) w response w' Hreq) as Hfirst.
  destruct response as [events|e]; [|by rewrite Hfirst].
  cbv zeta in *. intros Hlen. by rewrite (Hfirst Hlen).
Qed.

End CollectionProperties.

(** *** The connections of a CSV file *)

Lemma load_csv_rows_spec rows investigation_start target_end :
  let period := λ row : gmap string string,
    String.leb investigation_start (default "" (row !! "timestamp"))
    && String.leb (default "" (row !! "timestamp")) target_end in
  let kept := filter (λ row, truthy (default "" (row !! "timestamp")) = true) rows in
  load_csv_rows rows investigation_start target_end
  = (kept, filter (λ row, period row = true) kept, filter (λ row, period row = false) kept).
Proof.
  cbv zeta. unfold load_csv_rows.
  induction rows as [|row rows IH] using rev_ind; [done|].
  rewrite foldl_app, IH. cbn [foldl]. rewrite filter_app, filter_cons, filter_nil.
  destruct (truthy (default "" (row !! "timestamp"))) eqn:Hts; cbn [negb].
  - rewrite (decide_True (P := true = true)) by done.
    rewrite !filter_app, !filter_cons, !filter_nil.
    destruct (String.leb investigation_start _ && String.leb _ target_end) eqn:Hp.
    + rewrite (decide_True (P := true = true)), (decide_False (P := true = false)) by done.
      by rewrite app_nil_r.
    + rewrite (decide_False (P := false = true)), (decide_True (P := false = false)) by done.
      by rewrite app_nil_r.
  - rewrite (decide_False (P := false = true)) by done. by rewrite !app_nil_r.
Qed.

(** X17. The loader returns every row of the file that has a timestamp,
    in the order of the file, whatever the investigation period: the
    period only splits the rows it returns into the two counts it prints,
    the rows from the start of the investigation to the end of the target
    and the others. A file that cannot be read gives the empty list. *)
Theorem load_csv_keeps_every_timestamped_row rows
    investigation_date investigation_time target_end :
  let investigation_start :=
    investigation_date +:+ "T" +:+ investigation_time +:+ ":00.000Z" in
  let loaded := load_csv_rows rows investigation_start target_end in
  load_csv_data_for_investigation (Ok rows) investigation_date investigation_time target_end
  = filter (λ row, truthy (default "" (row !! "timestamp")) = true) rows
  ∧ (∀ e, load_csv_data_for_investigation (Raise e)
            investigation_date investigation_time target_end = [])
  ∧ loaded.1.1
    = load_csv_data_for_investigation (Ok rows)
        investigation_date investigation_time target_end
  ∧ loaded.1.2
    = filter (λ row,
                String.leb investigation_start (default "" (row !! "timestamp"))
                && String.leb (default "" (row !! "timestamp")) target_end = true)
        loaded.1.1
  ∧ (length loaded.1.1 = length loaded.1.2 + length loaded.2)%nat.
Proof.
  cbv zeta. unfold load_csv_data_for_investigation. cbv zeta.
  rewrite load_csv_rows_spec. cbn [fst snd].
  repeat split; try done.
  generalize (filter (λ row, truthy (default "" (row !! "timestamp")) = true) rows).
  intros l. induction l as [|row l IH]; [done|]. rewrite !filter_cons.
  destruct (_ && _);
    [rewrite (decide_True (P := true = true)), (decide_False (P := true = false)) by done
    |rewrite (decide_False (P := false = true)), (decide_True (P := false = false)) by done];
    cbn [length]; lia.
Qed.

(** *** The night-cycle test *)

Lemma length_filter_disjoint {A} (P Q R : A → Prop)
    `{!∀ x, Decision (P x)} `{!∀ x, Decision (Q x)} `{!∀ x, Decision (R x)}
    (l : list A) :
  (∀ x, P x ↔ Q x ∨ R x) → (∀ x, Q x → R x → False) →
  (length (filter P l) = length (filter Q l) + length (filter R l))%nat.
Proof.
  intros Hiff Hex. induction l as [|x l IH]; [done|]. rewrite !filter_cons.
  destruct (decide (P x)) as [HP|HP], (decide (Q x)) as [HQ|HQ],
    (decide (R x)) as [HR|HR]; cbn [length]; try lia.
  - by destruct (Hex x).
  - apply Hiff in HP as [?|?]; done.
  - destruct HP. apply Hiff. by left.
  - destruct HP. apply Hiff. by left.
  - destruct HP. apply Hiff. by right.
Qed.

Section NightCycleProperties.

Context `{!FromIsoFormat} `{!Strftime}.

Local Open Scope Z_scope.

Lemma in_target_night_split target_date next_day conn :
  in_target_night target_date next_day conn
  = is_target_evening target_date conn || is_target_morning next_day conn.
Proof.
  unfold in_target_night, is_target_evening, is_target_morning.
  by destruct (hour_of (Conn.timestamp conn)).
Qed.

Lemma foldM_pure {A S} (f : S → A → result S) (g : S → A → S) (l : list A) :
  (∀ s x, x ∈ l → f s x = Ok (g s x)) → ∀ s, foldM f s l = Ok (foldl g s l).
Proof.
  induction l as [|x l IH]; intros Hf s; cbn [foldM foldl]; [done|].
  rewrite Hf by (apply elem_of_cons; by left). cbn [mbind result_bind].
  apply IH. intros s' y Hy. apply Hf, elem_of_cons. by right.
Qed.

Lemma night_cycle_foldl target_date next_day l : ∀ evening morning,
  foldl (λ '(target_evening_connections, target_morning_connections) conn,
           if is_target_evening target_date conn
           then (target_evening_connections ++ [conn], target_morning_connections)
           else if is_target_morning next_day conn
           then (target_evening_connections, target_morning_connections ++ [conn])
           else (target_evening_connections, target_morning_connections))
        (evening, morning) l
  = (evening ++ filter (λ conn, is_target_evening target_date conn = true) l,
     morning ++ filter (λ conn, is_target_evening target_date conn = false
                                ∧ is_target_morning next_day conn = true) l).
Proof.
  induction l as [|conn l IH]; intros evening morning; cbn [foldl].
  { by rewrite !filter_nil, !app_nil_r. }
  rewrite !filter_cons.
  destruct (is_target_evening target_date conn).
  - rewrite IH.
    rewrite (decide_True (P := true = true)) by done.
    rewrite (decide_False (P := true = false ∧ _)) by (by intros [? _]).
    by rewrite <- !(assoc_L (++)).
  - rewrite (decide_False (P := false = true)) by done.
    destruct (is_target_morning next_day conn).
    + rewrite IH.
      rewrite (decide_True (P := false = false ∧ true = true)) by done.
      by rewrite <- !(assoc_L (++)).
    + rewrite IH.
      by rewrite (decide_False (P := false = false ∧ false = true)) by (by intros [_ ?]).
Qed.

(** The loop of the test over out-of-hours connections. *)
Lemma night_cycle_loop target_date next_day l evening morning :
  (∀ conn, conn ∈ l → out_of_hours (Conn.timestamp conn) = true) →
  foldM (λ '(target_evening_connections, target_morning_connections) conn,
           conn_dt ← parse_timestamp (Conn.timestamp conn);
           if bool_decide (date_part (Conn.timestamp conn) = target_date)
              && (18 <=? hour conn_dt)%Z
           then Ok (target_evening_connections ++ [conn], target_morning_connections)
           else if bool_decide (date_part (Conn.timestamp conn) = next_day)
                   && (hour conn_dt <? 6)%Z
           then Ok (target_evening_connections, target_morning_connections ++ [conn])
           else Ok (target_evening_connections, target_morning_connections))
        (evening, morning) l
  = Ok (evening ++ filter (λ conn, is_target_evening target_date conn = true) l,
        morning ++ filter (λ conn, is_target_evening target_date conn = false
                                   ∧ is_target_morning next_day conn = true) l).
Proof.
  intros Hooh. rewrite <- night_cycle_foldl. apply foldM_pure.
  intros [ev mo] conn Hconn%Hooh.
  unfold is_target_evening, is_target_morning, out_of_hours, hour_of in *.
  destruct (parse_timestamp (Conn.timestamp conn)) as [conn_dt|]; [|done].
  cbn [mbind result_bind].
  destruct (bool_decide (date_part (Conn.timestamp conn) = target_date)
            && (18 <=? hour conn_dt)); [done|].
  by destruct (bool_decide (date_part (Conn.timestamp conn) = next_day)
               && (hour conn_dt <? 6)).
Qed.

Lemma night_cycle_connections_Ok connections target_date evening morning :
  night_cycle_connections connections target_date = Ok (evening, morning) →
  ∃ next_day,
    next_day_of target_date = Ok next_day
    ∧ evening
      = filter (λ conn, is_target_evening target_date conn = true)
          (filter (λ conn, out_of_hours (Conn.timestamp conn) = true) connections)
    ∧ morning
      = filter (λ conn, is_target_evening target_date conn = false
                        ∧ is_target_morning next_day conn = true)
          (filter (λ conn, out_of_hours (Conn.timestamp conn) = true) connections).
Proof.
  unfold night_cycle_connections, next_day_of.
  destruct (fromisoformat target_date) as [target_dt|]; [|done]. cbn [mbind result_bind].
  destruct (add_one_day target_dt) as [next_dt|]; [|done]. cbn [mbind result_bind].
  rewrite (filterM_Ok _ (λ conn, out_of_hours (Conn.timestamp conn)))
    by (intros; apply is_out_of_hours_eq).
  cbn [mbind result_bind]. cbv zeta.
  rewrite night_cycle_loop by (by intros conn [? _]%list_elem_of_filter).
  intros [= <- <-]. by eexists.
Qed.

(** X18. The counts of the night-cycle test agree with the analysis: for
    every target-date device, the target connections of its record are
    the evening and the morning connections that the test finds for its
    MAC, one of them at least; and every MAC of an evening or a morning
    connection of the test is a target-date device. *)
Theorem night_cycle_test_counts now_date connections target_date evening morning st :
  truthy target_date = true →
  night_cycle_connections connections target_date = Ok (evening, morning) →
  analyze_out_of_hours_patterns now_date connections target_date = Ok st →
  (∀ r d,
     r ∈ target_date_devices (buckets st) →
     heap st !! r = Some d →
     (Info.target_date_connections d
      = length (of_device (Info.mac d) evening) + length (of_device (Info.mac d) morning))%nat
     ∧ (of_device (Info.mac d) evening ≠ [] ∨ of_device (Info.mac d) morning ≠ []))
  ∧ ∀ conn,
      conn ∈ evening ++ morning →
      truthy (Conn.client_mac conn) = true →
      Conn.client_mac conn ∈ bucket_macs st (target_date_devices (buckets st)).
Proof.
  intros HD (next_day & Hnext & -> & ->)%night_cycle_connections_Ok Hst.
  assert (default_target_date now_date connections target_date = target_date) as HDeq
    by (unfold default_target_date; by rewrite HD).
  assert (∀ mac,
            (length (filter (λ conn, in_target_night target_date next_day conn = true)
                       (out_of_hours_events connections mac))
             = length (of_device mac
                         (filter (λ conn, is_target_evening target_date conn = true)
                            (filter (λ conn, out_of_hours (Conn.timestamp conn) = true)
                               connections)))
               + length (of_device mac
                           (filter (λ conn, is_target_evening target_date conn = false
                                            ∧ is_target_morning next_day conn = true)
                              (filter (λ conn, out_of_hours (Conn.timestamp conn) = true)
                                 connections))))%nat) as Hcount.
  { intros mac. unfold of_device, out_of_hours_events.
    rewrite !list_filter_filter. apply length_filter_disjoint.
    - intros conn. rewrite in_target_night_split.
      destruct (is_target_evening target_date conn),
        (is_target_morning next_day conn); cbn; tauto.
    - intros conn [[_ Hev] _] [(_ & Hnev & _) _]. congruence. }
  split.
  - intros r d Hr Hd.
    destruct (analyze_records _ _ _ _ Hst) as (dp & ld & Hdp & _ & _ & _ & Hbt & _).
    rewrite HDeq in Hdp.
    pose proof Hr as (mac & data & d' & Hin & (Hd' & Hagg & Htc & _))%Hbt.
    assert (d' = d) as -> by congruence.
    destruct Hagg as (Hmac & _ & Hdtc & _).
    destruct (device_aggregate _ _ _ _ _ Hdp Hin)
      as (_ & _ & next_day' & Hnext' & Ht & _).
    assert (next_day' = next_day) as -> by congruence.
    rewrite Hmac, Hdtc, Ht, Hcount. split; [done|].
    rewrite Ht, Hcount in Htc.
    destruct (of_device mac (filter (λ conn, is_target_evening target_date conn = true) _));
      [right|by left].
    destruct (of_device mac _); [cbn in Htc; lia|done].
  - intros conn Hconn Hmac.
    pose proof Hst as (dp & ld & Hdp & _ & _ & -> & _)%analyze_bucket_macs.
    rewrite HDeq in Hdp.
    apply elem_of_filter_keys.
    destruct (device_aggregate_exists _ _ _ (Conn.client_mac conn) Hdp Hmac)
      as [data Hin].
    { intros Hnil.
      assert (conn ∈ out_of_hours_events connections (Conn.client_mac conn)) as Hev.
      { apply list_elem_of_filter.
        apply elem_of_app in Hconn
          as [[_ [? ?]%list_elem_of_filter]%list_elem_of_filter
             |[_ [? ?]%list_elem_of_filter]%list_elem_of_filter]; done. }
      rewrite Hnil in Hev. by apply elem_of_nil in Hev. }
    exists data. split; [done|].
    destruct (device_aggregate _ _ _ _ _ Hdp Hin)
      as (_ & _ & next_day' & Hnext' & Ht & _).
    assert (next_day' = next_day) as -> by congruence.
    unfold target_device. cbn [fst snd]. apply Nat.ltb_lt.
    rewrite Ht, Hcount.
    assert (conn ∈ of_device (Conn.client_mac conn)
                     (filter (λ conn, is_target_evening target_date conn = true)
                        (filter (λ conn, out_of_hours (Conn.timestamp conn) = true)
                           connections))
            ∨ conn ∈ of_device (Conn.client_mac conn)
                       (filter (λ conn, is_target_evening target_date conn = false
                                        ∧ is_target_morning next_day conn = true)
                          (filter (λ conn, out_of_hours (Conn.timestamp conn) = true)
                             connections))) as [Hin'|Hin'].
    { apply elem_of_app in Hconn as [?|?]; [left|right];
        by apply list_elem_of_filter. }
    + destruct (of_device _ _); [by apply elem_of_nil in Hin'|cbn; lia].
    + destruct (of_device _ (filter (λ conn, _ ∧ _) _)); [by apply elem_of_nil in Hin'|].
      cbn. lia.
Qed.

End NightCycleProperties.

(** *** The exported files *)

Lemma exported_files_eq connections st :
  exported_files connections st
  = (match connections with [] => [] | _ => ["all_connections.csv"] end)
    ++ (if decide (deref st (target_date_devices (buckets st)) ≠ [])
        then ["target_date_devices.csv"] else [])
    ++ (if decide (deref st (baseline_regular_devices (buckets st)) ≠ [])
        then ["baseline_regular_devices.csv"] else [])
    ++ (if decide (deref st (anomalous_devices (buckets st)) ≠ [])
        then ["anomalous_devices.csv"] else [])
    ++ (if decide (deref st (baseline_only_devices (buckets st)) ≠ [])
        then ["baseline_only_devices.csv"] else [])
    ++ (if decide (deref st (loitering_devices (buckets st)) ≠ [])
        then ["loitering_devices.csv"] else []).
Proof.
  unfold exported_files, analysis_items. f_equal.
  rewrite !filter_cons, filter_nil. cbn [fst snd].
  repeat case_decide; reflexivity.
Qed.

Lemma elem_of_optional_file (P : Prop) `{!Decision P} (name file : string) :
  file ∈ (if decide P then [name] else []) ↔ file = name ∧ P.
Proof.
  case_decide.
  - rewrite list_elem_of_singleton. by split; [|intros []].
  - split; [by intros ?%elem_of_nil|by intros []].
Qed.

Lemma elem_of_exported_files connections st file :
  file ∈ exported_files connections st
  ↔ (file = "all_connections.csv" ∧ connections ≠ [])
    ∨ (file = "target_date_devices.csv"
       ∧ deref st (target_date_devices (buckets st)) ≠ [])
    ∨ (file = "baseline_regular_devices.csv"
       ∧ deref st (baseline_regular_devices (buckets st)) ≠ [])
    ∨ (file = "anomalous_devices.csv"
       ∧ deref st (anomalous_devices (buckets st)) ≠ [])
    ∨ (file = "baseline_only_devices.csv"
       ∧ deref st (baseline_only_devices (buckets st)) ≠ [])
    ∨ (file = "loitering_devices.csv"
       ∧ deref st (loitering_devices (buckets st)) ≠ []).
Proof.
  rewrite exported_files_eq, !elem_of_app, !elem_of_optional_file.
  assert (file ∈ match connections with [] => [] | _ => ["all_connections.csv"] end
          ↔ file = "all_connections.csv" ∧ connections ≠ []) as ->; [|done].
  destruct connections.
  - split; [by intros ?%elem_of_nil|by intros []].
  - rewrite list_elem_of_singleton. by split; [|intros []].
Qed.

Lemma deref_nonempty st refs r d :
  r ∈ refs → heap st !! r = Some d → deref st refs ≠ [].
Proof.
  intros Hr Hd Hnil.
  assert (d ∈ deref st refs) as Hin
    by (apply list_elem_of_omap; by exists r).
  rewrite Hnil in Hin. by apply elem_of_nil in Hin.
Qed.

Lemma deref_nonempty_inv st refs :
  deref st refs ≠ [] → ∃ r d, r ∈ refs ∧ heap st !! r = Some d.
Proof.
  intros Hne. destruct (deref st refs) as [|d l] eqn:Hd; [done|].
  assert (d ∈ deref st refs) as Hin by (rewrite Hd; apply elem_of_cons; by left).
  apply list_elem_of_omap in Hin as (r & ? & ?). by exists r, d.
Qed.

Section ExportedFiles.

Context `{!FromIsoFormat} `{!Strftime}.

(** X19. The files of an analysis follow its buckets. The raw connections
    are always exported; a loitering report comes with an anomalous
    report, an anomalous report with a target-date report, and a
    target-date report with an anomalous or a regular report; and nothing
    else than these six files is exported. *)
Theorem exported_files_follow_buckets now_date all_connections investigation_date rep :
  run_analysis_report now_date all_connections investigation_date = Ok (Some rep) →
  "all_connections.csv" ∈ csv_files rep
  ∧ ("loitering_devices.csv" ∈ csv_files rep → "anomalous_devices.csv" ∈ csv_files rep)
  ∧ ("anomalous_devices.csv" ∈ csv_files rep → "target_date_devices.csv" ∈ csv_files rep)
  ∧ ("target_date_devices.csv" ∈ csv_files rep →
     "anomalous_devices.csv" ∈ csv_files rep
     ∨ "baseline_regular_devices.csv" ∈ csv_files rep)
  ∧ ∀ file, file ∈ csv_files rep →
      file ∈ ["all_connections.csv"; "target_date_devices.csv";
              "baseline_regular_devices.csv"; "anomalous_devices.csv";
              "baseline_only_devices.csv"; "loitering_devices.csv"].
Proof.
  unfold run_analysis_report. destruct all_connections as [|c l] eqn:Hconns; [done|].
  rewrite <- Hconns.
  destruct (analyze_out_of_hours_patterns _ _ _) as [st|] eqn:Hst; [|done].
  cbn [mbind result_bind]. intros [= <-]. cbn [csv_files].
  destruct (analyze_records _ _ _ _ Hst)
    as (dp & ld & Hdp & Hld & Hft & _ & Hbt & Hba & _).
  assert (deref st (anomalous_devices (buckets st)) ≠ [] →
          deref st (target_date_devices (buckets st)) ≠ []) as Hat.
  { intros (r & d & Hr & Hd)%deref_nonempty_inv.
    apply Hba in Hr as (mac & data & d' & _ & (Hd' & _ & _ & _ & Ht & _) & _).
    by eapply deref_nonempty. }
  assert (deref st (target_date_devices (buckets st)) ≠ [] →
          deref st (anomalous_devices (buckets st)) ≠ []
          ∨ deref st (baseline_regular_devices (buckets st)) ≠ []) as Hta.
  { intros (r & d & Hr & Hd)%deref_nonempty_inv.
    apply Hbt in Hr as (mac & data & d' & _ & (Hd' & _ & _ & _ & _ & Hp)).
    destruct (device_level ld (mac, data)); cbn [policy_bucket] in Hp;
      first [left; by eapply deref_nonempty|right; by eapply deref_nonempty]. }
  assert (deref st (loitering_devices (buckets st)) ≠ [] →
          deref st (anomalous_devices (buckets st)) ≠ []) as Hla.
  { intros Hne. pose proof (analyze_loitering_bucket _ _ _ _ Hst) as Hbucket.
    destruct (deref st (loitering_devices (buckets st))) as [|d0 rest] eqn:Hl; [done|].
    assert (d0 ∈ ld) as Hd0.
    { assert (Ok (d0 :: rest) = Ok ld) as [= <-] by congruence.
      apply elem_of_cons. by left. }
    destruct (loitering_device_in_target_night _ _ _ _ _ Hld Hdp Hd0) as (data & Hin & Htc).
    destruct (Hft _ _ Hin Htc) as (r & d & Hd & _ & _ & _ & _ & Hp).
    assert (device_level ld (Info.mac d0, data) = LOITERING_SUSPICIOUS) as Hlvl.
    { unfold device_level, policy. cbn [fst snd].
      rewrite bool_decide_eq_true_2; [done|].
      apply find_loitering_is_Some. by exists d0. }
    rewrite Hlvl in Hp. cbn [policy_bucket] in Hp. by eapply deref_nonempty. }
  split; [apply elem_of_exported_files; left; by rewrite Hconns|].
  split; [|split; [|split]].
  - intros [[? _]|[[? _]|[[? _]|[[? _]|[[? _]|[_ Hne]]]]]]%elem_of_exported_files;
      try done.
    apply elem_of_exported_files. do 3 right. left. split; [done|by apply Hla].
  - intros [[? _]|[[? _]|[[? _]|[[_ Hne]|[[? _]|[? _]]]]]]%elem_of_exported_files;
      try done.
    apply elem_of_exported_files. right. left. split; [done|by apply Hat].
  - intros [[? _]|[[_ Hne]|[[? _]|[[? _]|[[? _]|[? _]]]]]]%elem_of_exported_files;
      try done.
    destruct (Hta Hne); [left|right]; apply elem_of_exported_files.
    + do 3 right. left. by split.
    + do 2 right. left. by split.
  - intros file [[-> _]|[[-> _]|[[-> _]|[[-> _]|[[-> _]|[-> _]]]]]]%elem_of_exported_files;
      repeat first [apply elem_of_cons; by left | apply elem_of_cons; right].
Qed.

End ExportedFiles.

(** *** A device and the connections of the others *)

(** One step of the loop: the record it writes. *)
Lemma classify_device_info loitering_devices st mac data :
  heap (classify_device loitering_devices st (mac, data)) !! length (heap st)
  = Some (device_info_of (find_loitering loitering_devices mac) mac data).
Proof.
  unfold classify_device, device_info_of. cbv zeta.
  destruct (0 <? length (Pattern.target_date_connections data))%nat.
  - destruct (find_loitering loitering_devices mac) as [ld|].
    + repeat first [rewrite update_append_target_date | rewrite update_alloc].
      cbn [append_anomalous append_target_date alloc heap]. by apply list_lookup_middle.
    + destruct (_ =? 0)%nat; [|destruct (_ && _); [|destruct (3 <=? _)%nat]];
        repeat first [rewrite update_append_target_date | rewrite update_alloc];
        cbn [append_anomalous append_baseline_regular append_target_date alloc heap];
        by apply list_lookup_middle.
  - destruct (0 <? length (Pattern.baseline_connections data))%nat.
    + repeat first [rewrite update_append_baseline_only | rewrite update_alloc].
      match goal with
      |- heap (if ?b then ?c else if ?b' then ?c else ?s) !! _ = Some ?d =>
        assert (heap s !! length (heap st) = Some d) as Hs
          by (cbn [append_baseline_only alloc heap]; by apply list_lookup_middle);
        assert (heap c !! length (heap st) = Some d) as Hc
          by (eapply extends_lookup; [apply extends_copy_to_baseline_regular|exact Hs])
      end.
      destruct (_ && _); [done|].
      by destruct (3 <=? length (Pattern.baseline_connections data))%nat.
    + cbn [alloc heap]. by apply list_lookup_middle.
Qed.

Lemma device_info_of_mac loitering_device mac data :
  Info.mac (device_info_of loitering_device mac data) = mac.
Proof.
  unfold device_info_of. cbv zeta.
  destruct (0 <? _)%nat.
  - destruct loitering_device; [done|].
    destruct (_ =? 0)%nat; [done|]. destruct (_ && _); [done|]. by destruct (3 <=? _)%nat.
  - by destruct (0 <? _)%nat.
Qed.

(** The loop: the record of every device, in the bucket of its kind. *)
Lemma classify_loop_info loitering_devices device_patterns : ∀ st mac data,
  (mac, data) ∈ device_patterns →
  ∃ r,
    heap (foldl (classify_device loitering_devices) st device_patterns) !! r
    = Some (device_info_of (find_loitering loitering_devices mac) mac data)
    ∧ ((0 < length (Pattern.target_date_connections data))%nat →
       r ∈ target_date_devices
             (buckets (foldl (classify_device loitering_devices) st device_patterns)))
    ∧ (length (Pattern.target_date_connections data) = 0%nat →
       (0 < length (Pattern.baseline_connections data))%nat →
       r ∈ baseline_only_devices
             (buckets (foldl (classify_device loitering_devices) st device_patterns))).
Proof.
  induction device_patterns as [|[mac0 data0] l IH]; intros st mac data Hin;
    [by apply elem_of_nil in Hin|].
  cbn [foldl]. apply elem_of_cons in Hin as [[= -> ->]|Hin]; [|by apply IH].
  destruct (classify_loop loitering_devices l
              (classify_device loitering_devices st (mac0, data0))) as (Hext & _).
  exists (length (heap st)). split; [|split].
  - eapply extends_lookup; [done|]. apply classify_device_info.
  - intros Htc.
    destruct (classify_device_target_record loitering_devices st mac0 data0 Htc)
      as (d & (_ & _ & _ & _ & Ht & _) & _).
    by eapply elem_of_prefix, Hext.
  - intros Htc Hbc.
    destruct (classify_device_baseline_only_record loitering_devices st mac0 data0 Htc Hbc)
      as (d & (_ & _ & _ & _ & _ & _ & Hb & _) & _).
    by eapply elem_of_prefix, Hext.
Qed.

(** Two records of a bucket with the same MAC are the same record. *)
Lemma bucket_record_unique st refs r r' d d' :
  NoDup (bucket_macs st refs) →
  r ∈ refs → r' ∈ refs →
  heap st !! r = Some d → heap st !! r' = Some d' →
  Info.mac d = Info.mac d' → d = d'.
Proof.
  unfold bucket_macs. intros Hnd Hr Hr' Hd Hd' Hmac.
  assert (d ∈ deref st refs) as [i Hi]%list_elem_of_lookup
    by (apply list_elem_of_omap; by exists r).
  assert (d' ∈ deref st refs) as [j Hj]%list_elem_of_lookup
    by (apply list_elem_of_omap; by exists r').
  assert (i = j) as ->; [|congruence].
  eapply NoDup_lookup; [done| |]; rewrite list_lookup_fmap; [by rewrite Hi|].
  by rewrite Hj, Hmac.
Qed.

Lemma filter_comm {A} (P Q : A → Prop) `{!∀ x, Decision (P x)} `{!∀ x, Decision (Q x)}
    (l : list A) :
  filter P (filter Q l) = filter Q (filter P l).
Proof. rewrite !list_filter_filter. apply list_filter_iff. tauto. Qed.

Section OwnConnections.

Context `{!FromIsoFormat} `{!Strftime}.

(** The step of the grouping loop returns or raises whatever the
    aggregates are. *)
Lemma add_pattern_returns_any target_date dp dp' conn r :
  add_pattern target_date dp conn = Ok r →
  ∃ r', add_pattern target_date dp' conn = Ok r'.
Proof.
  unfold add_pattern. cbv zeta.
  destruct (negb _); [by eexists|].
  destruct (fromisoformat target_date) as [target_dt|]; [|done]. cbn [mbind result_bind].
  destruct (add_one_day target_dt) as [next_dt|]; [|done]. cbn [mbind result_bind].
  destruct (parse_timestamp (Conn.timestamp conn)) as [conn_dt|]; [|done].
  cbn [mbind result_bind]. by eexists.
Qed.

Lemma add_pattern_lookup_other target_date dp conn dp' mac :
  add_pattern target_date dp conn = Ok dp' →
  Conn.client_mac conn ≠ mac →
  dict_lookup mac dp' = dict_lookup mac dp.
Proof.
  intros [[_ ->]|(_ & ? & ? & _ & _ & ->)]%add_pattern_Ok Hne; [done|].
  by rewrite dict_lookup_setdefault_alter, decide_False.
Qed.

Lemma add_pattern_lookup_own target_date dp1 dp2 conn dp1' dp2' :
  add_pattern target_date dp1 conn = Ok dp1' →
  add_pattern target_date dp2 conn = Ok dp2' →
  dict_lookup (Conn.client_mac conn) dp1 = dict_lookup (Conn.client_mac conn) dp2 →
  dict_lookup (Conn.client_mac conn) dp1' = dict_lookup (Conn.client_mac conn) dp2'.
Proof.
  intros [[Ht ->]|(Ht & next_day & h & Hnext & Hh & ->)]%add_pattern_Ok
         [[Ht' ->]|(Ht' & next_day' & h' & Hnext' & Hh' & ->)]%add_pattern_Ok Heq;
    [done|congruence|congruence|].
  assert (next_day' = next_day) as -> by congruence.
  by rewrite !dict_lookup_setdefault_alter, !decide_True, Heq by done.
Qed.

(** The aggregate of a MAC comes from the events of that MAC. *)
Lemma add_pattern_fold_own target_date mac l : ∀ dp dp',
  foldM (add_pattern target_date) [] l = Ok dp →
  foldM (add_pattern target_date) [] (filter (λ conn, Conn.client_mac conn = mac) l)
  = Ok dp' →
  dict_lookup mac dp = dict_lookup mac dp'.
Proof.
  induction l as [|conn l IH] using rev_ind; intros dp dp'.
  { by intros [= <-] [= <-]. }
  rewrite filter_app, filter_cons, filter_nil, foldM_snoc.
  destruct (foldM (add_pattern target_date) [] l) as [dp0|]; [|done].
  cbn [mbind result_bind]. intros Hstep.
  destruct (decide (Conn.client_mac conn = mac)) as [<-|Hne].
  - rewrite foldM_snoc.
    destruct (foldM (add_pattern target_date) [] (filter _ l)) as [dp0'|]; [|done].
    cbn [mbind result_bind]. intros Hstep'.
    eapply add_pattern_lookup_own; [done..|]. by apply IH.
  - rewrite app_nil_r. intros Hfold.
    rewrite (add_pattern_lookup_other _ _ _ _ _ Hstep Hne). by apply IH.
Qed.

Lemma group_out_of_hours_own connections1 connections2 target_date dp1 dp2 mac :
  group_out_of_hours connections1 target_date = Ok dp1 →
  group_out_of_hours connections2 target_date = Ok dp2 →
  of_device mac connections1 = of_device mac connections2 →
  dict_lookup mac dp1 = dict_lookup mac dp2.
Proof.
  unfold group_out_of_hours, of_device.
  rewrite !(filterM_Ok _ (λ conn, out_of_hours (Conn.timestamp conn)))
    by (intros; apply is_out_of_hours_eq).
  cbn [mbind result_bind]. intros Hdp1 Hdp2 Hown.
  set (own := filter (λ conn, Conn.client_mac conn = mac)
                (filter (λ conn, out_of_hours (Conn.timestamp conn) = true) connections1)).
  assert (own = filter (λ conn, Conn.client_mac conn = mac)
                  (filter (λ conn, out_of_hours (Conn.timestamp conn) = true)
                     connections2)) as Hown2.
  { unfold own.
    rewrite (filter_comm _ _ connections1), (filter_comm _ _ connections2).
    by rewrite Hown. }
  destruct (foldM_returns (add_pattern target_date) own) with (s := ([] : list (string * Pattern.t)))
    as [dpm Hdpm].
  { intros dp conn [_ Hin]%list_elem_of_filter.
    destruct (foldM_returns_inv _ _ _ _ Hdp1 conn Hin) as (s0 & s1 & Hs).
    by eapply add_pattern_returns_any. }
  rewrite (add_pattern_fold_own _ mac _ _ _ Hdp1 Hdpm).
  rewrite Hown2 in Hdpm. by rewrite (add_pattern_fold_own _ mac _ _ _ Hdp2 Hdpm).
Qed.

End OwnConnections.

Section OwnRecord.

Context `{!FromIsoFormat} `{!Strftime}.

(** The loitering record of a MAC comes from the connections of that
    MAC. *)
Lemma detect_loitering_patterns_own connections1 connections2 target_date ld1 ld2 d :
  detect_loitering_patterns connections1 target_date = Ok ld1 →
  detect_loitering_patterns connections2 target_date = Ok ld2 →
  of_device (Info.mac d) connections1 = of_device (Info.mac d) connections2 →
  d ∈ ld1 → d ∈ ld2.
Proof.
  intros [_ Hin1]%detect_loitering_patterns_inv [_ Hin2]%detect_loitering_patterns_inv
         Hown (mac & conns & Hg & Hrec)%Hin1.
  apply Hin2. exists mac, conns. split; [|done].
  pose proof Hrec as (? & ? & ? & ? & ? & Hlen & _ & _ & _ & _ & _ & _ & _ & _ & Hd)%loitering_record_Some.
  assert (Info.mac d = mac) as Hmac by (by rewrite Hd).
  rewrite Hmac in Hown. unfold of_device in Hown.
  pose proof Hg as [Htruthy Hconns]%group_target_day_elem.
  assert (conns = filter (λ conn, date_part (Conn.timestamp conn) = target_date
                                  ∧ Conn.client_mac conn = mac) connections2) as Hconns2.
  { rewrite Hconns, <- !(list_filter_filter
                           (λ conn, date_part (Conn.timestamp conn) = target_date)
                           (λ conn, Conn.client_mac conn = mac)).
    by rewrite Hown. }
  apply dict_lookup_Some; [apply group_target_day_NoDup|].
  rewrite group_target_day_lookup. cbv zeta. rewrite <- Hconns2, Htruthy.
  rewrite bool_decide_eq_true_2; [done|]. intros ->. cbn in Hlen. lia.
Qed.

Lemma find_loitering_own connections1 connections2 target_date ld1 ld2 mac :
  detect_loitering_patterns connections1 target_date = Ok ld1 →
  detect_loitering_patterns connections2 target_date = Ok ld2 →
  of_device mac connections1 = of_device mac connections2 →
  find_loitering ld1 mac = find_loitering ld2 mac.
Proof.
  intros Hld1 Hld2 Hown.
  assert (∀ c1 c2 l1 l2,
            detect_loitering_patterns c1 target_date = Ok l1 →
            detect_loitering_patterns c2 target_date = Ok l2 →
            of_device mac c1 = of_device mac c2 →
            ∀ d, find_loitering l1 mac = Some d → find_loitering l2 mac = Some d) as Hone.
  { intros c1 c2 l1 l2 H1 H2 Ho d [Hd Hmac]%find_loitering_Some.
    rewrite <- Hmac. apply find_loitering_unique;
      [by eapply detect_loitering_patterns_NoDup|].
    eapply detect_loitering_patterns_own; [exact H1|exact H2|by rewrite Hmac|done]. }
  destruct (find_loitering ld1 mac) as [d|] eqn:H1.
  - symmetry. apply (Hone connections1 connections2 ld1 ld2 Hld1 Hld2 Hown d H1).
  - destruct (find_loitering ld2 mac) as [d|] eqn:H2; [|done].
    apply (Hone connections2 connections1 ld2 ld1 Hld2 Hld1 (eq_sym Hown)) in H2.
    congruence.
Qed.

(** The record of a device with out-of-hours events, in the target or the
    baseline-only bucket, comes from the connections of its MAC. *)
Lemma device_record_own now_date connections1 connections2 target_date st1 st2 r1 d :
  truthy target_date = true →
  analyze_out_of_hours_patterns now_date connections1 target_date = Ok st1 →
  analyze_out_of_hours_patterns now_date connections2 target_date = Ok st2 →
  of_device (Info.mac d) connections1 = of_device (Info.mac d) connections2 →
  heap st1 !! r1 = Some d →
  (r1 ∈ target_date_devices (buckets st1) →
   ∃ r2, r2 ∈ target_date_devices (buckets st2) ∧ heap st2 !! r2 = Some d)
  ∧ (r1 ∈ baseline_only_devices (buckets st1) →
     ∃ r2, r2 ∈ baseline_only_devices (buckets st2) ∧ heap st2 !! r2 = Some d).
Proof.
  intros HD Hst1 Hst2 Hown Hd.
  assert (∀ connections,
            default_target_date now_date connections target_date = target_date) as HDeq
    by (intros; unfold default_target_date; by rewrite HD).
  pose proof Hst1 as (dp1 & ld1 & Hdp1 & Hld1 & Hst1eq & Ht1 & _ & _ & Hb1)%analyze_bucket_macs.
  pose proof Hst2 as (dp2 & ld2 & Hdp2 & Hld2 & Hst2eq & _)%analyze_bucket_macs.
  rewrite HDeq in Hdp1, Hld1, Hdp2, Hld2.
  pose proof Hdp1 as [Hnd1 _]%group_out_of_hours_inv.
  pose proof Hdp2 as [Hnd2 _]%group_out_of_hours_inv.
  destruct (analyze_records _ _ _ _ Hst1) as (dp1' & ld1' & Hdp1' & Hld1' & _ & _ & Hbt & _ & _ & Hbb).
  rewrite HDeq in Hdp1', Hld1'.
  assert (dp1' = dp1) as -> by congruence. assert (ld1' = ld1) as -> by congruence.
  assert (∀ data, (Info.mac d, data) ∈ dp1 → (Info.mac d, data) ∈ dp2) as Hdp12.
  { intros data Hin. apply dict_lookup_Some in Hin; [|done].
    apply dict_lookup_Some; [done|].
    by rewrite <- (group_out_of_hours_own _ _ _ _ _ _ Hdp1 Hdp2 Hown). }
  pose proof (find_loitering_own _ _ _ _ _ _ Hld1 Hld2 Hown) as Hfind.
  split.
  - intros Hr1.
    pose proof Hr1 as (mac & data & d' & Hin & (Hd' & (Hmac & _) & Htc & _))%Hbt.
    assert (d' = d) as -> by congruence. subst mac.
    destruct (classify_loop_info ld1 dp1 (initial_state ld1) _ _ Hin) as (r & Hr & Hrt & _).
    rewrite <- Hst1eq in Hr, Hrt.
    assert (d = device_info_of (find_loitering ld1 (Info.mac d)) (Info.mac d) data) as Hinfo.
    { eapply (bucket_record_unique st1 (target_date_devices (buckets st1)) r1 r);
        [|done|by apply Hrt|done|done|by rewrite device_info_of_mac].
      rewrite Ht1. by apply NoDup_filter_keys. }
    destruct (classify_loop_info ld2 dp2 (initial_state ld2) _ _ (Hdp12 _ Hin))
      as (r2 & Hr2 & Hrt2 & _).
    rewrite <- Hst2eq in Hr2, Hrt2.
    exists r2. split; [by apply Hrt2|]. by rewrite Hr2, <- Hfind, <- Hinfo.
  - intros Hr1.
    pose proof Hr1 as (mac & data & d' & Hin & (Hd' & (Hmac & _) & Htc & Hbc & _))%Hbb.
    assert (d' = d) as -> by congruence. subst mac.
    destruct (classify_loop_info ld1 dp1 (initial_state ld1) _ _ Hin) as (r & Hr & _ & Hrb).
    rewrite <- Hst1eq in Hr, Hrb.
    assert (d = device_info_of (find_loitering ld1 (Info.mac d)) (Info.mac d) data) as Hinfo.
    { eapply (bucket_record_unique st1 (baseline_only_devices (buckets st1)) r1 r);
        [|done|by apply Hrb|done|done|by rewrite device_info_of_mac].
      rewrite Hb1. by apply NoDup_filter_keys. }
    destruct (classify_loop_info ld2 dp2 (initial_state ld2) _ _ (Hdp12 _ Hin))
      as (r2 & Hr2 & _ & Hrb2).
    rewrite <- Hst2eq in Hr2, Hrb2.
    exists r2. split; [by apply Hrb2|]. by rewrite Hr2, <- Hfind, <- Hinfo.
Qed.


(** X20. The record of a device depends on the connections of that
    device only: for a given target date, two lists of connections that
    hold the same connections of a MAC, in the same order, give that MAC
    the same record, in the same bucket, whatever the other devices did. *)
Theorem device_record_depends_on_own_connections now_date connections1 connections2
    target_date st1 st2 r1 d :
  truthy target_date = true →
  analyze_out_of_hours_patterns now_date connections1 target_date = Ok st1 →
  analyze_out_of_hours_patterns now_date connections2 target_date = Ok st2 →
  of_device (Info.mac d) connections1 = of_device (Info.mac d) connections2 →
  heap st1 !! r1 = Some d →
  (r1 ∈ target_date_devices (buckets st1) →
   ∃ r2, r2 ∈ target_date_devices (buckets st2) ∧ heap st2 !! r2 = Some d)
  ∧ (r1 ∈ baseline_only_devices (buckets st1) →
     ∃ r2, r2 ∈ baseline_only_devices (buckets st2) ∧ heap st2 !! r2 = Some d)
  ∧ (r1 ∈ anomalous_devices (buckets st1) →
     ∃ r2, r2 ∈ anomalous_devices (buckets st2) ∧ heap st2 !! r2 = Some d)
  ∧ (r1 ∈ baseline_regular_devices (buckets st1) →
     ∃ r2, r2 ∈ baseline_regular_devices (buckets st2) ∧ heap st2 !! r2 = Some d).
Proof.
  intros HD Hst1 Hst2 Hown Hd.
  destruct (device_record_own _ _ _ _ _ _ _ _ HD Hst1 Hst2 Hown Hd) as [Ht Hb].
  split; [done|]. split; [done|].
  destruct (analyze_records _ _ _ _ Hst1)
    as (dp1 & ld1 & _ & _ & _ & _ & _ & Hba1 & Hbr1 & _).
  destruct (analyze_records _ _ _ _ Hst2)
    as (dp2 & ld2 & _ & _ & _ & _ & Hbt2 & _ & _ & Hbb2).
  split.
  - intros (mac & data & d' & _ & (Hd' & _ & _ & Hrisk & Hr1 & _) & Hne)%Hba1.
    assert (d' = d) as -> by congruence.
    destruct (Ht Hr1) as (r2 & Hr2 & Hd2). exists r2. split; [|done].
    pose proof Hr2 as (mac2 & data2 & d2 & _ & (Hd2' & _ & _ & Hrisk2 & _ & Hp))%Hbt2.
    assert (d2 = d) as -> by congruence.
    assert (device_level ld2 (mac2, data2) = device_level ld1 (mac, data)) as Hlvl
      by congruence.
    rewrite Hlvl in Hp. by destruct (device_level ld1 (mac, data)).
  - intros [(mac & data & d' & _ & (Hd' & _ & _ & Hrisk & Hr1 & _) & Heq)
           |(mac & data & r0 & d0 & _ & Hrec & Hrs & ->)]%Hbr1.
    + assert (d' = d) as -> by congruence.
      destruct (Ht Hr1) as (r2 & Hr2 & Hd2). exists r2. split; [|done].
      pose proof Hr2 as (mac2 & data2 & d2 & _ & (Hd2' & _ & _ & Hrisk2 & _ & Hp))%Hbt2.
      assert (d2 = d) as -> by congruence.
      assert (device_level ld2 (mac2, data2) = device_level ld1 (mac, data)) as Hlvl
        by congruence.
      by rewrite Hlvl, Heq in Hp.
    + destruct Hrec as (Hd0 & Hagg & _ & _ & _ & _ & Hr0 & Hcopy).
      destruct (Hcopy Hrs) as [Hcopied _].
      assert (d = Info.set_risk_level BASELINE_REGULAR d0) as Hdcopy by congruence.
      assert (Info.mac d0 = Info.mac d) as Hmac0 by (by rewrite Hdcopy).
      destruct (device_record_own now_date connections1 connections2 target_date
                  st1 st2 r0 d0 HD Hst1 Hst2) as [_ Hb0]; [by rewrite Hmac0|done|].
      destruct (Hb0 Hr0) as (r2 & Hr2 & Hd2).
      pose proof Hr2 as (mac2 & data2 & d2 & _
                         & (Hd2' & Hagg2 & _ & _ & _ & _ & _ & Hcopy2))%Hbb2.
      assert (d2 = d0) as -> by congruence.
      destruct Hagg as (_ & _ & _ & Hbc & Hds & _).
      destruct Hagg2 as (_ & _ & _ & Hbc2 & Hds2 & _).
      rewrite <- Hbc2, <- Hds2, Hbc, Hds in Hcopy2.
      destruct (Hcopy2 Hrs) as [Hs2 Hin2].
      exists (S r2). split; [done|]. by rewrite Hdcopy.
Qed.

End OwnRecord.

(** *** The baseline of seven nights *)

Section Yesterday.

Local Open Scope Z_scope.

(** [sub_one_day] is the predecessor of the calendar: the next day of
    the day before is the day. *)
Lemma add_one_day_sub_one_day dt dt' :
  valid_date dt → year dt ≤ 9999 →
  sub_one_day dt = Ok dt' →
  valid_date dt' ∧ year dt' ≤ 9999 ∧ add_one_day dt' = Ok dt.
Proof.
  intros (Hy & Hm & Hd) H9999. unfold sub_one_day.
  destruct dt as [y m d hh mm ss us tz].
  cbn [year month day hour minute second microsecond tzinfo] in *.
  destruct (Z.ltb_spec 1 d) as [Hd1|Hd1].
  - destruct (Z.ltb_spec y 1); [done|]. intros [= <-].
    unfold valid_date, add_one_day.
    cbn [year month day hour minute second microsecond tzinfo].
    split; [lia|]. split; [done|].
    rewrite (proj2 (Z.ltb_lt _ _)) by lia.
    rewrite (proj2 (Z.ltb_ge _ _)) by lia.
    do 2 f_equal. lia.
  - assert (d = 1) as -> by lia.
    destruct (Z.ltb_spec 1 m) as [Hm1|Hm1].
    + destruct (Z.ltb_spec y 1); [done|]. intros [= <-].
      unfold valid_date, add_one_day.
      cbn [year month day hour minute second microsecond tzinfo].
      pose proof (days_in_month_pos y (m - 1)).
      split; [lia|]. split; [done|].
      rewrite (proj2 (Z.ltb_ge _ _)) by lia.
      rewrite (proj2 (Z.ltb_lt (m - 1) 12)) by lia.
      rewrite (proj2 (Z.ltb_ge _ _)) by lia.
      do 2 f_equal. lia.
    + assert (m = 1) as -> by lia.
      destruct (Z.ltb_spec (y - 1) 1); [done|]. intros [= <-].
      unfold valid_date, add_one_day.
      cbn [year month day hour minute second microsecond tzinfo].
      change (days_in_month (y - 1) 12) with 31.
      split; [lia|]. split; [lia|].
      change (31 <? 31) with false. change (12 <? 12) with false. cbv iota.
      rewrite (proj2 (Z.ltb_ge _ _)) by lia.
      do 2 f_equal. lia.
Qed.

Lemma sub_days_valid i : ∀ dt dt',
  valid_date dt → year dt ≤ 9999 →
  sub_days i dt = Ok dt' →
  valid_date dt' ∧ year dt' ≤ 9999.
Proof.
  induction i as [|i IH]; intros dt dt' Hv Hy; cbn [sub_days].
  { by intros [= <-]. }
  destruct (sub_days i dt) as [dt0|] eqn:Hi; [|done]. cbn [mbind result_bind].
  destruct (IH _ _ Hv Hy Hi) as [Hv0 Hy0].
  intros Hs. by destruct (add_one_day_sub_one_day _ _ Hv0 Hy0 Hs) as (? & ? & _).
Qed.

(** The next day of the day [i + 1] days before is the day [i] days
    before. *)
Lemma add_one_day_sub_days i dt day_dt :
  valid_date dt → year dt ≤ 9999 →
  sub_days (S i) dt = Ok day_dt →
  ∃ next_day_dt, sub_days i dt = Ok next_day_dt ∧ add_one_day day_dt = Ok next_day_dt.
Proof.
  intros Hv Hy. cbn [sub_days].
  destruct (sub_days i dt) as [dt0|] eqn:Hi; [|done]. cbn [mbind result_bind].
  destruct (sub_days_valid _ _ _ Hv Hy Hi) as [Hv0 Hy0].
  intros Hs. exists dt0. split; [done|].
  by destruct (add_one_day_sub_one_day _ _ Hv0 Hy0 Hs) as (_ & _ & ?).
Qed.

End Yesterday.

(** A string between two strings that start with [p] starts with [p]. *)
Lemma string_between_prefix (p : string) : ∀ a b t,
  String.leb (p +:+ a) t = true →
  String.ltb t (p +:+ b) = true →
  ∃ rest, t = p +:+ rest.
Proof.
  induction p as [|c p IH]; intros a b t Hle Hlt; [by exists t|].
  change (String c p +:+ a) with (String c (p +:+ a)) in Hle.
  change (String c p +:+ b) with (String c (p +:+ b)) in Hlt.
  unfold String.leb, String.ltb in *.
  destruct t as [|c' t]; [done|]. cbn [String.compare] in *.
  rewrite (Ascii.compare_antisym c' c) in Hlt.
  destruct (Ascii.compare c c') eqn:Hc; cbn [CompOpp] in *; [|done..].
  apply Ascii.compare_eq_iff in Hc as <-.
  destruct (IH a b t Hle Hlt) as [rest ->]. by exists rest.
Qed.

Lemma truthy_app s c t : truthy (s +:+ String c t) = true.
Proof. by destruct s. Qed.

Section BaselineProperties.

Context {World : Type} `{!Dashboard World} `{!FromIsoFormat} `{!Strftime}.

(** One night of the baseline: the events it adds are in the windows
    of its day. *)
Lemma baseline_night_window fuel network_id target_dt i all_baseline_events w events w' :
  valid_date target_dt → (year target_dt ≤ 9999)%Z →
  (1 ≤ i ≤ 7)%nat →
  baseline_night fuel network_id target_dt i all_baseline_events w = Some (Ok events, w') →
  Forall (in_baseline_night target_dt) all_baseline_events →
  Forall (in_baseline_night target_dt) events.
Proof.
  intros Hv Hy Hi. unfold baseline_night.
  destruct i as [|i]; [lia|].
  destruct (sub_days (S i) target_dt) as [day_dt|] eqn:Hday; [|done].
  cbn [mbind result_bind].
  destruct (add_one_day_sub_days _ _ _ Hv Hy Hday) as (next_day_dt & Hnext & Hadd).
  rewrite Hadd. cbn [mbind result_bind]. cbv zeta.
  destruct (get_client_events fuel network_id (strftime_ymd day_dt +:+ _) _ w)
    as [[evening_events w1]|] eqn:Hevening; [|done].
  cbn [mbind option_bind].
  destruct (get_client_events fuel network_id (strftime_ymd next_day_dt +:+ _) _ w1)
    as [[morning_events w2]|] eqn:Hmorning; [|done].
  cbn [mbind option_bind]. intros [= <- <-] Hall.
  apply get_client_events_in_window in Hevening; [|apply truthy_app..].
  apply get_client_events_in_window in Hmorning; [|apply truthy_app..].
  repeat apply Forall_app_2; [done| |].
  - eapply Forall_impl; [exact Hevening|]. intros event Hw.
    exists (S i), day_dt, next_day_dt. split; [done|]. split; [done|].
    split; [by rewrite Nat.sub_succ, Nat.sub_0_r|by left].
  - eapply Forall_impl; [exact Hmorning|]. intros event Hw.
    exists (S i), day_dt, next_day_dt. split; [done|]. split; [done|].
    split; [by rewrite Nat.sub_succ, Nat.sub_0_r|by right].
Qed.

Lemma baseline_nights_window fuel network_id target_dt days :
  ∀ all_baseline_events w events w',
  valid_date target_dt → (year target_dt ≤ 9999)%Z →
  Forall (λ i, 1 ≤ i ≤ 7)%nat days →
  baseline_nights fuel network_id target_dt days all_baseline_events w
  = Some (Ok events, w') →
  Forall (in_baseline_night target_dt) all_baseline_events →
  Forall (in_baseline_night target_dt) events.
Proof.
  induction days as [|i days IH]; intros acc w events w' Hv Hy Hdays; cbn [baseline_nights].
  { by intros [= <- <-]. }
  apply Forall_cons in Hdays as [Hi Hdays].
  destruct (baseline_night fuel network_id target_dt i acc w) as [[[acc'|e] w1]|] eqn:Hnight;
    [|done..].
  intros Hrun Hall. eapply IH; [done..|].
  by eapply baseline_night_window.
Qed.

(** X21. Every event of the baseline occurred in one of its fourteen
    windows: the evening, from 18:00:00.000 on and before 23:59:59.999, of
    one of the seven days before the target date, or the morning, from
    00:00:00.000 on and before 05:59:59.999, of the day after that day,
    the last of which is the target date itself; so its timestamp starts
    with the date of one of the days from seven days before to the target
    date. No window covers the evening of the target date. *)
Theorem baseline_events_in_windows fuel network_id investigation_date target_dt
    w events w' :
  get_comprehensive_baseline_events fuel network_id investigation_date w
  = Some (Ok events, w') →
  fromisoformat investigation_date = Ok target_dt →
  valid_date target_dt →
  (year target_dt ≤ 9999)%Z →
  ∀ event, event ∈ events →
    in_baseline_night target_dt event
    ∧ ∃ k day_dt rest,
        (k ≤ 7)%nat
        ∧ sub_days k target_dt = Ok day_dt
        ∧ occurredAt event = strftime_ymd day_dt +:+ rest
        ∧ (k = 0%nat →
           String.ltb (occurredAt event)
             (strftime_ymd target_dt +:+ "T05:59:59.999Z") = true).
Proof.
  unfold get_comprehensive_baseline_events. intros Hrun Hparse Hv Hy event Hin.
  rewrite Hparse in Hrun.
  apply baseline_nights_window in Hrun; [|done|done| |by apply Forall_nil].
  2:{ repeat (apply Forall_cons; split; [lia|]). by apply Forall_nil. }
  rewrite Forall_forall in Hrun. pose proof (Hrun _ Hin) as Hnight.
  split; [done|].
  destruct Hnight as (k & day_dt & next_day_dt & Hk & Hday & Hnext
                      & [[Hle Hlt]%andb_true_iff|[Hle Hlt]%andb_true_iff]).
  - destruct (string_between_prefix _ _ _ _ Hle Hlt) as [rest Hrest].
    exists k, day_dt, rest. split; [lia|]. split; [done|]. split; [done|]. lia.
  - destruct (string_between_prefix _ _ _ _ Hle Hlt) as [rest Hrest].
    exists (k - 1)%nat, next_day_dt, rest. split; [lia|]. split; [done|].
    split; [done|]. intros Hk0. rewrite Hk0 in Hnext. cbn [sub_days] in Hnext.
    by injection Hnext as <-.
Qed.

End BaselineProperties.

(** *** Further scenarios *)

(** X1, on the mixed scenario: the five devices are reported once each,
    three on the target date and two in the baseline only. *)
Lemma devices_reported_once_witness :
  (NoDup (bucket_macs mixed_analysis (target_date_devices (buckets mixed_analysis))
          ++ bucket_macs mixed_analysis (baseline_only_devices (buckets mixed_analysis)))
   ∧ NoDup (bucket_macs mixed_analysis (anomalous_devices (buckets mixed_analysis))
            ++ bucket_macs mixed_analysis (baseline_regular_devices (buckets mixed_analysis)))
   ∧ ∀ mac,
       mac ∈ bucket_macs mixed_analysis (target_date_devices (buckets mixed_analysis))
             ++ bucket_macs mixed_analysis (baseline_only_devices (buckets mixed_analysis))
       ↔ truthy mac = true
         ∧ out_of_hours_events (H := iso_parse) mixed_scenario mac ≠ [])
  ∧ bucket_macs mixed_analysis (target_date_devices (buckets mixed_analysis))
    = ["EE:EE"; "CC:CC"; "BB:BB"]
  ∧ bucket_macs mixed_analysis (baseline_only_devices (buckets mixed_analysis))
    = ["AA:AA"; "DD:DD"].
Proof.
  split; [|split; by_computation].
  apply (@devices_reported_once iso_parse glibc_strftime "2025-07-01" mixed_scenario "2025-06-23"
           mixed_analysis ltac:(by_computation)).
Defined.

(** X2, on the mixed scenario: AA:AA has two baseline connections on two
    days and no target connection, and is in the baseline-only and in the
    regular bucket. *)
Lemma bucket_membership_witness :
  "AA:AA" ∈ bucket_macs mixed_analysis (baseline_regular_devices (buckets mixed_analysis))
  ∧ "AA:AA" ∈ bucket_macs mixed_analysis (baseline_only_devices (buckets mixed_analysis))
  ∧ baseline_count (H := iso_parse) mixed_scenario "2025-06-23" "2025-06-24" "AA:AA"
    = 2%nat
  ∧ days_seen (H := iso_parse) mixed_scenario "AA:AA" = 2%nat.
Proof.
  pose proof (@bucket_membership iso_parse glibc_strftime "2025-07-01" mixed_scenario "2025-06-23"
                mixed_analysis "2025-06-24" "AA:AA"
                ltac:(by_computation) ltac:(by_computation) eq_refl) as Hm.
  cbv zeta in Hm. destruct Hm as (_ & _ & Hr & Hb).
  split; [apply Hr; right; split; by_computation|].
  split; [apply Hb; split; [by_computation|vm_compute; lia]|].
  split; by_computation.
Defined.

(** X3, on the mixed scenario. *)
Lemma bucket_labels_witness :
  ((∀ r, r ∈ anomalous_devices (buckets mixed_analysis) →
      r ∈ target_date_devices (buckets mixed_analysis)
      ∧ ∃ d, heap mixed_analysis !! r = Some d
          ∧ (Info.risk_level d = Some LOITERING_SUSPICIOUS
             ∨ Info.risk_level d = Some ANOMALOUS_SUSPICIOUS))
   ∧ (∀ r, r ∈ baseline_regular_devices (buckets mixed_analysis) →
        ∃ d, heap mixed_analysis !! r = Some d
             ∧ Info.risk_level d = Some BASELINE_REGULAR)
   ∧ (∀ r, r ∈ baseline_only_devices (buckets mixed_analysis) →
        (r ∉ target_date_devices (buckets mixed_analysis))
        ∧ ∃ d, heap mixed_analysis !! r = Some d
            ∧ Info.risk_level d = Some BASELINE_ONLY
            ∧ Info.target_date_connections d = 0%nat
            ∧ Info.first_target_connection d = None
            ∧ Info.last_target_connection d = None)
   ∧ (∀ r, r ∈ loitering_devices (buckets mixed_analysis) →
        ∃ d, heap mixed_analysis !! r = Some d
             ∧ Info.risk_level d = Some LOITERING_SUSPICIOUS)
   ∧ (∀ r, r ∈ target_date_devices (buckets mixed_analysis) →
        (r ∈ anomalous_devices (buckets mixed_analysis)
         ∧ r ∉ baseline_regular_devices (buckets mixed_analysis))
        ∨ (r ∈ baseline_regular_devices (buckets mixed_analysis)
           ∧ r ∉ anomalous_devices (buckets mixed_analysis))))
  ∧ buckets mixed_analysis
    = {| target_date_devices := [3; 5; 6]%nat;
         baseline_regular_devices := [2; 3]%nat;
         anomalous_devices := [5; 6]%nat;
         baseline_only_devices := [1; 4]%nat;
         loitering_devices := [0]%nat |}
  ∧ Info.risk_level <$> heap mixed_analysis
    = [Some LOITERING_SUSPICIOUS; Some BASELINE_ONLY; Some BASELINE_REGULAR;
       Some BASELINE_REGULAR; Some BASELINE_ONLY; Some LOITERING_SUSPICIOUS;
       Some ANOMALOUS_SUSPICIOUS].
Proof.
  split; [|split; by_computation].
  apply (@bucket_labels iso_parse glibc_strftime "2025-07-01" mixed_scenario "2025-06-23"
           mixed_analysis ltac:(by_computation)).
Defined.

(** X4, on the mixed scenario: the record of EE:EE counts one target and
    two baseline connections on three days, its three out-of-hours
    events. *)
Lemma device_counts_witness :
  ∃ d,
    heap mixed_analysis !! 3%nat = Some d
    ∧ (truthy (Info.mac d) = true
       ∧ (Info.target_date_connections d + Info.baseline_connections d
          = length (out_of_hours_events (H := iso_parse) mixed_scenario (Info.mac d)))%nat
       ∧ (1 ≤ Info.days_seen_out_of_hours d
          ≤ length (out_of_hours_events (H := iso_parse) mixed_scenario (Info.mac d)))%nat
       ∧ (3%nat ∈ target_date_devices (buckets mixed_analysis)
          ↔ (0 < Info.target_date_connections d)%nat))
    ∧ Info.mac d = "EE:EE"
    ∧ Info.target_date_connections d = 1%nat
    ∧ Info.baseline_connections d = 2%nat
    ∧ Info.days_seen_out_of_hours d = 3%nat.
Proof.
  eexists. split; [by_computation|]. split; [|repeat split; by_computation].
  apply (@device_counts iso_parse glibc_strftime "2025-07-01" mixed_scenario "2025-06-23"
           mixed_analysis 3%nat).
  - by_computation.
  - vm_compute. apply elem_of_cons. by left.
  - by_computation.
Defined.

(** X5, on the first-appearance scenario: the three connections of BB:BB
    are in the target night, the first at 21:00 and the last at 02:00
    the next morning. *)
Lemma target_connection_bounds_witness :
  ∃ d,
    heap (analysis_of first_appearance_scenario "2025-06-23") !! 0%nat = Some d
    ∧ (∃ first_timestamp last_timestamp,
         Info.first_target_connection d = Some first_timestamp
         ∧ Info.last_target_connection d = Some last_timestamp
         ∧ first_timestamp
           ∈ Conn.timestamp
             <$> filter (λ conn, in_target_night (H := iso_parse)
                                   (default_target_date "2025-07-01"
                                      first_appearance_scenario "2025-06-23")
                                   "2025-06-24" conn = true)
                   (out_of_hours_events (H := iso_parse) first_appearance_scenario
                      (Info.mac d))
         ∧ last_timestamp
           ∈ Conn.timestamp
             <$> filter (λ conn, in_target_night (H := iso_parse)
                                   (default_target_date "2025-07-01"
                                      first_appearance_scenario "2025-06-23")
                                   "2025-06-24" conn = true)
                   (out_of_hours_events (H := iso_parse) first_appearance_scenario
                      (Info.mac d))
         ∧ ∀ conn,
             conn ∈ filter (λ conn, in_target_night (H := iso_parse)
                                      (default_target_date "2025-07-01"
                                         first_appearance_scenario "2025-06-23")
                                      "2025-06-24" conn = true)
                      (out_of_hours_events (H := iso_parse) first_appearance_scenario
                         (Info.mac d)) →
             String.leb first_timestamp (Conn.timestamp conn) = true
             ∧ String.leb (Conn.timestamp conn) last_timestamp = true)
    ∧ Info.first_target_connection d = Some "2025-06-23T21:00:00.000Z"
    ∧ Info.last_target_connection d = Some "2025-06-24T02:00:00.000Z".
Proof.
  eexists. split; [by_computation|]. split; [|split; by_computation].
  apply (@target_connection_bounds iso_parse glibc_strftime "2025-07-01" first_appearance_scenario
           "2025-06-23" (analysis_of first_appearance_scenario "2025-06-23")
           "2025-06-24" 0%nat).
  - by_computation.
  - by_computation.
  - vm_compute. apply elem_of_cons. by left.
  - by_computation.
Defined.

(** X6, on the mixed scenario: AA:AA, seen on two evenings of the
    baseline, has its record in the baseline-only bucket and a relabelled
    copy of it in the regular bucket. *)
Lemma baseline_only_device_copied_witness :
  ∃ r d r',
    r ∈ baseline_only_devices (buckets mixed_analysis)
    ∧ heap mixed_analysis !! r = Some d
    ∧ Info.mac d = "AA:AA"
    ∧ Info.risk_level d = Some BASELINE_ONLY
    ∧ Info.baseline_connections d = 2%nat
    ∧ r' ≠ r
    ∧ r' ∈ baseline_regular_devices (buckets mixed_analysis)
    ∧ heap mixed_analysis !! r' = Some (Info.set_risk_level BASELINE_REGULAR d).
Proof.
  pose proof (@baseline_only_device_copied iso_parse glibc_strftime "2025-07-01" mixed_scenario
                "2025-06-23" mixed_analysis "2025-06-24" "AA:AA"
                ltac:(by_computation) ltac:(by_computation) eq_refl) as Hc.
  cbv zeta in Hc.
  destruct (Hc ltac:(by_computation) ltac:(vm_compute; lia))
    as (r & d & Hr & Hd & Hmac & Hrisk & _ & Hbc & _ & _ & Hcopy).
  assert (regularly_seen
            (baseline_count (H := iso_parse) mixed_scenario
               (default_target_date "2025-07-01" mixed_scenario "2025-06-23")
               "2025-06-24" "AA:AA")
            (days_seen (H := iso_parse) mixed_scenario "AA:AA") = true) as Hseen
    by by_computation.
  rewrite Hseen in Hcopy. destruct Hcopy as (r' & Hne & Hr' & Hd').
  exists r, d, r'. rewrite Hbc. repeat split; first [done | by_computation].
Defined.

(** X7, on the mixed scenario: the loitering bucket holds the record of
    CC:CC that the detector made. *)
Lemma loitering_bucket_untouched_witness :
  (detect_loitering_patterns (H := iso_parse) mixed_scenario
     (default_target_date "2025-07-01" mixed_scenario "2025-06-23")
   = Ok (deref mixed_analysis (loitering_devices (buckets mixed_analysis)))
   ∧ ∀ d, d ∈ deref mixed_analysis (loitering_devices (buckets mixed_analysis)) →
       Info.networks d = []
       ∧ Info.ssids d = []
       ∧ Info.baseline_connections d = 0%nat
       ∧ Info.days_seen_out_of_hours d = 1%nat
       ∧ Info.risk_level d = Some LOITERING_SUSPICIOUS
       ∧ Info.target_date_connections d
         = length (day_connections mixed_scenario
                     (default_target_date "2025-07-01" mixed_scenario "2025-06-23")
                     (Info.mac d))
       ∧ (2 ≤ Info.target_date_connections d)%nat)
  ∧ bucket_macs mixed_analysis (loitering_devices (buckets mixed_analysis)) = ["CC:CC"].
Proof.
  split; [|by_computation].
  apply (@loitering_bucket_untouched iso_parse glibc_strftime "2025-07-01" mixed_scenario "2025-06-23"
           mixed_analysis ltac:(by_computation)).
Defined.

(** X9, on the first-appearance scenario: the last day of the calendar
    has no next day, and the analysis raises [OverflowError]. *)
Lemma analysis_raises_without_next_day_witness :
  analyze_out_of_hours_patterns (H := iso_parse) "2025-07-01" first_appearance_scenario
    "9999-12-31"
  = Raise OverflowError.
Proof.
  apply (@analysis_raises_without_next_day iso_parse glibc_strftime "2025-07-01"
           first_appearance_scenario "9999-12-31" OverflowError
           (conn_at "2025-06-23T21:00:00.000Z" "BB:BB")).
  - by_computation.
  - apply elem_of_cons. by left.
  - by_computation.
  - by_computation.
Defined.

(** X12, on the loitering scenario with the later connection first: one
    extended session, of CC:CC, from 09:00 to 19:30, with two connections
    and a duration that is the binary64 number 10.5. *)
Lemma extended_session_records_witness :
  NoDup (Ext.mac <$> extended_sessions_of (reverse loitering_scenario) "2025-06-23")
  ∧ (λ e, (Ext.mac e, Ext.first_connection e, Ext.last_connection e,
           Ext.total_connections e, Ext.connected_hour e, Ext.last_seen_hour e,
           Ext.duration_hours e))
    <$> extended_sessions_of (reverse loitering_scenario) "2025-06-23"
    = [("CC:CC", "2025-06-23T09:00:00.000Z", "2025-06-23T19:30:00.000Z", 2%nat,
        9%Z, 19%Z, {| fm := 5910974510923776; fe := -49 |})]
  ∧ binary64_exact {| fm := 5910974510923776; fe := -49 |} 105 10.
Proof.
  split; [|split; by_computation].
  apply (@extended_session_records iso_parse "2025-07-01" (reverse loitering_scenario)
           "2025-06-23" (extended_sessions_of (reverse loitering_scenario) "2025-06-23")
           ltac:(by_computation)).
Defined.

(** X13, on the loitering scenario: the loitering record of CC:CC has its
    extended session. *)
Lemma loitering_devices_have_extended_sessions_witness :
  (∃ sessions,
     analyze_extended_sessions (H := iso_parse) "2025-07-01" loitering_scenario
       "2025-06-23" = Ok sessions
     ∧ ∀ d, d ∈ loitering_of loitering_scenario "2025-06-23" →
         ∃ e, e ∈ sessions
              ∧ Ext.mac e = Info.mac d
              ∧ Some (Ext.first_connection e) = Info.first_target_connection d
              ∧ Some (Ext.last_connection e) = Info.last_target_connection d
              ∧ Some (Ext.duration_hours e) = Info.duration_hours d
              ∧ Some (Ext.connected_hour e) = Info.arrived_hour d
              ∧ Some (Ext.last_seen_hour e) = Info.departed_hour d
              ∧ Ext.total_connections e = Info.target_date_connections d)
  ∧ Info.mac <$> loitering_of loitering_scenario "2025-06-23" = ["CC:CC"].
Proof.
  split; [|by_computation].
  apply (@loitering_devices_have_extended_sessions iso_parse "2025-07-01"
           loitering_scenario "2025-06-23"
           (loitering_of loitering_scenario "2025-06-23") ltac:(by_computation)).
Defined.

(** X15, on the paging provider: two pages, 1001 events, all in the
    window. *)
Lemma get_client_events_window_witness :
  (∀ event,
     event ∈ collected (@get_client_events nat paging_provider 5 "N_1"
                          "2025-06-22T18:00:00.000Z" "2025-06-22T23:59:59.999Z" 0%nat) →
     String.leb "2025-06-22T18:00:00.000Z" (occurredAt event) = true
     ∧ String.ltb (occurredAt event) "2025-06-22T23:59:59.999Z" = true)
  ∧ length (collected (@get_client_events nat paging_provider 5 "N_1"
                         "2025-06-22T18:00:00.000Z" "2025-06-22T23:59:59.999Z" 0%nat))
    = 1001%nat.
Proof.
  split; [|by_computation].
  assert (snd <$> @get_client_events nat paging_provider 5 "N_1"
                    "2025-06-22T18:00:00.000Z" "2025-06-22T23:59:59.999Z" 0%nat
          = Some 2%nat) as Hrequests by by_computation.
  destruct (@get_client_events nat paging_provider 5 "N_1"
              "2025-06-22T18:00:00.000Z" "2025-06-22T23:59:59.999Z" 0%nat)
    as [[events w']|] eqn:Hget; [|done].
  cbn [collected].
  apply (@get_client_events_window nat paging_provider 5 "N_1"
           "2025-06-22T18:00:00.000Z" "2025-06-22T23:59:59.999Z" 0%nat events w' Hget).
  - by_computation.
  - by_computation.
Defined.

(** X16, on the paging provider: a window that ends at 21:00 gets the
    short page, of which the event at 20:00 is in the window, and the
    collection ends after one request. *)
Lemma get_client_events_first_page_witness :
  @get_client_events nat paging_provider 1 "N_1"
    "2025-06-22T18:00:00.000Z" "2025-06-22T21:00:00.000Z" 0%nat
  = Some ([event_at "2025-06-22T20:00:00.000Z" "CC:CC" "association"], 1%nat).
Proof.
  pose proof (@get_client_events_first_page nat paging_provider 0 "N_1"
                "2025-06-22T18:00:00.000Z" "2025-06-22T21:00:00.000Z" 0%nat
                (Ok (Some short_page)) 1%nat ltac:(by_computation)) as Hpage.
  cbv zeta in Hpage. rewrite Hpage; [by_computation|]. vm_compute. lia.
Defined.

(** X18, on the mixed scenario: the test finds two evening connections,
    of CC:CC and BB:BB, and one morning connection, of EE:EE, and the
    three are the target-date devices. *)
Lemma night_cycle_test_counts_witness :
  ((∀ r d,
      r ∈ target_date_devices (buckets mixed_analysis) →
      heap mixed_analysis !! r = Some d →
      (Info.target_date_connections d
       = length (of_device (Info.mac d) (night_cycle_of mixed_scenario "2025-06-23").1)
         + length (of_device (Info.mac d) (night_cycle_of mixed_scenario "2025-06-23").2))%nat
      ∧ (of_device (Info.mac d) (night_cycle_of mixed_scenario "2025-06-23").1 ≠ []
         ∨ of_device (Info.mac d) (night_cycle_of mixed_scenario "2025-06-23").2 ≠ []))
   ∧ ∀ conn,
       conn ∈ (night_cycle_of mixed_scenario "2025-06-23").1
              ++ (night_cycle_of mixed_scenario "2025-06-23").2 →
       truthy (Conn.client_mac conn) = true →
       Conn.client_mac conn
       ∈ bucket_macs mixed_analysis (target_date_devices (buckets mixed_analysis)))
  ∧ Conn.client_mac <$> (night_cycle_of mixed_scenario "2025-06-23").1 = ["CC:CC"; "BB:BB"]
  ∧ Conn.client_mac <$> (night_cycle_of mixed_scenario "2025-06-23").2 = ["EE:EE"].
Proof.
  split; [|split; by_computation].
  apply (@night_cycle_test_counts iso_parse glibc_strftime "2025-07-01" mixed_scenario "2025-06-23"
           (night_cycle_of mixed_scenario "2025-06-23").1
           (night_cycle_of mixed_scenario "2025-06-23").2
           mixed_analysis).
  - by_computation.
  - by_computation.
  - by_computation.
Defined.

(** X19, on the mixed scenario: every bucket has a device, and the six
    files are exported. *)
Lemma exported_files_follow_buckets_witness :
  ∃ rep,
    run_analysis_report (H := iso_parse) "2025-07-01" mixed_scenario "2025-06-23"
    = Ok (Some rep)
    ∧ ("all_connections.csv" ∈ csv_files rep
       ∧ ("loitering_devices.csv" ∈ csv_files rep → "anomalous_devices.csv" ∈ csv_files rep)
       ∧ ("anomalous_devices.csv" ∈ csv_files rep
          → "target_date_devices.csv" ∈ csv_files rep)
       ∧ ("target_date_devices.csv" ∈ csv_files rep →
          "anomalous_devices.csv" ∈ csv_files rep
          ∨ "baseline_regular_devices.csv" ∈ csv_files rep)
       ∧ ∀ file, file ∈ csv_files rep →
           file ∈ ["all_connections.csv"; "target_date_devices.csv";
                   "baseline_regular_devices.csv"; "anomalous_devices.csv";
                   "baseline_only_devices.csv"; "loitering_devices.csv"])
    ∧ length (csv_files rep) = 6%nat.
Proof.
  eexists. split; [by_computation|]. split; [|by_computation].
  apply (@exported_files_follow_buckets iso_parse glibc_strftime "2025-07-01" mixed_scenario
           "2025-06-23").
  by_computation.
Defined.

(** X20, on the mixed and the lone scenario: BB:BB has the same
    connection in both, and the same record, a target-date and anomalous
    one, whatever the other devices did. *)
Lemma device_record_depends_on_own_connections_witness :
  ∃ d r2 r2',
    heap mixed_analysis !! 6%nat = Some d
    ∧ Info.mac d = "BB:BB"
    ∧ r2 ∈ target_date_devices (buckets (analysis_of lone_scenario "2025-06-23"))
    ∧ heap (analysis_of lone_scenario "2025-06-23") !! r2 = Some d
    ∧ r2' ∈ anomalous_devices (buckets (analysis_of lone_scenario "2025-06-23"))
    ∧ heap (analysis_of lone_scenario "2025-06-23") !! r2' = Some d.
Proof.
  destruct (heap mixed_analysis !! 6%nat) as [d|] eqn:Hd; [|by vm_compute in Hd].
  assert (Info.mac d = "BB:BB") as Hmac.
  { assert (Info.mac <$> heap mixed_analysis !! 6%nat = Some "BB:BB") as Hm
      by by_computation.
    rewrite Hd in Hm. by injection Hm. }
  destruct (@device_record_depends_on_own_connections iso_parse glibc_strftime "2025-07-01"
              mixed_scenario lone_scenario "2025-06-23" mixed_analysis
              (analysis_of lone_scenario "2025-06-23") 6%nat d eq_refl
              ltac:(by_computation) ltac:(by_computation)
              ltac:(rewrite Hmac; by_computation) Hd)
    as (Ht & _ & Ha & _).
  destruct Ht as (r2 & Hr2 & Hd2);
    [vm_compute; apply elem_of_cons; right; apply elem_of_cons; right;
     apply elem_of_cons; by left|].
  destruct Ha as (r2' & Hr2' & Hd2');
    [vm_compute; apply elem_of_cons; right; apply elem_of_cons; by left|].
  exists d, r2, r2'.
  exact (conj eq_refl (conj Hmac (conj Hr2 (conj Hd2 (conj Hr2' Hd2'))))).
Defined.

(** X21, on the echo provider: the event at 19:00 on 2025-06-20 is in
    the evening window of the third day before 2025-06-23, and is
    collected once. *)
Lemma baseline_events_in_windows_witness :
  (∀ event,
     event ∈ collected_baseline
               (@get_comprehensive_baseline_events nat echo_provider iso_parse glibc_strftime 3 "N_1"
                  "2025-06-23" 0%nat) →
     in_baseline_night midnight_2025_06_23 event
     ∧ ∃ k day_dt rest,
         (k ≤ 7)%nat
         ∧ sub_days k midnight_2025_06_23 = Ok day_dt
         ∧ occurredAt event = strftime_ymd day_dt +:+ rest
         ∧ (k = 0%nat →
            String.ltb (occurredAt event)
              (strftime_ymd midnight_2025_06_23 +:+ "T05:59:59.999Z") = true))
  ∧ occurredAt
    <$> collected_baseline
          (@get_comprehensive_baseline_events nat echo_provider iso_parse glibc_strftime 3 "N_1"
             "2025-06-23" 0%nat)
    = ["2025-06-20T19:00:00.000Z"].
Proof.
  split; [|by_computation].
  assert (snd <$> @get_comprehensive_baseline_events nat echo_provider iso_parse glibc_strftime 3 "N_1"
                    "2025-06-23" 0%nat
          = Some 14%nat) as Hrequests by by_computation.
  assert (match @get_comprehensive_baseline_events nat echo_provider iso_parse glibc_strftime 3 "N_1"
                  "2025-06-23" 0%nat with
          | Some (Ok _, _) => true
          | _ => false
          end = true) as Hok by by_computation.
  destruct (@get_comprehensive_baseline_events nat echo_provider iso_parse glibc_strftime 3 "N_1"
              "2025-06-23" 0%nat) as [[[events|e] w']|] eqn:Hrun; [|done..].
  cbn [collected_baseline].
  apply (@baseline_events_in_windows nat echo_provider iso_parse glibc_strftime 3 "N_1" "2025-06-23"
           midnight_2025_06_23 0%nat events w' Hrun).
  - by_computation.
  - unfold valid_date. vm_compute. repeat split; discriminate.
  - vm_compute. discriminate.
Defined.
